(** * Cadence: metric scope tables, the service resource container, and the
      shard-owned task-queue engine

    A shallow embedding of two units of the repository,

    - package [metrics] (module [metrics]): the scope and metric
      enumerations (Go [const] blocks numbered by [iota]) and the
      package-level tables [ScopeDefs] and [MetricDefs];
    - package [resource] (module [resource]): the container [Impl] with its
      constructor [New], its life cycle [Start] / [Stop] and its getters;

    followed by models of the task-queue engine, whose code is not part of
    these two units and is taken from the design text:

    - module [queue]: the ack level of a processing queue, and the
      splitting and merging of queues by domain filter;
    - module [scheduler]: the retry rule of the task scheduler and the
      dead-letter queue;
    - module [shard]: shard acquisition and fencing by rangeID.

    Definitions come first, module by module; the properties follow, in
    sections by module.

    Conventions.  A Go [int] / [int32] / [int64] is a [Z] (no arithmetic in
    these units comes near the width).  A Go [map] is a [gmap]; a map literal
    is [list_to_map] of its entries in source order (Go rejects a literal
    with a repeated constant key, so the order is immaterial; the key lists
    are proved duplicate-free below).  The zero value of a [string] is the
    empty string, of a [map] the empty map, of an interface [None]. *)

From Stdlib Require Import ZArith Lia List.
From stdpp Require Import base option list gmap coGset strings sorting.

Local Open Scope string_scope.
Local Open Scope list_scope.
Local Open Scope Z_scope.

(** Decide a closed decidable proposition by evaluation. *)
Ltac by_compute := refine (bool_decide_unpack _ _); vm_compute; exact I.

(* ===================================================================== *)
(** * Package [metrics] *)
(* ===================================================================== *)

Module metrics.

(** ** Types used/defined by the package *)

(** [MetricName] is the name of the metric. *)
Definition MetricName : Type := string.

(** [MetricType] is the type of the metric (Go [int]). *)
Definition MetricType : Type := Z.

(** [time.Duration] counts nanoseconds; [tally.DurationBuckets] is a slice
    of durations, the only implementation of [tally.Buckets] the file uses. *)
Definition Duration : Type := Z.
Definition Millisecond : Duration := 1000000.
Definition Second : Duration := 1000000000.
Definition DurationBuckets : Type := list Duration.

(** [metricDefinition] contains the definition for a metric. *)
Record metricDefinition : Type := {
  metricType : MetricType;              (* metric type *)
  metricName : MetricName;              (* metric name *)
  metricRollupName : MetricName;        (* optional rolled-up name *)
  buckets : option DurationBuckets      (* buckets if we are emitting histograms *)
}.

(** [scopeDefinition] holds the tag definitions for a scope. *)
Record scopeDefinition : Type := {
  operation : string;                   (* 'operation' tag for scope *)
  tags : gmap string string             (* additional tags for scope *)
}.

(** [ServiceIdx] is an index that uniquely identifies the service. *)
Definition ServiceIdx : Type := Z.

(** MetricTypes which are supported *)
Definition Counter : MetricType := 0.
Definition Timer : MetricType := 1.
Definition Gauge : MetricType := 2.
Definition Histogram : MetricType := 3.

(** Service names for all services that emit metrics. *)
Definition Common : ServiceIdx := 0.
Definition Frontend : ServiceIdx := 1.
Definition History : ServiceIdx := 2.
Definition Matching : ServiceIdx := 3.
Definition Worker : ServiceIdx := 4.
Definition NumServices : ServiceIdx := 5.

(** Common tags for all services *)
Definition OperationTagName : string := "operation".
Definition CadenceRoleTagName : string := "cadence_role".
Definition CadenceServiceTagName : string := "cadence_service".
Definition StatsTypeTagName : string := "stats_type".
Definition CacheTypeTagName : string := "cache_type".

(** Common tag values *)
Definition HistoryClientRoleTagValue : string := "history_client".
Definition MatchingClientRoleTagValue : string := "matching_client".
Definition FrontendClientRoleTagValue : string := "frontend_client".
Definition AdminClientRoleTagValue : string := "admin_client".
Definition DCRedirectionRoleTagValue : string := "dc_redirection".
Definition BlobstoreRoleTagValue : string := "blobstore".
Definition SizeStatsTypeTagValue : string := "size".
Definition CountStatsTypeTagValue : string := "count".
Definition MutableStateCacheTypeTagValue : string := "mutablestate".
Definition EventsCacheTypeTagValue : string := "events".

(** Common service base metrics *)
Definition RestartCount : string := "restarts".
Definition NumGoRoutinesGauge : string := "num_goroutines".
Definition GoMaxProcsGauge : string := "gomaxprocs".
Definition MemoryAllocatedGauge : string := "memory_allocated".
Definition MemoryHeapGauge : string := "memory_heap".
Definition MemoryHeapIdleGauge : string := "memory_heapidle".
Definition MemoryHeapInuseGauge : string := "memory_heapinuse".
Definition MemoryStackGauge : string := "memory_stack".
Definition NumGCCounter : string := "memory_num_gc".
Definition GcPauseMsTimer : string := "memory_gc_pause_ms".

(** Scopes enum: common operation scopes *)
Definition PersistenceCreateShardScope : Z := 0.
Definition PersistenceGetShardScope : Z := 1.
Definition PersistenceUpdateShardScope : Z := 2.
Definition PersistenceCreateWorkflowExecutionScope : Z := 3.
Definition PersistenceGetWorkflowExecutionScope : Z := 4.
Definition PersistenceUpdateWorkflowExecutionScope : Z := 5.
Definition PersistenceConflictResolveWorkflowExecutionScope : Z := 6.
Definition PersistenceResetWorkflowExecutionScope : Z := 7.
Definition PersistenceDeleteWorkflowExecutionScope : Z := 8.
Definition PersistenceDeleteCurrentWorkflowExecutionScope : Z := 9.
Definition PersistenceGetCurrentExecutionScope : Z := 10.
Definition PersistenceIsWorkflowExecutionExistsScope : Z := 11.
Definition PersistenceListCurrentExecutionsScope : Z := 12.
Definition PersistenceListConcreteExecutionsScope : Z := 13.
Definition PersistenceGetTransferTasksScope : Z := 14.
Definition PersistenceCompleteTransferTaskScope : Z := 15.
Definition PersistenceRangeCompleteTransferTaskScope : Z := 16.
Definition PersistenceGetCrossClusterTasksScope : Z := 17.
Definition PersistenceCompleteCrossClusterTaskScope : Z := 18.
Definition PersistenceRangeCompleteCrossClusterTaskScope : Z := 19.
Definition PersistenceGetReplicationTasksScope : Z := 20.
Definition PersistenceCompleteReplicationTaskScope : Z := 21.
Definition PersistenceRangeCompleteReplicationTaskScope : Z := 22.
Definition PersistencePutReplicationTaskToDLQScope : Z := 23.
Definition PersistenceGetReplicationTasksFromDLQScope : Z := 24.
Definition PersistenceGetReplicationDLQSizeScope : Z := 25.
Definition PersistenceDeleteReplicationTaskFromDLQScope : Z := 26.
Definition PersistenceRangeDeleteReplicationTaskFromDLQScope : Z := 27.
Definition PersistenceCreateFailoverMarkerTasksScope : Z := 28.
Definition PersistenceGetTimerIndexTasksScope : Z := 29.
Definition PersistenceCompleteTimerTaskScope : Z := 30.
Definition PersistenceRangeCompleteTimerTaskScope : Z := 31.
Definition PersistenceCreateTaskScope : Z := 32.
Definition PersistenceGetTasksScope : Z := 33.
Definition PersistenceCompleteTaskScope : Z := 34.
Definition PersistenceCompleteTasksLessThanScope : Z := 35.
Definition PersistenceGetOrphanTasksScope : Z := 36.
Definition PersistenceLeaseTaskListScope : Z := 37.
Definition PersistenceUpdateTaskListScope : Z := 38.
Definition PersistenceListTaskListScope : Z := 39.
Definition PersistenceDeleteTaskListScope : Z := 40.
Definition PersistenceAppendHistoryEventsScope : Z := 41.
Definition PersistenceGetWorkflowExecutionHistoryScope : Z := 42.
Definition PersistenceDeleteWorkflowExecutionHistoryScope : Z := 43.
Definition PersistenceCreateDomainScope : Z := 44.
Definition PersistenceGetDomainScope : Z := 45.
Definition PersistenceUpdateDomainScope : Z := 46.
Definition PersistenceDeleteDomainScope : Z := 47.
Definition PersistenceDeleteDomainByNameScope : Z := 48.
Definition PersistenceListDomainScope : Z := 49.
Definition PersistenceGetMetadataScope : Z := 50.
Definition PersistenceRecordWorkflowExecutionStartedScope : Z := 51.
Definition PersistenceRecordWorkflowExecutionClosedScope : Z := 52.
Definition PersistenceRecordWorkflowExecutionUninitializedScope : Z := 53.
Definition PersistenceUpsertWorkflowExecutionScope : Z := 54.
Definition PersistenceListOpenWorkflowExecutionsScope : Z := 55.
Definition PersistenceListClosedWorkflowExecutionsScope : Z := 56.
Definition PersistenceListOpenWorkflowExecutionsByTypeScope : Z := 57.
Definition PersistenceListClosedWorkflowExecutionsByTypeScope : Z := 58.
Definition PersistenceListOpenWorkflowExecutionsByWorkflowIDScope : Z := 59.
Definition PersistenceListClosedWorkflowExecutionsByWorkflowIDScope : Z := 60.
Definition PersistenceListClosedWorkflowExecutionsByStatusScope : Z := 61.
Definition PersistenceGetClosedWorkflowExecutionScope : Z := 62.
Definition PersistenceVisibilityDeleteWorkflowExecutionScope : Z := 63.
Definition PersistenceListWorkflowExecutionsScope : Z := 64.
Definition PersistenceScanWorkflowExecutionsScope : Z := 65.
Definition PersistenceCountWorkflowExecutionsScope : Z := 66.
Definition PersistenceEnqueueMessageScope : Z := 67.
Definition PersistenceEnqueueMessageToDLQScope : Z := 68.
Definition PersistenceReadQueueMessagesScope : Z := 69.
Definition PersistenceReadQueueMessagesFromDLQScope : Z := 70.
Definition PersistenceDeleteQueueMessagesScope : Z := 71.
Definition PersistenceDeleteQueueMessageFromDLQScope : Z := 72.
Definition PersistenceRangeDeleteMessagesFromDLQScope : Z := 73.
Definition PersistenceUpdateAckLevelScope : Z := 74.
Definition PersistenceGetAckLevelScope : Z := 75.
Definition PersistenceUpdateDLQAckLevelScope : Z := 76.
Definition PersistenceGetDLQAckLevelScope : Z := 77.
Definition PersistenceGetDLQSizeScope : Z := 78.
Definition PersistenceFetchDynamicConfigScope : Z := 79.
Definition PersistenceUpdateDynamicConfigScope : Z := 80.
Definition HistoryClientStartWorkflowExecutionScope : Z := 81.
Definition HistoryClientDescribeHistoryHostScope : Z := 82.
Definition HistoryClientRemoveTaskScope : Z := 83.
Definition HistoryClientCloseShardScope : Z := 84.
Definition HistoryClientResetQueueScope : Z := 85.
Definition HistoryClientDescribeQueueScope : Z := 86.
Definition HistoryClientRecordActivityTaskHeartbeatScope : Z := 87.
Definition HistoryClientRespondDecisionTaskCompletedScope : Z := 88.
Definition HistoryClientRespondDecisionTaskFailedScope : Z := 89.
Definition HistoryClientRespondActivityTaskCompletedScope : Z := 90.
Definition HistoryClientRespondActivityTaskFailedScope : Z := 91.
Definition HistoryClientRespondActivityTaskCanceledScope : Z := 92.
Definition HistoryClientDescribeMutableStateScope : Z := 93.
Definition HistoryClientGetMutableStateScope : Z := 94.
Definition HistoryClientPollMutableStateScope : Z := 95.
Definition HistoryClientResetStickyTaskListScope : Z := 96.
Definition HistoryClientDescribeWorkflowExecutionScope : Z := 97.
Definition HistoryClientRecordDecisionTaskStartedScope : Z := 98.
Definition HistoryClientRecordActivityTaskStartedScope : Z := 99.
Definition HistoryClientRequestCancelWorkflowExecutionScope : Z := 100.
Definition HistoryClientSignalWorkflowExecutionScope : Z := 101.
Definition HistoryClientSignalWithStartWorkflowExecutionScope : Z := 102.
Definition HistoryClientRemoveSignalMutableStateScope : Z := 103.
Definition HistoryClientTerminateWorkflowExecutionScope : Z := 104.
Definition HistoryClientResetWorkflowExecutionScope : Z := 105.
Definition HistoryClientScheduleDecisionTaskScope : Z := 106.
Definition HistoryClientRecordChildExecutionCompletedScope : Z := 107.
Definition HistoryClientReplicateEventsV2Scope : Z := 108.
Definition HistoryClientSyncShardStatusScope : Z := 109.
Definition HistoryClientSyncActivityScope : Z := 110.
Definition HistoryClientGetReplicationTasksScope : Z := 111.
Definition HistoryClientGetDLQReplicationTasksScope : Z := 112.
Definition HistoryClientQueryWorkflowScope : Z := 113.
Definition HistoryClientReapplyEventsScope : Z := 114.
Definition HistoryClientCountDLQMessagesScope : Z := 115.
Definition HistoryClientReadDLQMessagesScope : Z := 116.
Definition HistoryClientPurgeDLQMessagesScope : Z := 117.
Definition HistoryClientMergeDLQMessagesScope : Z := 118.
Definition HistoryClientRefreshWorkflowTasksScope : Z := 119.
Definition HistoryClientNotifyFailoverMarkersScope : Z := 120.
Definition HistoryClientGetCrossClusterTasksScope : Z := 121.
Definition HistoryClientRespondCrossClusterTasksCompletedScope : Z := 122.
Definition HistoryClientGetFailoverInfoScope : Z := 123.
Definition MatchingClientPollForDecisionTaskScope : Z := 124.
Definition MatchingClientPollForActivityTaskScope : Z := 125.
Definition MatchingClientAddActivityTaskScope : Z := 126.
Definition MatchingClientAddDecisionTaskScope : Z := 127.
Definition MatchingClientQueryWorkflowScope : Z := 128.
Definition MatchingClientRespondQueryTaskCompletedScope : Z := 129.
Definition MatchingClientCancelOutstandingPollScope : Z := 130.
Definition MatchingClientDescribeTaskListScope : Z := 131.
Definition MatchingClientListTaskListPartitionsScope : Z := 132.
Definition MatchingClientGetTaskListsByDomainScope : Z := 133.
Definition FrontendClientDeprecateDomainScope : Z := 134.
Definition FrontendClientDescribeDomainScope : Z := 135.
Definition FrontendClientDescribeTaskListScope : Z := 136.
Definition FrontendClientDescribeWorkflowExecutionScope : Z := 137.
Definition FrontendClientGetWorkflowExecutionHistoryScope : Z := 138.
Definition FrontendClientGetWorkflowExecutionRawHistoryScope : Z := 139.
Definition FrontendClientPollForWorkflowExecutionRawHistoryScope : Z := 140.
Definition FrontendClientListArchivedWorkflowExecutionsScope : Z := 141.
Definition FrontendClientListClosedWorkflowExecutionsScope : Z := 142.
Definition FrontendClientListDomainsScope : Z := 143.
Definition FrontendClientListOpenWorkflowExecutionsScope : Z := 144.
Definition FrontendClientPollForActivityTaskScope : Z := 145.
Definition FrontendClientPollForDecisionTaskScope : Z := 146.
Definition FrontendClientQueryWorkflowScope : Z := 147.
Definition FrontendClientRecordActivityTaskHeartbeatScope : Z := 148.
Definition FrontendClientRecordActivityTaskHeartbeatByIDScope : Z := 149.
Definition FrontendClientRegisterDomainScope : Z := 150.
Definition FrontendClientRequestCancelWorkflowExecutionScope : Z := 151.
Definition FrontendClientResetStickyTaskListScope : Z := 152.
Definition FrontendClientRefreshWorkflowTasksScope : Z := 153.
Definition FrontendClientResetWorkflowExecutionScope : Z := 154.
Definition FrontendClientRespondActivityTaskCanceledScope : Z := 155.
Definition FrontendClientRespondActivityTaskCanceledByIDScope : Z := 156.
Definition FrontendClientRespondActivityTaskCompletedScope : Z := 157.
Definition FrontendClientRespondActivityTaskCompletedByIDScope : Z := 158.
Definition FrontendClientRespondActivityTaskFailedScope : Z := 159.
Definition FrontendClientRespondActivityTaskFailedByIDScope : Z := 160.
Definition FrontendClientRespondDecisionTaskCompletedScope : Z := 161.
Definition FrontendClientRespondDecisionTaskFailedScope : Z := 162.
Definition FrontendClientRespondQueryTaskCompletedScope : Z := 163.
Definition FrontendClientSignalWithStartWorkflowExecutionScope : Z := 164.
Definition FrontendClientSignalWorkflowExecutionScope : Z := 165.
Definition FrontendClientStartWorkflowExecutionScope : Z := 166.
Definition FrontendClientTerminateWorkflowExecutionScope : Z := 167.
Definition FrontendClientUpdateDomainScope : Z := 168.
Definition FrontendClientListWorkflowExecutionsScope : Z := 169.
Definition FrontendClientScanWorkflowExecutionsScope : Z := 170.
Definition FrontendClientCountWorkflowExecutionsScope : Z := 171.
Definition FrontendClientGetSearchAttributesScope : Z := 172.
Definition FrontendClientGetReplicationTasksScope : Z := 173.
Definition FrontendClientGetDomainReplicationTasksScope : Z := 174.
Definition FrontendClientGetDLQReplicationTasksScope : Z := 175.
Definition FrontendClientReapplyEventsScope : Z := 176.
Definition FrontendClientGetClusterInfoScope : Z := 177.
Definition FrontendClientListTaskListPartitionsScope : Z := 178.
Definition FrontendClientGetTaskListsByDomainScope : Z := 179.
Definition AdminClientAddSearchAttributeScope : Z := 180.
Definition AdminClientCloseShardScope : Z := 181.
Definition AdminClientRemoveTaskScope : Z := 182.
Definition AdminClientResetQueueScope : Z := 183.
Definition AdminClientDescribeQueueScope : Z := 184.
Definition AdminClientDescribeHistoryHostScope : Z := 185.
Definition AdminClientDescribeShardDistributionScope : Z := 186.
Definition AdminClientDescribeWorkflowExecutionScope : Z := 187.
Definition AdminClientGetWorkflowExecutionRawHistoryV2Scope : Z := 188.
Definition AdminClientDescribeClusterScope : Z := 189.
Definition AdminClientCountDLQMessagesScope : Z := 190.
Definition AdminClientReadDLQMessagesScope : Z := 191.
Definition AdminClientPurgeDLQMessagesScope : Z := 192.
Definition AdminClientMergeDLQMessagesScope : Z := 193.
Definition AdminClientRefreshWorkflowTasksScope : Z := 194.
Definition AdminClientResendReplicationTasksScope : Z := 195.
Definition AdminClientGetCrossClusterTasksScope : Z := 196.
Definition AdminClientRespondCrossClusterTasksCompletedScope : Z := 197.
Definition AdminClientGetDynamicConfigScope : Z := 198.
Definition AdminClientUpdateDynamicConfigScope : Z := 199.
Definition AdminClientRestoreDynamicConfigScope : Z := 200.
Definition AdminClientListDynamicConfigScope : Z := 201.
Definition DCRedirectionDeprecateDomainScope : Z := 202.
Definition DCRedirectionDescribeDomainScope : Z := 203.
Definition DCRedirectionDescribeTaskListScope : Z := 204.
Definition DCRedirectionDescribeWorkflowExecutionScope : Z := 205.
Definition DCRedirectionGetWorkflowExecutionHistoryScope : Z := 206.
Definition DCRedirectionGetWorkflowExecutionRawHistoryScope : Z := 207.
Definition DCRedirectionPollForWorklfowExecutionRawHistoryScope : Z := 208.
Definition DCRedirectionListArchivedWorkflowExecutionsScope : Z := 209.
Definition DCRedirectionListClosedWorkflowExecutionsScope : Z := 210.
Definition DCRedirectionListDomainsScope : Z := 211.
Definition DCRedirectionListOpenWorkflowExecutionsScope : Z := 212.
Definition DCRedirectionListWorkflowExecutionsScope : Z := 213.
Definition DCRedirectionScanWorkflowExecutionsScope : Z := 214.
Definition DCRedirectionCountWorkflowExecutionsScope : Z := 215.
Definition DCRedirectionGetSearchAttributesScope : Z := 216.
Definition DCRedirectionPollForActivityTaskScope : Z := 217.
Definition DCRedirectionPollForDecisionTaskScope : Z := 218.
Definition DCRedirectionQueryWorkflowScope : Z := 219.
Definition DCRedirectionRecordActivityTaskHeartbeatScope : Z := 220.
Definition DCRedirectionRecordActivityTaskHeartbeatByIDScope : Z := 221.
Definition DCRedirectionRegisterDomainScope : Z := 222.
Definition DCRedirectionRequestCancelWorkflowExecutionScope : Z := 223.
Definition DCRedirectionResetStickyTaskListScope : Z := 224.
Definition DCRedirectionResetWorkflowExecutionScope : Z := 225.
Definition DCRedirectionRespondActivityTaskCanceledScope : Z := 226.
Definition DCRedirectionRespondActivityTaskCanceledByIDScope : Z := 227.
Definition DCRedirectionRespondActivityTaskCompletedScope : Z := 228.
Definition DCRedirectionRespondActivityTaskCompletedByIDScope : Z := 229.
Definition DCRedirectionRespondActivityTaskFailedScope : Z := 230.
Definition DCRedirectionRespondActivityTaskFailedByIDScope : Z := 231.
Definition DCRedirectionRespondDecisionTaskCompletedScope : Z := 232.
Definition DCRedirectionRespondDecisionTaskFailedScope : Z := 233.
Definition DCRedirectionRespondQueryTaskCompletedScope : Z := 234.
Definition DCRedirectionSignalWithStartWorkflowExecutionScope : Z := 235.
Definition DCRedirectionSignalWorkflowExecutionScope : Z := 236.
Definition DCRedirectionStartWorkflowExecutionScope : Z := 237.
Definition DCRedirectionTerminateWorkflowExecutionScope : Z := 238.
Definition DCRedirectionUpdateDomainScope : Z := 239.
Definition DCRedirectionListTaskListPartitionsScope : Z := 240.
Definition DCRedirectionGetTaskListsByDomainScope : Z := 241.
Definition DCRedirectionRefreshWorkflowTasksScope : Z := 242.
Definition MessagingClientPublishScope : Z := 243.
Definition MessagingClientPublishBatchScope : Z := 244.
Definition MessagingClientConsumerScope : Z := 245.
Definition DomainCacheScope : Z := 246.
Definition HistoryRereplicationByTransferTaskScope : Z := 247.
Definition HistoryRereplicationByTimerTaskScope : Z := 248.
Definition HistoryRereplicationByHistoryReplicationScope : Z := 249.
Definition HistoryRereplicationByHistoryMetadataReplicationScope : Z := 250.
Definition HistoryRereplicationByActivityReplicationScope : Z := 251.
Definition PersistenceAppendHistoryNodesScope : Z := 252.
Definition PersistenceReadHistoryBranchScope : Z := 253.
Definition PersistenceForkHistoryBranchScope : Z := 254.
Definition PersistenceDeleteHistoryBranchScope : Z := 255.
Definition PersistenceCompleteForkBranchScope : Z := 256.
Definition PersistenceGetHistoryTreeScope : Z := 257.
Definition PersistenceGetAllHistoryTreeBranchesScope : Z := 258.
Definition ClusterMetadataArchivalConfigScope : Z := 259.
Definition ElasticsearchRecordWorkflowExecutionStartedScope : Z := 260.
Definition ElasticsearchRecordWorkflowExecutionClosedScope : Z := 261.
Definition ElasticsearchRecordWorkflowExecutionUninitializedScope : Z := 262.
Definition ElasticsearchUpsertWorkflowExecutionScope : Z := 263.
Definition ElasticsearchListOpenWorkflowExecutionsScope : Z := 264.
Definition ElasticsearchListClosedWorkflowExecutionsScope : Z := 265.
Definition ElasticsearchListOpenWorkflowExecutionsByTypeScope : Z := 266.
Definition ElasticsearchListClosedWorkflowExecutionsByTypeScope : Z := 267.
Definition ElasticsearchListOpenWorkflowExecutionsByWorkflowIDScope : Z := 268.
Definition ElasticsearchListClosedWorkflowExecutionsByWorkflowIDScope : Z := 269.
Definition ElasticsearchListClosedWorkflowExecutionsByStatusScope : Z := 270.
Definition ElasticsearchGetClosedWorkflowExecutionScope : Z := 271.
Definition ElasticsearchListWorkflowExecutionsScope : Z := 272.
Definition ElasticsearchScanWorkflowExecutionsScope : Z := 273.
Definition ElasticsearchCountWorkflowExecutionsScope : Z := 274.
Definition ElasticsearchDeleteWorkflowExecutionsScope : Z := 275.
Definition SequentialTaskProcessingScope : Z := 276.
Definition ParallelTaskProcessingScope : Z := 277.
Definition TaskSchedulerScope : Z := 278.
Definition HistoryArchiverScope : Z := 279.
Definition VisibilityArchiverScope : Z := 280.
Definition BlobstoreClientUploadScope : Z := 281.
Definition BlobstoreClientDownloadScope : Z := 282.
Definition BlobstoreClientGetMetadataScope : Z := 283.
Definition BlobstoreClientExistsScope : Z := 284.
Definition BlobstoreClientDeleteScope : Z := 285.
Definition BlobstoreClientDirectoryExistsScope : Z := 286.
Definition DomainFailoverScope : Z := 287.
Definition DomainReplicationQueueScope : Z := 288.
Definition NumCommonScopes : Z := 289.

(** Operation scopes for Admin service *)
Definition AdminDescribeHistoryHostScope : Z := 0 + NumCommonScopes.
Definition AdminAddSearchAttributeScope : Z := 1 + NumCommonScopes.
Definition AdminDescribeWorkflowExecutionScope : Z := 2 + NumCommonScopes.
Definition AdminGetWorkflowExecutionRawHistoryScope : Z := 3 + NumCommonScopes.
Definition AdminGetWorkflowExecutionRawHistoryV2Scope : Z := 4 + NumCommonScopes.
Definition AdminGetReplicationMessagesScope : Z := 5 + NumCommonScopes.
Definition AdminGetDomainReplicationMessagesScope : Z := 6 + NumCommonScopes.
Definition AdminGetDLQReplicationMessagesScope : Z := 7 + NumCommonScopes.
Definition AdminReapplyEventsScope : Z := 8 + NumCommonScopes.
Definition AdminRefreshWorkflowTasksScope : Z := 9 + NumCommonScopes.
Definition AdminResendReplicationTasksScope : Z := 10 + NumCommonScopes.
Definition AdminRemoveTaskScope : Z := 11 + NumCommonScopes.
Definition AdminCloseShardScope : Z := 12 + NumCommonScopes.
Definition AdminResetQueueScope : Z := 13 + NumCommonScopes.
Definition AdminDescribeQueueScope : Z := 14 + NumCommonScopes.
Definition AdminCountDLQMessagesScope : Z := 15 + NumCommonScopes.
Definition AdminReadDLQMessagesScope : Z := 16 + NumCommonScopes.
Definition AdminPurgeDLQMessagesScope : Z := 17 + NumCommonScopes.
Definition AdminMergeDLQMessagesScope : Z := 18 + NumCommonScopes.
Definition AdminDescribeShardDistributionScope : Z := 19 + NumCommonScopes.
Definition AdminGetCrossClusterTasksScope : Z := 20 + NumCommonScopes.
Definition AdminRespondCrossClusterTasksCompletedScope : Z := 21 + NumCommonScopes.
Definition AdminGetDynamicConfigScope : Z := 22 + NumCommonScopes.
Definition AdminUpdateDynamicConfigScope : Z := 23 + NumCommonScopes.
Definition AdminRestoreDynamicConfigScope : Z := 24 + NumCommonScopes.
Definition AdminListDynamicConfigScope : Z := 25 + NumCommonScopes.
Definition AdminDeleteWorkflowScope : Z := 26 + NumCommonScopes.
Definition MaintainCorruptWorkflowScope : Z := 27 + NumCommonScopes.
Definition NumAdminScopes : Z := 28 + NumCommonScopes.

(** Operation scopes for Frontend service *)
Definition FrontendRestartWorkflowExecutionScope : Z := 0 + NumAdminScopes.
Definition FrontendStartWorkflowExecutionScope : Z := 1 + NumAdminScopes.
Definition FrontendPollForDecisionTaskScope : Z := 2 + NumAdminScopes.
Definition FrontendPollForActivityTaskScope : Z := 3 + NumAdminScopes.
Definition FrontendRecordActivityTaskHeartbeatScope : Z := 4 + NumAdminScopes.
Definition FrontendRecordActivityTaskHeartbeatByIDScope : Z := 5 + NumAdminScopes.
Definition FrontendRespondDecisionTaskCompletedScope : Z := 6 + NumAdminScopes.
Definition FrontendRespondDecisionTaskFailedScope : Z := 7 + NumAdminScopes.
Definition FrontendRespondQueryTaskCompletedScope : Z := 8 + NumAdminScopes.
Definition FrontendRespondActivityTaskCompletedScope : Z := 9 + NumAdminScopes.
Definition FrontendRespondActivityTaskFailedScope : Z := 10 + NumAdminScopes.
Definition FrontendRespondActivityTaskCanceledScope : Z := 11 + NumAdminScopes.
Definition FrontendRespondActivityTaskCompletedByIDScope : Z := 12 + NumAdminScopes.
Definition FrontendRespondActivityTaskFailedByIDScope : Z := 13 + NumAdminScopes.
Definition FrontendRespondActivityTaskCanceledByIDScope : Z := 14 + NumAdminScopes.
Definition FrontendGetWorkflowExecutionHistoryScope : Z := 15 + NumAdminScopes.
Definition FrontendGetWorkflowExecutionRawHistoryScope : Z := 16 + NumAdminScopes.
Definition FrontendPollForWorklfowExecutionRawHistoryScope : Z := 17 + NumAdminScopes.
Definition FrontendSignalWorkflowExecutionScope : Z := 18 + NumAdminScopes.
Definition FrontendSignalWithStartWorkflowExecutionScope : Z := 19 + NumAdminScopes.
Definition FrontendTerminateWorkflowExecutionScope : Z := 20 + NumAdminScopes.
Definition FrontendRequestCancelWorkflowExecutionScope : Z := 21 + NumAdminScopes.
Definition FrontendListArchivedWorkflowExecutionsScope : Z := 22 + NumAdminScopes.
Definition FrontendListOpenWorkflowExecutionsScope : Z := 23 + NumAdminScopes.
Definition FrontendListClosedWorkflowExecutionsScope : Z := 24 + NumAdminScopes.
Definition FrontendListWorkflowExecutionsScope : Z := 25 + NumAdminScopes.
Definition FrontendScanWorkflowExecutionsScope : Z := 26 + NumAdminScopes.
Definition FrontendCountWorkflowExecutionsScope : Z := 27 + NumAdminScopes.
Definition FrontendRegisterDomainScope : Z := 28 + NumAdminScopes.
Definition FrontendDescribeDomainScope : Z := 29 + NumAdminScopes.
Definition FrontendUpdateDomainScope : Z := 30 + NumAdminScopes.
Definition FrontendDeprecateDomainScope : Z := 31 + NumAdminScopes.
Definition FrontendQueryWorkflowScope : Z := 32 + NumAdminScopes.
Definition FrontendDescribeWorkflowExecutionScope : Z := 33 + NumAdminScopes.
Definition FrontendDescribeTaskListScope : Z := 34 + NumAdminScopes.
Definition FrontendListTaskListPartitionsScope : Z := 35 + NumAdminScopes.
Definition FrontendGetTaskListsByDomainScope : Z := 36 + NumAdminScopes.
Definition FrontendRefreshWorkflowTasksScope : Z := 37 + NumAdminScopes.
Definition FrontendResetStickyTaskListScope : Z := 38 + NumAdminScopes.
Definition FrontendListDomainsScope : Z := 39 + NumAdminScopes.
Definition FrontendResetWorkflowExecutionScope : Z := 40 + NumAdminScopes.
Definition FrontendGetSearchAttributesScope : Z := 41 + NumAdminScopes.
Definition NumFrontendScopes : Z := 42 + NumAdminScopes.

(** Operation scopes for History service *)
Definition HistoryStartWorkflowExecutionScope : Z := 0 + NumCommonScopes.
Definition HistoryRecordActivityTaskHeartbeatScope : Z := 1 + NumCommonScopes.
Definition HistoryRespondDecisionTaskCompletedScope : Z := 2 + NumCommonScopes.
Definition HistoryRespondDecisionTaskFailedScope : Z := 3 + NumCommonScopes.
Definition HistoryRespondActivityTaskCompletedScope : Z := 4 + NumCommonScopes.
Definition HistoryRespondActivityTaskFailedScope : Z := 5 + NumCommonScopes.
Definition HistoryRespondActivityTaskCanceledScope : Z := 6 + NumCommonScopes.
Definition HistoryResetQueueScope : Z := 7 + NumCommonScopes.
Definition HistoryDescribeQueueScope : Z := 8 + NumCommonScopes.
Definition HistoryDescribeMutabelStateScope : Z := 9 + NumCommonScopes.
Definition HistoryGetMutableStateScope : Z := 10 + NumCommonScopes.
Definition HistoryPollMutableStateScope : Z := 11 + NumCommonScopes.
Definition HistoryResetStickyTaskListScope : Z := 12 + NumCommonScopes.
Definition HistoryDescribeWorkflowExecutionScope : Z := 13 + NumCommonScopes.
Definition HistoryRecordDecisionTaskStartedScope : Z := 14 + NumCommonScopes.
Definition HistoryRecordActivityTaskStartedScope : Z := 15 + NumCommonScopes.
Definition HistorySignalWorkflowExecutionScope : Z := 16 + NumCommonScopes.
Definition HistorySignalWithStartWorkflowExecutionScope : Z := 17 + NumCommonScopes.
Definition HistoryRemoveSignalMutableStateScope : Z := 18 + NumCommonScopes.
Definition HistoryTerminateWorkflowExecutionScope : Z := 19 + NumCommonScopes.
Definition HistoryScheduleDecisionTaskScope : Z := 20 + NumCommonScopes.
Definition HistoryRecordChildExecutionCompletedScope : Z := 21 + NumCommonScopes.
Definition HistoryRequestCancelWorkflowExecutionScope : Z := 22 + NumCommonScopes.
Definition HistoryReplicateEventsScope : Z := 23 + NumCommonScopes.
Definition HistoryReplicateRawEventsScope : Z := 24 + NumCommonScopes.
Definition HistoryReplicateEventsV2Scope : Z := 25 + NumCommonScopes.
Definition HistorySyncShardStatusScope : Z := 26 + NumCommonScopes.
Definition HistorySyncActivityScope : Z := 27 + NumCommonScopes.
Definition HistoryDescribeMutableStateScope : Z := 28 + NumCommonScopes.
Definition HistoryGetReplicationMessagesScope : Z := 29 + NumCommonScopes.
Definition HistoryGetDLQReplicationMessagesScope : Z := 30 + NumCommonScopes.
Definition HistoryCountDLQMessagesScope : Z := 31 + NumCommonScopes.
Definition HistoryReadDLQMessagesScope : Z := 32 + NumCommonScopes.
Definition HistoryPurgeDLQMessagesScope : Z := 33 + NumCommonScopes.
Definition HistoryMergeDLQMessagesScope : Z := 34 + NumCommonScopes.
Definition HistoryShardControllerScope : Z := 35 + NumCommonScopes.
Definition HistoryReapplyEventsScope : Z := 36 + NumCommonScopes.
Definition HistoryRefreshWorkflowTasksScope : Z := 37 + NumCommonScopes.
Definition HistoryNotifyFailoverMarkersScope : Z := 38 + NumCommonScopes.
Definition HistoryGetCrossClusterTasksScope : Z := 39 + NumCommonScopes.
Definition HistoryRespondCrossClusterTasksCompletedScope : Z := 40 + NumCommonScopes.
Definition HistoryGetFailoverInfoScope : Z := 41 + NumCommonScopes.
Definition TaskPriorityAssignerScope : Z := 42 + NumCommonScopes.
Definition TransferQueueProcessorScope : Z := 43 + NumCommonScopes.
Definition TransferActiveQueueProcessorScope : Z := 44 + NumCommonScopes.
Definition TransferStandbyQueueProcessorScope : Z := 45 + NumCommonScopes.
Definition TransferActiveTaskActivityScope : Z := 46 + NumCommonScopes.
Definition TransferActiveTaskDecisionScope : Z := 47 + NumCommonScopes.
Definition TransferActiveTaskCloseExecutionScope : Z := 48 + NumCommonScopes.
Definition TransferActiveTaskCancelExecutionScope : Z := 49 + NumCommonScopes.
Definition TransferActiveTaskSignalExecutionScope : Z := 50 + NumCommonScopes.
Definition TransferActiveTaskStartChildExecutionScope : Z := 51 + NumCommonScopes.
Definition TransferActiveTaskRecordWorkflowStartedScope : Z := 52 + NumCommonScopes.
Definition TransferActiveTaskResetWorkflowScope : Z := 53 + NumCommonScopes.
Definition TransferActiveTaskUpsertWorkflowSearchAttributesScope : Z := 54 + NumCommonScopes.
Definition TransferActiveTaskRecordWorkflowClosedScope : Z := 55 + NumCommonScopes.
Definition TransferActiveTaskRecordChildExecutionCompletedScope : Z := 56 + NumCommonScopes.
Definition TransferActiveTaskApplyParentClosePolicyScope : Z := 57 + NumCommonScopes.
Definition TransferStandbyTaskResetWorkflowScope : Z := 58 + NumCommonScopes.
Definition TransferStandbyTaskActivityScope : Z := 59 + NumCommonScopes.
Definition TransferStandbyTaskDecisionScope : Z := 60 + NumCommonScopes.
Definition TransferStandbyTaskCloseExecutionScope : Z := 61 + NumCommonScopes.
Definition TransferStandbyTaskCancelExecutionScope : Z := 62 + NumCommonScopes.
Definition TransferStandbyTaskSignalExecutionScope : Z := 63 + NumCommonScopes.
Definition TransferStandbyTaskStartChildExecutionScope : Z := 64 + NumCommonScopes.
Definition TransferStandbyTaskRecordWorkflowStartedScope : Z := 65 + NumCommonScopes.
Definition TransferStandbyTaskUpsertWorkflowSearchAttributesScope : Z := 66 + NumCommonScopes.
Definition TransferStandbyTaskRecordWorkflowClosedScope : Z := 67 + NumCommonScopes.
Definition TransferStandbyTaskRecordChildExecutionCompletedScope : Z := 68 + NumCommonScopes.
Definition TransferStandbyTaskApplyParentClosePolicyScope : Z := 69 + NumCommonScopes.
Definition TimerQueueProcessorScope : Z := 70 + NumCommonScopes.
Definition TimerActiveQueueProcessorScope : Z := 71 + NumCommonScopes.
Definition TimerStandbyQueueProcessorScope : Z := 72 + NumCommonScopes.
Definition TimerActiveTaskActivityTimeoutScope : Z := 73 + NumCommonScopes.
Definition TimerActiveTaskDecisionTimeoutScope : Z := 74 + NumCommonScopes.
Definition TimerActiveTaskUserTimerScope : Z := 75 + NumCommonScopes.
Definition TimerActiveTaskWorkflowTimeoutScope : Z := 76 + NumCommonScopes.
Definition TimerActiveTaskActivityRetryTimerScope : Z := 77 + NumCommonScopes.
Definition TimerActiveTaskWorkflowBackoffTimerScope : Z := 78 + NumCommonScopes.
Definition TimerActiveTaskDeleteHistoryEventScope : Z := 79 + NumCommonScopes.
Definition TimerStandbyTaskActivityTimeoutScope : Z := 80 + NumCommonScopes.
Definition TimerStandbyTaskDecisionTimeoutScope : Z := 81 + NumCommonScopes.
Definition TimerStandbyTaskUserTimerScope : Z := 82 + NumCommonScopes.
Definition TimerStandbyTaskWorkflowTimeoutScope : Z := 83 + NumCommonScopes.
Definition TimerStandbyTaskActivityRetryTimerScope : Z := 84 + NumCommonScopes.
Definition TimerStandbyTaskDeleteHistoryEventScope : Z := 85 + NumCommonScopes.
Definition TimerStandbyTaskWorkflowBackoffTimerScope : Z := 86 + NumCommonScopes.
Definition CrossClusterQueueProcessorScope : Z := 87 + NumCommonScopes.
Definition CrossClusterTaskProcessorScope : Z := 88 + NumCommonScopes.
Definition CrossClusterTaskFetcherScope : Z := 89 + NumCommonScopes.
Definition CrossClusterSourceTaskStartChildExecutionScope : Z := 90 + NumCommonScopes.
Definition CrossClusterSourceTaskCancelExecutionScope : Z := 91 + NumCommonScopes.
Definition CrossClusterSourceTaskSignalExecutionScope : Z := 92 + NumCommonScopes.
Definition CrossClusterSourceTaskRecordChildWorkflowExecutionCompleteScope : Z := 93 + NumCommonScopes.
Definition CrossClusterSourceTaskApplyParentClosePolicyScope : Z := 94 + NumCommonScopes.
Definition CrossClusterTargetTaskStartChildExecutionScope : Z := 95 + NumCommonScopes.
Definition CrossClusterTargetTaskCancelExecutionScope : Z := 96 + NumCommonScopes.
Definition CrossClusterTargetTaskSignalExecutionScope : Z := 97 + NumCommonScopes.
Definition CrossClusterTargetTaskRecordChildWorkflowExecutionCompleteScope : Z := 98 + NumCommonScopes.
Definition CrossClusterTargetTaskApplyParentClosePolicyScope : Z := 99 + NumCommonScopes.
Definition HistoryEventNotificationScope : Z := 100 + NumCommonScopes.
Definition ReplicatorQueueProcessorScope : Z := 101 + NumCommonScopes.
Definition ReplicatorCacheManagerScope : Z := 102 + NumCommonScopes.
Definition ReplicatorTaskHistoryScope : Z := 103 + NumCommonScopes.
Definition ReplicatorTaskSyncActivityScope : Z := 104 + NumCommonScopes.
Definition ReplicateHistoryEventsScope : Z := 105 + NumCommonScopes.
Definition ReplicationMetricEmitterScope : Z := 106 + NumCommonScopes.
Definition ShardInfoScope : Z := 107 + NumCommonScopes.
Definition WorkflowContextScope : Z := 108 + NumCommonScopes.
Definition HistoryCacheGetAndCreateScope : Z := 109 + NumCommonScopes.
Definition HistoryCacheGetOrCreateScope : Z := 110 + NumCommonScopes.
Definition HistoryCacheGetOrCreateCurrentScope : Z := 111 + NumCommonScopes.
Definition HistoryCacheGetCurrentExecutionScope : Z := 112 + NumCommonScopes.
Definition EventsCacheGetEventScope : Z := 113 + NumCommonScopes.
Definition EventsCachePutEventScope : Z := 114 + NumCommonScopes.
Definition EventsCacheGetFromStoreScope : Z := 115 + NumCommonScopes.
Definition ExecutionSizeStatsScope : Z := 116 + NumCommonScopes.
Definition ExecutionCountStatsScope : Z := 117 + NumCommonScopes.
Definition SessionSizeStatsScope : Z := 118 + NumCommonScopes.
Definition SessionCountStatsScope : Z := 119 + NumCommonScopes.
Definition HistoryResetWorkflowExecutionScope : Z := 120 + NumCommonScopes.
Definition HistoryQueryWorkflowScope : Z := 121 + NumCommonScopes.
Definition HistoryProcessDeleteHistoryEventScope : Z := 122 + NumCommonScopes.
Definition WorkflowCompletionStatsScope : Z := 123 + NumCommonScopes.
Definition ArchiverClientScope : Z := 124 + NumCommonScopes.
Definition ReplicationTaskFetcherScope : Z := 125 + NumCommonScopes.
Definition ReplicationTaskCleanupScope : Z := 126 + NumCommonScopes.
Definition ReplicationDLQStatsScope : Z := 127 + NumCommonScopes.
Definition FailoverMarkerScope : Z := 128 + NumCommonScopes.
Definition HistoryReplicationV2TaskScope : Z := 129 + NumCommonScopes.
Definition SyncActivityTaskScope : Z := 130 + NumCommonScopes.
Definition NumHistoryScopes : Z := 131 + NumCommonScopes.

(** Operation scopes for Matching service *)
Definition MatchingPollForDecisionTaskScope : Z := 0 + NumCommonScopes.
Definition MatchingPollForActivityTaskScope : Z := 1 + NumCommonScopes.
Definition MatchingAddActivityTaskScope : Z := 2 + NumCommonScopes.
Definition MatchingAddDecisionTaskScope : Z := 3 + NumCommonScopes.
Definition MatchingTaskListMgrScope : Z := 4 + NumCommonScopes.
Definition MatchingQueryWorkflowScope : Z := 5 + NumCommonScopes.
Definition MatchingRespondQueryTaskCompletedScope : Z := 6 + NumCommonScopes.
Definition MatchingCancelOutstandingPollScope : Z := 7 + NumCommonScopes.
Definition MatchingDescribeTaskListScope : Z := 8 + NumCommonScopes.
Definition MatchingListTaskListPartitionsScope : Z := 9 + NumCommonScopes.
Definition MatchingGetTaskListsByDomainScope : Z := 10 + NumCommonScopes.
Definition NumMatchingScopes : Z := 11 + NumCommonScopes.

(** Operation scopes for Worker service *)
Definition ReplicatorScope : Z := 0 + NumCommonScopes.
Definition DomainReplicationTaskScope : Z := 1 + NumCommonScopes.
Definition ESProcessorScope : Z := 2 + NumCommonScopes.
Definition IndexProcessorScope : Z := 3 + NumCommonScopes.
Definition ArchiverDeleteHistoryActivityScope : Z := 4 + NumCommonScopes.
Definition ArchiverUploadHistoryActivityScope : Z := 5 + NumCommonScopes.
Definition ArchiverArchiveVisibilityActivityScope : Z := 6 + NumCommonScopes.
Definition ArchiverScope : Z := 7 + NumCommonScopes.
Definition ArchiverPumpScope : Z := 8 + NumCommonScopes.
Definition ArchiverArchivalWorkflowScope : Z := 9 + NumCommonScopes.
Definition TaskListScavengerScope : Z := 10 + NumCommonScopes.
Definition ExecutionsScannerScope : Z := 11 + NumCommonScopes.
Definition ExecutionsFixerScope : Z := 12 + NumCommonScopes.
Definition BatcherScope : Z := 13 + NumCommonScopes.
Definition HistoryScavengerScope : Z := 14 + NumCommonScopes.
Definition ParentClosePolicyProcessorScope : Z := 15 + NumCommonScopes.
Definition ShardScannerScope : Z := 16 + NumCommonScopes.
Definition CheckDataCorruptionWorkflowScope : Z := 17 + NumCommonScopes.
Definition ESAnalyzerScope : Z := 18 + NumCommonScopes.
Definition WatchDogScope : Z := 19 + NumCommonScopes.
Definition NumWorkerScopes : Z := 20 + NumCommonScopes.

(** Common metrics enum *)
Definition CadenceRequests : Z := 0.
Definition CadenceFailures : Z := 1.
Definition CadenceCriticalFailures : Z := 2.
Definition CadenceLatency : Z := 3.
Definition CadenceErrBadRequestCounter : Z := 4.
Definition CadenceErrDomainNotActiveCounter : Z := 5.
Definition CadenceErrServiceBusyCounter : Z := 6.
Definition CadenceErrEntityNotExistsCounter : Z := 7.
Definition CadenceErrWorkflowExecutionAlreadyCompletedCounter : Z := 8.
Definition CadenceErrExecutionAlreadyStartedCounter : Z := 9.
Definition CadenceErrDomainAlreadyExistsCounter : Z := 10.
Definition CadenceErrCancellationAlreadyRequestedCounter : Z := 11.
Definition CadenceErrQueryFailedCounter : Z := 12.
Definition CadenceErrLimitExceededCounter : Z := 13.
Definition CadenceErrContextTimeoutCounter : Z := 14.
Definition CadenceErrRetryTaskCounter : Z := 15.
Definition CadenceErrBadBinaryCounter : Z := 16.
Definition CadenceErrClientVersionNotSupportedCounter : Z := 17.
Definition CadenceErrIncompleteHistoryCounter : Z := 18.
Definition CadenceErrNonDeterministicCounter : Z := 19.
Definition CadenceErrUnauthorizedCounter : Z := 20.
Definition CadenceErrAuthorizeFailedCounter : Z := 21.
Definition CadenceErrRemoteSyncMatchFailedCounter : Z := 22.
Definition CadenceErrDomainNameExceededWarnLimit : Z := 23.
Definition CadenceErrIdentityExceededWarnLimit : Z := 24.
Definition CadenceErrWorkflowIDExceededWarnLimit : Z := 25.
Definition CadenceErrSignalNameExceededWarnLimit : Z := 26.
Definition CadenceErrWorkflowTypeExceededWarnLimit : Z := 27.
Definition CadenceErrRequestIDExceededWarnLimit : Z := 28.
Definition CadenceErrTaskListNameExceededWarnLimit : Z := 29.
Definition CadenceErrActivityIDExceededWarnLimit : Z := 30.
Definition CadenceErrActivityTypeExceededWarnLimit : Z := 31.
Definition CadenceErrMarkerNameExceededWarnLimit : Z := 32.
Definition CadenceErrTimerIDExceededWarnLimit : Z := 33.
Definition PersistenceRequests : Z := 34.
Definition PersistenceFailures : Z := 35.
Definition PersistenceLatency : Z := 36.
Definition PersistenceLatencyHistogram : Z := 37.
Definition PersistenceErrShardExistsCounter : Z := 38.
Definition PersistenceErrShardOwnershipLostCounter : Z := 39.
Definition PersistenceErrConditionFailedCounter : Z := 40.
Definition PersistenceErrCurrentWorkflowConditionFailedCounter : Z := 41.
Definition PersistenceErrTimeoutCounter : Z := 42.
Definition PersistenceErrBusyCounter : Z := 43.
Definition PersistenceErrEntityNotExistsCounter : Z := 44.
Definition PersistenceErrExecutionAlreadyStartedCounter : Z := 45.
Definition PersistenceErrDomainAlreadyExistsCounter : Z := 46.
Definition PersistenceErrBadRequestCounter : Z := 47.
Definition PersistenceErrDBUnavailableCounter : Z := 48.
Definition PersistenceSampledCounter : Z := 49.
Definition PersistenceEmptyResponseCounter : Z := 50.
Definition CadenceClientRequests : Z := 51.
Definition CadenceClientFailures : Z := 52.
Definition CadenceClientLatency : Z := 53.
Definition CadenceDcRedirectionClientRequests : Z := 54.
Definition CadenceDcRedirectionClientFailures : Z := 55.
Definition CadenceDcRedirectionClientLatency : Z := 56.
Definition CadenceAuthorizationLatency : Z := 57.
Definition DomainCachePrepareCallbacksLatency : Z := 58.
Definition DomainCacheCallbacksLatency : Z := 59.
Definition DomainCacheCallbacksCount : Z := 60.
Definition HistorySize : Z := 61.
Definition HistoryCount : Z := 62.
Definition EventBlobSize : Z := 63.
Definition DecisionResultCount : Z := 64.
Definition ArchivalConfigFailures : Z := 65.
Definition ActiveClusterGauge : Z := 66.
Definition ElasticsearchRequests : Z := 67.
Definition ElasticsearchFailures : Z := 68.
Definition ElasticsearchLatency : Z := 69.
Definition ElasticsearchErrBadRequestCounter : Z := 70.
Definition ElasticsearchErrBusyCounter : Z := 71.
Definition SequentialTaskSubmitRequest : Z := 72.
Definition SequentialTaskSubmitRequestTaskQueueExist : Z := 73.
Definition SequentialTaskSubmitRequestTaskQueueMissing : Z := 74.
Definition SequentialTaskSubmitLatency : Z := 75.
Definition SequentialTaskQueueSize : Z := 76.
Definition SequentialTaskQueueProcessingLatency : Z := 77.
Definition SequentialTaskTaskProcessingLatency : Z := 78.
Definition ParallelTaskSubmitRequest : Z := 79.
Definition ParallelTaskSubmitLatency : Z := 80.
Definition ParallelTaskTaskProcessingLatency : Z := 81.
Definition PriorityTaskSubmitRequest : Z := 82.
Definition PriorityTaskSubmitLatency : Z := 83.
Definition KafkaConsumerMessageIn : Z := 84.
Definition KafkaConsumerMessageAck : Z := 85.
Definition KafkaConsumerMessageNack : Z := 86.
Definition KafkaConsumerMessageNackDlqErr : Z := 87.
Definition KafkaConsumerSessionStart : Z := 88.
Definition GracefulFailoverLatency : Z := 89.
Definition GracefulFailoverFailure : Z := 90.
Definition HistoryArchiverArchiveNonRetryableErrorCount : Z := 91.
Definition HistoryArchiverArchiveTransientErrorCount : Z := 92.
Definition HistoryArchiverArchiveSuccessCount : Z := 93.
Definition HistoryArchiverHistoryMutatedCount : Z := 94.
Definition HistoryArchiverTotalUploadSize : Z := 95.
Definition HistoryArchiverHistorySize : Z := 96.
Definition HistoryArchiverDuplicateArchivalsCount : Z := 97.
Definition HistoryArchiverBlobExistsCount : Z := 98.
Definition HistoryArchiverBlobSize : Z := 99.
Definition HistoryArchiverRunningDeterministicConstructionCheckCount : Z := 100.
Definition HistoryArchiverDeterministicConstructionCheckFailedCount : Z := 101.
Definition HistoryArchiverRunningBlobIntegrityCheckCount : Z := 102.
Definition HistoryArchiverBlobIntegrityCheckFailedCount : Z := 103.
Definition VisibilityArchiverArchiveNonRetryableErrorCount : Z := 104.
Definition VisibilityArchiverArchiveTransientErrorCount : Z := 105.
Definition VisibilityArchiveSuccessCount : Z := 106.
Definition MatchingClientForwardedCounter : Z := 107.
Definition MatchingClientInvalidTaskListName : Z := 108.
Definition CadenceRequestsPerTaskList : Z := 109.
Definition CadenceFailuresPerTaskList : Z := 110.
Definition CadenceLatencyPerTaskList : Z := 111.
Definition CadenceErrBadRequestPerTaskListCounter : Z := 112.
Definition CadenceErrDomainNotActivePerTaskListCounter : Z := 113.
Definition CadenceErrServiceBusyPerTaskListCounter : Z := 114.
Definition CadenceErrEntityNotExistsPerTaskListCounter : Z := 115.
Definition CadenceErrExecutionAlreadyStartedPerTaskListCounter : Z := 116.
Definition CadenceErrDomainAlreadyExistsPerTaskListCounter : Z := 117.
Definition CadenceErrCancellationAlreadyRequestedPerTaskListCounter : Z := 118.
Definition CadenceErrQueryFailedPerTaskListCounter : Z := 119.
Definition CadenceErrLimitExceededPerTaskListCounter : Z := 120.
Definition CadenceErrContextTimeoutPerTaskListCounter : Z := 121.
Definition CadenceErrRetryTaskPerTaskListCounter : Z := 122.
Definition CadenceErrBadBinaryPerTaskListCounter : Z := 123.
Definition CadenceErrClientVersionNotSupportedPerTaskListCounter : Z := 124.
Definition CadenceErrIncompleteHistoryPerTaskListCounter : Z := 125.
Definition CadenceErrNonDeterministicPerTaskListCounter : Z := 126.
Definition CadenceErrUnauthorizedPerTaskListCounter : Z := 127.
Definition CadenceErrAuthorizeFailedPerTaskListCounter : Z := 128.
Definition CadenceErrRemoteSyncMatchFailedPerTaskListCounter : Z := 129.
Definition CadenceErrStickyWorkerUnavailablePerTaskListCounter : Z := 130.
Definition CadenceShardSuccessGauge : Z := 131.
Definition CadenceShardFailureGauge : Z := 132.
Definition DomainReplicationQueueSizeGauge : Z := 133.
Definition DomainReplicationQueueSizeErrorCount : Z := 134.
Definition ParentClosePolicyProcessorSuccess : Z := 135.
Definition ParentClosePolicyProcessorFailures : Z := 136.
Definition NumCommonMetrics : Z := 137.

(** History metrics enum *)
Definition TaskRequests : Z := 0 + NumCommonMetrics.
Definition TaskLatency : Z := 1 + NumCommonMetrics.
Definition TaskFailures : Z := 2 + NumCommonMetrics.
Definition TaskDiscarded : Z := 3 + NumCommonMetrics.
Definition TaskAttemptTimer : Z := 4 + NumCommonMetrics.
Definition TaskStandbyRetryCounter : Z := 5 + NumCommonMetrics.
Definition TaskNotActiveCounter : Z := 6 + NumCommonMetrics.
Definition TaskLimitExceededCounter : Z := 7 + NumCommonMetrics.
Definition TaskBatchCompleteCounter : Z := 8 + NumCommonMetrics.
Definition TaskBatchCompleteFailure : Z := 9 + NumCommonMetrics.
Definition TaskProcessingLatency : Z := 10 + NumCommonMetrics.
Definition TaskQueueLatency : Z := 11 + NumCommonMetrics.
Definition TaskRequestsPerDomain : Z := 12 + NumCommonMetrics.
Definition TaskLatencyPerDomain : Z := 13 + NumCommonMetrics.
Definition TaskFailuresPerDomain : Z := 14 + NumCommonMetrics.
Definition TaskWorkflowBusyPerDomain : Z := 15 + NumCommonMetrics.
Definition TaskDiscardedPerDomain : Z := 16 + NumCommonMetrics.
Definition TaskUnsupportedPerDomain : Z := 17 + NumCommonMetrics.
Definition TaskAttemptTimerPerDomain : Z := 18 + NumCommonMetrics.
Definition TaskStandbyRetryCounterPerDomain : Z := 19 + NumCommonMetrics.
Definition TaskPendingActiveCounterPerDomain : Z := 20 + NumCommonMetrics.
Definition TaskNotActiveCounterPerDomain : Z := 21 + NumCommonMetrics.
Definition TaskTargetNotActiveCounterPerDomain : Z := 22 + NumCommonMetrics.
Definition TaskLimitExceededCounterPerDomain : Z := 23 + NumCommonMetrics.
Definition TaskProcessingLatencyPerDomain : Z := 24 + NumCommonMetrics.
Definition TaskQueueLatencyPerDomain : Z := 25 + NumCommonMetrics.
Definition TransferTaskMissingEventCounterPerDomain : Z := 26 + NumCommonMetrics.
Definition ReplicationTasksAppliedPerDomain : Z := 27 + NumCommonMetrics.
Definition TaskRedispatchQueuePendingTasksTimer : Z := 28 + NumCommonMetrics.
Definition TransferTaskThrottledCounter : Z := 29 + NumCommonMetrics.
Definition TimerTaskThrottledCounter : Z := 30 + NumCommonMetrics.
Definition CrossClusterTaskThrottledCounter : Z := 31 + NumCommonMetrics.
Definition TransferTaskMissingEventCounter : Z := 32 + NumCommonMetrics.
Definition ProcessingQueueNumTimer : Z := 33 + NumCommonMetrics.
Definition ProcessingQueueMaxLevelTimer : Z := 34 + NumCommonMetrics.
Definition ProcessingQueuePendingTaskSplitCounter : Z := 35 + NumCommonMetrics.
Definition ProcessingQueueStuckTaskSplitCounter : Z := 36 + NumCommonMetrics.
Definition ProcessingQueueSelectedDomainSplitCounter : Z := 37 + NumCommonMetrics.
Definition ProcessingQueueRandomSplitCounter : Z := 38 + NumCommonMetrics.
Definition ProcessingQueueThrottledCounter : Z := 39 + NumCommonMetrics.
Definition QueueValidatorLostTaskCounter : Z := 40 + NumCommonMetrics.
Definition QueueValidatorDropTaskCounter : Z := 41 + NumCommonMetrics.
Definition QueueValidatorInvalidLoadCounter : Z := 42 + NumCommonMetrics.
Definition QueueValidatorValidationCounter : Z := 43 + NumCommonMetrics.
Definition QueueValidatorValidationFailure : Z := 44 + NumCommonMetrics.
Definition CrossClusterFetchLatency : Z := 45 + NumCommonMetrics.
Definition CrossClusterFetchRequests : Z := 46 + NumCommonMetrics.
Definition CrossClusterFetchFailures : Z := 47 + NumCommonMetrics.
Definition CrossClusterFetchServiceBusyFailures : Z := 48 + NumCommonMetrics.
Definition CrossClusterTaskRespondLatency : Z := 49 + NumCommonMetrics.
Definition CrossClusterTaskRespondRequests : Z := 50 + NumCommonMetrics.
Definition CrossClusterTaskRespondFailures : Z := 51 + NumCommonMetrics.
Definition CrossClusterTaskFetchedTimer : Z := 52 + NumCommonMetrics.
Definition CrossClusterTaskPendingTimer : Z := 53 + NumCommonMetrics.
Definition ActivityE2ELatency : Z := 54 + NumCommonMetrics.
Definition ActivityLostCounter : Z := 55 + NumCommonMetrics.
Definition AckLevelUpdateCounter : Z := 56 + NumCommonMetrics.
Definition AckLevelUpdateFailedCounter : Z := 57 + NumCommonMetrics.
Definition DecisionTypeScheduleActivityCounter : Z := 58 + NumCommonMetrics.
Definition DecisionTypeScheduleActivityDispatchSucceedCounter : Z := 59 + NumCommonMetrics.
Definition DecisionTypeScheduleActivityDispatchCounter : Z := 60 + NumCommonMetrics.
Definition DecisionTypeCompleteWorkflowCounter : Z := 61 + NumCommonMetrics.
Definition DecisionTypeFailWorkflowCounter : Z := 62 + NumCommonMetrics.
Definition DecisionTypeCancelWorkflowCounter : Z := 63 + NumCommonMetrics.
Definition DecisionTypeStartTimerCounter : Z := 64 + NumCommonMetrics.
Definition DecisionTypeCancelActivityCounter : Z := 65 + NumCommonMetrics.
Definition DecisionTypeCancelTimerCounter : Z := 66 + NumCommonMetrics.
Definition DecisionTypeRecordMarkerCounter : Z := 67 + NumCommonMetrics.
Definition DecisionTypeCancelExternalWorkflowCounter : Z := 68 + NumCommonMetrics.
Definition DecisionTypeChildWorkflowCounter : Z := 69 + NumCommonMetrics.
Definition DecisionTypeContinueAsNewCounter : Z := 70 + NumCommonMetrics.
Definition DecisionTypeSignalExternalWorkflowCounter : Z := 71 + NumCommonMetrics.
Definition DecisionTypeUpsertWorkflowSearchAttributesCounter : Z := 72 + NumCommonMetrics.
Definition EmptyCompletionDecisionsCounter : Z := 73 + NumCommonMetrics.
Definition MultipleCompletionDecisionsCounter : Z := 74 + NumCommonMetrics.
Definition FailedDecisionsCounter : Z := 75 + NumCommonMetrics.
Definition DecisionAttemptTimer : Z := 76 + NumCommonMetrics.
Definition DecisionRetriesExceededCounter : Z := 77 + NumCommonMetrics.
Definition StaleMutableStateCounter : Z := 78 + NumCommonMetrics.
Definition DataInconsistentCounter : Z := 79 + NumCommonMetrics.
Definition TimerResurrectionCounter : Z := 80 + NumCommonMetrics.
Definition ActivityResurrectionCounter : Z := 81 + NumCommonMetrics.
Definition AutoResetPointsLimitExceededCounter : Z := 82 + NumCommonMetrics.
Definition AutoResetPointCorruptionCounter : Z := 83 + NumCommonMetrics.
Definition ConcurrencyUpdateFailureCounter : Z := 84 + NumCommonMetrics.
Definition CadenceErrEventAlreadyStartedCounter : Z := 85 + NumCommonMetrics.
Definition CadenceErrShardOwnershipLostCounter : Z := 86 + NumCommonMetrics.
Definition HeartbeatTimeoutCounter : Z := 87 + NumCommonMetrics.
Definition ScheduleToStartTimeoutCounter : Z := 88 + NumCommonMetrics.
Definition StartToCloseTimeoutCounter : Z := 89 + NumCommonMetrics.
Definition ScheduleToCloseTimeoutCounter : Z := 90 + NumCommonMetrics.
Definition NewTimerCounter : Z := 91 + NumCommonMetrics.
Definition NewTimerNotifyCounter : Z := 92 + NumCommonMetrics.
Definition AcquireShardsCounter : Z := 93 + NumCommonMetrics.
Definition AcquireShardsLatency : Z := 94 + NumCommonMetrics.
Definition ShardClosedCounter : Z := 95 + NumCommonMetrics.
Definition ShardItemCreatedCounter : Z := 96 + NumCommonMetrics.
Definition ShardItemRemovedCounter : Z := 97 + NumCommonMetrics.
Definition ShardItemAcquisitionLatency : Z := 98 + NumCommonMetrics.
Definition ShardInfoReplicationPendingTasksTimer : Z := 99 + NumCommonMetrics.
Definition ShardInfoTransferActivePendingTasksTimer : Z := 100 + NumCommonMetrics.
Definition ShardInfoTransferStandbyPendingTasksTimer : Z := 101 + NumCommonMetrics.
Definition ShardInfoTimerActivePendingTasksTimer : Z := 102 + NumCommonMetrics.
Definition ShardInfoTimerStandbyPendingTasksTimer : Z := 103 + NumCommonMetrics.
Definition ShardInfoCrossClusterPendingTasksTimer : Z := 104 + NumCommonMetrics.
Definition ShardInfoReplicationLagTimer : Z := 105 + NumCommonMetrics.
Definition ShardInfoTransferLagTimer : Z := 106 + NumCommonMetrics.
Definition ShardInfoTimerLagTimer : Z := 107 + NumCommonMetrics.
Definition ShardInfoCrossClusterLagTimer : Z := 108 + NumCommonMetrics.
Definition ShardInfoTransferDiffTimer : Z := 109 + NumCommonMetrics.
Definition ShardInfoTimerDiffTimer : Z := 110 + NumCommonMetrics.
Definition ShardInfoTransferFailoverInProgressTimer : Z := 111 + NumCommonMetrics.
Definition ShardInfoTimerFailoverInProgressTimer : Z := 112 + NumCommonMetrics.
Definition ShardInfoTransferFailoverLatencyTimer : Z := 113 + NumCommonMetrics.
Definition ShardInfoTimerFailoverLatencyTimer : Z := 114 + NumCommonMetrics.
Definition SyncShardFromRemoteCounter : Z := 115 + NumCommonMetrics.
Definition SyncShardFromRemoteFailure : Z := 116 + NumCommonMetrics.
Definition MembershipChangedCounter : Z := 117 + NumCommonMetrics.
Definition NumShardsGauge : Z := 118 + NumCommonMetrics.
Definition GetEngineForShardErrorCounter : Z := 119 + NumCommonMetrics.
Definition GetEngineForShardLatency : Z := 120 + NumCommonMetrics.
Definition RemoveEngineForShardLatency : Z := 121 + NumCommonMetrics.
Definition CompleteDecisionWithStickyEnabledCounter : Z := 122 + NumCommonMetrics.
Definition CompleteDecisionWithStickyDisabledCounter : Z := 123 + NumCommonMetrics.
Definition DecisionHeartbeatTimeoutCounter : Z := 124 + NumCommonMetrics.
Definition HistoryEventNotificationQueueingLatency : Z := 125 + NumCommonMetrics.
Definition HistoryEventNotificationFanoutLatency : Z := 126 + NumCommonMetrics.
Definition HistoryEventNotificationInFlightMessageGauge : Z := 127 + NumCommonMetrics.
Definition HistoryEventNotificationFailDeliveryCount : Z := 128 + NumCommonMetrics.
Definition EmptyReplicationEventsCounter : Z := 129 + NumCommonMetrics.
Definition DuplicateReplicationEventsCounter : Z := 130 + NumCommonMetrics.
Definition StaleReplicationEventsCounter : Z := 131 + NumCommonMetrics.
Definition ReplicationEventsSizeTimer : Z := 132 + NumCommonMetrics.
Definition BufferReplicationTaskTimer : Z := 133 + NumCommonMetrics.
Definition UnbufferReplicationTaskTimer : Z := 134 + NumCommonMetrics.
Definition HistoryConflictsCounter : Z := 135 + NumCommonMetrics.
Definition CompleteTaskFailedCounter : Z := 136 + NumCommonMetrics.
Definition CacheSize : Z := 137 + NumCommonMetrics.
Definition CacheRequests : Z := 138 + NumCommonMetrics.
Definition CacheFailures : Z := 139 + NumCommonMetrics.
Definition CacheLatency : Z := 140 + NumCommonMetrics.
Definition CacheHitCounter : Z := 141 + NumCommonMetrics.
Definition CacheMissCounter : Z := 142 + NumCommonMetrics.
Definition CacheFullCounter : Z := 143 + NumCommonMetrics.
Definition AcquireLockFailedCounter : Z := 144 + NumCommonMetrics.
Definition WorkflowContextCleared : Z := 145 + NumCommonMetrics.
Definition MutableStateSize : Z := 146 + NumCommonMetrics.
Definition ExecutionInfoSize : Z := 147 + NumCommonMetrics.
Definition ActivityInfoSize : Z := 148 + NumCommonMetrics.
Definition TimerInfoSize : Z := 149 + NumCommonMetrics.
Definition ChildInfoSize : Z := 150 + NumCommonMetrics.
Definition SignalInfoSize : Z := 151 + NumCommonMetrics.
Definition BufferedEventsSize : Z := 152 + NumCommonMetrics.
Definition ActivityInfoCount : Z := 153 + NumCommonMetrics.
Definition TimerInfoCount : Z := 154 + NumCommonMetrics.
Definition ChildInfoCount : Z := 155 + NumCommonMetrics.
Definition SignalInfoCount : Z := 156 + NumCommonMetrics.
Definition RequestCancelInfoCount : Z := 157 + NumCommonMetrics.
Definition BufferedEventsCount : Z := 158 + NumCommonMetrics.
Definition TransferTasksCount : Z := 159 + NumCommonMetrics.
Definition TimerTasksCount : Z := 160 + NumCommonMetrics.
Definition CrossClusterTasksCount : Z := 161 + NumCommonMetrics.
Definition ReplicationTasksCount : Z := 162 + NumCommonMetrics.
Definition DeleteActivityInfoCount : Z := 163 + NumCommonMetrics.
Definition DeleteTimerInfoCount : Z := 164 + NumCommonMetrics.
Definition DeleteChildInfoCount : Z := 165 + NumCommonMetrics.
Definition DeleteSignalInfoCount : Z := 166 + NumCommonMetrics.
Definition DeleteRequestCancelInfoCount : Z := 167 + NumCommonMetrics.
Definition WorkflowRetryBackoffTimerCount : Z := 168 + NumCommonMetrics.
Definition WorkflowCronBackoffTimerCount : Z := 169 + NumCommonMetrics.
Definition WorkflowCleanupDeleteCount : Z := 170 + NumCommonMetrics.
Definition WorkflowCleanupArchiveCount : Z := 171 + NumCommonMetrics.
Definition WorkflowCleanupNopCount : Z := 172 + NumCommonMetrics.
Definition WorkflowCleanupDeleteHistoryInlineCount : Z := 173 + NumCommonMetrics.
Definition WorkflowSuccessCount : Z := 174 + NumCommonMetrics.
Definition WorkflowCancelCount : Z := 175 + NumCommonMetrics.
Definition WorkflowFailedCount : Z := 176 + NumCommonMetrics.
Definition WorkflowTimeoutCount : Z := 177 + NumCommonMetrics.
Definition WorkflowTerminateCount : Z := 178 + NumCommonMetrics.
Definition WorkflowContinuedAsNew : Z := 179 + NumCommonMetrics.
Definition WorkflowCompletedUnknownType : Z := 180 + NumCommonMetrics.
Definition ArchiverClientSendSignalCount : Z := 181 + NumCommonMetrics.
Definition ArchiverClientSendSignalFailureCount : Z := 182 + NumCommonMetrics.
Definition ArchiverClientHistoryRequestCount : Z := 183 + NumCommonMetrics.
Definition ArchiverClientHistoryInlineArchiveAttemptCount : Z := 184 + NumCommonMetrics.
Definition ArchiverClientHistoryInlineArchiveFailureCount : Z := 185 + NumCommonMetrics.
Definition ArchiverClientHistoryInlineArchiveThrottledCount : Z := 186 + NumCommonMetrics.
Definition ArchiverClientVisibilityRequestCount : Z := 187 + NumCommonMetrics.
Definition ArchiverClientVisibilityInlineArchiveAttemptCount : Z := 188 + NumCommonMetrics.
Definition ArchiverClientVisibilityInlineArchiveFailureCount : Z := 189 + NumCommonMetrics.
Definition ArchiverClientVisibilityInlineArchiveThrottledCount : Z := 190 + NumCommonMetrics.
Definition LastRetrievedMessageID : Z := 191 + NumCommonMetrics.
Definition LastProcessedMessageID : Z := 192 + NumCommonMetrics.
Definition ReplicationLatency : Z := 193 + NumCommonMetrics.
Definition ReplicationTasksApplied : Z := 194 + NumCommonMetrics.
Definition ReplicationTasksFailed : Z := 195 + NumCommonMetrics.
Definition ReplicationTasksLag : Z := 196 + NumCommonMetrics.
Definition ReplicationTasksFetched : Z := 197 + NumCommonMetrics.
Definition ReplicationTasksReturned : Z := 198 + NumCommonMetrics.
Definition ReplicationTasksReturnedDiff : Z := 199 + NumCommonMetrics.
Definition ReplicationTasksAppliedLatency : Z := 200 + NumCommonMetrics.
Definition ReplicationDLQFailed : Z := 201 + NumCommonMetrics.
Definition ReplicationDLQMaxLevelGauge : Z := 202 + NumCommonMetrics.
Definition ReplicationDLQAckLevelGauge : Z := 203 + NumCommonMetrics.
Definition ReplicationDLQProbeFailed : Z := 204 + NumCommonMetrics.
Definition ReplicationDLQSize : Z := 205 + NumCommonMetrics.
Definition ReplicationDLQValidationFailed : Z := 206 + NumCommonMetrics.
Definition GetReplicationMessagesForShardLatency : Z := 207 + NumCommonMetrics.
Definition GetDLQReplicationMessagesLatency : Z := 208 + NumCommonMetrics.
Definition EventReapplySkippedCount : Z := 209 + NumCommonMetrics.
Definition DirectQueryDispatchLatency : Z := 210 + NumCommonMetrics.
Definition DirectQueryDispatchStickyLatency : Z := 211 + NumCommonMetrics.
Definition DirectQueryDispatchNonStickyLatency : Z := 212 + NumCommonMetrics.
Definition DirectQueryDispatchStickySuccessCount : Z := 213 + NumCommonMetrics.
Definition DirectQueryDispatchNonStickySuccessCount : Z := 214 + NumCommonMetrics.
Definition DirectQueryDispatchClearStickinessLatency : Z := 215 + NumCommonMetrics.
Definition DirectQueryDispatchClearStickinessSuccessCount : Z := 216 + NumCommonMetrics.
Definition DirectQueryDispatchTimeoutBeforeNonStickyCount : Z := 217 + NumCommonMetrics.
Definition DecisionTaskQueryLatency : Z := 218 + NumCommonMetrics.
Definition ConsistentQueryTimeoutCount : Z := 219 + NumCommonMetrics.
Definition QueryBeforeFirstDecisionCount : Z := 220 + NumCommonMetrics.
Definition QueryBufferExceededCount : Z := 221 + NumCommonMetrics.
Definition QueryRegistryInvalidStateCount : Z := 222 + NumCommonMetrics.
Definition WorkerNotSupportsConsistentQueryCount : Z := 223 + NumCommonMetrics.
Definition DecisionStartToCloseTimeoutOverrideCount : Z := 224 + NumCommonMetrics.
Definition ReplicationTaskCleanupCount : Z := 225 + NumCommonMetrics.
Definition ReplicationTaskCleanupFailure : Z := 226 + NumCommonMetrics.
Definition ReplicationTaskLatency : Z := 227 + NumCommonMetrics.
Definition MutableStateChecksumMismatch : Z := 228 + NumCommonMetrics.
Definition MutableStateChecksumInvalidated : Z := 229 + NumCommonMetrics.
Definition FailoverMarkerCount : Z := 230 + NumCommonMetrics.
Definition FailoverMarkerReplicationLatency : Z := 231 + NumCommonMetrics.
Definition FailoverMarkerInsertFailure : Z := 232 + NumCommonMetrics.
Definition FailoverMarkerNotificationFailure : Z := 233 + NumCommonMetrics.
Definition FailoverMarkerUpdateShardFailure : Z := 234 + NumCommonMetrics.
Definition FailoverMarkerCallbackCount : Z := 235 + NumCommonMetrics.
Definition HistoryFailoverCallbackCount : Z := 236 + NumCommonMetrics.
Definition NumHistoryMetrics : Z := 237 + NumCommonMetrics.

(** Matching metrics enum *)
Definition PollSuccessPerTaskListCounter : Z := 0 + NumCommonMetrics.
Definition PollTimeoutPerTaskListCounter : Z := 1 + NumCommonMetrics.
Definition PollSuccessWithSyncPerTaskListCounter : Z := 2 + NumCommonMetrics.
Definition LeaseRequestPerTaskListCounter : Z := 3 + NumCommonMetrics.
Definition LeaseFailurePerTaskListCounter : Z := 4 + NumCommonMetrics.
Definition ConditionFailedErrorPerTaskListCounter : Z := 5 + NumCommonMetrics.
Definition RespondQueryTaskFailedPerTaskListCounter : Z := 6 + NumCommonMetrics.
Definition SyncThrottlePerTaskListCounter : Z := 7 + NumCommonMetrics.
Definition BufferThrottlePerTaskListCounter : Z := 8 + NumCommonMetrics.
Definition SyncMatchLatencyPerTaskList : Z := 9 + NumCommonMetrics.
Definition AsyncMatchLatencyPerTaskList : Z := 10 + NumCommonMetrics.
Definition ExpiredTasksPerTaskListCounter : Z := 11 + NumCommonMetrics.
Definition ForwardedPerTaskListCounter : Z := 12 + NumCommonMetrics.
Definition ForwardTaskCallsPerTaskList : Z := 13 + NumCommonMetrics.
Definition ForwardTaskErrorsPerTaskList : Z := 14 + NumCommonMetrics.
Definition ForwardTaskLatencyPerTaskList : Z := 15 + NumCommonMetrics.
Definition ForwardQueryCallsPerTaskList : Z := 16 + NumCommonMetrics.
Definition ForwardQueryErrorsPerTaskList : Z := 17 + NumCommonMetrics.
Definition ForwardQueryLatencyPerTaskList : Z := 18 + NumCommonMetrics.
Definition ForwardPollCallsPerTaskList : Z := 19 + NumCommonMetrics.
Definition ForwardPollErrorsPerTaskList : Z := 20 + NumCommonMetrics.
Definition ForwardPollLatencyPerTaskList : Z := 21 + NumCommonMetrics.
Definition LocalToLocalMatchPerTaskListCounter : Z := 22 + NumCommonMetrics.
Definition LocalToRemoteMatchPerTaskListCounter : Z := 23 + NumCommonMetrics.
Definition RemoteToLocalMatchPerTaskListCounter : Z := 24 + NumCommonMetrics.
Definition RemoteToRemoteMatchPerTaskListCounter : Z := 25 + NumCommonMetrics.
Definition PollerPerTaskListCounter : Z := 26 + NumCommonMetrics.
Definition TaskListManagersGauge : Z := 27 + NumCommonMetrics.
Definition TaskLagPerTaskListGauge : Z := 28 + NumCommonMetrics.
Definition TaskBacklogPerTaskListGauge : Z := 29 + NumCommonMetrics.
Definition NumMatchingMetrics : Z := 30 + NumCommonMetrics.

(** Worker metrics enum *)
Definition ReplicatorMessages : Z := 0 + NumCommonMetrics.
Definition ReplicatorFailures : Z := 1 + NumCommonMetrics.
Definition ReplicatorMessagesDropped : Z := 2 + NumCommonMetrics.
Definition ReplicatorLatency : Z := 3 + NumCommonMetrics.
Definition ReplicatorDLQFailures : Z := 4 + NumCommonMetrics.
Definition ESProcessorRequests : Z := 5 + NumCommonMetrics.
Definition ESProcessorRetries : Z := 6 + NumCommonMetrics.
Definition ESProcessorFailures : Z := 7 + NumCommonMetrics.
Definition ESProcessorCorruptedData : Z := 8 + NumCommonMetrics.
Definition ESProcessorProcessMsgLatency : Z := 9 + NumCommonMetrics.
Definition IndexProcessorCorruptedData : Z := 10 + NumCommonMetrics.
Definition IndexProcessorProcessMsgLatency : Z := 11 + NumCommonMetrics.
Definition ArchiverNonRetryableErrorCount : Z := 12 + NumCommonMetrics.
Definition ArchiverStartedCount : Z := 13 + NumCommonMetrics.
Definition ArchiverStoppedCount : Z := 14 + NumCommonMetrics.
Definition ArchiverCoroutineStartedCount : Z := 15 + NumCommonMetrics.
Definition ArchiverCoroutineStoppedCount : Z := 16 + NumCommonMetrics.
Definition ArchiverHandleHistoryRequestLatency : Z := 17 + NumCommonMetrics.
Definition ArchiverHandleVisibilityRequestLatency : Z := 18 + NumCommonMetrics.
Definition ArchiverUploadWithRetriesLatency : Z := 19 + NumCommonMetrics.
Definition ArchiverDeleteWithRetriesLatency : Z := 20 + NumCommonMetrics.
Definition ArchiverUploadFailedAllRetriesCount : Z := 21 + NumCommonMetrics.
Definition ArchiverUploadSuccessCount : Z := 22 + NumCommonMetrics.
Definition ArchiverDeleteFailedAllRetriesCount : Z := 23 + NumCommonMetrics.
Definition ArchiverDeleteSuccessCount : Z := 24 + NumCommonMetrics.
Definition ArchiverHandleVisibilityFailedAllRetiresCount : Z := 25 + NumCommonMetrics.
Definition ArchiverHandleVisibilitySuccessCount : Z := 26 + NumCommonMetrics.
Definition ArchiverBacklogSizeGauge : Z := 27 + NumCommonMetrics.
Definition ArchiverPumpTimeoutCount : Z := 28 + NumCommonMetrics.
Definition ArchiverPumpSignalThresholdCount : Z := 29 + NumCommonMetrics.
Definition ArchiverPumpTimeoutWithoutSignalsCount : Z := 30 + NumCommonMetrics.
Definition ArchiverPumpSignalChannelClosedCount : Z := 31 + NumCommonMetrics.
Definition ArchiverWorkflowStartedCount : Z := 32 + NumCommonMetrics.
Definition ArchiverNumPumpedRequestsCount : Z := 33 + NumCommonMetrics.
Definition ArchiverNumHandledRequestsCount : Z := 34 + NumCommonMetrics.
Definition ArchiverPumpedNotEqualHandledCount : Z := 35 + NumCommonMetrics.
Definition ArchiverHandleAllRequestsLatency : Z := 36 + NumCommonMetrics.
Definition ArchiverWorkflowStoppingCount : Z := 37 + NumCommonMetrics.
Definition TaskProcessedCount : Z := 38 + NumCommonMetrics.
Definition TaskDeletedCount : Z := 39 + NumCommonMetrics.
Definition TaskListProcessedCount : Z := 40 + NumCommonMetrics.
Definition TaskListDeletedCount : Z := 41 + NumCommonMetrics.
Definition TaskListOutstandingCount : Z := 42 + NumCommonMetrics.
Definition ExecutionsOutstandingCount : Z := 43 + NumCommonMetrics.
Definition StartedCount : Z := 44 + NumCommonMetrics.
Definition StoppedCount : Z := 45 + NumCommonMetrics.
Definition ExecutorTasksDeferredCount : Z := 46 + NumCommonMetrics.
Definition ExecutorTasksDroppedCount : Z := 47 + NumCommonMetrics.
Definition BatcherProcessorSuccess : Z := 48 + NumCommonMetrics.
Definition BatcherProcessorFailures : Z := 49 + NumCommonMetrics.
Definition HistoryScavengerSuccessCount : Z := 50 + NumCommonMetrics.
Definition HistoryScavengerErrorCount : Z := 51 + NumCommonMetrics.
Definition HistoryScavengerSkipCount : Z := 52 + NumCommonMetrics.
Definition DomainReplicationEnqueueDLQCount : Z := 53 + NumCommonMetrics.
Definition ScannerExecutionsGauge : Z := 54 + NumCommonMetrics.
Definition ScannerCorruptedGauge : Z := 55 + NumCommonMetrics.
Definition ScannerCheckFailedGauge : Z := 56 + NumCommonMetrics.
Definition ScannerCorruptionByTypeGauge : Z := 57 + NumCommonMetrics.
Definition ScannerCorruptedOpenExecutionGauge : Z := 58 + NumCommonMetrics.
Definition ScannerShardSizeMaxGauge : Z := 59 + NumCommonMetrics.
Definition ScannerShardSizeMedianGauge : Z := 60 + NumCommonMetrics.
Definition ScannerShardSizeMinGauge : Z := 61 + NumCommonMetrics.
Definition ScannerShardSizeNinetyGauge : Z := 62 + NumCommonMetrics.
Definition ScannerShardSizeSeventyFiveGauge : Z := 63 + NumCommonMetrics.
Definition ScannerShardSizeTwentyFiveGauge : Z := 64 + NumCommonMetrics.
Definition ScannerShardSizeTenGauge : Z := 65 + NumCommonMetrics.
Definition ShardScannerScan : Z := 66 + NumCommonMetrics.
Definition ShardScannerFix : Z := 67 + NumCommonMetrics.
Definition DataCorruptionWorkflowCount : Z := 68 + NumCommonMetrics.
Definition DataCorruptionWorkflowFailure : Z := 69 + NumCommonMetrics.
Definition DataCorruptionWorkflowSuccessCount : Z := 70 + NumCommonMetrics.
Definition DataCorruptionWorkflowSkipCount : Z := 71 + NumCommonMetrics.
Definition ESAnalyzerNumStuckWorkflowsDiscovered : Z := 72 + NumCommonMetrics.
Definition ESAnalyzerNumStuckWorkflowsRefreshed : Z := 73 + NumCommonMetrics.
Definition ESAnalyzerNumStuckWorkflowsFailedToRefresh : Z := 74 + NumCommonMetrics.
Definition ESAnalyzerNumLongRunningWorkflows : Z := 75 + NumCommonMetrics.
Definition WatchDogNumDeletedCorruptWorkflows : Z := 76 + NumCommonMetrics.
Definition WatchDogNumFailedToDeleteCorruptWorkflows : Z := 77 + NumCommonMetrics.
Definition WatchDogNumCorruptWorkflowProcessed : Z := 78 + NumCommonMetrics.
Definition NumWorkerMetrics : Z := 79 + NumCommonMetrics.

Definition PersistenceLatencyBuckets : DurationBuckets :=
  [ 1 * Millisecond
  ; 2 * Millisecond
  ; 3 * Millisecond
  ; 4 * Millisecond
  ; 5 * Millisecond
  ; 6 * Millisecond
  ; 7 * Millisecond
  ; 8 * Millisecond
  ; 9 * Millisecond
  ; 10 * Millisecond
  ; 12 * Millisecond
  ; 15 * Millisecond
  ; 17 * Millisecond
  ; 20 * Millisecond
  ; 25 * Millisecond
  ; 30 * Millisecond
  ; 35 * Millisecond
  ; 40 * Millisecond
  ; 50 * Millisecond
  ; 60 * Millisecond
  ; 70 * Millisecond
  ; 80 * Millisecond
  ; 90 * Millisecond
  ; 100 * Millisecond
  ; 120 * Millisecond
  ; 150 * Millisecond
  ; 170 * Millisecond
  ; 200 * Millisecond
  ; 250 * Millisecond
  ; 300 * Millisecond
  ; 400 * Millisecond
  ; 500 * Millisecond
  ; 600 * Millisecond
  ; 700 * Millisecond
  ; 800 * Millisecond
  ; 900 * Millisecond
  ; 1 * Second
  ; 2 * Second
  ; 3 * Second
  ; 4 * Second
  ; 5 * Second
  ; 6 * Second
  ; 7 * Second
  ; 8 * Second
  ; 9 * Second
  ; 10 * Second
  ; 12 * Second
  ; 15 * Second
  ; 20 * Second
  ; 25 * Second
  ; 30 * Second
  ; 35 * Second
  ; 40 * Second
  ; 50 * Second
  ; 60 * Second
  ].

(** The constants of the common scope block, in declaration order. *)
Definition CommonScopes : list Z :=
  [ PersistenceCreateShardScope
  ; PersistenceGetShardScope
  ; PersistenceUpdateShardScope
  ; PersistenceCreateWorkflowExecutionScope
  ; PersistenceGetWorkflowExecutionScope
  ; PersistenceUpdateWorkflowExecutionScope
  ; PersistenceConflictResolveWorkflowExecutionScope
  ; PersistenceResetWorkflowExecutionScope
  ; PersistenceDeleteWorkflowExecutionScope
  ; PersistenceDeleteCurrentWorkflowExecutionScope
  ; PersistenceGetCurrentExecutionScope
  ; PersistenceIsWorkflowExecutionExistsScope
  ; PersistenceListCurrentExecutionsScope
  ; PersistenceListConcreteExecutionsScope
  ; PersistenceGetTransferTasksScope
  ; PersistenceCompleteTransferTaskScope
  ; PersistenceRangeCompleteTransferTaskScope
  ; PersistenceGetCrossClusterTasksScope
  ; PersistenceCompleteCrossClusterTaskScope
  ; PersistenceRangeCompleteCrossClusterTaskScope
  ; PersistenceGetReplicationTasksScope
  ; PersistenceCompleteReplicationTaskScope
  ; PersistenceRangeCompleteReplicationTaskScope
  ; PersistencePutReplicationTaskToDLQScope
  ; PersistenceGetReplicationTasksFromDLQScope
  ; PersistenceGetReplicationDLQSizeScope
  ; PersistenceDeleteReplicationTaskFromDLQScope
  ; PersistenceRangeDeleteReplicationTaskFromDLQScope
  ; PersistenceCreateFailoverMarkerTasksScope
  ; PersistenceGetTimerIndexTasksScope
  ; PersistenceCompleteTimerTaskScope
  ; PersistenceRangeCompleteTimerTaskScope
  ; PersistenceCreateTaskScope
  ; PersistenceGetTasksScope
  ; PersistenceCompleteTaskScope
  ; PersistenceCompleteTasksLessThanScope
  ; PersistenceGetOrphanTasksScope
  ; PersistenceLeaseTaskListScope
  ; PersistenceUpdateTaskListScope
  ; PersistenceListTaskListScope
  ; PersistenceDeleteTaskListScope
  ; PersistenceAppendHistoryEventsScope
  ; PersistenceGetWorkflowExecutionHistoryScope
  ; PersistenceDeleteWorkflowExecutionHistoryScope
  ; PersistenceCreateDomainScope
  ; PersistenceGetDomainScope
  ; PersistenceUpdateDomainScope
  ; PersistenceDeleteDomainScope
  ; PersistenceDeleteDomainByNameScope
  ; PersistenceListDomainScope
  ; PersistenceGetMetadataScope
  ; PersistenceRecordWorkflowExecutionStartedScope
  ; PersistenceRecordWorkflowExecutionClosedScope
  ; PersistenceRecordWorkflowExecutionUninitializedScope
  ; PersistenceUpsertWorkflowExecutionScope
  ; PersistenceListOpenWorkflowExecutionsScope
  ; PersistenceListClosedWorkflowExecutionsScope
  ; PersistenceListOpenWorkflowExecutionsByTypeScope
  ; PersistenceListClosedWorkflowExecutionsByTypeScope
  ; PersistenceListOpenWorkflowExecutionsByWorkflowIDScope
  ; PersistenceListClosedWorkflowExecutionsByWorkflowIDScope
  ; PersistenceListClosedWorkflowExecutionsByStatusScope
  ; PersistenceGetClosedWorkflowExecutionScope
  ; PersistenceVisibilityDeleteWorkflowExecutionScope
  ; PersistenceListWorkflowExecutionsScope
  ; PersistenceScanWorkflowExecutionsScope
  ; PersistenceCountWorkflowExecutionsScope
  ; PersistenceEnqueueMessageScope
  ; PersistenceEnqueueMessageToDLQScope
  ; PersistenceReadQueueMessagesScope
  ; PersistenceReadQueueMessagesFromDLQScope
  ; PersistenceDeleteQueueMessagesScope
  ; PersistenceDeleteQueueMessageFromDLQScope
  ; PersistenceRangeDeleteMessagesFromDLQScope
  ; PersistenceUpdateAckLevelScope
  ; PersistenceGetAckLevelScope
  ; PersistenceUpdateDLQAckLevelScope
  ; PersistenceGetDLQAckLevelScope
  ; PersistenceGetDLQSizeScope
  ; PersistenceFetchDynamicConfigScope
  ; PersistenceUpdateDynamicConfigScope
  ; HistoryClientStartWorkflowExecutionScope
  ; HistoryClientDescribeHistoryHostScope
  ; HistoryClientRemoveTaskScope
  ; HistoryClientCloseShardScope
  ; HistoryClientResetQueueScope
  ; HistoryClientDescribeQueueScope
  ; HistoryClientRecordActivityTaskHeartbeatScope
  ; HistoryClientRespondDecisionTaskCompletedScope
  ; HistoryClientRespondDecisionTaskFailedScope
  ; HistoryClientRespondActivityTaskCompletedScope
  ; HistoryClientRespondActivityTaskFailedScope
  ; HistoryClientRespondActivityTaskCanceledScope
  ; HistoryClientDescribeMutableStateScope
  ; HistoryClientGetMutableStateScope
  ; HistoryClientPollMutableStateScope
  ; HistoryClientResetStickyTaskListScope
  ; HistoryClientDescribeWorkflowExecutionScope
  ; HistoryClientRecordDecisionTaskStartedScope
  ; HistoryClientRecordActivityTaskStartedScope
  ; HistoryClientRequestCancelWorkflowExecutionScope
  ; HistoryClientSignalWorkflowExecutionScope
  ; HistoryClientSignalWithStartWorkflowExecutionScope
  ; HistoryClientRemoveSignalMutableStateScope
  ; HistoryClientTerminateWorkflowExecutionScope
  ; HistoryClientResetWorkflowExecutionScope
  ; HistoryClientScheduleDecisionTaskScope
  ; HistoryClientRecordChildExecutionCompletedScope
  ; HistoryClientReplicateEventsV2Scope
  ; HistoryClientSyncShardStatusScope
  ; HistoryClientSyncActivityScope
  ; HistoryClientGetReplicationTasksScope
  ; HistoryClientGetDLQReplicationTasksScope
  ; HistoryClientQueryWorkflowScope
  ; HistoryClientReapplyEventsScope
  ; HistoryClientCountDLQMessagesScope
  ; HistoryClientReadDLQMessagesScope
  ; HistoryClientPurgeDLQMessagesScope
  ; HistoryClientMergeDLQMessagesScope
  ; HistoryClientRefreshWorkflowTasksScope
  ; HistoryClientNotifyFailoverMarkersScope
  ; HistoryClientGetCrossClusterTasksScope
  ; HistoryClientRespondCrossClusterTasksCompletedScope
  ; HistoryClientGetFailoverInfoScope
  ; MatchingClientPollForDecisionTaskScope
  ; MatchingClientPollForActivityTaskScope
  ; MatchingClientAddActivityTaskScope
  ; MatchingClientAddDecisionTaskScope
  ; MatchingClientQueryWorkflowScope
  ; MatchingClientRespondQueryTaskCompletedScope
  ; MatchingClientCancelOutstandingPollScope
  ; MatchingClientDescribeTaskListScope
  ; MatchingClientListTaskListPartitionsScope
  ; MatchingClientGetTaskListsByDomainScope
  ; FrontendClientDeprecateDomainScope
  ; FrontendClientDescribeDomainScope
  ; FrontendClientDescribeTaskListScope
  ; FrontendClientDescribeWorkflowExecutionScope
  ; FrontendClientGetWorkflowExecutionHistoryScope
  ; FrontendClientGetWorkflowExecutionRawHistoryScope
  ; FrontendClientPollForWorkflowExecutionRawHistoryScope
  ; FrontendClientListArchivedWorkflowExecutionsScope
  ; FrontendClientListClosedWorkflowExecutionsScope
  ; FrontendClientListDomainsScope
  ; FrontendClientListOpenWorkflowExecutionsScope
  ; FrontendClientPollForActivityTaskScope
  ; FrontendClientPollForDecisionTaskScope
  ; FrontendClientQueryWorkflowScope
  ; FrontendClientRecordActivityTaskHeartbeatScope
  ; FrontendClientRecordActivityTaskHeartbeatByIDScope
  ; FrontendClientRegisterDomainScope
  ; FrontendClientRequestCancelWorkflowExecutionScope
  ; FrontendClientResetStickyTaskListScope
  ; FrontendClientRefreshWorkflowTasksScope
  ; FrontendClientResetWorkflowExecutionScope
  ; FrontendClientRespondActivityTaskCanceledScope
  ; FrontendClientRespondActivityTaskCanceledByIDScope
  ; FrontendClientRespondActivityTaskCompletedScope
  ; FrontendClientRespondActivityTaskCompletedByIDScope
  ; FrontendClientRespondActivityTaskFailedScope
  ; FrontendClientRespondActivityTaskFailedByIDScope
  ; FrontendClientRespondDecisionTaskCompletedScope
  ; FrontendClientRespondDecisionTaskFailedScope
  ; FrontendClientRespondQueryTaskCompletedScope
  ; FrontendClientSignalWithStartWorkflowExecutionScope
  ; FrontendClientSignalWorkflowExecutionScope
  ; FrontendClientStartWorkflowExecutionScope
  ; FrontendClientTerminateWorkflowExecutionScope
  ; FrontendClientUpdateDomainScope
  ; FrontendClientListWorkflowExecutionsScope
  ; FrontendClientScanWorkflowExecutionsScope
  ; FrontendClientCountWorkflowExecutionsScope
  ; FrontendClientGetSearchAttributesScope
  ; FrontendClientGetReplicationTasksScope
  ; FrontendClientGetDomainReplicationTasksScope
  ; FrontendClientGetDLQReplicationTasksScope
  ; FrontendClientReapplyEventsScope
  ; FrontendClientGetClusterInfoScope
  ; FrontendClientListTaskListPartitionsScope
  ; FrontendClientGetTaskListsByDomainScope
  ; AdminClientAddSearchAttributeScope
  ; AdminClientCloseShardScope
  ; AdminClientRemoveTaskScope
  ; AdminClientResetQueueScope
  ; AdminClientDescribeQueueScope
  ; AdminClientDescribeHistoryHostScope
  ; AdminClientDescribeShardDistributionScope
  ; AdminClientDescribeWorkflowExecutionScope
  ; AdminClientGetWorkflowExecutionRawHistoryV2Scope
  ; AdminClientDescribeClusterScope
  ; AdminClientCountDLQMessagesScope
  ; AdminClientReadDLQMessagesScope
  ; AdminClientPurgeDLQMessagesScope
  ; AdminClientMergeDLQMessagesScope
  ; AdminClientRefreshWorkflowTasksScope
  ; AdminClientResendReplicationTasksScope
  ; AdminClientGetCrossClusterTasksScope
  ; AdminClientRespondCrossClusterTasksCompletedScope
  ; AdminClientGetDynamicConfigScope
  ; AdminClientUpdateDynamicConfigScope
  ; AdminClientRestoreDynamicConfigScope
  ; AdminClientListDynamicConfigScope
  ; DCRedirectionDeprecateDomainScope
  ; DCRedirectionDescribeDomainScope
  ; DCRedirectionDescribeTaskListScope
  ; DCRedirectionDescribeWorkflowExecutionScope
  ; DCRedirectionGetWorkflowExecutionHistoryScope
  ; DCRedirectionGetWorkflowExecutionRawHistoryScope
  ; DCRedirectionPollForWorklfowExecutionRawHistoryScope
  ; DCRedirectionListArchivedWorkflowExecutionsScope
  ; DCRedirectionListClosedWorkflowExecutionsScope
  ; DCRedirectionListDomainsScope
  ; DCRedirectionListOpenWorkflowExecutionsScope
  ; DCRedirectionListWorkflowExecutionsScope
  ; DCRedirectionScanWorkflowExecutionsScope
  ; DCRedirectionCountWorkflowExecutionsScope
  ; DCRedirectionGetSearchAttributesScope
  ; DCRedirectionPollForActivityTaskScope
  ; DCRedirectionPollForDecisionTaskScope
  ; DCRedirectionQueryWorkflowScope
  ; DCRedirectionRecordActivityTaskHeartbeatScope
  ; DCRedirectionRecordActivityTaskHeartbeatByIDScope
  ; DCRedirectionRegisterDomainScope
  ; DCRedirectionRequestCancelWorkflowExecutionScope
  ; DCRedirectionResetStickyTaskListScope
  ; DCRedirectionResetWorkflowExecutionScope
  ; DCRedirectionRespondActivityTaskCanceledScope
  ; DCRedirectionRespondActivityTaskCanceledByIDScope
  ; DCRedirectionRespondActivityTaskCompletedScope
  ; DCRedirectionRespondActivityTaskCompletedByIDScope
  ; DCRedirectionRespondActivityTaskFailedScope
  ; DCRedirectionRespondActivityTaskFailedByIDScope
  ; DCRedirectionRespondDecisionTaskCompletedScope
  ; DCRedirectionRespondDecisionTaskFailedScope
  ; DCRedirectionRespondQueryTaskCompletedScope
  ; DCRedirectionSignalWithStartWorkflowExecutionScope
  ; DCRedirectionSignalWorkflowExecutionScope
  ; DCRedirectionStartWorkflowExecutionScope
  ; DCRedirectionTerminateWorkflowExecutionScope
  ; DCRedirectionUpdateDomainScope
  ; DCRedirectionListTaskListPartitionsScope
  ; DCRedirectionGetTaskListsByDomainScope
  ; DCRedirectionRefreshWorkflowTasksScope
  ; MessagingClientPublishScope
  ; MessagingClientPublishBatchScope
  ; MessagingClientConsumerScope
  ; DomainCacheScope
  ; HistoryRereplicationByTransferTaskScope
  ; HistoryRereplicationByTimerTaskScope
  ; HistoryRereplicationByHistoryReplicationScope
  ; HistoryRereplicationByHistoryMetadataReplicationScope
  ; HistoryRereplicationByActivityReplicationScope
  ; PersistenceAppendHistoryNodesScope
  ; PersistenceReadHistoryBranchScope
  ; PersistenceForkHistoryBranchScope
  ; PersistenceDeleteHistoryBranchScope
  ; PersistenceCompleteForkBranchScope
  ; PersistenceGetHistoryTreeScope
  ; PersistenceGetAllHistoryTreeBranchesScope
  ; ClusterMetadataArchivalConfigScope
  ; ElasticsearchRecordWorkflowExecutionStartedScope
  ; ElasticsearchRecordWorkflowExecutionClosedScope
  ; ElasticsearchRecordWorkflowExecutionUninitializedScope
  ; ElasticsearchUpsertWorkflowExecutionScope
  ; ElasticsearchListOpenWorkflowExecutionsScope
  ; ElasticsearchListClosedWorkflowExecutionsScope
  ; ElasticsearchListOpenWorkflowExecutionsByTypeScope
  ; ElasticsearchListClosedWorkflowExecutionsByTypeScope
  ; ElasticsearchListOpenWorkflowExecutionsByWorkflowIDScope
  ; ElasticsearchListClosedWorkflowExecutionsByWorkflowIDScope
  ; ElasticsearchListClosedWorkflowExecutionsByStatusScope
  ; ElasticsearchGetClosedWorkflowExecutionScope
  ; ElasticsearchListWorkflowExecutionsScope
  ; ElasticsearchScanWorkflowExecutionsScope
  ; ElasticsearchCountWorkflowExecutionsScope
  ; ElasticsearchDeleteWorkflowExecutionsScope
  ; SequentialTaskProcessingScope
  ; ParallelTaskProcessingScope
  ; TaskSchedulerScope
  ; HistoryArchiverScope
  ; VisibilityArchiverScope
  ; BlobstoreClientUploadScope
  ; BlobstoreClientDownloadScope
  ; BlobstoreClientGetMetadataScope
  ; BlobstoreClientExistsScope
  ; BlobstoreClientDeleteScope
  ; BlobstoreClientDirectoryExistsScope
  ; DomainFailoverScope
  ; DomainReplicationQueueScope
  ].

(** The constants of the Admin scope block, in declaration order. *)
Definition AdminScopes : list Z :=
  [ AdminDescribeHistoryHostScope
  ; AdminAddSearchAttributeScope
  ; AdminDescribeWorkflowExecutionScope
  ; AdminGetWorkflowExecutionRawHistoryScope
  ; AdminGetWorkflowExecutionRawHistoryV2Scope
  ; AdminGetReplicationMessagesScope
  ; AdminGetDomainReplicationMessagesScope
  ; AdminGetDLQReplicationMessagesScope
  ; AdminReapplyEventsScope
  ; AdminRefreshWorkflowTasksScope
  ; AdminResendReplicationTasksScope
  ; AdminRemoveTaskScope
  ; AdminCloseShardScope
  ; AdminResetQueueScope
  ; AdminDescribeQueueScope
  ; AdminCountDLQMessagesScope
  ; AdminReadDLQMessagesScope
  ; AdminPurgeDLQMessagesScope
  ; AdminMergeDLQMessagesScope
  ; AdminDescribeShardDistributionScope
  ; AdminGetCrossClusterTasksScope
  ; AdminRespondCrossClusterTasksCompletedScope
  ; AdminGetDynamicConfigScope
  ; AdminUpdateDynamicConfigScope
  ; AdminRestoreDynamicConfigScope
  ; AdminListDynamicConfigScope
  ; AdminDeleteWorkflowScope
  ; MaintainCorruptWorkflowScope
  ].

(** The constants of the Frontend scope block, in declaration order. *)
Definition FrontendScopes : list Z :=
  [ FrontendRestartWorkflowExecutionScope
  ; FrontendStartWorkflowExecutionScope
  ; FrontendPollForDecisionTaskScope
  ; FrontendPollForActivityTaskScope
  ; FrontendRecordActivityTaskHeartbeatScope
  ; FrontendRecordActivityTaskHeartbeatByIDScope
  ; FrontendRespondDecisionTaskCompletedScope
  ; FrontendRespondDecisionTaskFailedScope
  ; FrontendRespondQueryTaskCompletedScope
  ; FrontendRespondActivityTaskCompletedScope
  ; FrontendRespondActivityTaskFailedScope
  ; FrontendRespondActivityTaskCanceledScope
  ; FrontendRespondActivityTaskCompletedByIDScope
  ; FrontendRespondActivityTaskFailedByIDScope
  ; FrontendRespondActivityTaskCanceledByIDScope
  ; FrontendGetWorkflowExecutionHistoryScope
  ; FrontendGetWorkflowExecutionRawHistoryScope
  ; FrontendPollForWorklfowExecutionRawHistoryScope
  ; FrontendSignalWorkflowExecutionScope
  ; FrontendSignalWithStartWorkflowExecutionScope
  ; FrontendTerminateWorkflowExecutionScope
  ; FrontendRequestCancelWorkflowExecutionScope
  ; FrontendListArchivedWorkflowExecutionsScope
  ; FrontendListOpenWorkflowExecutionsScope
  ; FrontendListClosedWorkflowExecutionsScope
  ; FrontendListWorkflowExecutionsScope
  ; FrontendScanWorkflowExecutionsScope
  ; FrontendCountWorkflowExecutionsScope
  ; FrontendRegisterDomainScope
  ; FrontendDescribeDomainScope
  ; FrontendUpdateDomainScope
  ; FrontendDeprecateDomainScope
  ; FrontendQueryWorkflowScope
  ; FrontendDescribeWorkflowExecutionScope
  ; FrontendDescribeTaskListScope
  ; FrontendListTaskListPartitionsScope
  ; FrontendGetTaskListsByDomainScope
  ; FrontendRefreshWorkflowTasksScope
  ; FrontendResetStickyTaskListScope
  ; FrontendListDomainsScope
  ; FrontendResetWorkflowExecutionScope
  ; FrontendGetSearchAttributesScope
  ].

(** The constants of the History scope block, in declaration order. *)
Definition HistoryScopes : list Z :=
  [ HistoryStartWorkflowExecutionScope
  ; HistoryRecordActivityTaskHeartbeatScope
  ; HistoryRespondDecisionTaskCompletedScope
  ; HistoryRespondDecisionTaskFailedScope
  ; HistoryRespondActivityTaskCompletedScope
  ; HistoryRespondActivityTaskFailedScope
  ; HistoryRespondActivityTaskCanceledScope
  ; HistoryResetQueueScope
  ; HistoryDescribeQueueScope
  ; HistoryDescribeMutabelStateScope
  ; HistoryGetMutableStateScope
  ; HistoryPollMutableStateScope
  ; HistoryResetStickyTaskListScope
  ; HistoryDescribeWorkflowExecutionScope
  ; HistoryRecordDecisionTaskStartedScope
  ; HistoryRecordActivityTaskStartedScope
  ; HistorySignalWorkflowExecutionScope
  ; HistorySignalWithStartWorkflowExecutionScope
  ; HistoryRemoveSignalMutableStateScope
  ; HistoryTerminateWorkflowExecutionScope
  ; HistoryScheduleDecisionTaskScope
  ; HistoryRecordChildExecutionCompletedScope
  ; HistoryRequestCancelWorkflowExecutionScope
  ; HistoryReplicateEventsScope
  ; HistoryReplicateRawEventsScope
  ; HistoryReplicateEventsV2Scope
  ; HistorySyncShardStatusScope
  ; HistorySyncActivityScope
  ; HistoryDescribeMutableStateScope
  ; HistoryGetReplicationMessagesScope
  ; HistoryGetDLQReplicationMessagesScope
  ; HistoryCountDLQMessagesScope
  ; HistoryReadDLQMessagesScope
  ; HistoryPurgeDLQMessagesScope
  ; HistoryMergeDLQMessagesScope
  ; HistoryShardControllerScope
  ; HistoryReapplyEventsScope
  ; HistoryRefreshWorkflowTasksScope
  ; HistoryNotifyFailoverMarkersScope
  ; HistoryGetCrossClusterTasksScope
  ; HistoryRespondCrossClusterTasksCompletedScope
  ; HistoryGetFailoverInfoScope
  ; TaskPriorityAssignerScope
  ; TransferQueueProcessorScope
  ; TransferActiveQueueProcessorScope
  ; TransferStandbyQueueProcessorScope
  ; TransferActiveTaskActivityScope
  ; TransferActiveTaskDecisionScope
  ; TransferActiveTaskCloseExecutionScope
  ; TransferActiveTaskCancelExecutionScope
  ; TransferActiveTaskSignalExecutionScope
  ; TransferActiveTaskStartChildExecutionScope
  ; TransferActiveTaskRecordWorkflowStartedScope
  ; TransferActiveTaskResetWorkflowScope
  ; TransferActiveTaskUpsertWorkflowSearchAttributesScope
  ; TransferActiveTaskRecordWorkflowClosedScope
  ; TransferActiveTaskRecordChildExecutionCompletedScope
  ; TransferActiveTaskApplyParentClosePolicyScope
  ; TransferStandbyTaskResetWorkflowScope
  ; TransferStandbyTaskActivityScope
  ; TransferStandbyTaskDecisionScope
  ; TransferStandbyTaskCloseExecutionScope
  ; TransferStandbyTaskCancelExecutionScope
  ; TransferStandbyTaskSignalExecutionScope
  ; TransferStandbyTaskStartChildExecutionScope
  ; TransferStandbyTaskRecordWorkflowStartedScope
  ; TransferStandbyTaskUpsertWorkflowSearchAttributesScope
  ; TransferStandbyTaskRecordWorkflowClosedScope
  ; TransferStandbyTaskRecordChildExecutionCompletedScope
  ; TransferStandbyTaskApplyParentClosePolicyScope
  ; TimerQueueProcessorScope
  ; TimerActiveQueueProcessorScope
  ; TimerStandbyQueueProcessorScope
  ; TimerActiveTaskActivityTimeoutScope
  ; TimerActiveTaskDecisionTimeoutScope
  ; TimerActiveTaskUserTimerScope
  ; TimerActiveTaskWorkflowTimeoutScope
  ; TimerActiveTaskActivityRetryTimerScope
  ; TimerActiveTaskWorkflowBackoffTimerScope
  ; TimerActiveTaskDeleteHistoryEventScope
  ; TimerStandbyTaskActivityTimeoutScope
  ; TimerStandbyTaskDecisionTimeoutScope
  ; TimerStandbyTaskUserTimerScope
  ; TimerStandbyTaskWorkflowTimeoutScope
  ; TimerStandbyTaskActivityRetryTimerScope
  ; TimerStandbyTaskDeleteHistoryEventScope
  ; TimerStandbyTaskWorkflowBackoffTimerScope
  ; CrossClusterQueueProcessorScope
  ; CrossClusterTaskProcessorScope
  ; CrossClusterTaskFetcherScope
  ; CrossClusterSourceTaskStartChildExecutionScope
  ; CrossClusterSourceTaskCancelExecutionScope
  ; CrossClusterSourceTaskSignalExecutionScope
  ; CrossClusterSourceTaskRecordChildWorkflowExecutionCompleteScope
  ; CrossClusterSourceTaskApplyParentClosePolicyScope
  ; CrossClusterTargetTaskStartChildExecutionScope
  ; CrossClusterTargetTaskCancelExecutionScope
  ; CrossClusterTargetTaskSignalExecutionScope
  ; CrossClusterTargetTaskRecordChildWorkflowExecutionCompleteScope
  ; CrossClusterTargetTaskApplyParentClosePolicyScope
  ; HistoryEventNotificationScope
  ; ReplicatorQueueProcessorScope
  ; ReplicatorCacheManagerScope
  ; ReplicatorTaskHistoryScope
  ; ReplicatorTaskSyncActivityScope
  ; ReplicateHistoryEventsScope
  ; ReplicationMetricEmitterScope
  ; ShardInfoScope
  ; WorkflowContextScope
  ; HistoryCacheGetAndCreateScope
  ; HistoryCacheGetOrCreateScope
  ; HistoryCacheGetOrCreateCurrentScope
  ; HistoryCacheGetCurrentExecutionScope
  ; EventsCacheGetEventScope
  ; EventsCachePutEventScope
  ; EventsCacheGetFromStoreScope
  ; ExecutionSizeStatsScope
  ; ExecutionCountStatsScope
  ; SessionSizeStatsScope
  ; SessionCountStatsScope
  ; HistoryResetWorkflowExecutionScope
  ; HistoryQueryWorkflowScope
  ; HistoryProcessDeleteHistoryEventScope
  ; WorkflowCompletionStatsScope
  ; ArchiverClientScope
  ; ReplicationTaskFetcherScope
  ; ReplicationTaskCleanupScope
  ; ReplicationDLQStatsScope
  ; FailoverMarkerScope
  ; HistoryReplicationV2TaskScope
  ; SyncActivityTaskScope
  ].

(** The constants of the Matching scope block, in declaration order. *)
Definition MatchingScopes : list Z :=
  [ MatchingPollForDecisionTaskScope
  ; MatchingPollForActivityTaskScope
  ; MatchingAddActivityTaskScope
  ; MatchingAddDecisionTaskScope
  ; MatchingTaskListMgrScope
  ; MatchingQueryWorkflowScope
  ; MatchingRespondQueryTaskCompletedScope
  ; MatchingCancelOutstandingPollScope
  ; MatchingDescribeTaskListScope
  ; MatchingListTaskListPartitionsScope
  ; MatchingGetTaskListsByDomainScope
  ].

(** The constants of the Worker scope block, in declaration order. *)
Definition WorkerScopes : list Z :=
  [ ReplicatorScope
  ; DomainReplicationTaskScope
  ; ESProcessorScope
  ; IndexProcessorScope
  ; ArchiverDeleteHistoryActivityScope
  ; ArchiverUploadHistoryActivityScope
  ; ArchiverArchiveVisibilityActivityScope
  ; ArchiverScope
  ; ArchiverPumpScope
  ; ArchiverArchivalWorkflowScope
  ; TaskListScavengerScope
  ; ExecutionsScannerScope
  ; ExecutionsFixerScope
  ; BatcherScope
  ; HistoryScavengerScope
  ; ParentClosePolicyProcessorScope
  ; ShardScannerScope
  ; CheckDataCorruptionWorkflowScope
  ; ESAnalyzerScope
  ; WatchDogScope
  ].

Definition ScopeDefs_Common : list (Z * scopeDefinition) :=
  [ (PersistenceCreateShardScope, {| operation := "CreateShard"; tags := ∅ |})
  ; (PersistenceGetShardScope, {| operation := "GetShard"; tags := ∅ |})
  ; (PersistenceUpdateShardScope, {| operation := "UpdateShard"; tags := ∅ |})
  ; (PersistenceCreateWorkflowExecutionScope, {| operation := "CreateWorkflowExecution"; tags := ∅ |})
  ; (PersistenceGetWorkflowExecutionScope, {| operation := "GetWorkflowExecution"; tags := ∅ |})
  ; (PersistenceUpdateWorkflowExecutionScope, {| operation := "UpdateWorkflowExecution"; tags := ∅ |})
  ; (PersistenceConflictResolveWorkflowExecutionScope, {| operation := "ConflictResolveWorkflowExecution"; tags := ∅ |})
  ; (PersistenceResetWorkflowExecutionScope, {| operation := "ResetWorkflowExecution"; tags := ∅ |})
  ; (PersistenceDeleteWorkflowExecutionScope, {| operation := "DeleteWorkflowExecution"; tags := ∅ |})
  ; (PersistenceDeleteCurrentWorkflowExecutionScope, {| operation := "DeleteCurrentWorkflowExecution"; tags := ∅ |})
  ; (PersistenceGetCurrentExecutionScope, {| operation := "GetCurrentExecution"; tags := ∅ |})
  ; (PersistenceIsWorkflowExecutionExistsScope, {| operation := "IsWorkflowExecutionExists"; tags := ∅ |})
  ; (PersistenceListCurrentExecutionsScope, {| operation := "ListCurrentExecutions"; tags := ∅ |})
  ; (PersistenceListConcreteExecutionsScope, {| operation := "ListConcreteExecutions"; tags := ∅ |})
  ; (PersistenceGetTransferTasksScope, {| operation := "GetTransferTasks"; tags := ∅ |})
  ; (PersistenceCompleteTransferTaskScope, {| operation := "CompleteTransferTask"; tags := ∅ |})
  ; (PersistenceRangeCompleteTransferTaskScope, {| operation := "RangeCompleteTransferTask"; tags := ∅ |})
  ; (PersistenceGetCrossClusterTasksScope, {| operation := "GetCrossClusterTasks"; tags := ∅ |})
  ; (PersistenceCompleteCrossClusterTaskScope, {| operation := "GetCrossClusterTasks"; tags := ∅ |})
  ; (PersistenceRangeCompleteCrossClusterTaskScope, {| operation := "GetCrossClusterTasks"; tags := ∅ |})
  ; (PersistenceGetReplicationTasksScope, {| operation := "GetReplicationTasks"; tags := ∅ |})
  ; (PersistenceCompleteReplicationTaskScope, {| operation := "CompleteReplicationTask"; tags := ∅ |})
  ; (PersistenceRangeCompleteReplicationTaskScope, {| operation := "RangeCompleteReplicationTask"; tags := ∅ |})
  ; (PersistencePutReplicationTaskToDLQScope, {| operation := "PutReplicationTaskToDLQ"; tags := ∅ |})
  ; (PersistenceGetReplicationTasksFromDLQScope, {| operation := "GetReplicationTasksFromDLQ"; tags := ∅ |})
  ; (PersistenceGetReplicationDLQSizeScope, {| operation := "GetReplicationDLQSize"; tags := ∅ |})
  ; (PersistenceDeleteReplicationTaskFromDLQScope, {| operation := "DeleteReplicationTaskFromDLQ"; tags := ∅ |})
  ; (PersistenceRangeDeleteReplicationTaskFromDLQScope, {| operation := "RangeDeleteReplicationTaskFromDLQ"; tags := ∅ |})
  ; (PersistenceCreateFailoverMarkerTasksScope, {| operation := "CreateFailoverMarkerTasks"; tags := ∅ |})
  ; (PersistenceGetTimerIndexTasksScope, {| operation := "GetTimerIndexTasks"; tags := ∅ |})
  ; (PersistenceCompleteTimerTaskScope, {| operation := "CompleteTimerTask"; tags := ∅ |})
  ; (PersistenceRangeCompleteTimerTaskScope, {| operation := "RangeCompleteTimerTask"; tags := ∅ |})
  ; (PersistenceCreateTaskScope, {| operation := "CreateTask"; tags := ∅ |})
  ; (PersistenceGetTasksScope, {| operation := "GetTasks"; tags := ∅ |})
  ; (PersistenceCompleteTaskScope, {| operation := "CompleteTask"; tags := ∅ |})
  ; (PersistenceCompleteTasksLessThanScope, {| operation := "CompleteTasksLessThan"; tags := ∅ |})
  ; (PersistenceGetOrphanTasksScope, {| operation := "GetOrphanTasks"; tags := ∅ |})
  ; (PersistenceLeaseTaskListScope, {| operation := "LeaseTaskList"; tags := ∅ |})
  ; (PersistenceUpdateTaskListScope, {| operation := "UpdateTaskList"; tags := ∅ |})
  ; (PersistenceListTaskListScope, {| operation := "ListTaskList"; tags := ∅ |})
  ; (PersistenceDeleteTaskListScope, {| operation := "DeleteTaskList"; tags := ∅ |})
  ; (PersistenceAppendHistoryEventsScope, {| operation := "AppendHistoryEvents"; tags := ∅ |})
  ; (PersistenceGetWorkflowExecutionHistoryScope, {| operation := "GetWorkflowExecutionHistory"; tags := ∅ |})
  ; (PersistenceDeleteWorkflowExecutionHistoryScope, {| operation := "DeleteWorkflowExecutionHistory"; tags := ∅ |})
  ; (PersistenceCreateDomainScope, {| operation := "CreateDomain"; tags := ∅ |})
  ; (PersistenceGetDomainScope, {| operation := "GetDomain"; tags := ∅ |})
  ; (PersistenceUpdateDomainScope, {| operation := "UpdateDomain"; tags := ∅ |})
  ; (PersistenceDeleteDomainScope, {| operation := "DeleteDomain"; tags := ∅ |})
  ; (PersistenceDeleteDomainByNameScope, {| operation := "DeleteDomainByName"; tags := ∅ |})
  ; (PersistenceListDomainScope, {| operation := "ListDomain"; tags := ∅ |})
  ; (PersistenceGetMetadataScope, {| operation := "GetMetadata"; tags := ∅ |})
  ; (PersistenceRecordWorkflowExecutionStartedScope, {| operation := "RecordWorkflowExecutionStarted"; tags := ∅ |})
  ; (PersistenceRecordWorkflowExecutionClosedScope, {| operation := "RecordWorkflowExecutionClosed"; tags := ∅ |})
  ; (PersistenceRecordWorkflowExecutionUninitializedScope, {| operation := "RecordWorkflowExecutionUninitialized"; tags := ∅ |})
  ; (PersistenceUpsertWorkflowExecutionScope, {| operation := "UpsertWorkflowExecution"; tags := ∅ |})
  ; (PersistenceListOpenWorkflowExecutionsScope, {| operation := "ListOpenWorkflowExecutions"; tags := ∅ |})
  ; (PersistenceListClosedWorkflowExecutionsScope, {| operation := "ListClosedWorkflowExecutions"; tags := ∅ |})
  ; (PersistenceListOpenWorkflowExecutionsByTypeScope, {| operation := "ListOpenWorkflowExecutionsByType"; tags := ∅ |})
  ; (PersistenceListClosedWorkflowExecutionsByTypeScope, {| operation := "ListClosedWorkflowExecutionsByType"; tags := ∅ |})
  ; (PersistenceListOpenWorkflowExecutionsByWorkflowIDScope, {| operation := "ListOpenWorkflowExecutionsByWorkflowID"; tags := ∅ |})
  ; (PersistenceListClosedWorkflowExecutionsByWorkflowIDScope, {| operation := "ListClosedWorkflowExecutionsByWorkflowID"; tags := ∅ |})
  ; (PersistenceListClosedWorkflowExecutionsByStatusScope, {| operation := "ListClosedWorkflowExecutionsByStatus"; tags := ∅ |})
  ; (PersistenceGetClosedWorkflowExecutionScope, {| operation := "GetClosedWorkflowExecution"; tags := ∅ |})
  ; (PersistenceVisibilityDeleteWorkflowExecutionScope, {| operation := "VisibilityDeleteWorkflowExecution"; tags := ∅ |})
  ; (PersistenceListWorkflowExecutionsScope, {| operation := "ListWorkflowExecutions"; tags := ∅ |})
  ; (PersistenceScanWorkflowExecutionsScope, {| operation := "ScanWorkflowExecutions"; tags := ∅ |})
  ; (PersistenceCountWorkflowExecutionsScope, {| operation := "CountWorkflowExecutions"; tags := ∅ |})
  ; (PersistenceAppendHistoryNodesScope, {| operation := "AppendHistoryNodes"; tags := ∅ |})
  ; (PersistenceReadHistoryBranchScope, {| operation := "ReadHistoryBranch"; tags := ∅ |})
  ; (PersistenceForkHistoryBranchScope, {| operation := "ForkHistoryBranch"; tags := ∅ |})
  ; (PersistenceDeleteHistoryBranchScope, {| operation := "DeleteHistoryBranch"; tags := ∅ |})
  ; (PersistenceCompleteForkBranchScope, {| operation := "CompleteForkBranch"; tags := ∅ |})
  ; (PersistenceGetHistoryTreeScope, {| operation := "GetHistoryTree"; tags := ∅ |})
  ; (PersistenceGetAllHistoryTreeBranchesScope, {| operation := "GetAllHistoryTreeBranches"; tags := ∅ |})
  ; (PersistenceEnqueueMessageScope, {| operation := "EnqueueMessage"; tags := ∅ |})
  ; (PersistenceEnqueueMessageToDLQScope, {| operation := "EnqueueMessageToDLQ"; tags := ∅ |})
  ; (PersistenceReadQueueMessagesScope, {| operation := "ReadQueueMessages"; tags := ∅ |})
  ; (PersistenceReadQueueMessagesFromDLQScope, {| operation := "ReadQueueMessagesFromDLQ"; tags := ∅ |})
  ; (PersistenceDeleteQueueMessagesScope, {| operation := "DeleteQueueMessages"; tags := ∅ |})
  ; (PersistenceDeleteQueueMessageFromDLQScope, {| operation := "DeleteQueueMessageFromDLQ"; tags := ∅ |})
  ; (PersistenceRangeDeleteMessagesFromDLQScope, {| operation := "RangeDeleteMessagesFromDLQ"; tags := ∅ |})
  ; (PersistenceUpdateAckLevelScope, {| operation := "UpdateAckLevel"; tags := ∅ |})
  ; (PersistenceGetAckLevelScope, {| operation := "GetAckLevel"; tags := ∅ |})
  ; (PersistenceUpdateDLQAckLevelScope, {| operation := "UpdateDLQAckLevel"; tags := ∅ |})
  ; (PersistenceGetDLQAckLevelScope, {| operation := "GetDLQAckLevel"; tags := ∅ |})
  ; (PersistenceGetDLQSizeScope, {| operation := "GetDLQSize"; tags := ∅ |})
  ; (PersistenceFetchDynamicConfigScope, {| operation := "FetchDynamicConfig"; tags := ∅ |})
  ; (PersistenceUpdateDynamicConfigScope, {| operation := "UpdateDynamicConfig"; tags := ∅ |})
  ; (ClusterMetadataArchivalConfigScope, {| operation := "ArchivalConfig"; tags := ∅ |})
  ; (HistoryClientStartWorkflowExecutionScope, {| operation := "HistoryClientStartWorkflowExecution"; tags := {[ CadenceRoleTagName := HistoryClientRoleTagValue ]} |})
  ; (HistoryClientDescribeHistoryHostScope, {| operation := "HistoryClientDescribeHistoryHost"; tags := {[ CadenceRoleTagName := HistoryClientRoleTagValue ]} |})
  ; (HistoryClientRemoveTaskScope, {| operation := "HistoryClientRemoveTask"; tags := {[ CadenceRoleTagName := HistoryClientRoleTagValue ]} |})
  ; (HistoryClientCloseShardScope, {| operation := "HistoryClientCloseShard"; tags := {[ CadenceRoleTagName := HistoryClientRoleTagValue ]} |})
  ; (HistoryClientResetQueueScope, {| operation := "HistoryClientResetQueue"; tags := {[ CadenceRoleTagName := HistoryClientRoleTagValue ]} |})
  ; (HistoryClientDescribeQueueScope, {| operation := "HistoryClientDescribeQueue"; tags := {[ CadenceRoleTagName := HistoryClientRoleTagValue ]} |})
  ; (HistoryClientRecordActivityTaskHeartbeatScope, {| operation := "HistoryClientRecordActivityTaskHeartbeat"; tags := {[ CadenceRoleTagName := HistoryClientRoleTagValue ]} |})
  ; (HistoryClientRespondDecisionTaskCompletedScope, {| operation := "HistoryClientRespondDecisionTaskCompleted"; tags := {[ CadenceRoleTagName := HistoryClientRoleTagValue ]} |})
  ; (HistoryClientRespondDecisionTaskFailedScope, {| operation := "HistoryClientRespondDecisionTaskFailed"; tags := {[ CadenceRoleTagName := HistoryClientRoleTagValue ]} |})
  ; (HistoryClientRespondActivityTaskCompletedScope, {| operation := "HistoryClientRespondActivityTaskCompleted"; tags := {[ CadenceRoleTagName := HistoryClientRoleTagValue ]} |})
  ; (HistoryClientRespondActivityTaskFailedScope, {| operation := "HistoryClientRespondActivityTaskFailed"; tags := {[ CadenceRoleTagName := HistoryClientRoleTagValue ]} |})
  ; (HistoryClientRespondActivityTaskCanceledScope, {| operation := "HistoryClientRespondActivityTaskCanceled"; tags := {[ CadenceRoleTagName := HistoryClientRoleTagValue ]} |})
  ; (HistoryClientDescribeMutableStateScope, {| operation := "HistoryClientDescribeMutableState"; tags := {[ CadenceRoleTagName := HistoryClientRoleTagValue ]} |})
  ; (HistoryClientGetMutableStateScope, {| operation := "HistoryClientGetMutableState"; tags := {[ CadenceRoleTagName := HistoryClientRoleTagValue ]} |})
  ; (HistoryClientPollMutableStateScope, {| operation := "HistoryClientPollMutableState"; tags := {[ CadenceRoleTagName := HistoryClientRoleTagValue ]} |})
  ; (HistoryClientResetStickyTaskListScope, {| operation := "HistoryClientResetStickyTaskListScope"; tags := {[ CadenceRoleTagName := HistoryClientRoleTagValue ]} |})
  ; (HistoryClientDescribeWorkflowExecutionScope, {| operation := "HistoryClientDescribeWorkflowExecution"; tags := {[ CadenceRoleTagName := HistoryClientRoleTagValue ]} |})
  ; (HistoryClientRecordDecisionTaskStartedScope, {| operation := "HistoryClientRecordDecisionTaskStarted"; tags := {[ CadenceRoleTagName := HistoryClientRoleTagValue ]} |})
  ; (HistoryClientRecordActivityTaskStartedScope, {| operation := "HistoryClientRecordActivityTaskStarted"; tags := {[ CadenceRoleTagName := HistoryClientRoleTagValue ]} |})
  ; (HistoryClientRequestCancelWorkflowExecutionScope, {| operation := "HistoryClientRequestCancelWorkflowExecution"; tags := {[ CadenceRoleTagName := HistoryClientRoleTagValue ]} |})
  ; (HistoryClientSignalWorkflowExecutionScope, {| operation := "HistoryClientSignalWorkflowExecution"; tags := {[ CadenceRoleTagName := HistoryClientRoleTagValue ]} |})
  ; (HistoryClientSignalWithStartWorkflowExecutionScope, {| operation := "HistoryClientSignalWithStartWorkflowExecution"; tags := {[ CadenceRoleTagName := HistoryClientRoleTagValue ]} |})
  ; (HistoryClientRemoveSignalMutableStateScope, {| operation := "HistoryClientRemoveSignalMutableStateScope"; tags := {[ CadenceRoleTagName := HistoryClientRoleTagValue ]} |})
  ; (HistoryClientTerminateWorkflowExecutionScope, {| operation := "HistoryClientTerminateWorkflowExecution"; tags := {[ CadenceRoleTagName := HistoryClientRoleTagValue ]} |})
  ; (HistoryClientResetWorkflowExecutionScope, {| operation := "HistoryClientResetWorkflowExecution"; tags := {[ CadenceRoleTagName := HistoryClientRoleTagValue ]} |})
  ; (HistoryClientScheduleDecisionTaskScope, {| operation := "HistoryClientScheduleDecisionTask"; tags := {[ CadenceRoleTagName := HistoryClientRoleTagValue ]} |})
  ; (HistoryClientRecordChildExecutionCompletedScope, {| operation := "HistoryClientRecordChildExecutionCompleted"; tags := {[ CadenceRoleTagName := HistoryClientRoleTagValue ]} |})
  ; (HistoryClientReplicateEventsV2Scope, {| operation := "HistoryClientReplicateEventsV2"; tags := {[ CadenceRoleTagName := HistoryClientRoleTagValue ]} |})
  ; (HistoryClientSyncShardStatusScope, {| operation := "HistoryClientSyncShardStatusScope"; tags := {[ CadenceRoleTagName := HistoryClientRoleTagValue ]} |})
  ; (HistoryClientSyncActivityScope, {| operation := "HistoryClientSyncActivityScope"; tags := {[ CadenceRoleTagName := HistoryClientRoleTagValue ]} |})
  ; (HistoryClientGetReplicationTasksScope, {| operation := "HistoryClientGetReplicationTasksScope"; tags := {[ CadenceRoleTagName := HistoryClientRoleTagValue ]} |})
  ; (HistoryClientGetDLQReplicationTasksScope, {| operation := "HistoryClientGetDLQReplicationTasksScope"; tags := {[ CadenceRoleTagName := HistoryClientRoleTagValue ]} |})
  ; (HistoryClientQueryWorkflowScope, {| operation := "HistoryClientQueryWorkflowScope"; tags := {[ CadenceRoleTagName := HistoryClientRoleTagValue ]} |})
  ; (HistoryClientReapplyEventsScope, {| operation := "HistoryClientReapplyEventsScope"; tags := {[ CadenceRoleTagName := HistoryClientRoleTagValue ]} |})
  ; (HistoryClientCountDLQMessagesScope, {| operation := "HistoryClientCountDLQMessagesScope"; tags := {[ CadenceRoleTagName := HistoryClientRoleTagValue ]} |})
  ; (HistoryClientReadDLQMessagesScope, {| operation := "HistoryClientReadDLQMessagesScope"; tags := {[ CadenceRoleTagName := HistoryClientRoleTagValue ]} |})
  ; (HistoryClientPurgeDLQMessagesScope, {| operation := "HistoryClientPurgeDLQMessagesScope"; tags := {[ CadenceRoleTagName := HistoryClientRoleTagValue ]} |})
  ; (HistoryClientMergeDLQMessagesScope, {| operation := "HistoryClientMergeDLQMessagesScope"; tags := {[ CadenceRoleTagName := HistoryClientRoleTagValue ]} |})
  ; (HistoryClientRefreshWorkflowTasksScope, {| operation := "HistoryClientRefreshWorkflowTasksScope"; tags := {[ CadenceRoleTagName := HistoryClientRoleTagValue ]} |})
  ; (HistoryClientNotifyFailoverMarkersScope, {| operation := "HistoryClientNotifyFailoverMarkersScope"; tags := {[ CadenceRoleTagName := HistoryClientRoleTagValue ]} |})
  ; (HistoryClientGetCrossClusterTasksScope, {| operation := "HistoryClientGetCrossClusterTasks"; tags := {[ CadenceRoleTagName := HistoryClientRoleTagValue ]} |})
  ; (HistoryClientRespondCrossClusterTasksCompletedScope, {| operation := "HistoryClientRespondCrossClusterTasksCompleted"; tags := {[ CadenceRoleTagName := HistoryClientRoleTagValue ]} |})
  ; (HistoryClientGetFailoverInfoScope, {| operation := "HistoryClientGetFailoverInfo"; tags := {[ CadenceRoleTagName := HistoryClientRoleTagValue ]} |})
  ; (MatchingClientPollForDecisionTaskScope, {| operation := "MatchingClientPollForDecisionTask"; tags := {[ CadenceRoleTagName := MatchingClientRoleTagValue ]} |})
  ; (MatchingClientPollForActivityTaskScope, {| operation := "MatchingClientPollForActivityTask"; tags := {[ CadenceRoleTagName := MatchingClientRoleTagValue ]} |})
  ; (MatchingClientAddActivityTaskScope, {| operation := "MatchingClientAddActivityTask"; tags := {[ CadenceRoleTagName := MatchingClientRoleTagValue ]} |})
  ; (MatchingClientAddDecisionTaskScope, {| operation := "MatchingClientAddDecisionTask"; tags := {[ CadenceRoleTagName := MatchingClientRoleTagValue ]} |})
  ; (MatchingClientQueryWorkflowScope, {| operation := "MatchingClientQueryWorkflow"; tags := {[ CadenceRoleTagName := MatchingClientRoleTagValue ]} |})
  ; (MatchingClientRespondQueryTaskCompletedScope, {| operation := "MatchingClientRespondQueryTaskCompleted"; tags := {[ CadenceRoleTagName := MatchingClientRoleTagValue ]} |})
  ; (MatchingClientCancelOutstandingPollScope, {| operation := "MatchingClientCancelOutstandingPoll"; tags := {[ CadenceRoleTagName := MatchingClientRoleTagValue ]} |})
  ; (MatchingClientDescribeTaskListScope, {| operation := "MatchingClientDescribeTaskList"; tags := {[ CadenceRoleTagName := MatchingClientRoleTagValue ]} |})
  ; (MatchingClientListTaskListPartitionsScope, {| operation := "MatchingClientListTaskListPartitions"; tags := {[ CadenceRoleTagName := MatchingClientRoleTagValue ]} |})
  ; (MatchingClientGetTaskListsByDomainScope, {| operation := "MatchingClientGetTaskListsByDomain"; tags := {[ CadenceRoleTagName := MatchingClientRoleTagValue ]} |})
  ; (FrontendClientDeprecateDomainScope, {| operation := "FrontendClientDeprecateDomain"; tags := {[ CadenceRoleTagName := FrontendClientRoleTagValue ]} |})
  ; (FrontendClientDescribeDomainScope, {| operation := "FrontendClientDescribeDomain"; tags := {[ CadenceRoleTagName := FrontendClientRoleTagValue ]} |})
  ; (FrontendClientDescribeTaskListScope, {| operation := "FrontendClientDescribeTaskList"; tags := {[ CadenceRoleTagName := FrontendClientRoleTagValue ]} |})
  ; (FrontendClientDescribeWorkflowExecutionScope, {| operation := "FrontendClientDescribeWorkflowExecution"; tags := {[ CadenceRoleTagName := FrontendClientRoleTagValue ]} |})
  ; (FrontendClientGetWorkflowExecutionHistoryScope, {| operation := "FrontendClientGetWorkflowExecutionHistory"; tags := {[ CadenceRoleTagName := FrontendClientRoleTagValue ]} |})
  ; (FrontendClientGetWorkflowExecutionRawHistoryScope, {| operation := "FrontendClientGetWorkflowExecutionRawHistory"; tags := {[ CadenceRoleTagName := FrontendClientRoleTagValue ]} |})
  ; (FrontendClientPollForWorkflowExecutionRawHistoryScope, {| operation := "FrontendClientPollForWorkflowExecutionRawHistory"; tags := {[ CadenceRoleTagName := FrontendClientRoleTagValue ]} |})
  ; (FrontendClientListArchivedWorkflowExecutionsScope, {| operation := "FrontendClientListArchivedWorkflowExecutions"; tags := {[ CadenceRoleTagName := FrontendClientRoleTagValue ]} |})
  ; (FrontendClientListClosedWorkflowExecutionsScope, {| operation := "FrontendClientListClosedWorkflowExecutions"; tags := {[ CadenceRoleTagName := FrontendClientRoleTagValue ]} |})
  ; (FrontendClientListDomainsScope, {| operation := "FrontendClientListDomains"; tags := {[ CadenceRoleTagName := FrontendClientRoleTagValue ]} |})
  ; (FrontendClientListOpenWorkflowExecutionsScope, {| operation := "FrontendClientListOpenWorkflowExecutions"; tags := {[ CadenceRoleTagName := FrontendClientRoleTagValue ]} |})
  ; (FrontendClientPollForActivityTaskScope, {| operation := "FrontendClientPollForActivityTask"; tags := {[ CadenceRoleTagName := FrontendClientRoleTagValue ]} |})
  ; (FrontendClientPollForDecisionTaskScope, {| operation := "FrontendClientPollForDecisionTask"; tags := {[ CadenceRoleTagName := FrontendClientRoleTagValue ]} |})
  ; (FrontendClientQueryWorkflowScope, {| operation := "FrontendClientQueryWorkflow"; tags := {[ CadenceRoleTagName := FrontendClientRoleTagValue ]} |})
  ; (FrontendClientRecordActivityTaskHeartbeatScope, {| operation := "FrontendClientRecordActivityTaskHeartbeat"; tags := {[ CadenceRoleTagName := FrontendClientRoleTagValue ]} |})
  ; (FrontendClientRecordActivityTaskHeartbeatByIDScope, {| operation := "FrontendClientRecordActivityTaskHeartbeatByID"; tags := {[ CadenceRoleTagName := FrontendClientRoleTagValue ]} |})
  ; (FrontendClientRegisterDomainScope, {| operation := "FrontendClientRegisterDomain"; tags := {[ CadenceRoleTagName := FrontendClientRoleTagValue ]} |})
  ; (FrontendClientRequestCancelWorkflowExecutionScope, {| operation := "FrontendClientRequestCancelWorkflowExecution"; tags := {[ CadenceRoleTagName := FrontendClientRoleTagValue ]} |})
  ; (FrontendClientResetStickyTaskListScope, {| operation := "FrontendClientResetStickyTaskList"; tags := {[ CadenceRoleTagName := FrontendClientRoleTagValue ]} |})
  ; (FrontendClientRefreshWorkflowTasksScope, {| operation := "FrontendClientRefreshWorkflowTasks"; tags := {[ CadenceRoleTagName := FrontendClientRoleTagValue ]} |})
  ; (FrontendClientResetWorkflowExecutionScope, {| operation := "FrontendClientResetWorkflowExecution"; tags := {[ CadenceRoleTagName := FrontendClientRoleTagValue ]} |})
  ; (FrontendClientRespondActivityTaskCanceledScope, {| operation := "FrontendClientRespondActivityTaskCanceled"; tags := {[ CadenceRoleTagName := FrontendClientRoleTagValue ]} |})
  ; (FrontendClientRespondActivityTaskCanceledByIDScope, {| operation := "FrontendClientRespondActivityTaskCanceledByID"; tags := {[ CadenceRoleTagName := FrontendClientRoleTagValue ]} |})
  ; (FrontendClientRespondActivityTaskCompletedScope, {| operation := "FrontendClientRespondActivityTaskCompleted"; tags := {[ CadenceRoleTagName := FrontendClientRoleTagValue ]} |})
  ; (FrontendClientRespondActivityTaskCompletedByIDScope, {| operation := "FrontendClientRespondActivityTaskCompletedByID"; tags := {[ CadenceRoleTagName := FrontendClientRoleTagValue ]} |})
  ; (FrontendClientRespondActivityTaskFailedScope, {| operation := "FrontendClientRespondActivityTaskFailed"; tags := {[ CadenceRoleTagName := FrontendClientRoleTagValue ]} |})
  ; (FrontendClientRespondActivityTaskFailedByIDScope, {| operation := "FrontendClientRespondActivityTaskFailedByID"; tags := {[ CadenceRoleTagName := FrontendClientRoleTagValue ]} |})
  ; (FrontendClientRespondDecisionTaskCompletedScope, {| operation := "FrontendClientRespondDecisionTaskCompleted"; tags := {[ CadenceRoleTagName := FrontendClientRoleTagValue ]} |})
  ; (FrontendClientRespondDecisionTaskFailedScope, {| operation := "FrontendClientRespondDecisionTaskFailed"; tags := {[ CadenceRoleTagName := FrontendClientRoleTagValue ]} |})
  ; (FrontendClientRespondQueryTaskCompletedScope, {| operation := "FrontendClientRespondQueryTaskCompleted"; tags := {[ CadenceRoleTagName := FrontendClientRoleTagValue ]} |})
  ; (FrontendClientSignalWithStartWorkflowExecutionScope, {| operation := "FrontendClientSignalWithStartWorkflowExecution"; tags := {[ CadenceRoleTagName := FrontendClientRoleTagValue ]} |})
  ; (FrontendClientSignalWorkflowExecutionScope, {| operation := "FrontendClientSignalWorkflowExecution"; tags := {[ CadenceRoleTagName := FrontendClientRoleTagValue ]} |})
  ; (FrontendClientStartWorkflowExecutionScope, {| operation := "FrontendClientStartWorkflowExecution"; tags := {[ CadenceRoleTagName := FrontendClientRoleTagValue ]} |})
  ; (FrontendClientTerminateWorkflowExecutionScope, {| operation := "FrontendClientTerminateWorkflowExecution"; tags := {[ CadenceRoleTagName := FrontendClientRoleTagValue ]} |})
  ; (FrontendClientUpdateDomainScope, {| operation := "FrontendClientUpdateDomain"; tags := {[ CadenceRoleTagName := FrontendClientRoleTagValue ]} |})
  ; (FrontendClientListWorkflowExecutionsScope, {| operation := "FrontendClientListWorkflowExecutions"; tags := {[ CadenceRoleTagName := FrontendClientRoleTagValue ]} |})
  ; (FrontendClientScanWorkflowExecutionsScope, {| operation := "FrontendClientScanWorkflowExecutions"; tags := {[ CadenceRoleTagName := FrontendClientRoleTagValue ]} |})
  ; (FrontendClientCountWorkflowExecutionsScope, {| operation := "FrontendClientCountWorkflowExecutions"; tags := {[ CadenceRoleTagName := FrontendClientRoleTagValue ]} |})
  ; (FrontendClientGetSearchAttributesScope, {| operation := "FrontendClientGetSearchAttributes"; tags := {[ CadenceRoleTagName := FrontendClientRoleTagValue ]} |})
  ; (FrontendClientGetReplicationTasksScope, {| operation := "FrontendClientGetReplicationTasksScope"; tags := {[ CadenceRoleTagName := FrontendClientRoleTagValue ]} |})
  ; (FrontendClientGetDomainReplicationTasksScope, {| operation := "FrontendClientGetDomainReplicationTasksScope"; tags := {[ CadenceRoleTagName := FrontendClientRoleTagValue ]} |})
  ; (FrontendClientGetDLQReplicationTasksScope, {| operation := "FrontendClientGetDLQReplicationTasksScope"; tags := {[ CadenceRoleTagName := FrontendClientRoleTagValue ]} |})
  ; (FrontendClientReapplyEventsScope, {| operation := "FrontendClientReapplyEventsScope"; tags := {[ CadenceRoleTagName := FrontendClientRoleTagValue ]} |})
  ; (FrontendClientGetClusterInfoScope, {| operation := "FrontendClientGetClusterInfoScope"; tags := {[ CadenceRoleTagName := FrontendClientRoleTagValue ]} |})
  ; (FrontendClientListTaskListPartitionsScope, {| operation := "FrontendClientListTaskListPartitions"; tags := {[ CadenceRoleTagName := FrontendClientRoleTagValue ]} |})
  ; (FrontendClientGetTaskListsByDomainScope, {| operation := "FrontendClientGetTaskListsByDomain"; tags := {[ CadenceRoleTagName := FrontendClientRoleTagValue ]} |})
  ; (AdminClientAddSearchAttributeScope, {| operation := "AdminClientAddSearchAttribute"; tags := {[ CadenceRoleTagName := AdminClientRoleTagValue ]} |})
  ; (AdminClientDescribeHistoryHostScope, {| operation := "AdminClientDescribeHistoryHost"; tags := {[ CadenceRoleTagName := AdminClientRoleTagValue ]} |})
  ; (AdminClientDescribeShardDistributionScope, {| operation := "AdminClientDescribeShardDistribution"; tags := {[ CadenceRoleTagName := AdminClientRoleTagValue ]} |})
  ; (AdminClientDescribeWorkflowExecutionScope, {| operation := "AdminClientDescribeWorkflowExecution"; tags := {[ CadenceRoleTagName := AdminClientRoleTagValue ]} |})
  ; (AdminClientGetWorkflowExecutionRawHistoryV2Scope, {| operation := "AdminClientGetWorkflowExecutionRawHistoryV2"; tags := {[ CadenceRoleTagName := AdminClientRoleTagValue ]} |})
  ; (AdminClientDescribeClusterScope, {| operation := "AdminClientDescribeCluster"; tags := {[ CadenceRoleTagName := AdminClientRoleTagValue ]} |})
  ; (AdminClientRefreshWorkflowTasksScope, {| operation := "AdminClientRefreshWorkflowTasks"; tags := {[ CadenceRoleTagName := AdminClientRoleTagValue ]} |})
  ; (AdminClientResendReplicationTasksScope, {| operation := "AdminClientResendReplicationTasks"; tags := {[ CadenceRoleTagName := AdminClientRoleTagValue ]} |})
  ; (AdminClientCloseShardScope, {| operation := "AdminClientCloseShard"; tags := {[ CadenceRoleTagName := AdminClientRoleTagValue ]} |})
  ; (AdminClientRemoveTaskScope, {| operation := "AdminClientRemoveTask"; tags := {[ CadenceRoleTagName := AdminClientRoleTagValue ]} |})
  ; (AdminClientResetQueueScope, {| operation := "AdminClientResetQueue"; tags := {[ CadenceRoleTagName := AdminClientRoleTagValue ]} |})
  ; (AdminClientDescribeQueueScope, {| operation := "AdminClientDescribeQueue"; tags := {[ CadenceRoleTagName := AdminClientRoleTagValue ]} |})
  ; (AdminClientCountDLQMessagesScope, {| operation := "AdminClientCountDLQMessages"; tags := {[ CadenceRoleTagName := AdminClientRoleTagValue ]} |})
  ; (AdminClientReadDLQMessagesScope, {| operation := "AdminClientReadDLQMessages"; tags := {[ CadenceRoleTagName := AdminClientRoleTagValue ]} |})
  ; (AdminClientPurgeDLQMessagesScope, {| operation := "AdminClientPurgeDLQMessages"; tags := {[ CadenceRoleTagName := AdminClientRoleTagValue ]} |})
  ; (AdminClientMergeDLQMessagesScope, {| operation := "AdminClientMergeDLQMessages"; tags := {[ CadenceRoleTagName := AdminClientRoleTagValue ]} |})
  ; (AdminClientGetCrossClusterTasksScope, {| operation := "AdminClientGetCrossClusterTasks"; tags := {[ CadenceRoleTagName := AdminClientRoleTagValue ]} |})
  ; (AdminClientRespondCrossClusterTasksCompletedScope, {| operation := "AdminClientRespondCrossClusterTasksCompleted"; tags := {[ CadenceRoleTagName := AdminClientRoleTagValue ]} |})
  ; (AdminClientGetDynamicConfigScope, {| operation := "AdminClientGetDynamicConfigScope"; tags := {[ CadenceRoleTagName := AdminClientRoleTagValue ]} |})
  ; (AdminClientUpdateDynamicConfigScope, {| operation := "AdminClientUpdateDynamicConfigScope"; tags := {[ CadenceRoleTagName := AdminClientRoleTagValue ]} |})
  ; (AdminClientRestoreDynamicConfigScope, {| operation := "AdminClientRestoreDynamicConfigScope"; tags := {[ CadenceRoleTagName := AdminClientRoleTagValue ]} |})
  ; (AdminClientListDynamicConfigScope, {| operation := "AdminClientListDynamicConfigScope"; tags := {[ CadenceRoleTagName := AdminClientRoleTagValue ]} |})
  ; (DCRedirectionDeprecateDomainScope, {| operation := "DCRedirectionDeprecateDomain"; tags := {[ CadenceRoleTagName := DCRedirectionRoleTagValue ]} |})
  ; (DCRedirectionDescribeDomainScope, {| operation := "DCRedirectionDescribeDomain"; tags := {[ CadenceRoleTagName := DCRedirectionRoleTagValue ]} |})
  ; (DCRedirectionDescribeTaskListScope, {| operation := "DCRedirectionDescribeTaskList"; tags := {[ CadenceRoleTagName := DCRedirectionRoleTagValue ]} |})
  ; (DCRedirectionDescribeWorkflowExecutionScope, {| operation := "DCRedirectionDescribeWorkflowExecution"; tags := {[ CadenceRoleTagName := DCRedirectionRoleTagValue ]} |})
  ; (DCRedirectionGetWorkflowExecutionHistoryScope, {| operation := "DCRedirectionGetWorkflowExecutionHistory"; tags := {[ CadenceRoleTagName := DCRedirectionRoleTagValue ]} |})
  ; (DCRedirectionGetWorkflowExecutionRawHistoryScope, {| operation := "DCRedirectionGetWorkflowExecutionRawHistoryScope"; tags := {[ CadenceRoleTagName := DCRedirectionRoleTagValue ]} |})
  ; (DCRedirectionPollForWorklfowExecutionRawHistoryScope, {| operation := "DCRedirectionPollForWorklfowExecutionRawHistory"; tags := {[ CadenceRoleTagName := DCRedirectionRoleTagValue ]} |})
  ; (DCRedirectionListArchivedWorkflowExecutionsScope, {| operation := "DCRedirectionListArchivedWorkflowExecutions"; tags := {[ CadenceRoleTagName := DCRedirectionRoleTagValue ]} |})
  ; (DCRedirectionListClosedWorkflowExecutionsScope, {| operation := "DCRedirectionListClosedWorkflowExecutions"; tags := {[ CadenceRoleTagName := DCRedirectionRoleTagValue ]} |})
  ; (DCRedirectionListDomainsScope, {| operation := "DCRedirectionListDomains"; tags := {[ CadenceRoleTagName := DCRedirectionRoleTagValue ]} |})
  ; (DCRedirectionListOpenWorkflowExecutionsScope, {| operation := "DCRedirectionListOpenWorkflowExecutions"; tags := {[ CadenceRoleTagName := DCRedirectionRoleTagValue ]} |})
  ; (DCRedirectionListWorkflowExecutionsScope, {| operation := "DCRedirectionListWorkflowExecutions"; tags := {[ CadenceRoleTagName := DCRedirectionRoleTagValue ]} |})
  ; (DCRedirectionScanWorkflowExecutionsScope, {| operation := "DCRedirectionScanWorkflowExecutions"; tags := {[ CadenceRoleTagName := DCRedirectionRoleTagValue ]} |})
  ; (DCRedirectionCountWorkflowExecutionsScope, {| operation := "DCRedirectionCountWorkflowExecutions"; tags := {[ CadenceRoleTagName := DCRedirectionRoleTagValue ]} |})
  ; (DCRedirectionGetSearchAttributesScope, {| operation := "DCRedirectionGetSearchAttributes"; tags := {[ CadenceRoleTagName := DCRedirectionRoleTagValue ]} |})
  ; (DCRedirectionPollForActivityTaskScope, {| operation := "DCRedirectionPollForActivityTask"; tags := {[ CadenceRoleTagName := DCRedirectionRoleTagValue ]} |})
  ; (DCRedirectionPollForDecisionTaskScope, {| operation := "DCRedirectionPollForDecisionTask"; tags := {[ CadenceRoleTagName := DCRedirectionRoleTagValue ]} |})
  ; (DCRedirectionQueryWorkflowScope, {| operation := "DCRedirectionQueryWorkflow"; tags := {[ CadenceRoleTagName := DCRedirectionRoleTagValue ]} |})
  ; (DCRedirectionRecordActivityTaskHeartbeatScope, {| operation := "DCRedirectionRecordActivityTaskHeartbeat"; tags := {[ CadenceRoleTagName := DCRedirectionRoleTagValue ]} |})
  ; (DCRedirectionRecordActivityTaskHeartbeatByIDScope, {| operation := "DCRedirectionRecordActivityTaskHeartbeatByID"; tags := {[ CadenceRoleTagName := DCRedirectionRoleTagValue ]} |})
  ; (DCRedirectionRegisterDomainScope, {| operation := "DCRedirectionRegisterDomain"; tags := {[ CadenceRoleTagName := DCRedirectionRoleTagValue ]} |})
  ; (DCRedirectionRequestCancelWorkflowExecutionScope, {| operation := "DCRedirectionRequestCancelWorkflowExecution"; tags := {[ CadenceRoleTagName := DCRedirectionRoleTagValue ]} |})
  ; (DCRedirectionResetStickyTaskListScope, {| operation := "DCRedirectionResetStickyTaskList"; tags := {[ CadenceRoleTagName := DCRedirectionRoleTagValue ]} |})
  ; (DCRedirectionResetWorkflowExecutionScope, {| operation := "DCRedirectionResetWorkflowExecution"; tags := {[ CadenceRoleTagName := DCRedirectionRoleTagValue ]} |})
  ; (DCRedirectionRespondActivityTaskCanceledScope, {| operation := "DCRedirectionRespondActivityTaskCanceled"; tags := {[ CadenceRoleTagName := DCRedirectionRoleTagValue ]} |})
  ; (DCRedirectionRespondActivityTaskCanceledByIDScope, {| operation := "DCRedirectionRespondActivityTaskCanceledByID"; tags := {[ CadenceRoleTagName := DCRedirectionRoleTagValue ]} |})
  ; (DCRedirectionRespondActivityTaskCompletedScope, {| operation := "DCRedirectionRespondActivityTaskCompleted"; tags := {[ CadenceRoleTagName := DCRedirectionRoleTagValue ]} |})
  ; (DCRedirectionRespondActivityTaskCompletedByIDScope, {| operation := "DCRedirectionRespondActivityTaskCompletedByID"; tags := {[ CadenceRoleTagName := DCRedirectionRoleTagValue ]} |})
  ; (DCRedirectionRespondActivityTaskFailedScope, {| operation := "DCRedirectionRespondActivityTaskFailed"; tags := {[ CadenceRoleTagName := DCRedirectionRoleTagValue ]} |})
  ; (DCRedirectionRespondActivityTaskFailedByIDScope, {| operation := "DCRedirectionRespondActivityTaskFailedByID"; tags := {[ CadenceRoleTagName := DCRedirectionRoleTagValue ]} |})
  ; (DCRedirectionRespondDecisionTaskCompletedScope, {| operation := "DCRedirectionRespondDecisionTaskCompleted"; tags := {[ CadenceRoleTagName := DCRedirectionRoleTagValue ]} |})
  ; (DCRedirectionRespondDecisionTaskFailedScope, {| operation := "DCRedirectionRespondDecisionTaskFailed"; tags := {[ CadenceRoleTagName := DCRedirectionRoleTagValue ]} |})
  ; (DCRedirectionRespondQueryTaskCompletedScope, {| operation := "DCRedirectionRespondQueryTaskCompleted"; tags := {[ CadenceRoleTagName := DCRedirectionRoleTagValue ]} |})
  ; (DCRedirectionSignalWithStartWorkflowExecutionScope, {| operation := "DCRedirectionSignalWithStartWorkflowExecution"; tags := {[ CadenceRoleTagName := DCRedirectionRoleTagValue ]} |})
  ; (DCRedirectionSignalWorkflowExecutionScope, {| operation := "DCRedirectionSignalWorkflowExecution"; tags := {[ CadenceRoleTagName := DCRedirectionRoleTagValue ]} |})
  ; (DCRedirectionStartWorkflowExecutionScope, {| operation := "DCRedirectionStartWorkflowExecution"; tags := {[ CadenceRoleTagName := DCRedirectionRoleTagValue ]} |})
  ; (DCRedirectionTerminateWorkflowExecutionScope, {| operation := "DCRedirectionTerminateWorkflowExecution"; tags := {[ CadenceRoleTagName := DCRedirectionRoleTagValue ]} |})
  ; (DCRedirectionUpdateDomainScope, {| operation := "DCRedirectionUpdateDomain"; tags := {[ CadenceRoleTagName := DCRedirectionRoleTagValue ]} |})
  ; (DCRedirectionListTaskListPartitionsScope, {| operation := "DCRedirectionListTaskListPartitions"; tags := {[ CadenceRoleTagName := DCRedirectionRoleTagValue ]} |})
  ; (DCRedirectionGetTaskListsByDomainScope, {| operation := "DCRedirectionGetTaskListsByDomain"; tags := {[ CadenceRoleTagName := DCRedirectionRoleTagValue ]} |})
  ; (DCRedirectionRefreshWorkflowTasksScope, {| operation := "DCRedirectionRefreshWorkflowTasks"; tags := {[ CadenceRoleTagName := DCRedirectionRoleTagValue ]} |})
  ; (MessagingClientPublishScope, {| operation := "MessagingClientPublish"; tags := ∅ |})
  ; (MessagingClientPublishBatchScope, {| operation := "MessagingClientPublishBatch"; tags := ∅ |})
  ; (MessagingClientConsumerScope, {| operation := "MessagingClientConsumerScope"; tags := ∅ |})
  ; (DomainCacheScope, {| operation := "DomainCache"; tags := ∅ |})
  ; (HistoryRereplicationByTransferTaskScope, {| operation := "HistoryRereplicationByTransferTask"; tags := ∅ |})
  ; (HistoryRereplicationByTimerTaskScope, {| operation := "HistoryRereplicationByTimerTask"; tags := ∅ |})
  ; (HistoryRereplicationByHistoryReplicationScope, {| operation := "HistoryRereplicationByHistoryReplication"; tags := ∅ |})
  ; (HistoryRereplicationByHistoryMetadataReplicationScope, {| operation := "HistoryRereplicationByHistoryMetadataReplication"; tags := ∅ |})
  ; (HistoryRereplicationByActivityReplicationScope, {| operation := "HistoryRereplicationByActivityReplication"; tags := ∅ |})
  ; (ElasticsearchRecordWorkflowExecutionStartedScope, {| operation := "RecordWorkflowExecutionStarted"; tags := ∅ |})
  ; (ElasticsearchRecordWorkflowExecutionClosedScope, {| operation := "RecordWorkflowExecutionClosed"; tags := ∅ |})
  ; (ElasticsearchRecordWorkflowExecutionUninitializedScope, {| operation := "RecordWorkflowExecutionUninitialized"; tags := ∅ |})
  ; (ElasticsearchUpsertWorkflowExecutionScope, {| operation := "UpsertWorkflowExecution"; tags := ∅ |})
  ; (ElasticsearchListOpenWorkflowExecutionsScope, {| operation := "ListOpenWorkflowExecutions"; tags := ∅ |})
  ; (ElasticsearchListClosedWorkflowExecutionsScope, {| operation := "ListClosedWorkflowExecutions"; tags := ∅ |})
  ; (ElasticsearchListOpenWorkflowExecutionsByTypeScope, {| operation := "ListOpenWorkflowExecutionsByType"; tags := ∅ |})
  ; (ElasticsearchListClosedWorkflowExecutionsByTypeScope, {| operation := "ListClosedWorkflowExecutionsByType"; tags := ∅ |})
  ; (ElasticsearchListOpenWorkflowExecutionsByWorkflowIDScope, {| operation := "ListOpenWorkflowExecutionsByWorkflowID"; tags := ∅ |})
  ; (ElasticsearchListClosedWorkflowExecutionsByWorkflowIDScope, {| operation := "ListClosedWorkflowExecutionsByWorkflowID"; tags := ∅ |})
  ; (ElasticsearchListClosedWorkflowExecutionsByStatusScope, {| operation := "ListClosedWorkflowExecutionsByStatus"; tags := ∅ |})
  ; (ElasticsearchGetClosedWorkflowExecutionScope, {| operation := "GetClosedWorkflowExecution"; tags := ∅ |})
  ; (ElasticsearchListWorkflowExecutionsScope, {| operation := "ListWorkflowExecutions"; tags := ∅ |})
  ; (ElasticsearchScanWorkflowExecutionsScope, {| operation := "ScanWorkflowExecutions"; tags := ∅ |})
  ; (ElasticsearchCountWorkflowExecutionsScope, {| operation := "CountWorkflowExecutions"; tags := ∅ |})
  ; (ElasticsearchDeleteWorkflowExecutionsScope, {| operation := "DeleteWorkflowExecution"; tags := ∅ |})
  ; (SequentialTaskProcessingScope, {| operation := "SequentialTaskProcessing"; tags := ∅ |})
  ; (ParallelTaskProcessingScope, {| operation := "ParallelTaskProcessing"; tags := ∅ |})
  ; (TaskSchedulerScope, {| operation := "TaskScheduler"; tags := ∅ |})
  ; (HistoryArchiverScope, {| operation := "HistoryArchiver"; tags := ∅ |})
  ; (VisibilityArchiverScope, {| operation := "VisibilityArchiver"; tags := ∅ |})
  ; (BlobstoreClientUploadScope, {| operation := "BlobstoreClientUpload"; tags := {[ CadenceRoleTagName := BlobstoreRoleTagValue ]} |})
  ; (BlobstoreClientDownloadScope, {| operation := "BlobstoreClientDownload"; tags := {[ CadenceRoleTagName := BlobstoreRoleTagValue ]} |})
  ; (BlobstoreClientGetMetadataScope, {| operation := "BlobstoreClientGetMetadata"; tags := {[ CadenceRoleTagName := BlobstoreRoleTagValue ]} |})
  ; (BlobstoreClientExistsScope, {| operation := "BlobstoreClientExists"; tags := {[ CadenceRoleTagName := BlobstoreRoleTagValue ]} |})
  ; (BlobstoreClientDeleteScope, {| operation := "BlobstoreClientDelete"; tags := {[ CadenceRoleTagName := BlobstoreRoleTagValue ]} |})
  ; (BlobstoreClientDirectoryExistsScope, {| operation := "BlobstoreClientDirectoryExists"; tags := {[ CadenceRoleTagName := BlobstoreRoleTagValue ]} |})
  ; (DomainFailoverScope, {| operation := "DomainFailover"; tags := ∅ |})
  ; (DomainReplicationQueueScope, {| operation := "DomainReplicationQueue"; tags := ∅ |})
  ].

Definition ScopeDefs_Frontend : list (Z * scopeDefinition) :=
  [ (AdminRemoveTaskScope, {| operation := "AdminRemoveTask"; tags := ∅ |})
  ; (AdminCloseShardScope, {| operation := "AdminCloseShard"; tags := ∅ |})
  ; (AdminResetQueueScope, {| operation := "AdminResetQueue"; tags := ∅ |})
  ; (AdminDescribeQueueScope, {| operation := "AdminDescribeQueue"; tags := ∅ |})
  ; (AdminCountDLQMessagesScope, {| operation := "AdminCountDLQMessages"; tags := ∅ |})
  ; (AdminReadDLQMessagesScope, {| operation := "AdminReadDLQMessages"; tags := ∅ |})
  ; (AdminPurgeDLQMessagesScope, {| operation := "AdminPurgeDLQMessages"; tags := ∅ |})
  ; (AdminMergeDLQMessagesScope, {| operation := "AdminMergeDLQMessages"; tags := ∅ |})
  ; (AdminDescribeHistoryHostScope, {| operation := "DescribeHistoryHost"; tags := ∅ |})
  ; (AdminDescribeShardDistributionScope, {| operation := "AdminShardList"; tags := ∅ |})
  ; (AdminAddSearchAttributeScope, {| operation := "AddSearchAttribute"; tags := ∅ |})
  ; (AdminDescribeWorkflowExecutionScope, {| operation := "DescribeWorkflowExecution"; tags := ∅ |})
  ; (AdminGetWorkflowExecutionRawHistoryScope, {| operation := "GetWorkflowExecutionRawHistory"; tags := ∅ |})
  ; (AdminGetWorkflowExecutionRawHistoryV2Scope, {| operation := "GetWorkflowExecutionRawHistoryV2"; tags := ∅ |})
  ; (AdminGetReplicationMessagesScope, {| operation := "GetReplicationMessages"; tags := ∅ |})
  ; (AdminGetDomainReplicationMessagesScope, {| operation := "GetDomainReplicationMessages"; tags := ∅ |})
  ; (AdminGetDLQReplicationMessagesScope, {| operation := "AdminGetDLQReplicationMessages"; tags := ∅ |})
  ; (AdminReapplyEventsScope, {| operation := "ReapplyEvents"; tags := ∅ |})
  ; (AdminRefreshWorkflowTasksScope, {| operation := "RefreshWorkflowTasks"; tags := ∅ |})
  ; (AdminResendReplicationTasksScope, {| operation := "ResendReplicationTasks"; tags := ∅ |})
  ; (AdminGetCrossClusterTasksScope, {| operation := "AdminGetCrossClusterTasks"; tags := ∅ |})
  ; (AdminRespondCrossClusterTasksCompletedScope, {| operation := "AdminRespondCrossClusterTasksCompleted"; tags := ∅ |})
  ; (AdminGetDynamicConfigScope, {| operation := "AdminGetDynamicConfig"; tags := ∅ |})
  ; (AdminUpdateDynamicConfigScope, {| operation := "AdminUpdateDynamicConfig"; tags := ∅ |})
  ; (AdminRestoreDynamicConfigScope, {| operation := "AdminRestoreDynamicConfig"; tags := ∅ |})
  ; (AdminListDynamicConfigScope, {| operation := "AdminListDynamicConfig"; tags := ∅ |})
  ; (AdminDeleteWorkflowScope, {| operation := "AdminDeleteWorkflow"; tags := ∅ |})
  ; (MaintainCorruptWorkflowScope, {| operation := "MaintainCorruptWorkflow"; tags := ∅ |})
  ; (FrontendRestartWorkflowExecutionScope, {| operation := "RestartWorkflowExecution"; tags := ∅ |})
  ; (FrontendStartWorkflowExecutionScope, {| operation := "StartWorkflowExecution"; tags := ∅ |})
  ; (FrontendPollForDecisionTaskScope, {| operation := "PollForDecisionTask"; tags := ∅ |})
  ; (FrontendPollForActivityTaskScope, {| operation := "PollForActivityTask"; tags := ∅ |})
  ; (FrontendRecordActivityTaskHeartbeatScope, {| operation := "RecordActivityTaskHeartbeat"; tags := ∅ |})
  ; (FrontendRecordActivityTaskHeartbeatByIDScope, {| operation := "RecordActivityTaskHeartbeatByID"; tags := ∅ |})
  ; (FrontendRespondDecisionTaskCompletedScope, {| operation := "RespondDecisionTaskCompleted"; tags := ∅ |})
  ; (FrontendRespondDecisionTaskFailedScope, {| operation := "RespondDecisionTaskFailed"; tags := ∅ |})
  ; (FrontendRespondQueryTaskCompletedScope, {| operation := "RespondQueryTaskCompleted"; tags := ∅ |})
  ; (FrontendRespondActivityTaskCompletedScope, {| operation := "RespondActivityTaskCompleted"; tags := ∅ |})
  ; (FrontendRespondActivityTaskFailedScope, {| operation := "RespondActivityTaskFailed"; tags := ∅ |})
  ; (FrontendRespondActivityTaskCanceledScope, {| operation := "RespondActivityTaskCanceled"; tags := ∅ |})
  ; (FrontendRespondActivityTaskCompletedByIDScope, {| operation := "RespondActivityTaskCompletedByID"; tags := ∅ |})
  ; (FrontendRespondActivityTaskFailedByIDScope, {| operation := "RespondActivityTaskFailedByID"; tags := ∅ |})
  ; (FrontendRespondActivityTaskCanceledByIDScope, {| operation := "RespondActivityTaskCanceledByID"; tags := ∅ |})
  ; (FrontendGetWorkflowExecutionHistoryScope, {| operation := "GetWorkflowExecutionHistory"; tags := ∅ |})
  ; (FrontendGetWorkflowExecutionRawHistoryScope, {| operation := "GetWorkflowExecutionRawHistory"; tags := ∅ |})
  ; (FrontendPollForWorklfowExecutionRawHistoryScope, {| operation := "PollForWorklfowExecutionRawHistory"; tags := ∅ |})
  ; (FrontendSignalWorkflowExecutionScope, {| operation := "SignalWorkflowExecution"; tags := ∅ |})
  ; (FrontendSignalWithStartWorkflowExecutionScope, {| operation := "SignalWithStartWorkflowExecution"; tags := ∅ |})
  ; (FrontendTerminateWorkflowExecutionScope, {| operation := "TerminateWorkflowExecution"; tags := ∅ |})
  ; (FrontendResetWorkflowExecutionScope, {| operation := "ResetWorkflowExecution"; tags := ∅ |})
  ; (FrontendRequestCancelWorkflowExecutionScope, {| operation := "RequestCancelWorkflowExecution"; tags := ∅ |})
  ; (FrontendListArchivedWorkflowExecutionsScope, {| operation := "ListArchivedWorkflowExecutions"; tags := ∅ |})
  ; (FrontendListOpenWorkflowExecutionsScope, {| operation := "ListOpenWorkflowExecutions"; tags := ∅ |})
  ; (FrontendListClosedWorkflowExecutionsScope, {| operation := "ListClosedWorkflowExecutions"; tags := ∅ |})
  ; (FrontendListWorkflowExecutionsScope, {| operation := "ListWorkflowExecutions"; tags := ∅ |})
  ; (FrontendScanWorkflowExecutionsScope, {| operation := "ScanWorkflowExecutions"; tags := ∅ |})
  ; (FrontendCountWorkflowExecutionsScope, {| operation := "CountWorkflowExecutions"; tags := ∅ |})
  ; (FrontendRegisterDomainScope, {| operation := "RegisterDomain"; tags := ∅ |})
  ; (FrontendDescribeDomainScope, {| operation := "DescribeDomain"; tags := ∅ |})
  ; (FrontendListDomainsScope, {| operation := "ListDomain"; tags := ∅ |})
  ; (FrontendUpdateDomainScope, {| operation := "UpdateDomain"; tags := ∅ |})
  ; (FrontendDeprecateDomainScope, {| operation := "DeprecateDomain"; tags := ∅ |})
  ; (FrontendQueryWorkflowScope, {| operation := "QueryWorkflow"; tags := ∅ |})
  ; (FrontendDescribeWorkflowExecutionScope, {| operation := "DescribeWorkflowExecution"; tags := ∅ |})
  ; (FrontendListTaskListPartitionsScope, {| operation := "FrontendListTaskListPartitions"; tags := ∅ |})
  ; (FrontendGetTaskListsByDomainScope, {| operation := "FrontendGetTaskListsByDomain"; tags := ∅ |})
  ; (FrontendRefreshWorkflowTasksScope, {| operation := "FrontendRefreshWorkflowTasks"; tags := ∅ |})
  ; (FrontendDescribeTaskListScope, {| operation := "DescribeTaskList"; tags := ∅ |})
  ; (FrontendResetStickyTaskListScope, {| operation := "ResetStickyTaskList"; tags := ∅ |})
  ; (FrontendGetSearchAttributesScope, {| operation := "GetSearchAttributes"; tags := ∅ |})
  ].

Definition ScopeDefs_History : list (Z * scopeDefinition) :=
  [ (HistoryStartWorkflowExecutionScope, {| operation := "StartWorkflowExecution"; tags := ∅ |})
  ; (HistoryRecordActivityTaskHeartbeatScope, {| operation := "RecordActivityTaskHeartbeat"; tags := ∅ |})
  ; (HistoryRespondDecisionTaskCompletedScope, {| operation := "RespondDecisionTaskCompleted"; tags := ∅ |})
  ; (HistoryRespondDecisionTaskFailedScope, {| operation := "RespondDecisionTaskFailed"; tags := ∅ |})
  ; (HistoryRespondActivityTaskCompletedScope, {| operation := "RespondActivityTaskCompleted"; tags := ∅ |})
  ; (HistoryRespondActivityTaskFailedScope, {| operation := "RespondActivityTaskFailed"; tags := ∅ |})
  ; (HistoryRespondActivityTaskCanceledScope, {| operation := "RespondActivityTaskCanceled"; tags := ∅ |})
  ; (HistoryResetQueueScope, {| operation := "ResetQueue"; tags := ∅ |})
  ; (HistoryDescribeQueueScope, {| operation := "DescribeQueue"; tags := ∅ |})
  ; (HistoryDescribeMutabelStateScope, {| operation := "DescribeMutableState"; tags := ∅ |})
  ; (HistoryGetMutableStateScope, {| operation := "GetMutableState"; tags := ∅ |})
  ; (HistoryPollMutableStateScope, {| operation := "PollMutableState"; tags := ∅ |})
  ; (HistoryResetStickyTaskListScope, {| operation := "ResetStickyTaskListScope"; tags := ∅ |})
  ; (HistoryDescribeWorkflowExecutionScope, {| operation := "DescribeWorkflowExecution"; tags := ∅ |})
  ; (HistoryRecordDecisionTaskStartedScope, {| operation := "RecordDecisionTaskStarted"; tags := ∅ |})
  ; (HistoryRecordActivityTaskStartedScope, {| operation := "RecordActivityTaskStarted"; tags := ∅ |})
  ; (HistorySignalWorkflowExecutionScope, {| operation := "SignalWorkflowExecution"; tags := ∅ |})
  ; (HistorySignalWithStartWorkflowExecutionScope, {| operation := "SignalWithStartWorkflowExecution"; tags := ∅ |})
  ; (HistoryRemoveSignalMutableStateScope, {| operation := "RemoveSignalMutableState"; tags := ∅ |})
  ; (HistoryTerminateWorkflowExecutionScope, {| operation := "TerminateWorkflowExecution"; tags := ∅ |})
  ; (HistoryResetWorkflowExecutionScope, {| operation := "ResetWorkflowExecution"; tags := ∅ |})
  ; (HistoryQueryWorkflowScope, {| operation := "QueryWorkflow"; tags := ∅ |})
  ; (HistoryProcessDeleteHistoryEventScope, {| operation := "ProcessDeleteHistoryEvent"; tags := ∅ |})
  ; (HistoryScheduleDecisionTaskScope, {| operation := "ScheduleDecisionTask"; tags := ∅ |})
  ; (HistoryRecordChildExecutionCompletedScope, {| operation := "RecordChildExecutionCompleted"; tags := ∅ |})
  ; (HistoryRequestCancelWorkflowExecutionScope, {| operation := "RequestCancelWorkflowExecution"; tags := ∅ |})
  ; (HistoryReplicateEventsScope, {| operation := "ReplicateEvents"; tags := ∅ |})
  ; (HistoryReplicateRawEventsScope, {| operation := "ReplicateRawEvents"; tags := ∅ |})
  ; (HistoryReplicateEventsV2Scope, {| operation := "ReplicateEventsV2"; tags := ∅ |})
  ; (HistorySyncShardStatusScope, {| operation := "SyncShardStatus"; tags := ∅ |})
  ; (HistorySyncActivityScope, {| operation := "SyncActivity"; tags := ∅ |})
  ; (HistoryDescribeMutableStateScope, {| operation := "DescribeMutableState"; tags := ∅ |})
  ; (HistoryGetReplicationMessagesScope, {| operation := "GetReplicationMessages"; tags := ∅ |})
  ; (HistoryGetDLQReplicationMessagesScope, {| operation := "GetDLQReplicationMessages"; tags := ∅ |})
  ; (HistoryCountDLQMessagesScope, {| operation := "CountDLQMessages"; tags := ∅ |})
  ; (HistoryReadDLQMessagesScope, {| operation := "ReadDLQMessages"; tags := ∅ |})
  ; (HistoryPurgeDLQMessagesScope, {| operation := "PurgeDLQMessages"; tags := ∅ |})
  ; (HistoryMergeDLQMessagesScope, {| operation := "MergeDLQMessages"; tags := ∅ |})
  ; (HistoryShardControllerScope, {| operation := "ShardController"; tags := ∅ |})
  ; (HistoryReapplyEventsScope, {| operation := "EventReapplication"; tags := ∅ |})
  ; (HistoryRefreshWorkflowTasksScope, {| operation := "RefreshWorkflowTasks"; tags := ∅ |})
  ; (HistoryNotifyFailoverMarkersScope, {| operation := "NotifyFailoverMarkers"; tags := ∅ |})
  ; (HistoryGetCrossClusterTasksScope, {| operation := "GetCrossClusterTasks"; tags := ∅ |})
  ; (HistoryRespondCrossClusterTasksCompletedScope, {| operation := "RespondCrossClusterTasksCompleted"; tags := ∅ |})
  ; (HistoryGetFailoverInfoScope, {| operation := "GetFailoverInfo"; tags := ∅ |})
  ; (TaskPriorityAssignerScope, {| operation := "TaskPriorityAssigner"; tags := ∅ |})
  ; (TransferQueueProcessorScope, {| operation := "TransferQueueProcessor"; tags := ∅ |})
  ; (TransferActiveQueueProcessorScope, {| operation := "TransferActiveQueueProcessor"; tags := ∅ |})
  ; (TransferStandbyQueueProcessorScope, {| operation := "TransferStandbyQueueProcessor"; tags := ∅ |})
  ; (TransferActiveTaskActivityScope, {| operation := "TransferActiveTaskActivity"; tags := ∅ |})
  ; (TransferActiveTaskDecisionScope, {| operation := "TransferActiveTaskDecision"; tags := ∅ |})
  ; (TransferActiveTaskCloseExecutionScope, {| operation := "TransferActiveTaskCloseExecution"; tags := ∅ |})
  ; (TransferActiveTaskCancelExecutionScope, {| operation := "TransferActiveTaskCancelExecution"; tags := ∅ |})
  ; (TransferActiveTaskSignalExecutionScope, {| operation := "TransferActiveTaskSignalExecution"; tags := ∅ |})
  ; (TransferActiveTaskStartChildExecutionScope, {| operation := "TransferActiveTaskStartChildExecution"; tags := ∅ |})
  ; (TransferActiveTaskRecordWorkflowStartedScope, {| operation := "TransferActiveTaskRecordWorkflowStarted"; tags := ∅ |})
  ; (TransferActiveTaskResetWorkflowScope, {| operation := "TransferActiveTaskResetWorkflow"; tags := ∅ |})
  ; (TransferActiveTaskUpsertWorkflowSearchAttributesScope, {| operation := "TransferActiveTaskUpsertWorkflowSearchAttributes"; tags := ∅ |})
  ; (TransferActiveTaskRecordWorkflowClosedScope, {| operation := "TransferActiveTaskRecordWorkflowClosed"; tags := ∅ |})
  ; (TransferActiveTaskRecordChildExecutionCompletedScope, {| operation := "TransferActiveTaskRecordChildExecutionCompleted"; tags := ∅ |})
  ; (TransferActiveTaskApplyParentClosePolicyScope, {| operation := "TransferActiveTaskApplyParentClosePolicy"; tags := ∅ |})
  ; (TransferStandbyTaskActivityScope, {| operation := "TransferStandbyTaskActivity"; tags := ∅ |})
  ; (TransferStandbyTaskDecisionScope, {| operation := "TransferStandbyTaskDecision"; tags := ∅ |})
  ; (TransferStandbyTaskCloseExecutionScope, {| operation := "TransferStandbyTaskCloseExecution"; tags := ∅ |})
  ; (TransferStandbyTaskCancelExecutionScope, {| operation := "TransferStandbyTaskCancelExecution"; tags := ∅ |})
  ; (TransferStandbyTaskSignalExecutionScope, {| operation := "TransferStandbyTaskSignalExecution"; tags := ∅ |})
  ; (TransferStandbyTaskStartChildExecutionScope, {| operation := "TransferStandbyTaskStartChildExecution"; tags := ∅ |})
  ; (TransferStandbyTaskRecordWorkflowStartedScope, {| operation := "TransferStandbyTaskRecordWorkflowStarted"; tags := ∅ |})
  ; (TransferStandbyTaskResetWorkflowScope, {| operation := "TransferStandbyTaskResetWorkflow"; tags := ∅ |})
  ; (TransferStandbyTaskUpsertWorkflowSearchAttributesScope, {| operation := "TransferStandbyTaskUpsertWorkflowSearchAttributes"; tags := ∅ |})
  ; (TransferStandbyTaskRecordWorkflowClosedScope, {| operation := "TransferStandbyTaskRecordWorkflowClosed"; tags := ∅ |})
  ; (TransferStandbyTaskRecordChildExecutionCompletedScope, {| operation := "TransferStandbyTaskRecordChildExecutionCompleted"; tags := ∅ |})
  ; (TransferStandbyTaskApplyParentClosePolicyScope, {| operation := "TransferStandbyTaskApplyParentClosePolicy"; tags := ∅ |})
  ; (TimerQueueProcessorScope, {| operation := "TimerQueueProcessor"; tags := ∅ |})
  ; (TimerActiveQueueProcessorScope, {| operation := "TimerActiveQueueProcessor"; tags := ∅ |})
  ; (TimerStandbyQueueProcessorScope, {| operation := "TimerStandbyQueueProcessor"; tags := ∅ |})
  ; (TimerActiveTaskActivityTimeoutScope, {| operation := "TimerActiveTaskActivityTimeout"; tags := ∅ |})
  ; (TimerActiveTaskDecisionTimeoutScope, {| operation := "TimerActiveTaskDecisionTimeout"; tags := ∅ |})
  ; (TimerActiveTaskUserTimerScope, {| operation := "TimerActiveTaskUserTimer"; tags := ∅ |})
  ; (TimerActiveTaskWorkflowTimeoutScope, {| operation := "TimerActiveTaskWorkflowTimeout"; tags := ∅ |})
  ; (TimerActiveTaskActivityRetryTimerScope, {| operation := "TimerActiveTaskActivityRetryTimer"; tags := ∅ |})
  ; (TimerActiveTaskWorkflowBackoffTimerScope, {| operation := "TimerActiveTaskWorkflowBackoffTimer"; tags := ∅ |})
  ; (TimerActiveTaskDeleteHistoryEventScope, {| operation := "TimerActiveTaskDeleteHistoryEvent"; tags := ∅ |})
  ; (TimerStandbyTaskActivityTimeoutScope, {| operation := "TimerStandbyTaskActivityTimeout"; tags := ∅ |})
  ; (TimerStandbyTaskDecisionTimeoutScope, {| operation := "TimerStandbyTaskDecisionTimeout"; tags := ∅ |})
  ; (TimerStandbyTaskUserTimerScope, {| operation := "TimerStandbyTaskUserTimer"; tags := ∅ |})
  ; (TimerStandbyTaskWorkflowTimeoutScope, {| operation := "TimerStandbyTaskWorkflowTimeout"; tags := ∅ |})
  ; (TimerStandbyTaskActivityRetryTimerScope, {| operation := "TimerStandbyTaskActivityRetryTimer"; tags := ∅ |})
  ; (TimerStandbyTaskWorkflowBackoffTimerScope, {| operation := "TimerStandbyTaskWorkflowBackoffTimer"; tags := ∅ |})
  ; (TimerStandbyTaskDeleteHistoryEventScope, {| operation := "TimerStandbyTaskDeleteHistoryEvent"; tags := ∅ |})
  ; (CrossClusterQueueProcessorScope, {| operation := "CrossClusterQueueProcessor"; tags := ∅ |})
  ; (CrossClusterTaskProcessorScope, {| operation := "CrossClusterTaskProcessor"; tags := ∅ |})
  ; (CrossClusterTaskFetcherScope, {| operation := "CrossClusterTaskFetcher"; tags := ∅ |})
  ; (CrossClusterSourceTaskStartChildExecutionScope, {| operation := "CrossClusterSourceTaskStartChildExecution"; tags := ∅ |})
  ; (CrossClusterSourceTaskCancelExecutionScope, {| operation := "CrossClusterSourceTaskCancelExecution"; tags := ∅ |})
  ; (CrossClusterSourceTaskSignalExecutionScope, {| operation := "CrossClusterSourceTaskSignalExecution"; tags := ∅ |})
  ; (CrossClusterSourceTaskRecordChildWorkflowExecutionCompleteScope, {| operation := "CrossClusterSourceTaskTypeRecordChildWorkflowExecutionComplete"; tags := ∅ |})
  ; (CrossClusterSourceTaskApplyParentClosePolicyScope, {| operation := "CrossClusterSourceTaskTypeApplyParentClosePolicy"; tags := ∅ |})
  ; (CrossClusterTargetTaskStartChildExecutionScope, {| operation := "CrossClusterTargetTaskStartChildExecution"; tags := ∅ |})
  ; (CrossClusterTargetTaskCancelExecutionScope, {| operation := "CrossClusterTargetTaskCancelExecution"; tags := ∅ |})
  ; (CrossClusterTargetTaskSignalExecutionScope, {| operation := "CrossClusterTargetTaskSignalExecution"; tags := ∅ |})
  ; (CrossClusterTargetTaskRecordChildWorkflowExecutionCompleteScope, {| operation := "CrossClusterTargetTaskTypeRecordChildWorkflowExecutionComplete"; tags := ∅ |})
  ; (CrossClusterTargetTaskApplyParentClosePolicyScope, {| operation := "CrossClusterTargetTaskTypeApplyParentClosePolicy"; tags := ∅ |})
  ; (HistoryEventNotificationScope, {| operation := "HistoryEventNotification"; tags := ∅ |})
  ; (ReplicatorQueueProcessorScope, {| operation := "ReplicatorQueueProcessor"; tags := ∅ |})
  ; (ReplicatorCacheManagerScope, {| operation := "ReplicatorCacheManager"; tags := ∅ |})
  ; (ReplicatorTaskHistoryScope, {| operation := "ReplicatorTaskHistory"; tags := ∅ |})
  ; (ReplicatorTaskSyncActivityScope, {| operation := "ReplicatorTaskSyncActivity"; tags := ∅ |})
  ; (ReplicateHistoryEventsScope, {| operation := "ReplicateHistoryEvents"; tags := ∅ |})
  ; (ReplicationMetricEmitterScope, {| operation := "ReplicationMetricEmitter"; tags := ∅ |})
  ; (ShardInfoScope, {| operation := "ShardInfo"; tags := ∅ |})
  ; (WorkflowContextScope, {| operation := "WorkflowContext"; tags := ∅ |})
  ; (HistoryCacheGetAndCreateScope, {| operation := "HistoryCacheGetAndCreate"; tags := {[ CacheTypeTagName := MutableStateCacheTypeTagValue ]} |})
  ; (HistoryCacheGetOrCreateScope, {| operation := "HistoryCacheGetOrCreate"; tags := {[ CacheTypeTagName := MutableStateCacheTypeTagValue ]} |})
  ; (HistoryCacheGetOrCreateCurrentScope, {| operation := "HistoryCacheGetOrCreateCurrent"; tags := {[ CacheTypeTagName := MutableStateCacheTypeTagValue ]} |})
  ; (HistoryCacheGetCurrentExecutionScope, {| operation := "HistoryCacheGetCurrentExecution"; tags := {[ CacheTypeTagName := MutableStateCacheTypeTagValue ]} |})
  ; (EventsCacheGetEventScope, {| operation := "EventsCacheGetEvent"; tags := {[ CacheTypeTagName := EventsCacheTypeTagValue ]} |})
  ; (EventsCachePutEventScope, {| operation := "EventsCachePutEvent"; tags := {[ CacheTypeTagName := EventsCacheTypeTagValue ]} |})
  ; (EventsCacheGetFromStoreScope, {| operation := "EventsCacheGetFromStore"; tags := {[ CacheTypeTagName := EventsCacheTypeTagValue ]} |})
  ; (ExecutionSizeStatsScope, {| operation := "ExecutionStats"; tags := {[ StatsTypeTagName := SizeStatsTypeTagValue ]} |})
  ; (ExecutionCountStatsScope, {| operation := "ExecutionStats"; tags := {[ StatsTypeTagName := CountStatsTypeTagValue ]} |})
  ; (SessionSizeStatsScope, {| operation := "SessionStats"; tags := {[ StatsTypeTagName := SizeStatsTypeTagValue ]} |})
  ; (SessionCountStatsScope, {| operation := "SessionStats"; tags := {[ StatsTypeTagName := CountStatsTypeTagValue ]} |})
  ; (WorkflowCompletionStatsScope, {| operation := "CompletionStats"; tags := {[ StatsTypeTagName := CountStatsTypeTagValue ]} |})
  ; (ArchiverClientScope, {| operation := "ArchiverClient"; tags := ∅ |})
  ; (ReplicationTaskFetcherScope, {| operation := "ReplicationTaskFetcher"; tags := ∅ |})
  ; (ReplicationTaskCleanupScope, {| operation := "ReplicationTaskCleanup"; tags := ∅ |})
  ; (ReplicationDLQStatsScope, {| operation := "ReplicationDLQStats"; tags := ∅ |})
  ; (FailoverMarkerScope, {| operation := "FailoverMarker"; tags := ∅ |})
  ; (HistoryReplicationV2TaskScope, {| operation := "HistoryReplicationV2Task"; tags := ∅ |})
  ; (SyncActivityTaskScope, {| operation := "SyncActivityTask"; tags := ∅ |})
  ].

Definition ScopeDefs_Matching : list (Z * scopeDefinition) :=
  [ (MatchingPollForDecisionTaskScope, {| operation := "PollForDecisionTask"; tags := ∅ |})
  ; (MatchingPollForActivityTaskScope, {| operation := "PollForActivityTask"; tags := ∅ |})
  ; (MatchingAddActivityTaskScope, {| operation := "AddActivityTask"; tags := ∅ |})
  ; (MatchingAddDecisionTaskScope, {| operation := "AddDecisionTask"; tags := ∅ |})
  ; (MatchingTaskListMgrScope, {| operation := "TaskListMgr"; tags := ∅ |})
  ; (MatchingQueryWorkflowScope, {| operation := "QueryWorkflow"; tags := ∅ |})
  ; (MatchingRespondQueryTaskCompletedScope, {| operation := "RespondQueryTaskCompleted"; tags := ∅ |})
  ; (MatchingCancelOutstandingPollScope, {| operation := "CancelOutstandingPoll"; tags := ∅ |})
  ; (MatchingDescribeTaskListScope, {| operation := "DescribeTaskList"; tags := ∅ |})
  ; (MatchingListTaskListPartitionsScope, {| operation := "ListTaskListPartitions"; tags := ∅ |})
  ; (MatchingGetTaskListsByDomainScope, {| operation := "GetTaskListsByDomain"; tags := ∅ |})
  ].

Definition ScopeDefs_Worker : list (Z * scopeDefinition) :=
  [ (ReplicatorScope, {| operation := "Replicator"; tags := ∅ |})
  ; (DomainReplicationTaskScope, {| operation := "DomainReplicationTask"; tags := ∅ |})
  ; (ESProcessorScope, {| operation := "ESProcessor"; tags := ∅ |})
  ; (IndexProcessorScope, {| operation := "IndexProcessor"; tags := ∅ |})
  ; (ArchiverDeleteHistoryActivityScope, {| operation := "ArchiverDeleteHistoryActivity"; tags := ∅ |})
  ; (ArchiverUploadHistoryActivityScope, {| operation := "ArchiverUploadHistoryActivity"; tags := ∅ |})
  ; (ArchiverArchiveVisibilityActivityScope, {| operation := "ArchiverArchiveVisibilityActivity"; tags := ∅ |})
  ; (ArchiverScope, {| operation := "Archiver"; tags := ∅ |})
  ; (ArchiverPumpScope, {| operation := "ArchiverPump"; tags := ∅ |})
  ; (ArchiverArchivalWorkflowScope, {| operation := "ArchiverArchivalWorkflow"; tags := ∅ |})
  ; (TaskListScavengerScope, {| operation := "tasklistscavenger"; tags := ∅ |})
  ; (ExecutionsScannerScope, {| operation := "ExecutionsScanner"; tags := ∅ |})
  ; (ShardScannerScope, {| operation := "ShardScanner"; tags := ∅ |})
  ; (CheckDataCorruptionWorkflowScope, {| operation := "CheckDataCorruptionWorkflow"; tags := ∅ |})
  ; (ExecutionsFixerScope, {| operation := "ExecutionsFixer"; tags := ∅ |})
  ; (HistoryScavengerScope, {| operation := "historyscavenger"; tags := ∅ |})
  ; (BatcherScope, {| operation := "batcher"; tags := ∅ |})
  ; (ParentClosePolicyProcessorScope, {| operation := "ParentClosePolicyProcessor"; tags := ∅ |})
  ; (ESAnalyzerScope, {| operation := "ESAnalyzer"; tags := ∅ |})
  ; (WatchDogScope, {| operation := "WatchDog"; tags := ∅ |})
  ].

Definition ScopeDefs : gmap ServiceIdx (gmap Z scopeDefinition) :=
  list_to_map
    [ (Common, list_to_map ScopeDefs_Common)
    ; (Frontend, list_to_map ScopeDefs_Frontend)
    ; (History, list_to_map ScopeDefs_History)
    ; (Matching, list_to_map ScopeDefs_Matching)
    ; (Worker, list_to_map ScopeDefs_Worker)
    ].

Definition MetricDefs_Common : list (Z * metricDefinition) :=
  [ (CadenceRequests, {| metricType := Counter; metricName := "cadence_requests"; metricRollupName := ""; buckets := None |})
  ; (CadenceFailures, {| metricType := Counter; metricName := "cadence_errors"; metricRollupName := ""; buckets := None |})
  ; (CadenceCriticalFailures, {| metricType := Counter; metricName := "cadence_errors_critical"; metricRollupName := ""; buckets := None |})
  ; (CadenceLatency, {| metricType := Timer; metricName := "cadence_latency"; metricRollupName := ""; buckets := None |})
  ; (CadenceErrBadRequestCounter, {| metricType := Counter; metricName := "cadence_errors_bad_request"; metricRollupName := ""; buckets := None |})
  ; (CadenceErrDomainNotActiveCounter, {| metricType := Counter; metricName := "cadence_errors_domain_not_active"; metricRollupName := ""; buckets := None |})
  ; (CadenceErrServiceBusyCounter, {| metricType := Counter; metricName := "cadence_errors_service_busy"; metricRollupName := ""; buckets := None |})
  ; (CadenceErrEntityNotExistsCounter, {| metricType := Counter; metricName := "cadence_errors_entity_not_exists"; metricRollupName := ""; buckets := None |})
  ; (CadenceErrWorkflowExecutionAlreadyCompletedCounter, {| metricType := Counter; metricName := "cadence_errors_workflow_execution_already_completed"; metricRollupName := ""; buckets := None |})
  ; (CadenceErrExecutionAlreadyStartedCounter, {| metricType := Counter; metricName := "cadence_errors_execution_already_started"; metricRollupName := ""; buckets := None |})
  ; (CadenceErrDomainAlreadyExistsCounter, {| metricType := Counter; metricName := "cadence_errors_domain_already_exists"; metricRollupName := ""; buckets := None |})
  ; (CadenceErrCancellationAlreadyRequestedCounter, {| metricType := Counter; metricName := "cadence_errors_cancellation_already_requested"; metricRollupName := ""; buckets := None |})
  ; (CadenceErrQueryFailedCounter, {| metricType := Counter; metricName := "cadence_errors_query_failed"; metricRollupName := ""; buckets := None |})
  ; (CadenceErrLimitExceededCounter, {| metricType := Counter; metricName := "cadence_errors_limit_exceeded"; metricRollupName := ""; buckets := None |})
  ; (CadenceErrContextTimeoutCounter, {| metricType := Counter; metricName := "cadence_errors_context_timeout"; metricRollupName := ""; buckets := None |})
  ; (CadenceErrRetryTaskCounter, {| metricType := Counter; metricName := "cadence_errors_retry_task"; metricRollupName := ""; buckets := None |})
  ; (CadenceErrBadBinaryCounter, {| metricType := Counter; metricName := "cadence_errors_bad_binary"; metricRollupName := ""; buckets := None |})
  ; (CadenceErrClientVersionNotSupportedCounter, {| metricType := Counter; metricName := "cadence_errors_client_version_not_supported"; metricRollupName := ""; buckets := None |})
  ; (CadenceErrIncompleteHistoryCounter, {| metricType := Counter; metricName := "cadence_errors_incomplete_history"; metricRollupName := ""; buckets := None |})
  ; (CadenceErrNonDeterministicCounter, {| metricType := Counter; metricName := "cadence_errors_nondeterministic"; metricRollupName := ""; buckets := None |})
  ; (CadenceErrUnauthorizedCounter, {| metricType := Counter; metricName := "cadence_errors_unauthorized"; metricRollupName := ""; buckets := None |})
  ; (CadenceErrAuthorizeFailedCounter, {| metricType := Counter; metricName := "cadence_errors_authorize_failed"; metricRollupName := ""; buckets := None |})
  ; (CadenceErrRemoteSyncMatchFailedCounter, {| metricType := Counter; metricName := "cadence_errors_remote_syncmatch_failed"; metricRollupName := ""; buckets := None |})
  ; (CadenceErrDomainNameExceededWarnLimit, {| metricType := Counter; metricName := "cadence_errors_domain_name_exceeded_warn_limit"; metricRollupName := ""; buckets := None |})
  ; (CadenceErrIdentityExceededWarnLimit, {| metricType := Counter; metricName := "cadence_errors_identity_exceeded_warn_limit"; metricRollupName := ""; buckets := None |})
  ; (CadenceErrWorkflowIDExceededWarnLimit, {| metricType := Counter; metricName := "cadence_errors_workflow_id_exceeded_warn_limit"; metricRollupName := ""; buckets := None |})
  ; (CadenceErrSignalNameExceededWarnLimit, {| metricType := Counter; metricName := "cadence_errors_signal_name_exceeded_warn_limit"; metricRollupName := ""; buckets := None |})
  ; (CadenceErrWorkflowTypeExceededWarnLimit, {| metricType := Counter; metricName := "cadence_errors_workflow_type_exceeded_warn_limit"; metricRollupName := ""; buckets := None |})
  ; (CadenceErrRequestIDExceededWarnLimit, {| metricType := Counter; metricName := "cadence_errors_request_id_exceeded_warn_limit"; metricRollupName := ""; buckets := None |})
  ; (CadenceErrTaskListNameExceededWarnLimit, {| metricType := Counter; metricName := "cadence_errors_task_list_name_exceeded_warn_limit"; metricRollupName := ""; buckets := None |})
  ; (CadenceErrActivityIDExceededWarnLimit, {| metricType := Counter; metricName := "cadence_errors_activity_id_exceeded_warn_limit"; metricRollupName := ""; buckets := None |})
  ; (CadenceErrActivityTypeExceededWarnLimit, {| metricType := Counter; metricName := "cadence_errors_activity_type_exceeded_warn_limit"; metricRollupName := ""; buckets := None |})
  ; (CadenceErrMarkerNameExceededWarnLimit, {| metricType := Counter; metricName := "cadence_errors_marker_name_exceeded_warn_limit"; metricRollupName := ""; buckets := None |})
  ; (CadenceErrTimerIDExceededWarnLimit, {| metricType := Counter; metricName := "cadence_errors_timer_id_exceeded_warn_limit"; metricRollupName := ""; buckets := None |})
  ; (PersistenceRequests, {| metricType := Counter; metricName := "persistence_requests"; metricRollupName := ""; buckets := None |})
  ; (PersistenceFailures, {| metricType := Counter; metricName := "persistence_errors"; metricRollupName := ""; buckets := None |})
  ; (PersistenceLatency, {| metricType := Timer; metricName := "persistence_latency"; metricRollupName := ""; buckets := None |})
  ; (PersistenceLatencyHistogram, {| metricType := Histogram; metricName := "persistence_latency_histogram"; metricRollupName := ""; buckets := Some PersistenceLatencyBuckets |})
  ; (PersistenceErrShardExistsCounter, {| metricType := Counter; metricName := "persistence_errors_shard_exists"; metricRollupName := ""; buckets := None |})
  ; (PersistenceErrShardOwnershipLostCounter, {| metricType := Counter; metricName := "persistence_errors_shard_ownership_lost"; metricRollupName := ""; buckets := None |})
  ; (PersistenceErrConditionFailedCounter, {| metricType := Counter; metricName := "persistence_errors_condition_failed"; metricRollupName := ""; buckets := None |})
  ; (PersistenceErrCurrentWorkflowConditionFailedCounter, {| metricType := Counter; metricName := "persistence_errors_current_workflow_condition_failed"; metricRollupName := ""; buckets := None |})
  ; (PersistenceErrTimeoutCounter, {| metricType := Counter; metricName := "persistence_errors_timeout"; metricRollupName := ""; buckets := None |})
  ; (PersistenceErrBusyCounter, {| metricType := Counter; metricName := "persistence_errors_busy"; metricRollupName := ""; buckets := None |})
  ; (PersistenceErrEntityNotExistsCounter, {| metricType := Counter; metricName := "persistence_errors_entity_not_exists"; metricRollupName := ""; buckets := None |})
  ; (PersistenceErrExecutionAlreadyStartedCounter, {| metricType := Counter; metricName := "persistence_errors_execution_already_started"; metricRollupName := ""; buckets := None |})
  ; (PersistenceErrDomainAlreadyExistsCounter, {| metricType := Counter; metricName := "persistence_errors_domain_already_exists"; metricRollupName := ""; buckets := None |})
  ; (PersistenceErrBadRequestCounter, {| metricType := Counter; metricName := "persistence_errors_bad_request"; metricRollupName := ""; buckets := None |})
  ; (PersistenceErrDBUnavailableCounter, {| metricType := Counter; metricName := "persistence_errors_db_unavailable"; metricRollupName := ""; buckets := None |})
  ; (PersistenceSampledCounter, {| metricType := Counter; metricName := "persistence_sampled"; metricRollupName := ""; buckets := None |})
  ; (PersistenceEmptyResponseCounter, {| metricType := Counter; metricName := "persistence_empty_response"; metricRollupName := ""; buckets := None |})
  ; (CadenceClientRequests, {| metricType := Counter; metricName := "cadence_client_requests"; metricRollupName := ""; buckets := None |})
  ; (CadenceClientFailures, {| metricType := Counter; metricName := "cadence_client_errors"; metricRollupName := ""; buckets := None |})
  ; (CadenceClientLatency, {| metricType := Timer; metricName := "cadence_client_latency"; metricRollupName := ""; buckets := None |})
  ; (CadenceDcRedirectionClientRequests, {| metricType := Counter; metricName := "cadence_client_requests_redirection"; metricRollupName := ""; buckets := None |})
  ; (CadenceDcRedirectionClientFailures, {| metricType := Counter; metricName := "cadence_client_errors_redirection"; metricRollupName := ""; buckets := None |})
  ; (CadenceDcRedirectionClientLatency, {| metricType := Timer; metricName := "cadence_client_latency_redirection"; metricRollupName := ""; buckets := None |})
  ; (CadenceAuthorizationLatency, {| metricType := Timer; metricName := "cadence_authorization_latency"; metricRollupName := ""; buckets := None |})
  ; (DomainCachePrepareCallbacksLatency, {| metricType := Timer; metricName := "domain_cache_prepare_callbacks_latency"; metricRollupName := ""; buckets := None |})
  ; (DomainCacheCallbacksLatency, {| metricType := Timer; metricName := "domain_cache_callbacks_latency"; metricRollupName := ""; buckets := None |})
  ; (DomainCacheCallbacksCount, {| metricType := Counter; metricName := "domain_cache_callbacks_count"; metricRollupName := ""; buckets := None |})
  ; (HistorySize, {| metricType := Timer; metricName := "history_size"; metricRollupName := ""; buckets := None |})
  ; (HistoryCount, {| metricType := Timer; metricName := "history_count"; metricRollupName := ""; buckets := None |})
  ; (EventBlobSize, {| metricType := Timer; metricName := "event_blob_size"; metricRollupName := ""; buckets := None |})
  ; (DecisionResultCount, {| metricType := Timer; metricName := "decision_result_count"; metricRollupName := ""; buckets := None |})
  ; (ArchivalConfigFailures, {| metricType := Counter; metricName := "archivalconfig_failures"; metricRollupName := ""; buckets := None |})
  ; (ActiveClusterGauge, {| metricType := Gauge; metricName := "active_cluster"; metricRollupName := ""; buckets := None |})
  ; (ElasticsearchRequests, {| metricType := Counter; metricName := "elasticsearch_requests"; metricRollupName := ""; buckets := None |})
  ; (ElasticsearchFailures, {| metricType := Counter; metricName := "elasticsearch_errors"; metricRollupName := ""; buckets := None |})
  ; (ElasticsearchLatency, {| metricType := Timer; metricName := "elasticsearch_latency"; metricRollupName := ""; buckets := None |})
  ; (ElasticsearchErrBadRequestCounter, {| metricType := Counter; metricName := "elasticsearch_errors_bad_request"; metricRollupName := ""; buckets := None |})
  ; (ElasticsearchErrBusyCounter, {| metricType := Counter; metricName := "elasticsearch_errors_busy"; metricRollupName := ""; buckets := None |})
  ; (SequentialTaskSubmitRequest, {| metricType := Counter; metricName := "sequentialtask_submit_request"; metricRollupName := ""; buckets := None |})
  ; (SequentialTaskSubmitRequestTaskQueueExist, {| metricType := Counter; metricName := "sequentialtask_submit_request_taskqueue_exist"; metricRollupName := ""; buckets := None |})
  ; (SequentialTaskSubmitRequestTaskQueueMissing, {| metricType := Counter; metricName := "sequentialtask_submit_request_taskqueue_missing"; metricRollupName := ""; buckets := None |})
  ; (SequentialTaskSubmitLatency, {| metricType := Timer; metricName := "sequentialtask_submit_latency"; metricRollupName := ""; buckets := None |})
  ; (SequentialTaskQueueSize, {| metricType := Timer; metricName := "sequentialtask_queue_size"; metricRollupName := ""; buckets := None |})
  ; (SequentialTaskQueueProcessingLatency, {| metricType := Timer; metricName := "sequentialtask_queue_processing_latency"; metricRollupName := ""; buckets := None |})
  ; (SequentialTaskTaskProcessingLatency, {| metricType := Timer; metricName := "sequentialtask_task_processing_latency"; metricRollupName := ""; buckets := None |})
  ; (ParallelTaskSubmitRequest, {| metricType := Counter; metricName := "paralleltask_submit_request"; metricRollupName := ""; buckets := None |})
  ; (ParallelTaskSubmitLatency, {| metricType := Timer; metricName := "paralleltask_submit_latency"; metricRollupName := ""; buckets := None |})
  ; (ParallelTaskTaskProcessingLatency, {| metricType := Timer; metricName := "paralleltask_task_processing_latency"; metricRollupName := ""; buckets := None |})
  ; (PriorityTaskSubmitRequest, {| metricType := Counter; metricName := "prioritytask_submit_request"; metricRollupName := ""; buckets := None |})
  ; (PriorityTaskSubmitLatency, {| metricType := Timer; metricName := "prioritytask_submit_latency"; metricRollupName := ""; buckets := None |})
  ; (KafkaConsumerMessageIn, {| metricType := Counter; metricName := "kafka_consumer_message_in"; metricRollupName := ""; buckets := None |})
  ; (KafkaConsumerMessageAck, {| metricType := Counter; metricName := "kafka_consumer_message_ack"; metricRollupName := ""; buckets := None |})
  ; (KafkaConsumerMessageNack, {| metricType := Counter; metricName := "kafka_consumer_message_nack"; metricRollupName := ""; buckets := None |})
  ; (KafkaConsumerMessageNackDlqErr, {| metricType := Counter; metricName := "kafka_consumer_message_nack_dlq_err"; metricRollupName := ""; buckets := None |})
  ; (KafkaConsumerSessionStart, {| metricType := Counter; metricName := "kafka_consumer_session_start"; metricRollupName := ""; buckets := None |})
  ; (GracefulFailoverLatency, {| metricType := Timer; metricName := "graceful_failover_latency"; metricRollupName := ""; buckets := None |})
  ; (GracefulFailoverFailure, {| metricType := Counter; metricName := "graceful_failover_failures"; metricRollupName := ""; buckets := None |})
  ; (HistoryArchiverArchiveNonRetryableErrorCount, {| metricType := Counter; metricName := "history_archiver_archive_non_retryable_error"; metricRollupName := ""; buckets := None |})
  ; (HistoryArchiverArchiveTransientErrorCount, {| metricType := Counter; metricName := "history_archiver_archive_transient_error"; metricRollupName := ""; buckets := None |})
  ; (HistoryArchiverArchiveSuccessCount, {| metricType := Counter; metricName := "history_archiver_archive_success"; metricRollupName := ""; buckets := None |})
  ; (HistoryArchiverHistoryMutatedCount, {| metricType := Counter; metricName := "history_archiver_history_mutated"; metricRollupName := ""; buckets := None |})
  ; (HistoryArchiverTotalUploadSize, {| metricType := Timer; metricName := "history_archiver_total_upload_size"; metricRollupName := ""; buckets := None |})
  ; (HistoryArchiverHistorySize, {| metricType := Timer; metricName := "history_archiver_history_size"; metricRollupName := ""; buckets := None |})
  ; (HistoryArchiverDuplicateArchivalsCount, {| metricType := Counter; metricName := "history_archiver_duplicate_archivals"; metricRollupName := ""; buckets := None |})
  ; (HistoryArchiverBlobExistsCount, {| metricType := Counter; metricName := "history_archiver_blob_exists"; metricRollupName := ""; buckets := None |})
  ; (HistoryArchiverBlobSize, {| metricType := Timer; metricName := "history_archiver_blob_size"; metricRollupName := ""; buckets := None |})
  ; (HistoryArchiverRunningDeterministicConstructionCheckCount, {| metricType := Counter; metricName := "history_archiver_running_deterministic_construction_check"; metricRollupName := ""; buckets := None |})
  ; (HistoryArchiverDeterministicConstructionCheckFailedCount, {| metricType := Counter; metricName := "history_archiver_deterministic_construction_check_failed"; metricRollupName := ""; buckets := None |})
  ; (HistoryArchiverRunningBlobIntegrityCheckCount, {| metricType := Counter; metricName := "history_archiver_running_blob_integrity_check"; metricRollupName := ""; buckets := None |})
  ; (HistoryArchiverBlobIntegrityCheckFailedCount, {| metricType := Counter; metricName := "history_archiver_blob_integrity_check_failed"; metricRollupName := ""; buckets := None |})
  ; (VisibilityArchiverArchiveNonRetryableErrorCount, {| metricType := Counter; metricName := "visibility_archiver_archive_non_retryable_error"; metricRollupName := ""; buckets := None |})
  ; (VisibilityArchiverArchiveTransientErrorCount, {| metricType := Counter; metricName := "visibility_archiver_archive_transient_error"; metricRollupName := ""; buckets := None |})
  ; (VisibilityArchiveSuccessCount, {| metricType := Counter; metricName := "visibility_archiver_archive_success"; metricRollupName := ""; buckets := None |})
  ; (MatchingClientForwardedCounter, {| metricType := Counter; metricName := "forwarded"; metricRollupName := ""; buckets := None |})
  ; (MatchingClientInvalidTaskListName, {| metricType := Counter; metricName := "invalid_task_list_name"; metricRollupName := ""; buckets := None |})
  ; (CadenceRequestsPerTaskList, {| metricType := Counter; metricName := "cadence_requests_per_tl"; metricRollupName := "cadence_requests"; buckets := None |})
  ; (CadenceFailuresPerTaskList, {| metricType := Counter; metricName := "cadence_errors_per_tl"; metricRollupName := "cadence_errors"; buckets := None |})
  ; (CadenceLatencyPerTaskList, {| metricType := Timer; metricName := "cadence_latency_per_tl"; metricRollupName := "cadence_latency"; buckets := None |})
  ; (CadenceErrBadRequestPerTaskListCounter, {| metricType := Counter; metricName := "cadence_errors_bad_request_per_tl"; metricRollupName := "cadence_errors_bad_request"; buckets := None |})
  ; (CadenceErrDomainNotActivePerTaskListCounter, {| metricType := Counter; metricName := "cadence_errors_domain_not_active_per_tl"; metricRollupName := "cadence_errors_domain_not_active"; buckets := None |})
  ; (CadenceErrServiceBusyPerTaskListCounter, {| metricType := Counter; metricName := "cadence_errors_service_busy_per_tl"; metricRollupName := "cadence_errors_service_busy"; buckets := None |})
  ; (CadenceErrEntityNotExistsPerTaskListCounter, {| metricType := Counter; metricName := "cadence_errors_entity_not_exists_per_tl"; metricRollupName := "cadence_errors_entity_not_exists"; buckets := None |})
  ; (CadenceErrExecutionAlreadyStartedPerTaskListCounter, {| metricType := Counter; metricName := "cadence_errors_execution_already_started_per_tl"; metricRollupName := "cadence_errors_execution_already_started"; buckets := None |})
  ; (CadenceErrDomainAlreadyExistsPerTaskListCounter, {| metricType := Counter; metricName := "cadence_errors_domain_already_exists_per_tl"; metricRollupName := "cadence_errors_domain_already_exists"; buckets := None |})
  ; (CadenceErrCancellationAlreadyRequestedPerTaskListCounter, {| metricType := Counter; metricName := "cadence_errors_cancellation_already_requested_per_tl"; metricRollupName := "cadence_errors_cancellation_already_requested"; buckets := None |})
  ; (CadenceErrQueryFailedPerTaskListCounter, {| metricType := Counter; metricName := "cadence_errors_query_failed_per_tl"; metricRollupName := "cadence_errors_query_failed"; buckets := None |})
  ; (CadenceErrLimitExceededPerTaskListCounter, {| metricType := Counter; metricName := "cadence_errors_limit_exceeded_per_tl"; metricRollupName := "cadence_errors_limit_exceeded"; buckets := None |})
  ; (CadenceErrContextTimeoutPerTaskListCounter, {| metricType := Counter; metricName := "cadence_errors_context_timeout_per_tl"; metricRollupName := "cadence_errors_context_timeout"; buckets := None |})
  ; (CadenceErrRetryTaskPerTaskListCounter, {| metricType := Counter; metricName := "cadence_errors_retry_task_per_tl"; metricRollupName := "cadence_errors_retry_task"; buckets := None |})
  ; (CadenceErrBadBinaryPerTaskListCounter, {| metricType := Counter; metricName := "cadence_errors_bad_binary_per_tl"; metricRollupName := "cadence_errors_bad_binary"; buckets := None |})
  ; (CadenceErrClientVersionNotSupportedPerTaskListCounter, {| metricType := Counter; metricName := "cadence_errors_client_version_not_supported_per_tl"; metricRollupName := "cadence_errors_client_version_not_supported"; buckets := None |})
  ; (CadenceErrIncompleteHistoryPerTaskListCounter, {| metricType := Counter; metricName := "cadence_errors_incomplete_history_per_tl"; metricRollupName := "cadence_errors_incomplete_history"; buckets := None |})
  ; (CadenceErrNonDeterministicPerTaskListCounter, {| metricType := Counter; metricName := "cadence_errors_nondeterministic_per_tl"; metricRollupName := "cadence_errors_nondeterministic"; buckets := None |})
  ; (CadenceErrUnauthorizedPerTaskListCounter, {| metricType := Counter; metricName := "cadence_errors_unauthorized_per_tl"; metricRollupName := "cadence_errors_unauthorized"; buckets := None |})
  ; (CadenceErrAuthorizeFailedPerTaskListCounter, {| metricType := Counter; metricName := "cadence_errors_authorize_failed_per_tl"; metricRollupName := "cadence_errors_authorize_failed"; buckets := None |})
  ; (CadenceErrRemoteSyncMatchFailedPerTaskListCounter, {| metricType := Counter; metricName := "cadence_errors_remote_syncmatch_failed_per_tl"; metricRollupName := "cadence_errors_remote_syncmatch_failed"; buckets := None |})
  ; (CadenceErrStickyWorkerUnavailablePerTaskListCounter, {| metricType := Counter; metricName := "cadence_errors_sticky_worker_unavailable_per_tl"; metricRollupName := "cadence_errors_sticky_worker_unavailable_per_tl"; buckets := None |})
  ; (CadenceShardSuccessGauge, {| metricType := Gauge; metricName := "cadence_shard_success"; metricRollupName := ""; buckets := None |})
  ; (CadenceShardFailureGauge, {| metricType := Gauge; metricName := "cadence_shard_failure"; metricRollupName := ""; buckets := None |})
  ; (DomainReplicationQueueSizeGauge, {| metricType := Gauge; metricName := "domain_replication_queue_size"; metricRollupName := ""; buckets := None |})
  ; (DomainReplicationQueueSizeErrorCount, {| metricType := Counter; metricName := "domain_replication_queue_failed"; metricRollupName := ""; buckets := None |})
  ; (ParentClosePolicyProcessorSuccess, {| metricType := Counter; metricName := "parent_close_policy_processor_requests"; metricRollupName := ""; buckets := None |})
  ; (ParentClosePolicyProcessorFailures, {| metricType := Counter; metricName := "parent_close_policy_processor_errors"; metricRollupName := ""; buckets := None |})
  ].

Definition MetricDefs_History : list (Z * metricDefinition) :=
  [ (TaskRequests, {| metricType := Counter; metricName := "task_requests"; metricRollupName := ""; buckets := None |})
  ; (TaskLatency, {| metricType := Timer; metricName := "task_latency"; metricRollupName := ""; buckets := None |})
  ; (TaskAttemptTimer, {| metricType := Timer; metricName := "task_attempt"; metricRollupName := ""; buckets := None |})
  ; (TaskFailures, {| metricType := Counter; metricName := "task_errors"; metricRollupName := ""; buckets := None |})
  ; (TaskDiscarded, {| metricType := Counter; metricName := "task_errors_discarded"; metricRollupName := ""; buckets := None |})
  ; (TaskStandbyRetryCounter, {| metricType := Counter; metricName := "task_errors_standby_retry_counter"; metricRollupName := ""; buckets := None |})
  ; (TaskNotActiveCounter, {| metricType := Counter; metricName := "task_errors_not_active_counter"; metricRollupName := ""; buckets := None |})
  ; (TaskLimitExceededCounter, {| metricType := Counter; metricName := "task_errors_limit_exceeded_counter"; metricRollupName := ""; buckets := None |})
  ; (TaskProcessingLatency, {| metricType := Timer; metricName := "task_latency_processing"; metricRollupName := ""; buckets := None |})
  ; (TaskQueueLatency, {| metricType := Timer; metricName := "task_latency_queue"; metricRollupName := ""; buckets := None |})
  ; (TaskRequestsPerDomain, {| metricType := Counter; metricName := "task_requests_per_domain"; metricRollupName := "task_requests"; buckets := None |})
  ; (TaskLatencyPerDomain, {| metricType := Timer; metricName := "task_latency_per_domain"; metricRollupName := "task_latency"; buckets := None |})
  ; (TaskAttemptTimerPerDomain, {| metricType := Timer; metricName := "task_attempt_per_domain"; metricRollupName := "task_attempt"; buckets := None |})
  ; (TaskFailuresPerDomain, {| metricType := Counter; metricName := "task_errors_per_domain"; metricRollupName := "task_errors"; buckets := None |})
  ; (TaskWorkflowBusyPerDomain, {| metricType := Counter; metricName := "task_errors_workflow_busy_per_domain"; metricRollupName := "task_errors_workflow_busy"; buckets := None |})
  ; (TaskDiscardedPerDomain, {| metricType := Counter; metricName := "task_errors_discarded_per_domain"; metricRollupName := "task_errors_discarded"; buckets := None |})
  ; (TaskUnsupportedPerDomain, {| metricType := Counter; metricName := "task_errors_unsupported_per_domain"; metricRollupName := "task_errors_discarded"; buckets := None |})
  ; (TaskStandbyRetryCounterPerDomain, {| metricType := Counter; metricName := "task_errors_standby_retry_counter_per_domain"; metricRollupName := "task_errors_standby_retry_counter"; buckets := None |})
  ; (TaskPendingActiveCounterPerDomain, {| metricType := Counter; metricName := "task_errors_pending_active_counter_per_domain"; metricRollupName := "task_errors_pending_active_counter"; buckets := None |})
  ; (TaskNotActiveCounterPerDomain, {| metricType := Counter; metricName := "task_errors_not_active_counter_per_domain"; metricRollupName := "task_errors_not_active_counter"; buckets := None |})
  ; (TaskTargetNotActiveCounterPerDomain, {| metricType := Counter; metricName := "task_errors_target_not_active_counter_per_domain"; metricRollupName := "task_errors_target_not_active_counter"; buckets := None |})
  ; (TaskLimitExceededCounterPerDomain, {| metricType := Counter; metricName := "task_errors_limit_exceeded_counter_per_domain"; metricRollupName := "task_errors_limit_exceeded_counter"; buckets := None |})
  ; (TaskProcessingLatencyPerDomain, {| metricType := Timer; metricName := "task_latency_processing_per_domain"; metricRollupName := "task_latency_processing"; buckets := None |})
  ; (TaskQueueLatencyPerDomain, {| metricType := Timer; metricName := "task_latency_queue_per_domain"; metricRollupName := "task_latency_queue"; buckets := None |})
  ; (TransferTaskMissingEventCounterPerDomain, {| metricType := Counter; metricName := "transfer_task_missing_event_counter_per_domain"; metricRollupName := "transfer_task_missing_event_counter"; buckets := None |})
  ; (ReplicationTasksAppliedPerDomain, {| metricType := Counter; metricName := "replication_tasks_applied_per_domain"; metricRollupName := "replication_tasks_applied"; buckets := None |})
  ; (TaskBatchCompleteCounter, {| metricType := Counter; metricName := "task_batch_complete_counter"; metricRollupName := ""; buckets := None |})
  ; (TaskBatchCompleteFailure, {| metricType := Counter; metricName := "task_batch_complete_error"; metricRollupName := ""; buckets := None |})
  ; (TaskRedispatchQueuePendingTasksTimer, {| metricType := Timer; metricName := "task_redispatch_queue_pending_tasks"; metricRollupName := ""; buckets := None |})
  ; (TransferTaskThrottledCounter, {| metricType := Counter; metricName := "transfer_task_throttled_counter"; metricRollupName := ""; buckets := None |})
  ; (TimerTaskThrottledCounter, {| metricType := Counter; metricName := "timer_task_throttled_counter"; metricRollupName := ""; buckets := None |})
  ; (CrossClusterTaskThrottledCounter, {| metricType := Counter; metricName := "cross_cluster_task_throttled_counter"; metricRollupName := ""; buckets := None |})
  ; (TransferTaskMissingEventCounter, {| metricType := Counter; metricName := "transfer_task_missing_event_counter"; metricRollupName := ""; buckets := None |})
  ; (ProcessingQueueNumTimer, {| metricType := Timer; metricName := "processing_queue_num"; metricRollupName := ""; buckets := None |})
  ; (ProcessingQueueMaxLevelTimer, {| metricType := Timer; metricName := "processing_queue_max_level"; metricRollupName := ""; buckets := None |})
  ; (ProcessingQueuePendingTaskSplitCounter, {| metricType := Counter; metricName := "processing_queue_pending_task_split_counter"; metricRollupName := ""; buckets := None |})
  ; (ProcessingQueueStuckTaskSplitCounter, {| metricType := Counter; metricName := "processing_queue_stuck_task_split_counter"; metricRollupName := ""; buckets := None |})
  ; (ProcessingQueueSelectedDomainSplitCounter, {| metricType := Counter; metricName := "processing_queue_selected_domain_split_counter"; metricRollupName := ""; buckets := None |})
  ; (ProcessingQueueRandomSplitCounter, {| metricType := Counter; metricName := "processing_queue_random_split_counter"; metricRollupName := ""; buckets := None |})
  ; (ProcessingQueueThrottledCounter, {| metricType := Counter; metricName := "processing_queue_throttled_counter"; metricRollupName := ""; buckets := None |})
  ; (QueueValidatorLostTaskCounter, {| metricType := Counter; metricName := "queue_validator_lost_task_counter"; metricRollupName := ""; buckets := None |})
  ; (QueueValidatorDropTaskCounter, {| metricType := Counter; metricName := "queue_validator_drop_task_counter"; metricRollupName := ""; buckets := None |})
  ; (QueueValidatorInvalidLoadCounter, {| metricType := Counter; metricName := "queue_validator_invalid_load_counter"; metricRollupName := ""; buckets := None |})
  ; (QueueValidatorValidationCounter, {| metricType := Counter; metricName := "queue_validator_validation_counter"; metricRollupName := ""; buckets := None |})
  ; (QueueValidatorValidationFailure, {| metricType := Counter; metricName := "queue_validator_validation_error"; metricRollupName := ""; buckets := None |})
  ; (CrossClusterFetchLatency, {| metricType := Timer; metricName := "cross_cluster_fetch_latency"; metricRollupName := ""; buckets := None |})
  ; (CrossClusterFetchRequests, {| metricType := Counter; metricName := "cross_cluster_fetch_requests"; metricRollupName := ""; buckets := None |})
  ; (CrossClusterFetchFailures, {| metricType := Counter; metricName := "cross_cluster_fetch_errors"; metricRollupName := ""; buckets := None |})
  ; (CrossClusterFetchServiceBusyFailures, {| metricType := Counter; metricName := "cross_cluster_fetch_errors_service_busy"; metricRollupName := ""; buckets := None |})
  ; (CrossClusterTaskRespondLatency, {| metricType := Timer; metricName := "cross_cluster_respond_latency"; metricRollupName := ""; buckets := None |})
  ; (CrossClusterTaskRespondRequests, {| metricType := Counter; metricName := "cross_cluster_respond_requests"; metricRollupName := ""; buckets := None |})
  ; (CrossClusterTaskRespondFailures, {| metricType := Counter; metricName := "cross_cluster_fetch_errors"; metricRollupName := ""; buckets := None |})
  ; (CrossClusterTaskFetchedTimer, {| metricType := Timer; metricName := "cross_cluster_task_fetched"; metricRollupName := ""; buckets := None |})
  ; (CrossClusterTaskPendingTimer, {| metricType := Timer; metricName := "cross_cluster_task_pending"; metricRollupName := ""; buckets := None |})
  ; (ActivityE2ELatency, {| metricType := Timer; metricName := "activity_end_to_end_latency"; metricRollupName := ""; buckets := None |})
  ; (ActivityLostCounter, {| metricType := Counter; metricName := "activity_lost"; metricRollupName := ""; buckets := None |})
  ; (AckLevelUpdateCounter, {| metricType := Counter; metricName := "ack_level_update"; metricRollupName := ""; buckets := None |})
  ; (AckLevelUpdateFailedCounter, {| metricType := Counter; metricName := "ack_level_update_failed"; metricRollupName := ""; buckets := None |})
  ; (DecisionTypeScheduleActivityCounter, {| metricType := Counter; metricName := "schedule_activity_decision"; metricRollupName := ""; buckets := None |})
  ; (DecisionTypeScheduleActivityDispatchSucceedCounter, {| metricType := Counter; metricName := "schedule_activity_decision_sync_match_succeed"; metricRollupName := ""; buckets := None |})
  ; (DecisionTypeScheduleActivityDispatchCounter, {| metricType := Counter; metricName := "schedule_activity_decision_try_sync_match"; metricRollupName := ""; buckets := None |})
  ; (DecisionTypeCompleteWorkflowCounter, {| metricType := Counter; metricName := "complete_workflow_decision"; metricRollupName := ""; buckets := None |})
  ; (DecisionTypeFailWorkflowCounter, {| metricType := Counter; metricName := "fail_workflow_decision"; metricRollupName := ""; buckets := None |})
  ; (DecisionTypeCancelWorkflowCounter, {| metricType := Counter; metricName := "cancel_workflow_decision"; metricRollupName := ""; buckets := None |})
  ; (DecisionTypeStartTimerCounter, {| metricType := Counter; metricName := "start_timer_decision"; metricRollupName := ""; buckets := None |})
  ; (DecisionTypeCancelActivityCounter, {| metricType := Counter; metricName := "cancel_activity_decision"; metricRollupName := ""; buckets := None |})
  ; (DecisionTypeCancelTimerCounter, {| metricType := Counter; metricName := "cancel_timer_decision"; metricRollupName := ""; buckets := None |})
  ; (DecisionTypeRecordMarkerCounter, {| metricType := Counter; metricName := "record_marker_decision"; metricRollupName := ""; buckets := None |})
  ; (DecisionTypeCancelExternalWorkflowCounter, {| metricType := Counter; metricName := "cancel_external_workflow_decision"; metricRollupName := ""; buckets := None |})
  ; (DecisionTypeContinueAsNewCounter, {| metricType := Counter; metricName := "continue_as_new_decision"; metricRollupName := ""; buckets := None |})
  ; (DecisionTypeSignalExternalWorkflowCounter, {| metricType := Counter; metricName := "signal_external_workflow_decision"; metricRollupName := ""; buckets := None |})
  ; (DecisionTypeUpsertWorkflowSearchAttributesCounter, {| metricType := Counter; metricName := "upsert_workflow_search_attributes_decision"; metricRollupName := ""; buckets := None |})
  ; (DecisionTypeChildWorkflowCounter, {| metricType := Counter; metricName := "child_workflow_decision"; metricRollupName := ""; buckets := None |})
  ; (EmptyCompletionDecisionsCounter, {| metricType := Counter; metricName := "empty_completion_decisions"; metricRollupName := ""; buckets := None |})
  ; (MultipleCompletionDecisionsCounter, {| metricType := Counter; metricName := "multiple_completion_decisions"; metricRollupName := ""; buckets := None |})
  ; (FailedDecisionsCounter, {| metricType := Counter; metricName := "failed_decisions"; metricRollupName := ""; buckets := None |})
  ; (DecisionAttemptTimer, {| metricType := Timer; metricName := "decision_attempt"; metricRollupName := ""; buckets := None |})
  ; (DecisionRetriesExceededCounter, {| metricType := Counter; metricName := "decision_retries_exceeded"; metricRollupName := ""; buckets := None |})
  ; (StaleMutableStateCounter, {| metricType := Counter; metricName := "stale_mutable_state"; metricRollupName := ""; buckets := None |})
  ; (DataInconsistentCounter, {| metricType := Counter; metricName := "data_inconsistent"; metricRollupName := ""; buckets := None |})
  ; (TimerResurrectionCounter, {| metricType := Counter; metricName := "timer_resurrection"; metricRollupName := ""; buckets := None |})
  ; (ActivityResurrectionCounter, {| metricType := Counter; metricName := "activity_resurrection"; metricRollupName := ""; buckets := None |})
  ; (AutoResetPointsLimitExceededCounter, {| metricType := Counter; metricName := "auto_reset_points_exceed_limit"; metricRollupName := ""; buckets := None |})
  ; (AutoResetPointCorruptionCounter, {| metricType := Counter; metricName := "auto_reset_point_corruption"; metricRollupName := ""; buckets := None |})
  ; (ConcurrencyUpdateFailureCounter, {| metricType := Counter; metricName := "concurrency_update_failure"; metricRollupName := ""; buckets := None |})
  ; (CadenceErrShardOwnershipLostCounter, {| metricType := Counter; metricName := "cadence_errors_shard_ownership_lost"; metricRollupName := ""; buckets := None |})
  ; (CadenceErrEventAlreadyStartedCounter, {| metricType := Counter; metricName := "cadence_errors_event_already_started"; metricRollupName := ""; buckets := None |})
  ; (HeartbeatTimeoutCounter, {| metricType := Counter; metricName := "heartbeat_timeout"; metricRollupName := ""; buckets := None |})
  ; (ScheduleToStartTimeoutCounter, {| metricType := Counter; metricName := "schedule_to_start_timeout"; metricRollupName := ""; buckets := None |})
  ; (StartToCloseTimeoutCounter, {| metricType := Counter; metricName := "start_to_close_timeout"; metricRollupName := ""; buckets := None |})
  ; (ScheduleToCloseTimeoutCounter, {| metricType := Counter; metricName := "schedule_to_close_timeout"; metricRollupName := ""; buckets := None |})
  ; (NewTimerCounter, {| metricType := Counter; metricName := "new_timer"; metricRollupName := ""; buckets := None |})
  ; (NewTimerNotifyCounter, {| metricType := Counter; metricName := "new_timer_notifications"; metricRollupName := ""; buckets := None |})
  ; (AcquireShardsCounter, {| metricType := Counter; metricName := "acquire_shards_count"; metricRollupName := ""; buckets := None |})
  ; (AcquireShardsLatency, {| metricType := Timer; metricName := "acquire_shards_latency"; metricRollupName := ""; buckets := None |})
  ; (ShardClosedCounter, {| metricType := Counter; metricName := "shard_closed_count"; metricRollupName := ""; buckets := None |})
  ; (ShardItemCreatedCounter, {| metricType := Counter; metricName := "sharditem_created_count"; metricRollupName := ""; buckets := None |})
  ; (ShardItemRemovedCounter, {| metricType := Counter; metricName := "sharditem_removed_count"; metricRollupName := ""; buckets := None |})
  ; (ShardItemAcquisitionLatency, {| metricType := Timer; metricName := "sharditem_acquisition_latency"; metricRollupName := ""; buckets := None |})
  ; (ShardInfoReplicationPendingTasksTimer, {| metricType := Timer; metricName := "shardinfo_replication_pending_task"; metricRollupName := ""; buckets := None |})
  ; (ShardInfoTransferActivePendingTasksTimer, {| metricType := Timer; metricName := "shardinfo_transfer_active_pending_task"; metricRollupName := ""; buckets := None |})
  ; (ShardInfoTransferStandbyPendingTasksTimer, {| metricType := Timer; metricName := "shardinfo_transfer_standby_pending_task"; metricRollupName := ""; buckets := None |})
  ; (ShardInfoTimerActivePendingTasksTimer, {| metricType := Timer; metricName := "shardinfo_timer_active_pending_task"; metricRollupName := ""; buckets := None |})
  ; (ShardInfoTimerStandbyPendingTasksTimer, {| metricType := Timer; metricName := "shardinfo_timer_standby_pending_task"; metricRollupName := ""; buckets := None |})
  ; (ShardInfoCrossClusterPendingTasksTimer, {| metricType := Timer; metricName := "shardinfo_cross_cluster_pending_task"; metricRollupName := ""; buckets := None |})
  ; (ShardInfoReplicationLagTimer, {| metricType := Timer; metricName := "shardinfo_replication_lag"; metricRollupName := ""; buckets := None |})
  ; (ShardInfoTransferLagTimer, {| metricType := Timer; metricName := "shardinfo_transfer_lag"; metricRollupName := ""; buckets := None |})
  ; (ShardInfoTimerLagTimer, {| metricType := Timer; metricName := "shardinfo_timer_lag"; metricRollupName := ""; buckets := None |})
  ; (ShardInfoCrossClusterLagTimer, {| metricType := Timer; metricName := "shardinfo_cross_cluster_lag"; metricRollupName := ""; buckets := None |})
  ; (ShardInfoTransferDiffTimer, {| metricType := Timer; metricName := "shardinfo_transfer_diff"; metricRollupName := ""; buckets := None |})
  ; (ShardInfoTimerDiffTimer, {| metricType := Timer; metricName := "shardinfo_timer_diff"; metricRollupName := ""; buckets := None |})
  ; (ShardInfoTransferFailoverInProgressTimer, {| metricType := Timer; metricName := "shardinfo_transfer_failover_in_progress"; metricRollupName := ""; buckets := None |})
  ; (ShardInfoTimerFailoverInProgressTimer, {| metricType := Timer; metricName := "shardinfo_timer_failover_in_progress"; metricRollupName := ""; buckets := None |})
  ; (ShardInfoTransferFailoverLatencyTimer, {| metricType := Timer; metricName := "shardinfo_transfer_failover_latency"; metricRollupName := ""; buckets := None |})
  ; (ShardInfoTimerFailoverLatencyTimer, {| metricType := Timer; metricName := "shardinfo_timer_failover_latency"; metricRollupName := ""; buckets := None |})
  ; (SyncShardFromRemoteCounter, {| metricType := Counter; metricName := "syncshard_remote_count"; metricRollupName := ""; buckets := None |})
  ; (SyncShardFromRemoteFailure, {| metricType := Counter; metricName := "syncshard_remote_failed"; metricRollupName := ""; buckets := None |})
  ; (MembershipChangedCounter, {| metricType := Counter; metricName := "membership_changed_count"; metricRollupName := ""; buckets := None |})
  ; (NumShardsGauge, {| metricType := Gauge; metricName := "numshards_gauge"; metricRollupName := ""; buckets := None |})
  ; (GetEngineForShardErrorCounter, {| metricType := Counter; metricName := "get_engine_for_shard_errors"; metricRollupName := ""; buckets := None |})
  ; (GetEngineForShardLatency, {| metricType := Timer; metricName := "get_engine_for_shard_latency"; metricRollupName := ""; buckets := None |})
  ; (RemoveEngineForShardLatency, {| metricType := Timer; metricName := "remove_engine_for_shard_latency"; metricRollupName := ""; buckets := None |})
  ; (CompleteDecisionWithStickyEnabledCounter, {| metricType := Counter; metricName := "complete_decision_sticky_enabled_count"; metricRollupName := ""; buckets := None |})
  ; (CompleteDecisionWithStickyDisabledCounter, {| metricType := Counter; metricName := "complete_decision_sticky_disabled_count"; metricRollupName := ""; buckets := None |})
  ; (DecisionHeartbeatTimeoutCounter, {| metricType := Counter; metricName := "decision_heartbeat_timeout_count"; metricRollupName := ""; buckets := None |})
  ; (HistoryEventNotificationQueueingLatency, {| metricType := Timer; metricName := "history_event_notification_queueing_latency"; metricRollupName := ""; buckets := None |})
  ; (HistoryEventNotificationFanoutLatency, {| metricType := Timer; metricName := "history_event_notification_fanout_latency"; metricRollupName := ""; buckets := None |})
  ; (HistoryEventNotificationInFlightMessageGauge, {| metricType := Gauge; metricName := "history_event_notification_inflight_message_gauge"; metricRollupName := ""; buckets := None |})
  ; (HistoryEventNotificationFailDeliveryCount, {| metricType := Counter; metricName := "history_event_notification_fail_delivery_count"; metricRollupName := ""; buckets := None |})
  ; (EmptyReplicationEventsCounter, {| metricType := Counter; metricName := "empty_replication_events"; metricRollupName := ""; buckets := None |})
  ; (DuplicateReplicationEventsCounter, {| metricType := Counter; metricName := "duplicate_replication_events"; metricRollupName := ""; buckets := None |})
  ; (StaleReplicationEventsCounter, {| metricType := Counter; metricName := "stale_replication_events"; metricRollupName := ""; buckets := None |})
  ; (ReplicationEventsSizeTimer, {| metricType := Timer; metricName := "replication_events_size"; metricRollupName := ""; buckets := None |})
  ; (BufferReplicationTaskTimer, {| metricType := Timer; metricName := "buffer_replication_tasks"; metricRollupName := ""; buckets := None |})
  ; (UnbufferReplicationTaskTimer, {| metricType := Timer; metricName := "unbuffer_replication_tasks"; metricRollupName := ""; buckets := None |})
  ; (HistoryConflictsCounter, {| metricType := Counter; metricName := "history_conflicts"; metricRollupName := ""; buckets := None |})
  ; (CompleteTaskFailedCounter, {| metricType := Counter; metricName := "complete_task_fail_count"; metricRollupName := ""; buckets := None |})
  ; (CacheSize, {| metricType := Timer; metricName := "cache_size"; metricRollupName := ""; buckets := None |})
  ; (CacheRequests, {| metricType := Counter; metricName := "cache_requests"; metricRollupName := ""; buckets := None |})
  ; (CacheFailures, {| metricType := Counter; metricName := "cache_errors"; metricRollupName := ""; buckets := None |})
  ; (CacheLatency, {| metricType := Timer; metricName := "cache_latency"; metricRollupName := ""; buckets := None |})
  ; (CacheHitCounter, {| metricType := Counter; metricName := "cache_hit"; metricRollupName := ""; buckets := None |})
  ; (CacheMissCounter, {| metricType := Counter; metricName := "cache_miss"; metricRollupName := ""; buckets := None |})
  ; (CacheFullCounter, {| metricType := Counter; metricName := "cache_full"; metricRollupName := ""; buckets := None |})
  ; (AcquireLockFailedCounter, {| metricType := Counter; metricName := "acquire_lock_failed"; metricRollupName := ""; buckets := None |})
  ; (WorkflowContextCleared, {| metricType := Counter; metricName := "workflow_context_cleared"; metricRollupName := ""; buckets := None |})
  ; (MutableStateSize, {| metricType := Timer; metricName := "mutable_state_size"; metricRollupName := ""; buckets := None |})
  ; (ExecutionInfoSize, {| metricType := Timer; metricName := "execution_info_size"; metricRollupName := ""; buckets := None |})
  ; (ActivityInfoSize, {| metricType := Timer; metricName := "activity_info_size"; metricRollupName := ""; buckets := None |})
  ; (TimerInfoSize, {| metricType := Timer; metricName := "timer_info_size"; metricRollupName := ""; buckets := None |})
  ; (ChildInfoSize, {| metricType := Timer; metricName := "child_info_size"; metricRollupName := ""; buckets := None |})
  ; (SignalInfoSize, {| metricType := Timer; metricName := "signal_info_size"; metricRollupName := ""; buckets := None |})
  ; (BufferedEventsSize, {| metricType := Timer; metricName := "buffered_events_size"; metricRollupName := ""; buckets := None |})
  ; (ActivityInfoCount, {| metricType := Timer; metricName := "activity_info_count"; metricRollupName := ""; buckets := None |})
  ; (TimerInfoCount, {| metricType := Timer; metricName := "timer_info_count"; metricRollupName := ""; buckets := None |})
  ; (ChildInfoCount, {| metricType := Timer; metricName := "child_info_count"; metricRollupName := ""; buckets := None |})
  ; (SignalInfoCount, {| metricType := Timer; metricName := "signal_info_count"; metricRollupName := ""; buckets := None |})
  ; (RequestCancelInfoCount, {| metricType := Timer; metricName := "request_cancel_info_count"; metricRollupName := ""; buckets := None |})
  ; (BufferedEventsCount, {| metricType := Timer; metricName := "buffered_events_count"; metricRollupName := ""; buckets := None |})
  ; (DeleteActivityInfoCount, {| metricType := Timer; metricName := "delete_activity_info"; metricRollupName := ""; buckets := None |})
  ; (DeleteTimerInfoCount, {| metricType := Timer; metricName := "delete_timer_info"; metricRollupName := ""; buckets := None |})
  ; (DeleteChildInfoCount, {| metricType := Timer; metricName := "delete_child_info"; metricRollupName := ""; buckets := None |})
  ; (DeleteSignalInfoCount, {| metricType := Timer; metricName := "delete_signal_info"; metricRollupName := ""; buckets := None |})
  ; (DeleteRequestCancelInfoCount, {| metricType := Timer; metricName := "delete_request_cancel_info"; metricRollupName := ""; buckets := None |})
  ; (WorkflowRetryBackoffTimerCount, {| metricType := Counter; metricName := "workflow_retry_backoff_timer"; metricRollupName := ""; buckets := None |})
  ; (WorkflowCronBackoffTimerCount, {| metricType := Counter; metricName := "workflow_cron_backoff_timer"; metricRollupName := ""; buckets := None |})
  ; (WorkflowCleanupDeleteCount, {| metricType := Counter; metricName := "workflow_cleanup_delete"; metricRollupName := ""; buckets := None |})
  ; (WorkflowCleanupArchiveCount, {| metricType := Counter; metricName := "workflow_cleanup_archive"; metricRollupName := ""; buckets := None |})
  ; (WorkflowCleanupNopCount, {| metricType := Counter; metricName := "workflow_cleanup_nop"; metricRollupName := ""; buckets := None |})
  ; (WorkflowCleanupDeleteHistoryInlineCount, {| metricType := Counter; metricName := "workflow_cleanup_delete_history_inline"; metricRollupName := ""; buckets := None |})
  ; (WorkflowSuccessCount, {| metricType := Counter; metricName := "workflow_success"; metricRollupName := ""; buckets := None |})
  ; (WorkflowCancelCount, {| metricType := Counter; metricName := "workflow_cancel"; metricRollupName := ""; buckets := None |})
  ; (WorkflowFailedCount, {| metricType := Counter; metricName := "workflow_failed"; metricRollupName := ""; buckets := None |})
  ; (WorkflowTimeoutCount, {| metricType := Counter; metricName := "workflow_timeout"; metricRollupName := ""; buckets := None |})
  ; (WorkflowTerminateCount, {| metricType := Counter; metricName := "workflow_terminate"; metricRollupName := ""; buckets := None |})
  ; (WorkflowContinuedAsNew, {| metricType := Counter; metricName := "workflow_continued_as_new"; metricRollupName := ""; buckets := None |})
  ; (WorkflowCompletedUnknownType, {| metricType := Counter; metricName := "workflow_completed_unknown_type"; metricRollupName := ""; buckets := None |})
  ; (ArchiverClientSendSignalCount, {| metricType := Counter; metricName := "archiver_client_sent_signal"; metricRollupName := ""; buckets := None |})
  ; (ArchiverClientSendSignalFailureCount, {| metricType := Counter; metricName := "archiver_client_send_signal_error"; metricRollupName := ""; buckets := None |})
  ; (ArchiverClientHistoryRequestCount, {| metricType := Counter; metricName := "archiver_client_history_request"; metricRollupName := ""; buckets := None |})
  ; (ArchiverClientHistoryInlineArchiveAttemptCount, {| metricType := Counter; metricName := "archiver_client_history_inline_archive_attempt"; metricRollupName := ""; buckets := None |})
  ; (ArchiverClientHistoryInlineArchiveFailureCount, {| metricType := Counter; metricName := "archiver_client_history_inline_archive_failure"; metricRollupName := ""; buckets := None |})
  ; (ArchiverClientHistoryInlineArchiveThrottledCount, {| metricType := Counter; metricName := "archiver_client_history_inline_archive_throttled"; metricRollupName := ""; buckets := None |})
  ; (ArchiverClientVisibilityRequestCount, {| metricType := Counter; metricName := "archiver_client_visibility_request"; metricRollupName := ""; buckets := None |})
  ; (ArchiverClientVisibilityInlineArchiveAttemptCount, {| metricType := Counter; metricName := "archiver_client_visibility_inline_archive_attempt"; metricRollupName := ""; buckets := None |})
  ; (ArchiverClientVisibilityInlineArchiveFailureCount, {| metricType := Counter; metricName := "archiver_client_visibility_inline_archive_failure"; metricRollupName := ""; buckets := None |})
  ; (ArchiverClientVisibilityInlineArchiveThrottledCount, {| metricType := Counter; metricName := "archiver_client_visibility_inline_archive_throttled"; metricRollupName := ""; buckets := None |})
  ; (LastRetrievedMessageID, {| metricType := Gauge; metricName := "last_retrieved_message_id"; metricRollupName := ""; buckets := None |})
  ; (LastProcessedMessageID, {| metricType := Gauge; metricName := "last_processed_message_id"; metricRollupName := ""; buckets := None |})
  ; (ReplicationLatency, {| metricType := Gauge; metricName := "replication_latency"; metricRollupName := ""; buckets := None |})
  ; (ReplicationTasksApplied, {| metricType := Counter; metricName := "replication_tasks_applied"; metricRollupName := ""; buckets := None |})
  ; (ReplicationTasksFailed, {| metricType := Counter; metricName := "replication_tasks_failed"; metricRollupName := ""; buckets := None |})
  ; (ReplicationTasksLag, {| metricType := Timer; metricName := "replication_tasks_lag"; metricRollupName := ""; buckets := None |})
  ; (ReplicationTasksFetched, {| metricType := Timer; metricName := "replication_tasks_fetched"; metricRollupName := ""; buckets := None |})
  ; (ReplicationTasksReturned, {| metricType := Timer; metricName := "replication_tasks_returned"; metricRollupName := ""; buckets := None |})
  ; (ReplicationTasksReturnedDiff, {| metricType := Timer; metricName := "replication_tasks_returned_diff"; metricRollupName := ""; buckets := None |})
  ; (ReplicationTasksAppliedLatency, {| metricType := Timer; metricName := "replication_tasks_applied_latency"; metricRollupName := ""; buckets := None |})
  ; (ReplicationDLQFailed, {| metricType := Counter; metricName := "replication_dlq_enqueue_failed"; metricRollupName := ""; buckets := None |})
  ; (ReplicationDLQMaxLevelGauge, {| metricType := Gauge; metricName := "replication_dlq_max_level"; metricRollupName := ""; buckets := None |})
  ; (ReplicationDLQAckLevelGauge, {| metricType := Gauge; metricName := "replication_dlq_ack_level"; metricRollupName := ""; buckets := None |})
  ; (ReplicationDLQProbeFailed, {| metricType := Counter; metricName := "replication_dlq_probe_failed"; metricRollupName := ""; buckets := None |})
  ; (ReplicationDLQSize, {| metricType := Gauge; metricName := "replication_dlq_size"; metricRollupName := ""; buckets := None |})
  ; (ReplicationDLQValidationFailed, {| metricType := Counter; metricName := "replication_dlq_validation_failed"; metricRollupName := ""; buckets := None |})
  ; (GetReplicationMessagesForShardLatency, {| metricType := Timer; metricName := "get_replication_messages_for_shard"; metricRollupName := ""; buckets := None |})
  ; (GetDLQReplicationMessagesLatency, {| metricType := Timer; metricName := "get_dlq_replication_messages"; metricRollupName := ""; buckets := None |})
  ; (EventReapplySkippedCount, {| metricType := Counter; metricName := "event_reapply_skipped_count"; metricRollupName := ""; buckets := None |})
  ; (DirectQueryDispatchLatency, {| metricType := Timer; metricName := "direct_query_dispatch_latency"; metricRollupName := ""; buckets := None |})
  ; (DirectQueryDispatchStickyLatency, {| metricType := Timer; metricName := "direct_query_dispatch_sticky_latency"; metricRollupName := ""; buckets := None |})
  ; (DirectQueryDispatchNonStickyLatency, {| metricType := Timer; metricName := "direct_query_dispatch_non_sticky_latency"; metricRollupName := ""; buckets := None |})
  ; (DirectQueryDispatchStickySuccessCount, {| metricType := Counter; metricName := "direct_query_dispatch_sticky_success"; metricRollupName := ""; buckets := None |})
  ; (DirectQueryDispatchNonStickySuccessCount, {| metricType := Counter; metricName := "direct_query_dispatch_non_sticky_success"; metricRollupName := ""; buckets := None |})
  ; (DirectQueryDispatchClearStickinessLatency, {| metricType := Timer; metricName := "direct_query_dispatch_clear_stickiness_latency"; metricRollupName := ""; buckets := None |})
  ; (DirectQueryDispatchClearStickinessSuccessCount, {| metricType := Counter; metricName := "direct_query_dispatch_clear_stickiness_success"; metricRollupName := ""; buckets := None |})
  ; (DirectQueryDispatchTimeoutBeforeNonStickyCount, {| metricType := Counter; metricName := "direct_query_dispatch_timeout_before_non_sticky"; metricRollupName := ""; buckets := None |})
  ; (DecisionTaskQueryLatency, {| metricType := Timer; metricName := "decision_task_query_latency"; metricRollupName := ""; buckets := None |})
  ; (ConsistentQueryTimeoutCount, {| metricType := Counter; metricName := "consistent_query_timeout"; metricRollupName := ""; buckets := None |})
  ; (QueryBeforeFirstDecisionCount, {| metricType := Counter; metricName := "query_before_first_decision"; metricRollupName := ""; buckets := None |})
  ; (QueryBufferExceededCount, {| metricType := Counter; metricName := "query_buffer_exceeded"; metricRollupName := ""; buckets := None |})
  ; (QueryRegistryInvalidStateCount, {| metricType := Counter; metricName := "query_registry_invalid_state"; metricRollupName := ""; buckets := None |})
  ; (WorkerNotSupportsConsistentQueryCount, {| metricType := Counter; metricName := "worker_not_supports_consistent_query"; metricRollupName := ""; buckets := None |})
  ; (DecisionStartToCloseTimeoutOverrideCount, {| metricType := Counter; metricName := "decision_start_to_close_timeout_overrides"; metricRollupName := ""; buckets := None |})
  ; (ReplicationTaskCleanupCount, {| metricType := Counter; metricName := "replication_task_cleanup_count"; metricRollupName := ""; buckets := None |})
  ; (ReplicationTaskCleanupFailure, {| metricType := Counter; metricName := "replication_task_cleanup_failed"; metricRollupName := ""; buckets := None |})
  ; (ReplicationTaskLatency, {| metricType := Timer; metricName := "replication_task_latency"; metricRollupName := ""; buckets := None |})
  ; (MutableStateChecksumMismatch, {| metricType := Counter; metricName := "mutable_state_checksum_mismatch"; metricRollupName := ""; buckets := None |})
  ; (MutableStateChecksumInvalidated, {| metricType := Counter; metricName := "mutable_state_checksum_invalidated"; metricRollupName := ""; buckets := None |})
  ; (FailoverMarkerCount, {| metricType := Counter; metricName := "failover_marker_count"; metricRollupName := ""; buckets := None |})
  ; (FailoverMarkerReplicationLatency, {| metricType := Timer; metricName := "failover_marker_replication_latency"; metricRollupName := ""; buckets := None |})
  ; (FailoverMarkerInsertFailure, {| metricType := Counter; metricName := "failover_marker_insert_failures"; metricRollupName := ""; buckets := None |})
  ; (FailoverMarkerNotificationFailure, {| metricType := Counter; metricName := "failover_marker_notification_failures"; metricRollupName := ""; buckets := None |})
  ; (FailoverMarkerUpdateShardFailure, {| metricType := Counter; metricName := "failover_marker_update_shard_failures"; metricRollupName := ""; buckets := None |})
  ; (FailoverMarkerCallbackCount, {| metricType := Counter; metricName := "failover_marker_callback_count"; metricRollupName := ""; buckets := None |})
  ; (HistoryFailoverCallbackCount, {| metricType := Counter; metricName := "failover_callback_handler_count"; metricRollupName := ""; buckets := None |})
  ; (TransferTasksCount, {| metricType := Timer; metricName := "transfer_tasks_count"; metricRollupName := ""; buckets := None |})
  ; (TimerTasksCount, {| metricType := Timer; metricName := "timer_tasks_count"; metricRollupName := ""; buckets := None |})
  ; (CrossClusterTasksCount, {| metricType := Timer; metricName := "cross_cluster_tasks_count"; metricRollupName := ""; buckets := None |})
  ; (ReplicationTasksCount, {| metricType := Timer; metricName := "replication_tasks_count"; metricRollupName := ""; buckets := None |})
  ].

Definition MetricDefs_Matching : list (Z * metricDefinition) :=
  [ (PollSuccessPerTaskListCounter, {| metricType := 0 (* zero value *); metricName := "poll_success_per_tl"; metricRollupName := "poll_success"; buckets := None |})
  ; (PollTimeoutPerTaskListCounter, {| metricType := 0 (* zero value *); metricName := "poll_timeouts_per_tl"; metricRollupName := "poll_timeouts"; buckets := None |})
  ; (PollSuccessWithSyncPerTaskListCounter, {| metricType := 0 (* zero value *); metricName := "poll_success_sync_per_tl"; metricRollupName := "poll_success_sync"; buckets := None |})
  ; (LeaseRequestPerTaskListCounter, {| metricType := 0 (* zero value *); metricName := "lease_requests_per_tl"; metricRollupName := "lease_requests"; buckets := None |})
  ; (LeaseFailurePerTaskListCounter, {| metricType := 0 (* zero value *); metricName := "lease_failures_per_tl"; metricRollupName := "lease_failures"; buckets := None |})
  ; (ConditionFailedErrorPerTaskListCounter, {| metricType := 0 (* zero value *); metricName := "condition_failed_errors_per_tl"; metricRollupName := "condition_failed_errors"; buckets := None |})
  ; (RespondQueryTaskFailedPerTaskListCounter, {| metricType := 0 (* zero value *); metricName := "respond_query_failed_per_tl"; metricRollupName := "respond_query_failed"; buckets := None |})
  ; (SyncThrottlePerTaskListCounter, {| metricType := 0 (* zero value *); metricName := "sync_throttle_count_per_tl"; metricRollupName := "sync_throttle_count"; buckets := None |})
  ; (BufferThrottlePerTaskListCounter, {| metricType := 0 (* zero value *); metricName := "buffer_throttle_count_per_tl"; metricRollupName := "buffer_throttle_count"; buckets := None |})
  ; (ExpiredTasksPerTaskListCounter, {| metricType := 0 (* zero value *); metricName := "tasks_expired_per_tl"; metricRollupName := "tasks_expired"; buckets := None |})
  ; (ForwardedPerTaskListCounter, {| metricType := 0 (* zero value *); metricName := "forwarded_per_tl"; metricRollupName := "forwarded"; buckets := None |})
  ; (ForwardTaskCallsPerTaskList, {| metricType := 0 (* zero value *); metricName := "forward_task_calls_per_tl"; metricRollupName := "forward_task_calls"; buckets := None |})
  ; (ForwardTaskErrorsPerTaskList, {| metricType := 0 (* zero value *); metricName := "forward_task_errors_per_tl"; metricRollupName := "forward_task_errors"; buckets := None |})
  ; (ForwardQueryCallsPerTaskList, {| metricType := 0 (* zero value *); metricName := "forward_query_calls_per_tl"; metricRollupName := "forward_query_calls"; buckets := None |})
  ; (ForwardQueryErrorsPerTaskList, {| metricType := 0 (* zero value *); metricName := "forward_query_errors_per_tl"; metricRollupName := "forward_query_errors"; buckets := None |})
  ; (ForwardPollCallsPerTaskList, {| metricType := 0 (* zero value *); metricName := "forward_poll_calls_per_tl"; metricRollupName := "forward_poll_calls"; buckets := None |})
  ; (ForwardPollErrorsPerTaskList, {| metricType := 0 (* zero value *); metricName := "forward_poll_errors_per_tl"; metricRollupName := "forward_poll_errors"; buckets := None |})
  ; (SyncMatchLatencyPerTaskList, {| metricType := Timer; metricName := "syncmatch_latency_per_tl"; metricRollupName := "syncmatch_latency"; buckets := None |})
  ; (AsyncMatchLatencyPerTaskList, {| metricType := Timer; metricName := "asyncmatch_latency_per_tl"; metricRollupName := "asyncmatch_latency"; buckets := None |})
  ; (ForwardTaskLatencyPerTaskList, {| metricType := 0 (* zero value *); metricName := "forward_task_latency_per_tl"; metricRollupName := "forward_task_latency"; buckets := None |})
  ; (ForwardQueryLatencyPerTaskList, {| metricType := 0 (* zero value *); metricName := "forward_query_latency_per_tl"; metricRollupName := "forward_query_latency"; buckets := None |})
  ; (ForwardPollLatencyPerTaskList, {| metricType := 0 (* zero value *); metricName := "forward_poll_latency_per_tl"; metricRollupName := "forward_poll_latency"; buckets := None |})
  ; (LocalToLocalMatchPerTaskListCounter, {| metricType := 0 (* zero value *); metricName := "local_to_local_matches_per_tl"; metricRollupName := "local_to_local_matches"; buckets := None |})
  ; (LocalToRemoteMatchPerTaskListCounter, {| metricType := 0 (* zero value *); metricName := "local_to_remote_matches_per_tl"; metricRollupName := "local_to_remote_matches"; buckets := None |})
  ; (RemoteToLocalMatchPerTaskListCounter, {| metricType := 0 (* zero value *); metricName := "remote_to_local_matches_per_tl"; metricRollupName := "remote_to_local_matches"; buckets := None |})
  ; (RemoteToRemoteMatchPerTaskListCounter, {| metricType := 0 (* zero value *); metricName := "remote_to_remote_matches_per_tl"; metricRollupName := "remote_to_remote_matches"; buckets := None |})
  ; (PollerPerTaskListCounter, {| metricType := 0 (* zero value *); metricName := "poller_count_per_tl"; metricRollupName := "poller_count"; buckets := None |})
  ; (TaskListManagersGauge, {| metricType := Gauge; metricName := "tasklist_managers"; metricRollupName := ""; buckets := None |})
  ; (TaskLagPerTaskListGauge, {| metricType := Gauge; metricName := "task_lag_per_tl"; metricRollupName := ""; buckets := None |})
  ; (TaskBacklogPerTaskListGauge, {| metricType := Gauge; metricName := "task_backlog_per_tl"; metricRollupName := ""; buckets := None |})
  ].

Definition MetricDefs_Worker : list (Z * metricDefinition) :=
  [ (ReplicatorMessages, {| metricType := 0 (* zero value *); metricName := "replicator_messages"; metricRollupName := ""; buckets := None |})
  ; (ReplicatorFailures, {| metricType := 0 (* zero value *); metricName := "replicator_errors"; metricRollupName := ""; buckets := None |})
  ; (ReplicatorMessagesDropped, {| metricType := 0 (* zero value *); metricName := "replicator_messages_dropped"; metricRollupName := ""; buckets := None |})
  ; (ReplicatorLatency, {| metricType := 0 (* zero value *); metricName := "replicator_latency"; metricRollupName := ""; buckets := None |})
  ; (ReplicatorDLQFailures, {| metricType := Counter; metricName := "replicator_dlq_enqueue_fails"; metricRollupName := ""; buckets := None |})
  ; (ESProcessorRequests, {| metricType := 0 (* zero value *); metricName := "es_processor_requests"; metricRollupName := ""; buckets := None |})
  ; (ESProcessorRetries, {| metricType := 0 (* zero value *); metricName := "es_processor_retries"; metricRollupName := ""; buckets := None |})
  ; (ESProcessorFailures, {| metricType := 0 (* zero value *); metricName := "es_processor_errors"; metricRollupName := ""; buckets := None |})
  ; (ESProcessorCorruptedData, {| metricType := 0 (* zero value *); metricName := "es_processor_corrupted_data"; metricRollupName := ""; buckets := None |})
  ; (ESProcessorProcessMsgLatency, {| metricType := Timer; metricName := "es_processor_process_msg_latency"; metricRollupName := ""; buckets := None |})
  ; (IndexProcessorCorruptedData, {| metricType := 0 (* zero value *); metricName := "index_processor_corrupted_data"; metricRollupName := ""; buckets := None |})
  ; (IndexProcessorProcessMsgLatency, {| metricType := Timer; metricName := "index_processor_process_msg_latency"; metricRollupName := ""; buckets := None |})
  ; (ArchiverNonRetryableErrorCount, {| metricType := 0 (* zero value *); metricName := "archiver_non_retryable_error"; metricRollupName := ""; buckets := None |})
  ; (ArchiverStartedCount, {| metricType := 0 (* zero value *); metricName := "archiver_started"; metricRollupName := ""; buckets := None |})
  ; (ArchiverStoppedCount, {| metricType := 0 (* zero value *); metricName := "archiver_stopped"; metricRollupName := ""; buckets := None |})
  ; (ArchiverCoroutineStartedCount, {| metricType := 0 (* zero value *); metricName := "archiver_coroutine_started"; metricRollupName := ""; buckets := None |})
  ; (ArchiverCoroutineStoppedCount, {| metricType := 0 (* zero value *); metricName := "archiver_coroutine_stopped"; metricRollupName := ""; buckets := None |})
  ; (ArchiverHandleHistoryRequestLatency, {| metricType := 0 (* zero value *); metricName := "archiver_handle_history_request_latency"; metricRollupName := ""; buckets := None |})
  ; (ArchiverHandleVisibilityRequestLatency, {| metricType := 0 (* zero value *); metricName := "archiver_handle_visibility_request_latency"; metricRollupName := ""; buckets := None |})
  ; (ArchiverUploadWithRetriesLatency, {| metricType := 0 (* zero value *); metricName := "archiver_upload_with_retries_latency"; metricRollupName := ""; buckets := None |})
  ; (ArchiverDeleteWithRetriesLatency, {| metricType := 0 (* zero value *); metricName := "archiver_delete_with_retries_latency"; metricRollupName := ""; buckets := None |})
  ; (ArchiverUploadFailedAllRetriesCount, {| metricType := 0 (* zero value *); metricName := "archiver_upload_failed_all_retries"; metricRollupName := ""; buckets := None |})
  ; (ArchiverUploadSuccessCount, {| metricType := 0 (* zero value *); metricName := "archiver_upload_success"; metricRollupName := ""; buckets := None |})
  ; (ArchiverDeleteFailedAllRetriesCount, {| metricType := 0 (* zero value *); metricName := "archiver_delete_failed_all_retries"; metricRollupName := ""; buckets := None |})
  ; (ArchiverDeleteSuccessCount, {| metricType := 0 (* zero value *); metricName := "archiver_delete_success"; metricRollupName := ""; buckets := None |})
  ; (ArchiverHandleVisibilityFailedAllRetiresCount, {| metricType := 0 (* zero value *); metricName := "archiver_handle_visibility_failed_all_retries"; metricRollupName := ""; buckets := None |})
  ; (ArchiverHandleVisibilitySuccessCount, {| metricType := 0 (* zero value *); metricName := "archiver_handle_visibility_success"; metricRollupName := ""; buckets := None |})
  ; (ArchiverBacklogSizeGauge, {| metricType := 0 (* zero value *); metricName := "archiver_backlog_size"; metricRollupName := ""; buckets := None |})
  ; (ArchiverPumpTimeoutCount, {| metricType := 0 (* zero value *); metricName := "archiver_pump_timeout"; metricRollupName := ""; buckets := None |})
  ; (ArchiverPumpSignalThresholdCount, {| metricType := 0 (* zero value *); metricName := "archiver_pump_signal_threshold"; metricRollupName := ""; buckets := None |})
  ; (ArchiverPumpTimeoutWithoutSignalsCount, {| metricType := 0 (* zero value *); metricName := "archiver_pump_timeout_without_signals"; metricRollupName := ""; buckets := None |})
  ; (ArchiverPumpSignalChannelClosedCount, {| metricType := 0 (* zero value *); metricName := "archiver_pump_signal_channel_closed"; metricRollupName := ""; buckets := None |})
  ; (ArchiverWorkflowStartedCount, {| metricType := 0 (* zero value *); metricName := "archiver_workflow_started"; metricRollupName := ""; buckets := None |})
  ; (ArchiverNumPumpedRequestsCount, {| metricType := 0 (* zero value *); metricName := "archiver_num_pumped_requests"; metricRollupName := ""; buckets := None |})
  ; (ArchiverNumHandledRequestsCount, {| metricType := 0 (* zero value *); metricName := "archiver_num_handled_requests"; metricRollupName := ""; buckets := None |})
  ; (ArchiverPumpedNotEqualHandledCount, {| metricType := 0 (* zero value *); metricName := "archiver_pumped_not_equal_handled"; metricRollupName := ""; buckets := None |})
  ; (ArchiverHandleAllRequestsLatency, {| metricType := 0 (* zero value *); metricName := "archiver_handle_all_requests_latency"; metricRollupName := ""; buckets := None |})
  ; (ArchiverWorkflowStoppingCount, {| metricType := 0 (* zero value *); metricName := "archiver_workflow_stopping"; metricRollupName := ""; buckets := None |})
  ; (TaskProcessedCount, {| metricType := Gauge; metricName := "task_processed"; metricRollupName := ""; buckets := None |})
  ; (TaskDeletedCount, {| metricType := Gauge; metricName := "task_deleted"; metricRollupName := ""; buckets := None |})
  ; (TaskListProcessedCount, {| metricType := Gauge; metricName := "tasklist_processed"; metricRollupName := ""; buckets := None |})
  ; (TaskListDeletedCount, {| metricType := Gauge; metricName := "tasklist_deleted"; metricRollupName := ""; buckets := None |})
  ; (TaskListOutstandingCount, {| metricType := Gauge; metricName := "tasklist_outstanding"; metricRollupName := ""; buckets := None |})
  ; (ExecutionsOutstandingCount, {| metricType := Gauge; metricName := "executions_outstanding"; metricRollupName := ""; buckets := None |})
  ; (StartedCount, {| metricType := Counter; metricName := "started"; metricRollupName := ""; buckets := None |})
  ; (StoppedCount, {| metricType := Counter; metricName := "stopped"; metricRollupName := ""; buckets := None |})
  ; (ExecutorTasksDeferredCount, {| metricType := Counter; metricName := "executor_deferred"; metricRollupName := ""; buckets := None |})
  ; (ExecutorTasksDroppedCount, {| metricType := Counter; metricName := "executor_dropped"; metricRollupName := ""; buckets := None |})
  ; (BatcherProcessorSuccess, {| metricType := Counter; metricName := "batcher_processor_requests"; metricRollupName := ""; buckets := None |})
  ; (BatcherProcessorFailures, {| metricType := Counter; metricName := "batcher_processor_errors"; metricRollupName := ""; buckets := None |})
  ; (HistoryScavengerSuccessCount, {| metricType := Counter; metricName := "scavenger_success"; metricRollupName := ""; buckets := None |})
  ; (HistoryScavengerErrorCount, {| metricType := Counter; metricName := "scavenger_errors"; metricRollupName := ""; buckets := None |})
  ; (HistoryScavengerSkipCount, {| metricType := Counter; metricName := "scavenger_skips"; metricRollupName := ""; buckets := None |})
  ; (DomainReplicationEnqueueDLQCount, {| metricType := Counter; metricName := "domain_replication_dlq_enqueue_requests"; metricRollupName := ""; buckets := None |})
  ; (ScannerExecutionsGauge, {| metricType := Gauge; metricName := "scanner_executions"; metricRollupName := ""; buckets := None |})
  ; (ScannerCorruptedGauge, {| metricType := Gauge; metricName := "scanner_corrupted"; metricRollupName := ""; buckets := None |})
  ; (ScannerCheckFailedGauge, {| metricType := Gauge; metricName := "scanner_check_failed"; metricRollupName := ""; buckets := None |})
  ; (ScannerCorruptionByTypeGauge, {| metricType := Gauge; metricName := "scanner_corruption_by_type"; metricRollupName := ""; buckets := None |})
  ; (ScannerCorruptedOpenExecutionGauge, {| metricType := Gauge; metricName := "scanner_corrupted_open_execution"; metricRollupName := ""; buckets := None |})
  ; (ScannerShardSizeMaxGauge, {| metricType := Gauge; metricName := "scanner_shard_size_max"; metricRollupName := ""; buckets := None |})
  ; (ScannerShardSizeMedianGauge, {| metricType := Gauge; metricName := "scanner_shard_size_median"; metricRollupName := ""; buckets := None |})
  ; (ScannerShardSizeMinGauge, {| metricType := Gauge; metricName := "scanner_shard_size_min"; metricRollupName := ""; buckets := None |})
  ; (ScannerShardSizeNinetyGauge, {| metricType := Gauge; metricName := "scanner_shard_size_ninety"; metricRollupName := ""; buckets := None |})
  ; (ScannerShardSizeSeventyFiveGauge, {| metricType := Gauge; metricName := "scanner_shard_size_seventy_five"; metricRollupName := ""; buckets := None |})
  ; (ScannerShardSizeTwentyFiveGauge, {| metricType := Gauge; metricName := "scanner_shard_size_twenty_five"; metricRollupName := ""; buckets := None |})
  ; (ScannerShardSizeTenGauge, {| metricType := Gauge; metricName := "scanner_shard_size_ten"; metricRollupName := ""; buckets := None |})
  ; (ShardScannerScan, {| metricType := Counter; metricName := "shardscanner_scan"; metricRollupName := ""; buckets := None |})
  ; (ShardScannerFix, {| metricType := Counter; metricName := "shardscanner_fix"; metricRollupName := ""; buckets := None |})
  ; (DataCorruptionWorkflowFailure, {| metricType := Counter; metricName := "data_corruption_workflow_failure"; metricRollupName := ""; buckets := None |})
  ; (DataCorruptionWorkflowSuccessCount, {| metricType := Counter; metricName := "data_corruption_workflow_success"; metricRollupName := ""; buckets := None |})
  ; (DataCorruptionWorkflowCount, {| metricType := Counter; metricName := "data_corruption_workflow_count"; metricRollupName := ""; buckets := None |})
  ; (DataCorruptionWorkflowSkipCount, {| metricType := Counter; metricName := "data_corruption_workflow_skips"; metricRollupName := ""; buckets := None |})
  ; (ESAnalyzerNumStuckWorkflowsDiscovered, {| metricType := Counter; metricName := "es_analyzer_num_stuck_workflows_discovered"; metricRollupName := ""; buckets := None |})
  ; (ESAnalyzerNumStuckWorkflowsRefreshed, {| metricType := Counter; metricName := "es_analyzer_num_stuck_workflows_refreshed"; metricRollupName := ""; buckets := None |})
  ; (ESAnalyzerNumStuckWorkflowsFailedToRefresh, {| metricType := Counter; metricName := "es_analyzer_num_stuck_workflows_failed_to_refresh"; metricRollupName := ""; buckets := None |})
  ; (ESAnalyzerNumLongRunningWorkflows, {| metricType := Counter; metricName := "es_analyzer_num_long_running_workflows"; metricRollupName := ""; buckets := None |})
  ; (WatchDogNumDeletedCorruptWorkflows, {| metricType := Counter; metricName := "watchdog_num_deleted_corrupt_workflows"; metricRollupName := ""; buckets := None |})
  ; (WatchDogNumFailedToDeleteCorruptWorkflows, {| metricType := Counter; metricName := "watchdog_num_failed_to_delete_corrupt_workflows"; metricRollupName := ""; buckets := None |})
  ; (WatchDogNumCorruptWorkflowProcessed, {| metricType := Counter; metricName := "watchdog_num_corrupt_workflows_processed"; metricRollupName := ""; buckets := None |})
  ].

Definition MetricDefs : gmap ServiceIdx (gmap Z metricDefinition) :=
  list_to_map
    [ (Common, list_to_map MetricDefs_Common)
    ; (History, list_to_map MetricDefs_History)
    ; (Matching, list_to_map MetricDefs_Matching)
    ; (Worker, list_to_map MetricDefs_Worker)
    ].

(** ** Lookups: [ScopeDefs[svc][scope]] and [MetricDefs[svc][metric]]
    (the comma-ok form of a Go map index, nested). *)

Definition lookupScope (svc : ServiceIdx) (scope : Z) : option scopeDefinition :=
  m ← ScopeDefs !! svc; m !! scope.

Definition lookupMetric (svc : ServiceIdx) (metric : Z) : option metricDefinition :=
  m ← MetricDefs !! svc; m !! metric.

(** ** Methods of [MetricName] *)

(** [Empty] returns true if the metricName is an empty string. *)
Definition Empty (mn : MetricName) : bool := bool_decide (mn = "").

(** [String] returns string representation of this metric name. *)
Definition String (mn : MetricName) : string := mn.

(** ** The scope enumeration of each service index

    [ScopeDefs] has one inner map per service index.  The Admin block has no
    service index of its own: its scopes are numbered after the common ones
    and the Frontend block continues after them, and both sit in the
    [Frontend] inner map ("Admin API scope co-locates with frontend"). *)

Definition serviceScopes (svc : ServiceIdx) : list Z :=
  if bool_decide (svc = Common) then CommonScopes
  else if bool_decide (svc = Frontend) then AdminScopes ++ FrontendScopes
  else if bool_decide (svc = History) then HistoryScopes
  else if bool_decide (svc = Matching) then MatchingScopes
  else if bool_decide (svc = Worker) then WorkerScopes
  else [].

(** The half-open interval of scope indices of a service index: from the
    first constant of its block(s) to its [Num...Scopes] sentinel. *)
Definition serviceScopeRange (svc : ServiceIdx) : Z * Z :=
  if bool_decide (svc = Common) then (PersistenceCreateShardScope, NumCommonScopes)
  else if bool_decide (svc = Frontend) then (AdminDescribeHistoryHostScope, NumFrontendScopes)
  else if bool_decide (svc = History) then (HistoryStartWorkflowExecutionScope, NumHistoryScopes)
  else if bool_decide (svc = Matching) then (MatchingPollForDecisionTaskScope, NumMatchingScopes)
  else if bool_decide (svc = Worker) then (ReplicatorScope, NumWorkerScopes)
  else (0, 0).

Definition services : list ServiceIdx := [Common; Frontend; History; Matching; Worker].

(** The constants of the common metric block, in declaration order. *)
Definition CommonMetrics : list Z :=
  [ CadenceRequests
  ; CadenceFailures
  ; CadenceCriticalFailures
  ; CadenceLatency
  ; CadenceErrBadRequestCounter
  ; CadenceErrDomainNotActiveCounter
  ; CadenceErrServiceBusyCounter
  ; CadenceErrEntityNotExistsCounter
  ; CadenceErrWorkflowExecutionAlreadyCompletedCounter
  ; CadenceErrExecutionAlreadyStartedCounter
  ; CadenceErrDomainAlreadyExistsCounter
  ; CadenceErrCancellationAlreadyRequestedCounter
  ; CadenceErrQueryFailedCounter
  ; CadenceErrLimitExceededCounter
  ; CadenceErrContextTimeoutCounter
  ; CadenceErrRetryTaskCounter
  ; CadenceErrBadBinaryCounter
  ; CadenceErrClientVersionNotSupportedCounter
  ; CadenceErrIncompleteHistoryCounter
  ; CadenceErrNonDeterministicCounter
  ; CadenceErrUnauthorizedCounter
  ; CadenceErrAuthorizeFailedCounter
  ; CadenceErrRemoteSyncMatchFailedCounter
  ; CadenceErrDomainNameExceededWarnLimit
  ; CadenceErrIdentityExceededWarnLimit
  ; CadenceErrWorkflowIDExceededWarnLimit
  ; CadenceErrSignalNameExceededWarnLimit
  ; CadenceErrWorkflowTypeExceededWarnLimit
  ; CadenceErrRequestIDExceededWarnLimit
  ; CadenceErrTaskListNameExceededWarnLimit
  ; CadenceErrActivityIDExceededWarnLimit
  ; CadenceErrActivityTypeExceededWarnLimit
  ; CadenceErrMarkerNameExceededWarnLimit
  ; CadenceErrTimerIDExceededWarnLimit
  ; PersistenceRequests
  ; PersistenceFailures
  ; PersistenceLatency
  ; PersistenceLatencyHistogram
  ; PersistenceErrShardExistsCounter
  ; PersistenceErrShardOwnershipLostCounter
  ; PersistenceErrConditionFailedCounter
  ; PersistenceErrCurrentWorkflowConditionFailedCounter
  ; PersistenceErrTimeoutCounter
  ; PersistenceErrBusyCounter
  ; PersistenceErrEntityNotExistsCounter
  ; PersistenceErrExecutionAlreadyStartedCounter
  ; PersistenceErrDomainAlreadyExistsCounter
  ; PersistenceErrBadRequestCounter
  ; PersistenceErrDBUnavailableCounter
  ; PersistenceSampledCounter
  ; PersistenceEmptyResponseCounter
  ; CadenceClientRequests
  ; CadenceClientFailures
  ; CadenceClientLatency
  ; CadenceDcRedirectionClientRequests
  ; CadenceDcRedirectionClientFailures
  ; CadenceDcRedirectionClientLatency
  ; CadenceAuthorizationLatency
  ; DomainCachePrepareCallbacksLatency
  ; DomainCacheCallbacksLatency
  ; DomainCacheCallbacksCount
  ; HistorySize
  ; HistoryCount
  ; EventBlobSize
  ; DecisionResultCount
  ; ArchivalConfigFailures
  ; ActiveClusterGauge
  ; ElasticsearchRequests
  ; ElasticsearchFailures
  ; ElasticsearchLatency
  ; ElasticsearchErrBadRequestCounter
  ; ElasticsearchErrBusyCounter
  ; SequentialTaskSubmitRequest
  ; SequentialTaskSubmitRequestTaskQueueExist
  ; SequentialTaskSubmitRequestTaskQueueMissing
  ; SequentialTaskSubmitLatency
  ; SequentialTaskQueueSize
  ; SequentialTaskQueueProcessingLatency
  ; SequentialTaskTaskProcessingLatency
  ; ParallelTaskSubmitRequest
  ; ParallelTaskSubmitLatency
  ; ParallelTaskTaskProcessingLatency
  ; PriorityTaskSubmitRequest
  ; PriorityTaskSubmitLatency
  ; KafkaConsumerMessageIn
  ; KafkaConsumerMessageAck
  ; KafkaConsumerMessageNack
  ; KafkaConsumerMessageNackDlqErr
  ; KafkaConsumerSessionStart
  ; GracefulFailoverLatency
  ; GracefulFailoverFailure
  ; HistoryArchiverArchiveNonRetryableErrorCount
  ; HistoryArchiverArchiveTransientErrorCount
  ; HistoryArchiverArchiveSuccessCount
  ; HistoryArchiverHistoryMutatedCount
  ; HistoryArchiverTotalUploadSize
  ; HistoryArchiverHistorySize
  ; HistoryArchiverDuplicateArchivalsCount
  ; HistoryArchiverBlobExistsCount
  ; HistoryArchiverBlobSize
  ; HistoryArchiverRunningDeterministicConstructionCheckCount
  ; HistoryArchiverDeterministicConstructionCheckFailedCount
  ; HistoryArchiverRunningBlobIntegrityCheckCount
  ; HistoryArchiverBlobIntegrityCheckFailedCount
  ; VisibilityArchiverArchiveNonRetryableErrorCount
  ; VisibilityArchiverArchiveTransientErrorCount
  ; VisibilityArchiveSuccessCount
  ; MatchingClientForwardedCounter
  ; MatchingClientInvalidTaskListName
  ; CadenceRequestsPerTaskList
  ; CadenceFailuresPerTaskList
  ; CadenceLatencyPerTaskList
  ; CadenceErrBadRequestPerTaskListCounter
  ; CadenceErrDomainNotActivePerTaskListCounter
  ; CadenceErrServiceBusyPerTaskListCounter
  ; CadenceErrEntityNotExistsPerTaskListCounter
  ; CadenceErrExecutionAlreadyStartedPerTaskListCounter
  ; CadenceErrDomainAlreadyExistsPerTaskListCounter
  ; CadenceErrCancellationAlreadyRequestedPerTaskListCounter
  ; CadenceErrQueryFailedPerTaskListCounter
  ; CadenceErrLimitExceededPerTaskListCounter
  ; CadenceErrContextTimeoutPerTaskListCounter
  ; CadenceErrRetryTaskPerTaskListCounter
  ; CadenceErrBadBinaryPerTaskListCounter
  ; CadenceErrClientVersionNotSupportedPerTaskListCounter
  ; CadenceErrIncompleteHistoryPerTaskListCounter
  ; CadenceErrNonDeterministicPerTaskListCounter
  ; CadenceErrUnauthorizedPerTaskListCounter
  ; CadenceErrAuthorizeFailedPerTaskListCounter
  ; CadenceErrRemoteSyncMatchFailedPerTaskListCounter
  ; CadenceErrStickyWorkerUnavailablePerTaskListCounter
  ; CadenceShardSuccessGauge
  ; CadenceShardFailureGauge
  ; DomainReplicationQueueSizeGauge
  ; DomainReplicationQueueSizeErrorCount
  ; ParentClosePolicyProcessorSuccess
  ; ParentClosePolicyProcessorFailures
  ].

(** The constants of the History metric block, in declaration order. *)
Definition HistoryMetrics : list Z :=
  [ TaskRequests
  ; TaskLatency
  ; TaskFailures
  ; TaskDiscarded
  ; TaskAttemptTimer
  ; TaskStandbyRetryCounter
  ; TaskNotActiveCounter
  ; TaskLimitExceededCounter
  ; TaskBatchCompleteCounter
  ; TaskBatchCompleteFailure
  ; TaskProcessingLatency
  ; TaskQueueLatency
  ; TaskRequestsPerDomain
  ; TaskLatencyPerDomain
  ; TaskFailuresPerDomain
  ; TaskWorkflowBusyPerDomain
  ; TaskDiscardedPerDomain
  ; TaskUnsupportedPerDomain
  ; TaskAttemptTimerPerDomain
  ; TaskStandbyRetryCounterPerDomain
  ; TaskPendingActiveCounterPerDomain
  ; TaskNotActiveCounterPerDomain
  ; TaskTargetNotActiveCounterPerDomain
  ; TaskLimitExceededCounterPerDomain
  ; TaskProcessingLatencyPerDomain
  ; TaskQueueLatencyPerDomain
  ; TransferTaskMissingEventCounterPerDomain
  ; ReplicationTasksAppliedPerDomain
  ; TaskRedispatchQueuePendingTasksTimer
  ; TransferTaskThrottledCounter
  ; TimerTaskThrottledCounter
  ; CrossClusterTaskThrottledCounter
  ; TransferTaskMissingEventCounter
  ; ProcessingQueueNumTimer
  ; ProcessingQueueMaxLevelTimer
  ; ProcessingQueuePendingTaskSplitCounter
  ; ProcessingQueueStuckTaskSplitCounter
  ; ProcessingQueueSelectedDomainSplitCounter
  ; ProcessingQueueRandomSplitCounter
  ; ProcessingQueueThrottledCounter
  ; QueueValidatorLostTaskCounter
  ; QueueValidatorDropTaskCounter
  ; QueueValidatorInvalidLoadCounter
  ; QueueValidatorValidationCounter
  ; QueueValidatorValidationFailure
  ; CrossClusterFetchLatency
  ; CrossClusterFetchRequests
  ; CrossClusterFetchFailures
  ; CrossClusterFetchServiceBusyFailures
  ; CrossClusterTaskRespondLatency
  ; CrossClusterTaskRespondRequests
  ; CrossClusterTaskRespondFailures
  ; CrossClusterTaskFetchedTimer
  ; CrossClusterTaskPendingTimer
  ; ActivityE2ELatency
  ; ActivityLostCounter
  ; AckLevelUpdateCounter
  ; AckLevelUpdateFailedCounter
  ; DecisionTypeScheduleActivityCounter
  ; DecisionTypeScheduleActivityDispatchSucceedCounter
  ; DecisionTypeScheduleActivityDispatchCounter
  ; DecisionTypeCompleteWorkflowCounter
  ; DecisionTypeFailWorkflowCounter
  ; DecisionTypeCancelWorkflowCounter
  ; DecisionTypeStartTimerCounter
  ; DecisionTypeCancelActivityCounter
  ; DecisionTypeCancelTimerCounter
  ; DecisionTypeRecordMarkerCounter
  ; DecisionTypeCancelExternalWorkflowCounter
  ; DecisionTypeChildWorkflowCounter
  ; DecisionTypeContinueAsNewCounter
  ; DecisionTypeSignalExternalWorkflowCounter
  ; DecisionTypeUpsertWorkflowSearchAttributesCounter
  ; EmptyCompletionDecisionsCounter
  ; MultipleCompletionDecisionsCounter
  ; FailedDecisionsCounter
  ; DecisionAttemptTimer
  ; DecisionRetriesExceededCounter
  ; StaleMutableStateCounter
  ; DataInconsistentCounter
  ; TimerResurrectionCounter
  ; ActivityResurrectionCounter
  ; AutoResetPointsLimitExceededCounter
  ; AutoResetPointCorruptionCounter
  ; ConcurrencyUpdateFailureCounter
  ; CadenceErrEventAlreadyStartedCounter
  ; CadenceErrShardOwnershipLostCounter
  ; HeartbeatTimeoutCounter
  ; ScheduleToStartTimeoutCounter
  ; StartToCloseTimeoutCounter
  ; ScheduleToCloseTimeoutCounter
  ; NewTimerCounter
  ; NewTimerNotifyCounter
  ; AcquireShardsCounter
  ; AcquireShardsLatency
  ; ShardClosedCounter
  ; ShardItemCreatedCounter
  ; ShardItemRemovedCounter
  ; ShardItemAcquisitionLatency
  ; ShardInfoReplicationPendingTasksTimer
  ; ShardInfoTransferActivePendingTasksTimer
  ; ShardInfoTransferStandbyPendingTasksTimer
  ; ShardInfoTimerActivePendingTasksTimer
  ; ShardInfoTimerStandbyPendingTasksTimer
  ; ShardInfoCrossClusterPendingTasksTimer
  ; ShardInfoReplicationLagTimer
  ; ShardInfoTransferLagTimer
  ; ShardInfoTimerLagTimer
  ; ShardInfoCrossClusterLagTimer
  ; ShardInfoTransferDiffTimer
  ; ShardInfoTimerDiffTimer
  ; ShardInfoTransferFailoverInProgressTimer
  ; ShardInfoTimerFailoverInProgressTimer
  ; ShardInfoTransferFailoverLatencyTimer
  ; ShardInfoTimerFailoverLatencyTimer
  ; SyncShardFromRemoteCounter
  ; SyncShardFromRemoteFailure
  ; MembershipChangedCounter
  ; NumShardsGauge
  ; GetEngineForShardErrorCounter
  ; GetEngineForShardLatency
  ; RemoveEngineForShardLatency
  ; CompleteDecisionWithStickyEnabledCounter
  ; CompleteDecisionWithStickyDisabledCounter
  ; DecisionHeartbeatTimeoutCounter
  ; HistoryEventNotificationQueueingLatency
  ; HistoryEventNotificationFanoutLatency
  ; HistoryEventNotificationInFlightMessageGauge
  ; HistoryEventNotificationFailDeliveryCount
  ; EmptyReplicationEventsCounter
  ; DuplicateReplicationEventsCounter
  ; StaleReplicationEventsCounter
  ; ReplicationEventsSizeTimer
  ; BufferReplicationTaskTimer
  ; UnbufferReplicationTaskTimer
  ; HistoryConflictsCounter
  ; CompleteTaskFailedCounter
  ; CacheSize
  ; CacheRequests
  ; CacheFailures
  ; CacheLatency
  ; CacheHitCounter
  ; CacheMissCounter
  ; CacheFullCounter
  ; AcquireLockFailedCounter
  ; WorkflowContextCleared
  ; MutableStateSize
  ; ExecutionInfoSize
  ; ActivityInfoSize
  ; TimerInfoSize
  ; ChildInfoSize
  ; SignalInfoSize
  ; BufferedEventsSize
  ; ActivityInfoCount
  ; TimerInfoCount
  ; ChildInfoCount
  ; SignalInfoCount
  ; RequestCancelInfoCount
  ; BufferedEventsCount
  ; TransferTasksCount
  ; TimerTasksCount
  ; CrossClusterTasksCount
  ; ReplicationTasksCount
  ; DeleteActivityInfoCount
  ; DeleteTimerInfoCount
  ; DeleteChildInfoCount
  ; DeleteSignalInfoCount
  ; DeleteRequestCancelInfoCount
  ; WorkflowRetryBackoffTimerCount
  ; WorkflowCronBackoffTimerCount
  ; WorkflowCleanupDeleteCount
  ; WorkflowCleanupArchiveCount
  ; WorkflowCleanupNopCount
  ; WorkflowCleanupDeleteHistoryInlineCount
  ; WorkflowSuccessCount
  ; WorkflowCancelCount
  ; WorkflowFailedCount
  ; WorkflowTimeoutCount
  ; WorkflowTerminateCount
  ; WorkflowContinuedAsNew
  ; WorkflowCompletedUnknownType
  ; ArchiverClientSendSignalCount
  ; ArchiverClientSendSignalFailureCount
  ; ArchiverClientHistoryRequestCount
  ; ArchiverClientHistoryInlineArchiveAttemptCount
  ; ArchiverClientHistoryInlineArchiveFailureCount
  ; ArchiverClientHistoryInlineArchiveThrottledCount
  ; ArchiverClientVisibilityRequestCount
  ; ArchiverClientVisibilityInlineArchiveAttemptCount
  ; ArchiverClientVisibilityInlineArchiveFailureCount
  ; ArchiverClientVisibilityInlineArchiveThrottledCount
  ; LastRetrievedMessageID
  ; LastProcessedMessageID
  ; ReplicationLatency
  ; ReplicationTasksApplied
  ; ReplicationTasksFailed
  ; ReplicationTasksLag
  ; ReplicationTasksFetched
  ; ReplicationTasksReturned
  ; ReplicationTasksReturnedDiff
  ; ReplicationTasksAppliedLatency
  ; ReplicationDLQFailed
  ; ReplicationDLQMaxLevelGauge
  ; ReplicationDLQAckLevelGauge
  ; ReplicationDLQProbeFailed
  ; ReplicationDLQSize
  ; ReplicationDLQValidationFailed
  ; GetReplicationMessagesForShardLatency
  ; GetDLQReplicationMessagesLatency
  ; EventReapplySkippedCount
  ; DirectQueryDispatchLatency
  ; DirectQueryDispatchStickyLatency
  ; DirectQueryDispatchNonStickyLatency
  ; DirectQueryDispatchStickySuccessCount
  ; DirectQueryDispatchNonStickySuccessCount
  ; DirectQueryDispatchClearStickinessLatency
  ; DirectQueryDispatchClearStickinessSuccessCount
  ; DirectQueryDispatchTimeoutBeforeNonStickyCount
  ; DecisionTaskQueryLatency
  ; ConsistentQueryTimeoutCount
  ; QueryBeforeFirstDecisionCount
  ; QueryBufferExceededCount
  ; QueryRegistryInvalidStateCount
  ; WorkerNotSupportsConsistentQueryCount
  ; DecisionStartToCloseTimeoutOverrideCount
  ; ReplicationTaskCleanupCount
  ; ReplicationTaskCleanupFailure
  ; ReplicationTaskLatency
  ; MutableStateChecksumMismatch
  ; MutableStateChecksumInvalidated
  ; FailoverMarkerCount
  ; FailoverMarkerReplicationLatency
  ; FailoverMarkerInsertFailure
  ; FailoverMarkerNotificationFailure
  ; FailoverMarkerUpdateShardFailure
  ; FailoverMarkerCallbackCount
  ; HistoryFailoverCallbackCount
  ].

(** The constants of the Matching metric block, in declaration order. *)
Definition MatchingMetrics : list Z :=
  [ PollSuccessPerTaskListCounter
  ; PollTimeoutPerTaskListCounter
  ; PollSuccessWithSyncPerTaskListCounter
  ; LeaseRequestPerTaskListCounter
  ; LeaseFailurePerTaskListCounter
  ; ConditionFailedErrorPerTaskListCounter
  ; RespondQueryTaskFailedPerTaskListCounter
  ; SyncThrottlePerTaskListCounter
  ; BufferThrottlePerTaskListCounter
  ; SyncMatchLatencyPerTaskList
  ; AsyncMatchLatencyPerTaskList
  ; ExpiredTasksPerTaskListCounter
  ; ForwardedPerTaskListCounter
  ; ForwardTaskCallsPerTaskList
  ; ForwardTaskErrorsPerTaskList
  ; ForwardTaskLatencyPerTaskList
  ; ForwardQueryCallsPerTaskList
  ; ForwardQueryErrorsPerTaskList
  ; ForwardQueryLatencyPerTaskList
  ; ForwardPollCallsPerTaskList
  ; ForwardPollErrorsPerTaskList
  ; ForwardPollLatencyPerTaskList
  ; LocalToLocalMatchPerTaskListCounter
  ; LocalToRemoteMatchPerTaskListCounter
  ; RemoteToLocalMatchPerTaskListCounter
  ; RemoteToRemoteMatchPerTaskListCounter
  ; PollerPerTaskListCounter
  ; TaskListManagersGauge
  ; TaskLagPerTaskListGauge
  ; TaskBacklogPerTaskListGauge
  ].

(** The constants of the Worker metric block, in declaration order. *)
Definition WorkerMetrics : list Z :=
  [ ReplicatorMessages
  ; ReplicatorFailures
  ; ReplicatorMessagesDropped
  ; ReplicatorLatency
  ; ReplicatorDLQFailures
  ; ESProcessorRequests
  ; ESProcessorRetries
  ; ESProcessorFailures
  ; ESProcessorCorruptedData
  ; ESProcessorProcessMsgLatency
  ; IndexProcessorCorruptedData
  ; IndexProcessorProcessMsgLatency
  ; ArchiverNonRetryableErrorCount
  ; ArchiverStartedCount
  ; ArchiverStoppedCount
  ; ArchiverCoroutineStartedCount
  ; ArchiverCoroutineStoppedCount
  ; ArchiverHandleHistoryRequestLatency
  ; ArchiverHandleVisibilityRequestLatency
  ; ArchiverUploadWithRetriesLatency
  ; ArchiverDeleteWithRetriesLatency
  ; ArchiverUploadFailedAllRetriesCount
  ; ArchiverUploadSuccessCount
  ; ArchiverDeleteFailedAllRetriesCount
  ; ArchiverDeleteSuccessCount
  ; ArchiverHandleVisibilityFailedAllRetiresCount
  ; ArchiverHandleVisibilitySuccessCount
  ; ArchiverBacklogSizeGauge
  ; ArchiverPumpTimeoutCount
  ; ArchiverPumpSignalThresholdCount
  ; ArchiverPumpTimeoutWithoutSignalsCount
  ; ArchiverPumpSignalChannelClosedCount
  ; ArchiverWorkflowStartedCount
  ; ArchiverNumPumpedRequestsCount
  ; ArchiverNumHandledRequestsCount
  ; ArchiverPumpedNotEqualHandledCount
  ; ArchiverHandleAllRequestsLatency
  ; ArchiverWorkflowStoppingCount
  ; TaskProcessedCount
  ; TaskDeletedCount
  ; TaskListProcessedCount
  ; TaskListDeletedCount
  ; TaskListOutstandingCount
  ; ExecutionsOutstandingCount
  ; StartedCount
  ; StoppedCount
  ; ExecutorTasksDeferredCount
  ; ExecutorTasksDroppedCount
  ; BatcherProcessorSuccess
  ; BatcherProcessorFailures
  ; HistoryScavengerSuccessCount
  ; HistoryScavengerErrorCount
  ; HistoryScavengerSkipCount
  ; DomainReplicationEnqueueDLQCount
  ; ScannerExecutionsGauge
  ; ScannerCorruptedGauge
  ; ScannerCheckFailedGauge
  ; ScannerCorruptionByTypeGauge
  ; ScannerCorruptedOpenExecutionGauge
  ; ScannerShardSizeMaxGauge
  ; ScannerShardSizeMedianGauge
  ; ScannerShardSizeMinGauge
  ; ScannerShardSizeNinetyGauge
  ; ScannerShardSizeSeventyFiveGauge
  ; ScannerShardSizeTwentyFiveGauge
  ; ScannerShardSizeTenGauge
  ; ShardScannerScan
  ; ShardScannerFix
  ; DataCorruptionWorkflowCount
  ; DataCorruptionWorkflowFailure
  ; DataCorruptionWorkflowSuccessCount
  ; DataCorruptionWorkflowSkipCount
  ; ESAnalyzerNumStuckWorkflowsDiscovered
  ; ESAnalyzerNumStuckWorkflowsRefreshed
  ; ESAnalyzerNumStuckWorkflowsFailedToRefresh
  ; ESAnalyzerNumLongRunningWorkflows
  ; WatchDogNumDeletedCorruptWorkflows
  ; WatchDogNumFailedToDeleteCorruptWorkflows
  ; WatchDogNumCorruptWorkflowProcessed
  ].

(** ** The metric enumeration of each service index

    [MetricDefs] has an inner map for Common, History, Matching and Worker;
    the literal has no [Frontend] key. *)

Definition serviceMetrics (svc : ServiceIdx) : list Z :=
  if bool_decide (svc = Common) then CommonMetrics
  else if bool_decide (svc = History) then HistoryMetrics
  else if bool_decide (svc = Matching) then MatchingMetrics
  else if bool_decide (svc = Worker) then WorkerMetrics
  else [].

(** The half-open interval of metric indices of a service index: from the
    first constant of its block to its [Num...Metrics] sentinel. *)
Definition serviceMetricRange (svc : ServiceIdx) : Z * Z :=
  if bool_decide (svc = Common) then (CadenceRequests, NumCommonMetrics)
  else if bool_decide (svc = History) then (TaskRequests, NumHistoryMetrics)
  else if bool_decide (svc = Matching) then (PollSuccessPerTaskListCounter, NumMatchingMetrics)
  else if bool_decide (svc = Worker) then (ReplicatorMessages, NumWorkerMetrics)
  else (0, 0).

Definition metricServices : list ServiceIdx := [Common; History; Matching; Worker].

Definition metricTypes : list MetricType := [Counter; Timer; Gauge; Histogram].

(** ** The types of the service base metrics *)

(** [ServiceMetrics] are types for common service base metrics *)
Definition ServiceMetrics : gmap MetricName MetricType :=
  list_to_map
    [ (RestartCount, Counter)
    ].

(** [GoRuntimeMetrics] represent the runtime stats from go runtime *)
Definition GoRuntimeMetrics : gmap MetricName MetricType :=
  list_to_map
    [ (NumGoRoutinesGauge, Gauge)
    ; (GoMaxProcsGauge, Gauge)
    ; (MemoryAllocatedGauge, Gauge)
    ; (MemoryHeapGauge, Gauge)
    ; (MemoryHeapIdleGauge, Gauge)
    ; (MemoryHeapInuseGauge, Gauge)
    ; (MemoryStackGauge, Gauge)
    ; (NumGCCounter, Counter)
    ; (GcPauseMsTimer, Timer)
    ].

(** The ten constants of the base metric block, in declaration order. *)
Definition baseMetricNames : list MetricName :=
  [ RestartCount; NumGoRoutinesGauge; GoMaxProcsGauge; MemoryAllocatedGauge;
    MemoryHeapGauge; MemoryHeapIdleGauge; MemoryHeapInuseGauge; MemoryStackGauge;
    NumGCCounter; GcPauseMsTimer ].

(** The five constants of the tag name block, in declaration order. *)
Definition tagNames : list string :=
  [ OperationTagName; CadenceRoleTagName; CadenceServiceTagName;
    StatsTypeTagName; CacheTypeTagName ].

(** [ErrorClass] is an enum to help with classifying SLA vs. non-SLA errors
    (Go [uint8]). *)
Definition ErrorClass : Type := Z.
(** [NoError] indicates that there is no error (error should be nil) *)
Definition NoError : ErrorClass := 0.
(** [UserError] indicates that this is NOT an SLA-reportable error *)
Definition UserError : ErrorClass := 1.
(** [InternalError] indicates that this is an SLA-reportable error *)
Definition InternalError : ErrorClass := 2.

(** ** The naming rule of the package

    "To better support Prometheus, metric name and tag name should match
    the regex [[a-zA-Z_][a-zA-Z0-9_]*]." *)

Definition isNameStart (a : Ascii.ascii) : bool :=
  let n := Z.of_N (Ascii.N_of_ascii a) in
  ((65 <=? n) && (n <=? 90)) || ((97 <=? n) && (n <=? 122)) || (n =? 95).

Definition isNameChar (a : Ascii.ascii) : bool :=
  let n := Z.of_N (Ascii.N_of_ascii a) in
  isNameStart a || ((48 <=? n) && (n <=? 57)).

Definition matchesNameRegex (s : string) : bool :=
  match String.list_ascii_of_string s with
  | [] => false
  | a :: rest => isNameStart a && forallb isNameChar rest
  end.

(** ** The role tag of the client scopes

    The common scopes that track calls made through a client of another
    service are named after the client; the prefix of the operation name
    tells the client. *)
Definition roleOfOperation (op : string) : option string :=
  if String.prefix "HistoryClient" op then Some HistoryClientRoleTagValue
  else if String.prefix "MatchingClient" op then Some MatchingClientRoleTagValue
  else if String.prefix "FrontendClient" op then Some FrontendClientRoleTagValue
  else if String.prefix "AdminClient" op then Some AdminClientRoleTagValue
  else if String.prefix "DCRedirection" op then Some DCRedirectionRoleTagValue
  else if String.prefix "Blobstore" op then Some BlobstoreRoleTagValue
  else None.

(** ** The entries of the two tables, each with its service index, in
    source order. *)

Definition scopeEntries : list (ServiceIdx * (Z * scopeDefinition)) :=
  (pair Common <$> ScopeDefs_Common) ++
  (pair Frontend <$> ScopeDefs_Frontend) ++
  (pair History <$> ScopeDefs_History) ++
  (pair Matching <$> ScopeDefs_Matching) ++
  (pair Worker <$> ScopeDefs_Worker).

Definition metricEntries : list (ServiceIdx * (Z * metricDefinition)) :=
  (pair Common <$> MetricDefs_Common) ++
  (pair History <$> MetricDefs_History) ++
  (pair Matching <$> MetricDefs_Matching) ++
  (pair Worker <$> MetricDefs_Worker).

(** Replace the index ranges of concrete service indices by their values. *)
Ltac eval_ranges :=
  repeat match goal with
  | H : context [serviceScopeRange ?svc] |- _ =>
      let r := eval vm_compute in (serviceScopeRange svc) in
      change (serviceScopeRange svc) with r in H; cbn [fst snd] in H
  | H : context [serviceMetricRange ?svc] |- _ =>
      let r := eval vm_compute in (serviceMetricRange svc) in
      change (serviceMetricRange svc) with r in H; cbn [fst snd] in H
  end.

End metrics.

(* ===================================================================== *)
(** * Package [resource] *)
(* ===================================================================== *)

Module resource.

(** ** What the package imports

    [resourceImpl.go] assembles values of some thirty other packages.  Their
    types are opaque here and their functions are the fields of the class
    below, one per call the file makes, with the arguments the file passes.
    A Go result pair [(T, error)] is a [result T]; a lone [error] result is
    an [option error] ([None] is [nil]). *)

Inductive result (E A : Type) : Type :=
| Ok (a : A)
| Err (e : E).
Arguments Ok {E A} a.
Arguments Err {E A} e.

Class Imports : Type := {
  error : Type;
  (* common/log *)
  log_Logger : Type;
  (* common/membership *)
  membership_HostInfo : Type;
  membership_HostInfo_zero : membership_HostInfo;   (* the zero value of the struct *)
  membership_Resolver : Type;
  (* tally, yarpc, the generated SDK client *)
  tally_Scope : Type;
  yarpc_Dispatcher : Type;
  workflowserviceclient_Interface : Type;
  (* common/cluster *)
  cluster_Metadata : Type;
  cluster_GetCurrentClusterName : cluster_Metadata → string;
  (* common/cache *)
  cache_DomainCache : Type;
  cache_DomainMetricsScopeCache : Type;
  cache_GetDomainNameFunc : Type;
  cache_GetDomainName : cache_DomainCache → cache_GetDomainNameFunc;
  cache_NewDomainMetricsScopeCache : cache_DomainMetricsScopeCache;
  (* common/clock, common/messaging, common/blobstore, common/archiver *)
  clock_TimeSource : Type;
  clock_NewRealTimeSource : clock_TimeSource;
  messaging_Client : Type;
  blobstore_Client : Type;
  archiver_ArchivalMetadata : Type;
  provider_ArchiverProvider : Type;
  (* common/metrics *)
  metrics_Client : Type;
  metrics_RuntimeMetricsReporter : Type;
  metrics_NewRuntimeMetricsReporter :
    tally_Scope → Z → log_Logger → string → metrics_RuntimeMetricsReporter;
  (* common/dynamicconfig, common/service, common/config, elasticsearch *)
  dynamicconfig_Client : Type;
  dynamicconfig_Collection : Type;
  dynamicconfig_FilterOption : Type;
  dynamicconfig_ClusterNameFilter : string → dynamicconfig_FilterOption;
  dynamicconfig_NewCollection :
    dynamicconfig_Client → log_Logger → dynamicconfig_FilterOption → dynamicconfig_Collection;
  service_Config : Type;
  dynamicconfig_IntPropertyFn : Type;
  float64 : Type;
  ThrottledLoggerMaxRPS : service_Config → dynamicconfig_IntPropertyFn;
  PersistenceGlobalMaxQPS_AsFloat64 : service_Config → float64;
  PersistenceMaxQPS_AsFloat64 : service_Config → float64;
  config_Persistence : Type;
  NumHistoryShards : config_Persistence → Z;
  es_GenericClient : Type;
  config_ElasticSearchConfig : Type;
  (* common/log/loggerimpl *)
  loggerimpl_NewThrottledLogger : log_Logger → dynamicconfig_IntPropertyFn → log_Logger;
  (* common/quotas *)
  quotas_Limiter : Type;
  quotas_PerMemberDynamic :
    string → float64 → float64 → membership_Resolver → quotas_Limiter;
  (* common: RPC factory, pprof, retry policies, error classification *)
  common_RPCFactory : Type;
  common_PProfInitializer : Type;
  RPCFactory_GetDispatcher : common_RPCFactory → yarpc_Dispatcher;
  backoff_RetryPolicy : Type;
  common_CreateFrontendServiceRetryPolicy : backoff_RetryPolicy;
  common_CreateMatchingServiceRetryPolicy : backoff_RetryPolicy;
  common_CreateHistoryServiceRetryPolicy : backoff_RetryPolicy;
  common_IsServiceTransientError : (error → bool);
  (* The three values of the daemon status enumeration (common.DaemonStatus...) *)
  common_DaemonStatusInitialized : Z;
  common_DaemonStatusStarted : Z;
  common_DaemonStatusStopped : Z;
  (* client: the RPC client bean and the peer-service clients *)
  client_Factory : Type;
  client_Bean : Type;
  admin_Client : Type;
  frontend_Client : Type;
  matching_Client : Type;
  history_Client : Type;
  client_NewRPCClientFactory :
    common_RPCFactory → membership_Resolver → metrics_Client →
    dynamicconfig_Collection → Z → log_Logger → client_Factory;
  client_NewClientBean :
    client_Factory → yarpc_Dispatcher → cluster_Metadata → result error client_Bean;
  Bean_GetFrontendClient : client_Bean → frontend_Client;
  Bean_GetMatchingClient : client_Bean → cache_GetDomainNameFunc → result error matching_Client;
  Bean_GetHistoryClient : client_Bean → history_Client;
  Bean_GetRemoteAdminClient : client_Bean → string → admin_Client;
  Bean_GetRemoteFrontendClient : client_Bean → string → frontend_Client;
  frontend_NewRetryableClient :
    frontend_Client → backoff_RetryPolicy → (error → bool) → frontend_Client;
  matching_NewRetryableClient :
    matching_Client → backoff_RetryPolicy → (error → bool) → matching_Client;
  history_NewRetryableClient :
    history_Client → backoff_RetryPolicy → (error → bool) → history_Client;
  (* common/persistence and its client bean *)
  persistence_PayloadSerializer : Type;
  persistence_NewPayloadSerializer : persistence_PayloadSerializer;
  persistence_DynamicConfiguration : Type;
  persistence_NewDynamicConfiguration : dynamicconfig_Collection → persistence_DynamicConfiguration;
  persistence_DomainManager : Type;
  persistence_TaskManager : Type;
  persistence_VisibilityManager : Type;
  persistence_ShardManager : Type;
  persistence_HistoryManager : Type;
  persistence_ExecutionManager : Type;
  persistence_QueueManager : Type;
  persistenceClient_Factory : Type;
  persistenceClient_Bean : Type;
  persistenceClient_NewFactory :
    config_Persistence → quotas_Limiter → string → metrics_Client → log_Logger →
    persistence_DynamicConfiguration → persistenceClient_Factory;
  persistenceClient_NewBeanFromFactory :
    persistenceClient_Factory →
    (* &persistenceClient.Params{PersistenceConfig, MetricsClient, MessagingClient, ESClient, ESConfig} *)
    config_Persistence * metrics_Client * messaging_Client * es_GenericClient * config_ElasticSearchConfig →
    service_Config → result error persistenceClient_Bean;
  PBean_GetDomainManager : persistenceClient_Bean → persistence_DomainManager;
  PBean_GetTaskManager : persistenceClient_Bean → persistence_TaskManager;
  PBean_GetVisibilityManager : persistenceClient_Bean → persistence_VisibilityManager;
  PBean_GetShardManager : persistenceClient_Bean → persistence_ShardManager;
  PBean_GetHistoryManager : persistenceClient_Bean → persistence_HistoryManager;
  PBean_GetExecutionManager : persistenceClient_Bean → Z → result error persistence_ExecutionManager;
  PBean_GetDomainReplicationQueueManager : persistenceClient_Bean → persistence_QueueManager;
  cache_NewDomainCache :
    persistence_DomainManager → metrics_Client → log_Logger → cache_DomainCache;
  (* common/domain *)
  domain_ReplicationQueue : Type;
  domain_NewReplicationQueue :
    persistence_QueueManager → string → metrics_Client → log_Logger → domain_ReplicationQueue;
  (* archiver bootstrap containers and their registration *)
  ArchiverProvider_RegisterBootstrapContainer :
    provider_ArchiverProvider → string →
    (* &archiver.HistoryBootstrapContainer{HistoryV2Manager, Logger, MetricsClient, ClusterMetadata, DomainCache} *)
    persistence_HistoryManager * log_Logger * metrics_Client * cluster_Metadata * cache_DomainCache →
    (* &archiver.VisibilityBootstrapContainer{Logger, MetricsClient, ClusterMetadata, DomainCache} *)
    log_Logger * metrics_Client * cluster_Metadata * cache_DomainCache →
    option error
}.

(** [time.Minute] in nanoseconds. *)
Definition time_Minute : Z := 60 * 1000000000.

Section Container.
Context `{Imports}.

(** ** [Params]: the fields of the constructor's parameter block that [New]
    reads (the struct is declared in another file of the package). *)
Record Params : Type := {
  Name : string;
  InstanceID : string;
  Logger : log_Logger;
  MetricScope : tally_Scope;
  MembershipResolver : membership_Resolver;
  RPCFactory : common_RPCFactory;
  PProfInitializer : common_PProfInitializer;
  PersistenceConfig : config_Persistence;
  ClusterMetadata : cluster_Metadata;
  MetricsClient : metrics_Client;
  MessagingClient : messaging_Client;
  BlobstoreClient : blobstore_Client;
  ESClient : es_GenericClient;
  ESConfig : config_ElasticSearchConfig;
  DynamicConfig : dynamicconfig_Client;
  PublicClient : workflowserviceclient_Interface;
  ArchivalMetadata : archiver_ArchivalMetadata;
  ArchiverProvider : provider_ArchiverProvider
}.

(** ** [Impl] contains all common resources shared across
    frontend / matching / history / worker *)
Record Impl : Type := {
  status : Z;                                        (* int32 *)
  (* static infos *)
  numShards : Z;
  serviceName : string;
  hostInfo : membership_HostInfo;
  metricsScope : tally_Scope;
  clusterMetadata : cluster_Metadata;
  (* other common resources *)
  domainCache : cache_DomainCache;
  domainMetricsScopeCache : cache_DomainMetricsScopeCache;
  timeSource : clock_TimeSource;
  payloadSerializer : persistence_PayloadSerializer;
  metricsClient : metrics_Client;
  messagingClient : messaging_Client;
  blobstoreClient : blobstore_Client;
  archivalMetadata : archiver_ArchivalMetadata;
  archiverProvider : provider_ArchiverProvider;
  domainReplicationQueue : domain_ReplicationQueue;
  (* membership infos *)
  membershipResolver : membership_Resolver;
  (* internal services clients *)
  sdkClient : workflowserviceclient_Interface;
  frontendRawClient : frontend_Client;
  frontendClient : frontend_Client;
  matchingRawClient : matching_Client;
  matchingClient : matching_Client;
  historyRawClient : history_Client;
  historyClient : history_Client;
  clientBean : client_Bean;
  (* persistence clients *)
  persistenceBean : persistenceClient_Bean;
  (* loggers *)
  logger : log_Logger;
  throttledLogger : log_Logger;
  (* for registering handlers *)
  dispatcher : yarpc_Dispatcher;
  (* internal vars *)
  pprofInitializer : common_PProfInitializer;
  runtimeMetricsReporter : metrics_RuntimeMetricsReporter;
  rpcFactory : common_RPCFactory
}.

(** The two assignments the file makes to a field of an existing [Impl]:
    [h.status] (through the compare-and-swap) and [h.hostInfo]. *)
Definition set_status (v : Z) (h : Impl) : Impl :=
  {| status := v;
     numShards := numShards h; serviceName := serviceName h; hostInfo := hostInfo h;
     metricsScope := metricsScope h; clusterMetadata := clusterMetadata h;
     domainCache := domainCache h; domainMetricsScopeCache := domainMetricsScopeCache h;
     timeSource := timeSource h; payloadSerializer := payloadSerializer h;
     metricsClient := metricsClient h; messagingClient := messagingClient h;
     blobstoreClient := blobstoreClient h; archivalMetadata := archivalMetadata h;
     archiverProvider := archiverProvider h; domainReplicationQueue := domainReplicationQueue h;
     membershipResolver := membershipResolver h; sdkClient := sdkClient h;
     frontendRawClient := frontendRawClient h; frontendClient := frontendClient h;
     matchingRawClient := matchingRawClient h; matchingClient := matchingClient h;
     historyRawClient := historyRawClient h; historyClient := historyClient h;
     clientBean := clientBean h; persistenceBean := persistenceBean h;
     logger := logger h; throttledLogger := throttledLogger h; dispatcher := dispatcher h;
     pprofInitializer := pprofInitializer h;
     runtimeMetricsReporter := runtimeMetricsReporter h; rpcFactory := rpcFactory h |}.

Definition set_hostInfo (v : membership_HostInfo) (h : Impl) : Impl :=
  {| status := status h;
     numShards := numShards h; serviceName := serviceName h; hostInfo := v;
     metricsScope := metricsScope h; clusterMetadata := clusterMetadata h;
     domainCache := domainCache h; domainMetricsScopeCache := domainMetricsScopeCache h;
     timeSource := timeSource h; payloadSerializer := payloadSerializer h;
     metricsClient := metricsClient h; messagingClient := messagingClient h;
     blobstoreClient := blobstoreClient h; archivalMetadata := archivalMetadata h;
     archiverProvider := archiverProvider h; domainReplicationQueue := domainReplicationQueue h;
     membershipResolver := membershipResolver h; sdkClient := sdkClient h;
     frontendRawClient := frontendRawClient h; frontendClient := frontendClient h;
     matchingRawClient := matchingRawClient h; matchingClient := matchingClient h;
     historyRawClient := historyRawClient h; historyClient := historyClient h;
     clientBean := clientBean h; persistenceBean := persistenceBean h;
     logger := logger h; throttledLogger := throttledLogger h; dispatcher := dispatcher h;
     pprofInitializer := pprofInitializer h;
     runtimeMetricsReporter := runtimeMetricsReporter h; rpcFactory := rpcFactory h |}.

(** ** [New] create a new resource containing common dependencies

    Each [if err != nil { return nil, err }] is a match on the [result]. *)
Definition New (params : Params) (serviceName' : string) (serviceConfig : service_Config)
  : result error Impl :=
  let logger := Logger params in
  let throttledLogger :=
    loggerimpl_NewThrottledLogger logger (ThrottledLoggerMaxRPS serviceConfig) in
  let numShards := NumHistoryShards (PersistenceConfig params) in
  let dispatcher := RPCFactory_GetDispatcher (RPCFactory params) in
  let membershipResolver := MembershipResolver params in
  let dynamicCollection :=
    dynamicconfig_NewCollection (DynamicConfig params) logger
      (dynamicconfig_ClusterNameFilter
         (cluster_GetCurrentClusterName (ClusterMetadata params))) in
  match
    client_NewClientBean
      (client_NewRPCClientFactory (RPCFactory params) membershipResolver
         (MetricsClient params) dynamicCollection numShards logger)
      (RPCFactory_GetDispatcher (RPCFactory params))
      (ClusterMetadata params)
  with
  | Err err => Err err
  | Ok clientBean =>
  match
    persistenceClient_NewBeanFromFactory
      (persistenceClient_NewFactory (PersistenceConfig params)
         (quotas_PerMemberDynamic serviceName'
            (PersistenceGlobalMaxQPS_AsFloat64 serviceConfig)
            (PersistenceMaxQPS_AsFloat64 serviceConfig)
            membershipResolver)
         (cluster_GetCurrentClusterName (ClusterMetadata params))
         (MetricsClient params) logger
         (persistence_NewDynamicConfiguration dynamicCollection))
      (PersistenceConfig params, MetricsClient params, MessagingClient params,
       ESClient params, ESConfig params)
      serviceConfig
  with
  | Err err => Err err
  | Ok persistenceBean =>
  let domainCache :=
    cache_NewDomainCache (PBean_GetDomainManager persistenceBean)
      (MetricsClient params) logger in
  let domainMetricsScopeCache := cache_NewDomainMetricsScopeCache in
  let domainReplicationQueue :=
    domain_NewReplicationQueue
      (PBean_GetDomainReplicationQueueManager persistenceBean)
      (cluster_GetCurrentClusterName (ClusterMetadata params))
      (MetricsClient params) logger in
  let frontendRawClient := Bean_GetFrontendClient clientBean in
  let frontendClient :=
    frontend_NewRetryableClient frontendRawClient
      common_CreateFrontendServiceRetryPolicy
      common_IsServiceTransientError in
  match Bean_GetMatchingClient clientBean (cache_GetDomainName domainCache) with
  | Err err => Err err
  | Ok matchingRawClient =>
  let matchingClient :=
    matching_NewRetryableClient matchingRawClient
      common_CreateMatchingServiceRetryPolicy
      common_IsServiceTransientError in
  let historyRawClient := Bean_GetHistoryClient clientBean in
  let historyClient :=
    history_NewRetryableClient historyRawClient
      common_CreateHistoryServiceRetryPolicy
      common_IsServiceTransientError in
  let historyArchiverBootstrapContainer :=
    (PBean_GetHistoryManager persistenceBean, logger, MetricsClient params,
     ClusterMetadata params, domainCache) in
  let visibilityArchiverBootstrapContainer :=
    (logger, MetricsClient params, ClusterMetadata params, domainCache) in
  match
    ArchiverProvider_RegisterBootstrapContainer (ArchiverProvider params) serviceName'
      historyArchiverBootstrapContainer visibilityArchiverBootstrapContainer
  with
  | Some err => Err err
  | None =>
  Ok {|
    status := common_DaemonStatusInitialized;
    (* static infos *)
    numShards := numShards;
    serviceName := Name params;
    hostInfo := membership_HostInfo_zero;       (* no initialiser in the literal *)
    metricsScope := MetricScope params;
    clusterMetadata := ClusterMetadata params;
    (* other common resources *)
    domainCache := domainCache;
    domainMetricsScopeCache := domainMetricsScopeCache;
    timeSource := clock_NewRealTimeSource;
    payloadSerializer := persistence_NewPayloadSerializer;
    metricsClient := MetricsClient params;
    messagingClient := MessagingClient params;
    blobstoreClient := BlobstoreClient params;
    archivalMetadata := ArchivalMetadata params;
    archiverProvider := ArchiverProvider params;
    domainReplicationQueue := domainReplicationQueue;
    (* membership infos *)
    membershipResolver := membershipResolver;
    (* internal services clients *)
    sdkClient := PublicClient params;
    frontendRawClient := frontendRawClient;
    frontendClient := frontendClient;
    matchingRawClient := matchingRawClient;
    matchingClient := matchingClient;
    historyRawClient := historyRawClient;
    historyClient := historyClient;
    clientBean := clientBean;
    (* persistence clients *)
    persistenceBean := persistenceBean;
    (* loggers *)
    logger := logger;
    throttledLogger := throttledLogger;
    (* for registering handlers *)
    dispatcher := dispatcher;
    (* internal vars *)
    pprofInitializer := PProfInitializer params;
    runtimeMetricsReporter :=
      metrics_NewRuntimeMetricsReporter (MetricScope params) time_Minute logger
        (InstanceID params);
    rpcFactory := RPCFactory params
  |}
  end end end end.

(** ** Effects of [Start] and [Stop]

    The two methods call into the collaborators held by the container.  A
    call is recorded as an event, in program order; what a collaborator
    answers is an input ([StartEnv], [StopEnv]).  [logger.Fatal] logs and
    ends the process, so a method either returns or exits. *)

Inductive Event : Type :=
| CounterInc (name : string) (delta : Z)   (* h.metricsScope.Counter(name).Inc(delta) *)
| RuntimeMetricsReporterStart
| PProfInitializerStart
| DispatcherStart
| MembershipResolverStart
| DomainCacheStart
| DomainMetricsScopeCacheStart
| MembershipResolverWhoAmI
| LoggerInfo (msg : string)
| LoggerError (msg : string) (err : error)
| LoggerFatal (msg : string) (err : error)
| RandSeed (seed : Z)
| DomainCacheStop
| DomainMetricsScopeCacheStop
| MembershipResolverStop
| DispatcherStop
| RuntimeMetricsReporterStop
| PersistenceBeanClose.

Inductive Outcome (A : Type) : Type :=
| Returns (a : A) (events : list Event)
| Exits (events : list Event).
Arguments Returns {A} a events.
Arguments Exits {A} events.

(** [Outcome] is a monad: events accumulate, and an exit cuts the rest. *)
Definition Outcome_bind {A B} (k : A → Outcome B) (m : Outcome A) : Outcome B :=
  match m with
  | Returns a ev =>
      match k a with
      | Returns b ev' => Returns b (ev ++ ev')
      | Exits ev' => Exits (ev ++ ev')
      end
  | Exits ev => Exits ev
  end.

#[export] Instance Outcome_ret : MRet Outcome := λ A a, Returns a [].
#[export] Instance Outcome_mbind : MBind Outcome := @Outcome_bind.

Definition emit (e : Event) : Outcome unit := Returns tt [e].

(** [h.logger.WithTags(tag.Error(err)).Fatal(msg)] *)
Definition fatal {A} (msg : string) (err : error) : Outcome A :=
  Exits [LoggerFatal msg err].

(** [atomic.CompareAndSwapInt32(addr, old, new)]: the new content of the
    cell and whether the swap happened. *)
Definition CompareAndSwapInt32 (cell old new : Z) : Z * bool :=
  if bool_decide (cell = old) then (new, true) else (cell, false).

(** What the collaborators answer during one [Start]. *)
Record StartEnv : Type := {
  pprofInitializer_Start : option error;
  dispatcher_Start : option error;
  membershipResolver_WhoAmI : result error membership_HostInfo;
  time_Now_UnixNano : Z
}.

(** What the collaborators answer during one [Stop]. *)
Record StopEnv : Type := {
  dispatcher_Stop : option error
}.

(** [Start] start all resources *)
Definition Start (env : StartEnv) (h : Impl) : Outcome Impl :=
  let '(cell, swapped) :=
    CompareAndSwapInt32 (status h)
      common_DaemonStatusInitialized common_DaemonStatusStarted in
  if negb swapped then mret h
  else
    let h := set_status cell h in
    emit (CounterInc metrics.RestartCount 1) ;;
    emit RuntimeMetricsReporterStart ;;
    emit PProfInitializerStart ;;
    match pprofInitializer_Start env with
    | Some err => fatal "fail to start PProf" err
    | None => mret tt
    end ;;
    emit DispatcherStart ;;
    match dispatcher_Start env with
    | Some err => fatal "fail to start dispatcher" err
    | None => mret tt
    end ;;
    emit MembershipResolverStart ;;
    emit DomainCacheStart ;;
    emit DomainMetricsScopeCacheStart ;;
    emit MembershipResolverWhoAmI ;;
    hostInfo' ← match membershipResolver_WhoAmI env with
                | Err err => fatal "fail to get host info from membership monitor" err
                | Ok hi => mret hi
                end;
    let h := set_hostInfo hostInfo' h in
    (* The service is now started up *)
    emit (LoggerInfo "service started") ;;
    (* seed the random generator once for this service *)
    emit (RandSeed (time_Now_UnixNano env)) ;;
    mret h.

(** [Stop] stops all resources *)
Definition Stop (env : StopEnv) (h : Impl) : Outcome Impl :=
  let '(cell, swapped) :=
    CompareAndSwapInt32 (status h)
      common_DaemonStatusStarted common_DaemonStatusStopped in
  if negb swapped then mret h
  else
    let h := set_status cell h in
    emit DomainCacheStop ;;
    emit DomainMetricsScopeCacheStop ;;
    emit MembershipResolverStop ;;
    emit DispatcherStop ;;
    match dispatcher_Stop env with
    | Some err => emit (LoggerError "failed to stop dispatcher" err)
    | None => mret tt
    end ;;
    emit RuntimeMetricsReporterStop ;;
    emit PersistenceBeanClose ;;
    mret h.

(** ** Getters *)

(** [GetServiceName] return service name *)
Definition GetServiceName (h : Impl) : string := serviceName h.
(** [GetHostInfo] return host info *)
Definition GetHostInfo (h : Impl) : membership_HostInfo := hostInfo h.
(** [GetClusterMetadata] return cluster metadata *)
Definition GetClusterMetadata (h : Impl) : cluster_Metadata := clusterMetadata h.
(** [GetMembershipResolver] return the membership resolver *)
Definition GetMembershipResolver (h : Impl) : membership_Resolver := membershipResolver h.
(** [GetFrontendRawClient] return frontend client without retry policy *)
Definition GetFrontendRawClient (h : Impl) : frontend_Client := frontendRawClient h.
(** [GetFrontendClient] return frontend client with retry policy *)
Definition GetFrontendClient (h : Impl) : frontend_Client := frontendClient h.
(** [GetMatchingRawClient] return matching client without retry policy *)
Definition GetMatchingRawClient (h : Impl) : matching_Client := matchingRawClient h.
(** [GetMatchingClient] return matching client with retry policy *)
Definition GetMatchingClient (h : Impl) : matching_Client := matchingClient h.
(** [GetHistoryRawClient] return history client without retry policy *)
Definition GetHistoryRawClient (h : Impl) : history_Client := historyRawClient h.
(** [GetHistoryClient] return history client with retry policy *)
Definition GetHistoryClient (h : Impl) : history_Client := historyClient h.
(** [GetRemoteAdminClient] return remote admin client for given cluster name *)
Definition GetRemoteAdminClient (h : Impl) (cluster : string) : admin_Client :=
  Bean_GetRemoteAdminClient (clientBean h) cluster.
(** [GetRemoteFrontendClient] return remote frontend client for given cluster name *)
Definition GetRemoteFrontendClient (h : Impl) (cluster : string) : frontend_Client :=
  Bean_GetRemoteFrontendClient (clientBean h) cluster.
(** [GetClientBean] return RPC client bean *)
Definition GetClientBean (h : Impl) : client_Bean := clientBean h.
(** [GetPersistenceBean] return persistence bean *)
Definition GetPersistenceBean (h : Impl) : persistenceClient_Bean := persistenceBean h.

(** ** Call sequences

    A client of the container calls [Start] and [Stop] in some order, each
    call with the answers of the collaborators at that time.  [run] plays a
    sequence of calls; the events of the calls are concatenated. *)

Inductive Call : Type :=
| CallStart (env : StartEnv)
| CallStop (env : StopEnv).

Definition call (c : Call) (h : Impl) : Outcome Impl :=
  match c with
  | CallStart env => Start env h
  | CallStop env => Stop env h
  end.

Fixpoint run (cs : list Call) (h : Impl) : Outcome Impl :=
  match cs with
  | [] => mret h
  | c :: cs => h' ← call c h; run cs h'
  end.

Definition isStart (c : Call) : bool :=
  match c with CallStart _ => true | CallStop _ => false end.

(** The status after an outcome, when the process is still there. *)
Definition returned {A} (o : Outcome A) : option A :=
  match o with Returns a _ => Some a | Exits _ => None end.

Definition events {A} (o : Outcome A) : list Event :=
  match o with Returns _ ev => ev | Exits ev => ev end.

(** The three daemon statuses are three different values (they are the
    constants of one enumeration). *)
Definition statusesDistinct : Prop :=
  common_DaemonStatusInitialized ≠ common_DaemonStatusStarted ∧
  common_DaemonStatusStarted ≠ common_DaemonStatusStopped ∧
  common_DaemonStatusInitialized ≠ common_DaemonStatusStopped.

(** What every call preserves: all fields but [status] and [hostInfo]. *)
Definition sameWiring (h h' : Impl) : Prop :=
  frontendRawClient h' = frontendRawClient h ∧
  frontendClient h' = frontendClient h ∧
  matchingRawClient h' = matchingRawClient h ∧
  matchingClient h' = matchingClient h ∧
  historyRawClient h' = historyRawClient h ∧
  historyClient h' = historyClient h ∧
  clientBean h' = clientBean h ∧
  persistenceBean h' = persistenceBean h.

(** The status is one of the three daemon statuses. *)
Definition statusKnown (h : Impl) : Prop :=
  status h = common_DaemonStatusInitialized ∨
  status h = common_DaemonStatusStarted ∨
  status h = common_DaemonStatusStopped.

(** The events of a [Start] that runs to its end, and of a [Stop] whose
    dispatcher stops without error. *)
Definition startEvents (env : StartEnv) : list Event :=
  [ CounterInc metrics.RestartCount 1; RuntimeMetricsReporterStart;
    PProfInitializerStart; DispatcherStart; MembershipResolverStart;
    DomainCacheStart; DomainMetricsScopeCacheStart; MembershipResolverWhoAmI;
    LoggerInfo "service started"; RandSeed (time_Now_UnixNano env) ].

Definition stopEvents (env : StopEnv) : list Event :=
  [ DomainCacheStop; DomainMetricsScopeCacheStop; MembershipResolverStop;
    DispatcherStop ] ++
  match dispatcher_Stop env with
  | Some err => [ LoggerError "failed to stop dispatcher" err ]
  | None => []
  end ++
  [ RuntimeMetricsReporterStop; PersistenceBeanClose ].

(** ** The other getters *)

(** [GetDomainCache] return domain cache *)
Definition GetDomainCache (h : Impl) : cache_DomainCache := domainCache h.
(** [GetDomainMetricsScopeCache] return domainMetricsScope cache *)
Definition GetDomainMetricsScopeCache (h : Impl) : cache_DomainMetricsScopeCache :=
  domainMetricsScopeCache h.
(** [GetTimeSource] return time source *)
Definition GetTimeSource (h : Impl) : clock_TimeSource := timeSource h.
(** [GetPayloadSerializer] return binary payload serializer *)
Definition GetPayloadSerializer (h : Impl) : persistence_PayloadSerializer :=
  payloadSerializer h.
(** [GetMetricsClient] return metrics client *)
Definition GetMetricsClient (h : Impl) : metrics_Client := metricsClient h.
(** [GetMessagingClient] return messaging client *)
Definition GetMessagingClient (h : Impl) : messaging_Client := messagingClient h.
(** [GetBlobstoreClient] returns blobstore client *)
Definition GetBlobstoreClient (h : Impl) : blobstore_Client := blobstoreClient h.
(** [GetArchivalMetadata] return archival metadata *)
Definition GetArchivalMetadata (h : Impl) : archiver_ArchivalMetadata := archivalMetadata h.
(** [GetArchiverProvider] return archival provider *)
Definition GetArchiverProvider (h : Impl) : provider_ArchiverProvider := archiverProvider h.
(** [GetDomainReplicationQueue] return domain replication queue *)
Definition GetDomainReplicationQueue (h : Impl) : domain_ReplicationQueue :=
  domainReplicationQueue h.
(** [GetSDKClient] return sdk client *)
Definition GetSDKClient (h : Impl) : workflowserviceclient_Interface := sdkClient h.
(** [GetDomainManager] return metadata manager *)
Definition GetDomainManager (h : Impl) : persistence_DomainManager :=
  PBean_GetDomainManager (persistenceBean h).
(** [GetTaskManager] return task manager *)
Definition GetTaskManager (h : Impl) : persistence_TaskManager :=
  PBean_GetTaskManager (persistenceBean h).
(** [GetVisibilityManager] return visibility manager *)
Definition GetVisibilityManager (h : Impl) : persistence_VisibilityManager :=
  PBean_GetVisibilityManager (persistenceBean h).
(** [GetShardManager] return shard manager *)
Definition GetShardManager (h : Impl) : persistence_ShardManager :=
  PBean_GetShardManager (persistenceBean h).
(** [GetHistoryManager] return history manager *)
Definition GetHistoryManager (h : Impl) : persistence_HistoryManager :=
  PBean_GetHistoryManager (persistenceBean h).
(** [GetExecutionManager] return execution manager for given shard ID *)
Definition GetExecutionManager (h : Impl) (shardID : Z)
  : result error persistence_ExecutionManager :=
  PBean_GetExecutionManager (persistenceBean h) shardID.
(** [GetLogger] return logger *)
Definition GetLogger (h : Impl) : log_Logger := logger h.
(** [GetThrottledLogger] return throttled logger *)
Definition GetThrottledLogger (h : Impl) : log_Logger := throttledLogger h.
(** [GetDispatcher] return YARPC dispatcher, used for registering handlers *)
Definition GetDispatcher (h : Impl) : yarpc_Dispatcher := dispatcher h.

(** ** Counting events *)

(** How many events of a trace satisfy a test. *)
Definition countEvents (p : Event → bool) (ev : list Event) : nat :=
  length (List.filter p ev).

Definition isCounterInc (e : Event) : bool :=
  match e with CounterInc _ _ => true | _ => false end.
Definition isRandSeed (e : Event) : bool :=
  match e with RandSeed _ => true | _ => false end.
Definition isLoggerFatal (e : Event) : bool :=
  match e with LoggerFatal _ _ => true | _ => false end.
Definition isPersistenceBeanClose (e : Event) : bool :=
  match e with PersistenceBeanClose => true | _ => false end.

End Container.

Arguments Returns {_ _} a events.
Arguments Exits {_ _} events.

(** An event is not in an explicit list of other events. *)
Ltac not_in_events :=
  let Hin := fresh "Hin" in
  intros Hin;
  repeat (apply elem_of_cons in Hin as [Hin|Hin]; [discriminate Hin|]);
  by apply elem_of_nil in Hin.

(** Count the events of explicit traces. *)
Ltac solve_counts :=
  unfold countEvents; simpl; split_and!;
  first [ lia | done | intros; lia | split; intros; first [lia | done] ].

(** ** A concrete set of imports

    Every opaque type is [unit] except the ones the properties below look
    at: host infos and clients are strings, a retry-wrapped client is the
    raw client's name with the policy's name appended, and the daemon
    statuses are 0, 1, 2 as an [iota] block numbers them. *)
Definition sampleImports : Imports := {|
  error := string;
  log_Logger := unit;
  membership_HostInfo := string;
  membership_HostInfo_zero := "";
  membership_Resolver := unit;
  tally_Scope := unit;
  yarpc_Dispatcher := unit;
  workflowserviceclient_Interface := unit;
  cluster_Metadata := unit;
  cluster_GetCurrentClusterName := λ _, "cluster0";
  cache_DomainCache := unit;
  cache_DomainMetricsScopeCache := unit;
  cache_GetDomainNameFunc := unit;
  cache_GetDomainName := λ _, tt;
  cache_NewDomainMetricsScopeCache := tt;
  clock_TimeSource := unit;
  clock_NewRealTimeSource := tt;
  messaging_Client := unit;
  blobstore_Client := unit;
  archiver_ArchivalMetadata := unit;
  provider_ArchiverProvider := unit;
  metrics_Client := unit;
  metrics_RuntimeMetricsReporter := unit;
  metrics_NewRuntimeMetricsReporter := λ _ _ _ _, tt;
  dynamicconfig_Client := unit;
  dynamicconfig_Collection := unit;
  dynamicconfig_FilterOption := unit;
  dynamicconfig_ClusterNameFilter := λ _, tt;
  dynamicconfig_NewCollection := λ _ _ _, tt;
  service_Config := unit;
  dynamicconfig_IntPropertyFn := unit;
  float64 := unit;
  ThrottledLoggerMaxRPS := λ _, tt;
  PersistenceGlobalMaxQPS_AsFloat64 := λ _, tt;
  PersistenceMaxQPS_AsFloat64 := λ _, tt;
  config_Persistence := unit;
  NumHistoryShards := λ _, 4;
  es_GenericClient := unit;
  config_ElasticSearchConfig := unit;
  loggerimpl_NewThrottledLogger := λ l _, l;
  quotas_Limiter := unit;
  quotas_PerMemberDynamic := λ _ _ _ _, tt;
  common_RPCFactory := unit;
  common_PProfInitializer := unit;
  RPCFactory_GetDispatcher := λ _, tt;
  backoff_RetryPolicy := string;
  common_CreateFrontendServiceRetryPolicy := "frontendPolicy";
  common_CreateMatchingServiceRetryPolicy := "matchingPolicy";
  common_CreateHistoryServiceRetryPolicy := "historyPolicy";
  common_IsServiceTransientError := λ e, bool_decide (e = "transient");
  common_DaemonStatusInitialized := 0;
  common_DaemonStatusStarted := 1;
  common_DaemonStatusStopped := 2;
  client_Factory := unit;
  client_Bean := unit;
  admin_Client := string;
  frontend_Client := string;
  matching_Client := string;
  history_Client := string;
  client_NewRPCClientFactory := λ _ _ _ _ _ _, tt;
  client_NewClientBean := λ _ _ _, Ok tt;
  Bean_GetFrontendClient := λ _, "frontend";
  Bean_GetMatchingClient := λ _ _, Ok "matching";
  Bean_GetHistoryClient := λ _, "history";
  Bean_GetRemoteAdminClient := λ _ c, "admin@" +:+ c;
  Bean_GetRemoteFrontendClient := λ _ c, "frontend@" +:+ c;
  frontend_NewRetryableClient := λ c p _, c +:+ "+retry:" +:+ p;
  matching_NewRetryableClient := λ c p _, c +:+ "+retry:" +:+ p;
  history_NewRetryableClient := λ c p _, c +:+ "+retry:" +:+ p;
  persistence_PayloadSerializer := unit;
  persistence_NewPayloadSerializer := tt;
  persistence_DynamicConfiguration := unit;
  persistence_NewDynamicConfiguration := λ _, tt;
  persistence_DomainManager := unit;
  persistence_TaskManager := unit;
  persistence_VisibilityManager := unit;
  persistence_ShardManager := unit;
  persistence_HistoryManager := unit;
  persistence_ExecutionManager := unit;
  persistence_QueueManager := unit;
  persistenceClient_Factory := unit;
  persistenceClient_Bean := unit;
  persistenceClient_NewFactory := λ _ _ _ _ _ _, tt;
  persistenceClient_NewBeanFromFactory := λ _ _ _, Ok tt;
  PBean_GetDomainManager := λ _, tt;
  PBean_GetTaskManager := λ _, tt;
  PBean_GetVisibilityManager := λ _, tt;
  PBean_GetShardManager := λ _, tt;
  PBean_GetHistoryManager := λ _, tt;
  PBean_GetExecutionManager := λ _ _, Ok tt;
  PBean_GetDomainReplicationQueueManager := λ _, tt;
  cache_NewDomainCache := λ _ _ _, tt;
  domain_ReplicationQueue := unit;
  domain_NewReplicationQueue := λ _ _ _ _, tt;
  ArchiverProvider_RegisterBootstrapContainer := λ _ _ _ _, None
|}.

Definition sampleParams : @Params sampleImports :=
  @Build_Params sampleImports
    "cadence-history" (* Name *) "instance-0" (* InstanceID *)
    tt tt tt tt tt tt tt tt tt tt tt tt tt tt tt tt.

Definition sampleStartEnv : @StartEnv sampleImports :=
  @Build_StartEnv sampleImports
    None                        (* pprofInitializer.Start() *)
    None                        (* dispatcher.Start() *)
    (Ok "10.0.0.1:7934")        (* membershipResolver.WhoAmI() *)
    1700000000000000000.        (* time.Now().UTC().UnixNano() *)

Definition sampleStopEnv : @StopEnv sampleImports :=
  @Build_StopEnv sampleImports None.

End resource.

(* ===================================================================== *)
(** * The task-queue engine, from the design text

    The processing queue, the task scheduler, the dead-letter queue and the
    shard controller are not among the source files of this development.
    The definitions of the remaining modules are written from the design
    text (its data model, component contracts and testable properties), and
    each says which sentence it renders. *)
(* ===================================================================== *)

Module engine.

(** Modelled from the spec: the task categories of the data model
    ("transfer | timer | cross-cluster | replication"); no source file
    declares them. *)
Inductive Category : Type :=
| CategoryTransfer
| CategoryTimer
| CategoryCrossCluster
| CategoryReplication.

#[global] Instance Category_eq_dec : EqDecision Category.
Proof. solve_decision. Defined.

(** Modelled from the spec: the attributes of a Task in the data model; the
    task type itself is not in the source files.  [taskID] is monotonic per
    shard and category, [attempt] is the retry count, [payload] an opaque
    reference. *)
Record Task : Type := {
  category : Category;
  shardID : Z;
  domainID : string;
  workflowID : string;
  runID : string;
  taskID : Z;
  visibilityTimestamp : Z;
  attempt : Z;
  payload : string
}.

(** Modelled from the spec: a SchedulerItem "wraps a Task with priority and
    orderingKey (typically domainID ...)"; the scheduler item type is not
    in the source files. *)
Record SchedulerItem : Type := {
  itemTask : Task;
  priority : Z;
  orderingKey : string
}.

(** Modelled from the spec: the queue processor submits each task "with
    orderingKey = domainID"; the submitting code is not in the source
    files. *)
Definition newSchedulerItem (t : Task) (prio : Z) : SchedulerItem :=
  {| itemTask := t; priority := prio; orderingKey := domainID t |}.

End engine.

Module queue.
Import engine.

(** Modelled from the spec: ProcessingQueueState of the data model, "level =
    contiguous range already acknowledged (ackLevel) and farthest range
    observed (maxLevel); domainFilter = inclusion/exclusion set restricting
    which domains this queue instance handles"; the queue state type is not
    in the source files.  An inclusion set is [FinGSet X], an exclusion set
    is [CoFinGset X], the universal set is [⊤]. *)
Record ProcessingQueueState : Type := {
  ackLevel : Z;
  maxLevel : Z;
  domainFilter : coGset string
}.

(** Modelled from the spec: the in-memory ack tracking of a processing
    queue ("on completion, update in-memory ack tracking"); the queue
    implementation is not in the source files.  [outstanding] maps the ID of
    every task the queue has handed out to whether it has completed. *)
Record ProcessingQueue : Type := {
  state : ProcessingQueueState;
  outstanding : gmap Z bool
}.

(** Modelled from the spec: a queue as a shard controller instantiates it,
    with the persisted levels and filter and nothing handed out yet; the
    constructor is not in the source files. *)
Definition newProcessingQueue (ack max : Z) (filter : coGset string) : ProcessingQueue :=
  {| state := {| ackLevel := ack; maxLevel := max; domainFilter := filter |};
     outstanding := ∅ |}.

(** ** The persisted tasks *)

(** Modelled from the spec: the tasks of one shard and category that
    persistence holds (a Task is "a durable, persisted unit of deferred
    work"); the persistence layer is not in the source files.  [tasks] are
    the tasks in the order of their creation, [lastTaskID] is the highest
    task ID the shard has given out. *)
Record TaskStore : Type := {
  lastTaskID : Z;
  tasks : list Task
}.

(** The task with another task ID. *)
Definition withTaskID (id : Z) (t : Task) : Task :=
  {| category := category t; shardID := shardID t; domainID := domainID t;
     workflowID := workflowID t; runID := runID t; taskID := id;
     visibilityTimestamp := visibilityTimestamp t; attempt := attempt t;
     payload := payload t |}.

(** Modelled from the spec: a task is "created by the owning shard when
    workflow state transitions occur", with a taskID that is "monotonic per
    shard+category": above the ID of every task created before.  The shard
    is not in the source files.  [gap] is how far the new ID lies above the
    last one (consecutive IDs have gap 1). *)
Definition createTask (gap : positive) (t : Task) (s : TaskStore) : TaskStore :=
  let id := lastTaskID s + Z.pos gap in
  {| lastTaskID := id; tasks := tasks s ++ [withTaskID id t] |}.

(** Modelled from the spec: "GetTasks(shardID, category, range,
    domainFilter) -> []Task" of the persistence collaborator, for the store
    of one shard and category; the persistence layer is not in the source
    files.  The range excludes its lower end (a level already
    acknowledged) and includes its upper end; the tasks come in the order
    of the store. *)
Definition persistence_GetTasks (s : TaskStore) (lo hi : Z) (F : coGset string)
  : list Task :=
  filter (λ t, lo < taskID t ∧ taskID t ≤ hi ∧ domainID t ∈ F) (tasks s).

(** The data model's ordering of a store: task IDs grow along the order of
    creation and do not exceed the last ID given out.  [createTask] keeps a
    store ordered, so the tasks persistence returns come in task-ID
    order. *)
Definition ordered (s : TaskStore) : Prop :=
  StronglySorted (λ t1 t2, taskID t1 < taskID t2) (tasks s) ∧
  Forall (λ t, taskID t ≤ lastTaskID s) (tasks s).

(** ** A processing queue over the persisted tasks *)

(** Modelled from the spec: a processing queue is "an ordered, filterable
    view over a task category's unprocessed range for one shard": the
    persisted tasks of the shard and category together with one queue over
    them; the queue processor is not in the source files. *)
Record QueueSystem : Type := {
  persisted : TaskStore;
  queue : ProcessingQueue
}.

(** Modelled from the spec: the system a queue processor starts from, a
    queue with the persisted levels and filter over what persistence holds
    at the time; the queue processor is not in the source files. *)
Definition newSystem (s : TaskStore) (ack max : Z) (F : coGset string) : QueueSystem :=
  {| persisted := s; queue := newProcessingQueue ack max F |}.

(** Modelled from the spec: the bookkeeping for a batch handed out, each
    task entering the ack tracking as not completed; the queue
    implementation is not in the source files. *)
Definition track (batch : list Task) (q : ProcessingQueue) : ProcessingQueue :=
  {| state := state q;
     outstanding := foldr (λ t m, <[taskID t := false]> m) (outstanding q) batch |}.

(** Modelled from the spec: "GetTasks(batchSize) -> []Task bounded by
    [ackLevel, maxLevel] and domainFilter"; the queue implementation is not
    in the source files.  The queue asks persistence for the tasks of its
    range and filter, leaves out those it has handed out already, and hands
    out the first [batchSize] of the rest: the lowest task IDs first, as
    the store is ordered. *)
Definition GetTasks (batchSize : nat) (sys : QueueSystem) : list Task * QueueSystem :=
  let q := queue sys in
  let inRange :=
    persistence_GetTasks (persisted sys)
      (ackLevel (state q)) (maxLevel (state q)) (domainFilter (state q)) in
  let batch :=
    take batchSize (filter (λ t, outstanding q !! taskID t = None) inRange) in
  (batch, {| persisted := persisted sys; queue := track batch q |}).

(** Modelled from the spec: a task ID the ack level may advance to, "the
    highest taskID such that all tasks with smaller IDs in this queue's
    filter have completed (no gaps)"; the queue implementation is not in the
    source files.  The queue decides by its ack tracking: the ID is one of
    a completed task, and no task handed out with a smaller ID is
    incomplete.  Tasks are handed out lowest ID first, so a persisted task
    of the filter with a smaller ID has been handed out before; that the
    rule therefore covers every persisted task of the filter, handed out or
    not, is proved of the system below (it is part of [consistent]). *)
Definition gapFree (q : ProcessingQueue) (t : Z) : Prop :=
  outstanding q !! t = Some true ∧
  map_Forall (λ id done, id < t → done = true) (outstanding q).

#[export] Instance gapFree_dec q t : Decision (gapFree q t).
Proof. unfold gapFree. apply _. Defined.

(** Modelled from the spec: the level the ack level advances to, the
    highest gap-free task ID, and the current level when there is none
    above it ("ack level only advances"); the queue implementation is not
    in the source files. *)
Definition highestGapFree (q : ProcessingQueue) : Z :=
  foldr Z.max (ackLevel (state q))
    (filter (gapFree q) (elements (dom (outstanding q)))).

(** Modelled from the spec: the completion of a task entering the ack
    tracking ("on completion, update in-memory ack tracking"); the queue
    implementation is not in the source files.  Only a task the queue has
    handed out can complete. *)
Definition markCompleted (id : Z) (q : ProcessingQueue) : ProcessingQueue :=
  match outstanding q !! id with
  | Some _ => {| state := state q; outstanding := <[id := true]> (outstanding q) |}
  | None => q
  end.

(** Modelled from the spec: the ack level moving to the highest gap-free
    task ID; the queue implementation is not in the source files. *)
Definition advance (q : ProcessingQueue) : ProcessingQueue :=
  {| state := {| ackLevel := highestGapFree q;
                 maxLevel := maxLevel (state q);
                 domainFilter := domainFilter (state q) |};
     outstanding := outstanding q |}.

(** Modelled from the spec: "UpdateAckLevel(taskID)", called on completion
    of a task: the task is marked completed and the ack level advances as
    far as the completed tasks allow; the queue implementation is not in
    the source files. *)
Definition UpdateAckLevel (id : Z) (q : ProcessingQueue) : ProcessingQueue :=
  advance (markCompleted id q).

(** Modelled from the spec: [maxLevel] is the "farthest range observed":
    the queue observing the range up to [level]; the queue implementation
    is not in the source files. *)
Definition observe (level : Z) (q : ProcessingQueue) : ProcessingQueue :=
  {| state := {| ackLevel := ackLevel (state q);
                 maxLevel := Z.max (maxLevel (state q)) level;
                 domainFilter := domainFilter (state q) |};
     outstanding := outstanding q |}.

(** Modelled from the spec: what happens to the persisted tasks and the
    queue over time: the shard creates a task, and the processor's loop
    "fetch batch -> submit -> on completion, update in-memory ack
    tracking"; the shard and the processor are not in the source files. *)
Inductive QueueOp : Type :=
| OpCreateTask (gap : positive) (t : Task)
| OpGetTasks (batchSize : nat)
| OpUpdateAckLevel (id : Z)
| OpObserve (level : Z).

(** Modelled from the spec: one operation on the system; the shard and the
    processor are not in the source files. *)
Definition step (sys : QueueSystem) (op : QueueOp) : QueueSystem :=
  match op with
  | OpCreateTask gap t =>
      {| persisted := createTask gap t (persisted sys); queue := queue sys |}
  | OpGetTasks n => (GetTasks n sys).2
  | OpUpdateAckLevel id =>
      {| persisted := persisted sys; queue := UpdateAckLevel id (queue sys) |}
  | OpObserve level =>
      {| persisted := persisted sys; queue := observe level (queue sys) |}
  end.

(** Modelled from the spec: the operations over time, in order; the shard
    and the processor are not in the source files. *)
Definition run (ops : list QueueOp) (sys : QueueSystem) : QueueSystem :=
  foldl step sys ops.

(** The ack level of the queue of a system. *)
Definition ackOf (sys : QueueSystem) : Z := ackLevel (state (queue sys)).

(** The ack levels a system goes through under a sequence of operations. *)
Fixpoint ackHistory (ops : list QueueOp) (sys : QueueSystem) : list Z :=
  ackOf sys ::
  match ops with
  | [] => []
  | op :: ops => ackHistory ops (step sys op)
  end.

(** A task has completed when the ack tracking says so; a task that was
    never handed out has not. *)
Definition completed (sys : QueueSystem) (id : Z) : Prop :=
  outstanding (queue sys) !! id = Some true.

(** What holds of every system reached from a new queue with ack level
    [a0] and filter [F] over an ordered store:
    - the store is ordered and the filter is [F];
    - the ack level is [a0] or the ID of a task given out, and not below
      [a0];
    - every task in the ack tracking is a persisted task of the filter
      above [a0];
    - nothing is skipped: a persisted task of the filter above [a0] whose
      ID is not above that of a task handed out has been handed out too;
    - no gaps: every persisted task of the filter above [a0] and at or
      below the ack level has completed. *)
Definition consistent (a0 : Z) (F : coGset string) (sys : QueueSystem) : Prop :=
  ordered (persisted sys) ∧
  domainFilter (state (queue sys)) = F ∧
  a0 ≤ ackOf sys ∧
  (ackOf sys = a0 ∨ ackOf sys ≤ lastTaskID (persisted sys)) ∧
  (∀ id b, outstanding (queue sys) !! id = Some b →
     ∃ t, t ∈ tasks (persisted sys) ∧ taskID t = id ∧ domainID t ∈ F ∧ a0 < id) ∧
  (∀ t id' b,
     t ∈ tasks (persisted sys) → domainID t ∈ F → a0 < taskID t →
     outstanding (queue sys) !! id' = Some b → taskID t ≤ id' →
     is_Some (outstanding (queue sys) !! taskID t)) ∧
  (∀ t,
     t ∈ tasks (persisted sys) → domainID t ∈ F → a0 < taskID t →
     taskID t ≤ ackOf sys → completed sys (taskID t)).

(** A task of the scenarios of the testable properties: only the ID and
    the domain matter. *)
Definition sampleTask (id : Z) (domain : string) : Task :=
  {| category := CategoryTransfer; shardID := 7; domainID := domain;
     workflowID := "wf"; runID := "run"; taskID := id;
     visibilityTimestamp := 0; attempt := 0; payload := "" |}.

(** ** Splitting and merging *)

(** Modelled from the spec: a split isolates sets of domains from a queue,
    "each producing two or more queues with disjoint, filter-partitioned
    domain sets whose union equals the original filter"; the split
    algorithm is not in the source files.  [isolate] lists the domain sets
    to isolate, in order (the busiest domains, the domain of a stuck task,
    the selected domains, or random shares); each gets the part of the
    filter it covers that no earlier set took, and the rest stays. *)
Fixpoint splitFilter (F : coGset string) (isolate : list (coGset string))
  : list (coGset string) :=
  match isolate with
  | [] => [F]
  | D :: isolate => (F ∩ D) :: splitFilter (F ∖ D) isolate
  end.

(** Modelled from the spec: the queues a split produces; the split
    algorithm is not in the source files.  The text fixes their filters
    only; each starts from the levels of the queue that was split. *)
Definition split (q : ProcessingQueueState) (isolate : list (coGset string))
  : list ProcessingQueueState :=
  (λ F, {| ackLevel := ackLevel q; maxLevel := maxLevel q; domainFilter := F |})
    <$> splitFilter (domainFilter q) isolate.

(** Modelled from the spec: "queues may later be merged if their filters
    become trivially combinable and their ack levels coincide"; the merge
    is not in the source files.  Two finite/cofinite filters always
    combine (their union); the merged queue has observed what either
    has. *)
Definition merge (q1 q2 : ProcessingQueueState) : option ProcessingQueueState :=
  if bool_decide (ackLevel q1 = ackLevel q2) then
    Some {| ackLevel := ackLevel q1;
            maxLevel := Z.max (maxLevel q1) (maxLevel q2);
            domainFilter := domainFilter q1 ∪ domainFilter q2 |}
  else None.

(** Modelled from the spec: merging the queues of a list back into one,
    from the right; the merge is not in the source files. *)
Fixpoint mergeAll (qs : list ProcessingQueueState) : option ProcessingQueueState :=
  match qs with
  | [] => None
  | [q] => Some q
  | q :: qs => q' ← mergeAll qs; merge q q'
  end.

(** Modelled from the spec: the live queues of one shard, category and
    role, and what happens to them: a queue is split (its sub-queues take
    its place), two queues are merged (the merged queue takes the place of
    the first, the second goes), the ack level of a queue advances; the
    queue processor is not in the source files.  The queues are addressed
    by position. *)
Abbreviation Queues := (list ProcessingQueueState).

(** Modelled from the spec: the queues a processor starts from, one queue
    whose filter is the universal set; the queue processor is not in the
    source files. *)
Definition initialQueues (ack max : Z) : Queues :=
  [ {| ackLevel := ack; maxLevel := max; domainFilter := ⊤ |} ].

(** Modelled from the spec: what can happen to the live queues (split
    triggers, merge, ack-level advancement); the queue processor is not in
    the source files. *)
Inductive QueuesOp : Type :=
| OpSplit (i : nat) (isolate : list (coGset string))
| OpMerge (i j : nat)
| OpAdvance (i : nat) (level : Z).

(** Modelled from the spec: one change of the live queues.  A split
    replaces the queue by its sub-queues; a merge of two different queues
    with equal ack levels puts the merged queue in the place of the first
    and removes the second; an advance moves the ack level of one queue up.
    The queue processor is not in the source files. *)
Definition stepQueues (qs : Queues) (op : QueuesOp) : Queues :=
  match op with
  | OpSplit i isolate =>
      match qs !! i with
      | Some q => take i qs ++ split q isolate ++ drop (S i) qs
      | None => qs
      end
  | OpMerge i j =>
      match qs !! i, qs !! j with
      | Some q1, Some q2 =>
          if bool_decide (i = j) then qs
          else match merge q1 q2 with
               | Some q => delete j (<[i := q]> qs)
               | None => qs
               end
      | _, _ => qs
      end
  | OpAdvance i level =>
      match qs !! i with
      | Some q =>
          <[i := {| ackLevel := Z.max (ackLevel q) level;
                    maxLevel := maxLevel q;
                    domainFilter := domainFilter q |}]> qs
      | None => qs
      end
  end.

(** Modelled from the spec: the changes of the live queues over time, in
    order; the queue processor is not in the source files. *)
Definition runQueues (ops : list QueuesOp) (qs : Queues) : Queues :=
  foldl stepQueues qs ops.

(** The partition invariant of the data model: the filters are pairwise
    disjoint and their union is [whole]. *)
Definition pairwiseDisjoint (Fs : list (coGset string)) : Prop :=
  ∀ i j F G, i ≠ j → Fs !! i = Some F → Fs !! j = Some G → F ## G.

Definition partitions (Fs : list (coGset string)) (whole : coGset string) : Prop :=
  ⋃ Fs = whole ∧ pairwiseDisjoint Fs.

End queue.

Module scheduler.
Import engine.

(** Modelled from the spec: how an execution of a task ends, as the
    scheduler classifies it ("retryable execution error", "non-retryable
    error", and a panic, which "is caught, classified as an execution
    failure, and follows the retry path"); the scheduler is not in the
    source files. *)
Inductive ExecResult : Type :=
| ExecSuccess
| ExecRetryableError (reason : string)
| ExecNonRetryableError (reason : string)
| ExecPanic (reason : string).

(** Modelled from the spec: the retry configuration of the scheduler, the
    attempt ceiling and the "base delay" and cap of the exponential
    backoff; the scheduler is not in the source files. *)
Record RetryPolicy : Type := {
  maxAttempts : Z;
  baseDelay : Z;
  maxDelay : Z
}.

(** Modelled from the spec: the exponential part of the backoff, "base
    delay × 2^attempt"; the scheduler is not in the source files. *)
Definition exponentialDelay (p : RetryPolicy) (attempt : Z) : Z :=
  baseDelay p * 2 ^ attempt.

(** Modelled from the spec: the jitter of one retry; the scheduler is not
    in the source files.  [draw] is the random number drawn for the retry,
    any integer; the jitter made of it lies between zero and the
    exponential delay. *)
Definition jitter (p : RetryPolicy) (draw attempt : Z) : Z :=
  draw `mod` (exponentialDelay p attempt + 1).

(** Modelled from the spec: "exponential backoff (base delay × 2^attempt,
    capped, plus jitter)", the delay before the retry after [attempt]; the
    scheduler is not in the source files.  The sentence names the three
    ingredients and leaves open how much jitter there is and whether the
    cap comes before or after it.  The testable properties ask for delays
    that do not decrease from one retry to the next, which random jitter
    on top of the cap cannot give (two retries at the cap would differ by
    their jitter alone).  So the jitter is part of what is capped, and at
    most the exponential delay: the delay is the exponential delay plus
    the jitter, cut at the cap [maxDelay]. *)
Definition backoffDelay (p : RetryPolicy) (draw attempt : Z) : Z :=
  Z.min (exponentialDelay p attempt + jitter p draw attempt) (maxDelay p).

(** Modelled from the spec: what the scheduler does with an item between
    its submission and its completion callback; the scheduler is not in the
    source files. *)
Inductive SchedulerEvent : Type :=
| Executed (item : SchedulerItem)
| Resubmitted (item : SchedulerItem) (delay : Z)
| ReportedCompleted (item : SchedulerItem)
| ReportedFailed (item : SchedulerItem) (reason : string).

(** The task with another attempt count. *)
Definition withAttempt (n : Z) (t : Task) : Task :=
  {| category := category t; shardID := shardID t; domainID := domainID t;
     workflowID := workflowID t; runID := runID t; taskID := taskID t;
     visibilityTimestamp := visibilityTimestamp t;
     attempt := n; payload := payload t |}.

(** Modelled from the spec: "re-submitted with attempt+1"; the scheduler is
    not in the source files. *)
Definition nextAttempt (item : SchedulerItem) : SchedulerItem :=
  {| itemTask := withAttempt (attempt (itemTask item) + 1) (itemTask item);
     priority := priority item;
     orderingKey := orderingKey item |}.

(** Modelled from the spec: the retry rule of the TaskScheduler, "on a
    retryable execution error the item is re-submitted with attempt+1 and
    exponential backoff ...; on a non-retryable error or attempt ceiling
    exceeded, the item is reported failed to the caller"; the scheduler is
    not in the source files.  [exec] is the execution of a task, [draw]
    the random number drawn at each attempt.  The ceiling is exceeded when
    the next attempt count would be above [maxAttempts].  [fuel] bounds the
    number of executions. *)
Definition failed (p : RetryPolicy) (draw : Z → Z)
    (retry : SchedulerItem → option (list SchedulerEvent))
    (item : SchedulerItem) (reason : string) : option (list SchedulerEvent) :=
  if bool_decide (maxAttempts p < attempt (itemTask item) + 1) then
    Some [Executed item; ReportedFailed item reason]
  else
    let a := attempt (itemTask item) in
    rest ← retry (nextAttempt item);
    Some (Executed item :: Resubmitted (nextAttempt item) (backoffDelay p (draw a) a) :: rest).

(** Modelled from the spec: the scheduler executing an item until it
    completes or is reported failed: success is reported completed, a
    non-retryable error is reported failed, a retryable error or a panic
    takes the retry path of [failed]; the scheduler is not in the source
    files. *)
Fixpoint process (fuel : nat) (p : RetryPolicy) (exec : Task → ExecResult)
    (draw : Z → Z) (item : SchedulerItem) : option (list SchedulerEvent) :=
  match fuel with
  | O => None
  | S fuel =>
      match exec (itemTask item) with
      | ExecSuccess => Some [Executed item; ReportedCompleted item]
      | ExecNonRetryableError reason => Some [Executed item; ReportedFailed item reason]
      | ExecRetryableError reason =>
          failed p draw (process fuel p exec draw) item reason
      | ExecPanic reason =>
          failed p draw (process fuel p exec draw) item reason
      end
  end.

(** The retries among the events: the attempt number of each re-submitted
    item and the delay before it. *)
Definition retries (evs : list SchedulerEvent) : list (Z * Z) :=
  evs ≫= λ ev,
    match ev with
    | Resubmitted item delay => [(attempt (itemTask item), delay)]
    | _ => []
    end.

(** The failure reports among the events. *)
Definition failures (evs : list SchedulerEvent) : list (Task * string) :=
  evs ≫= λ ev,
    match ev with
    | ReportedFailed item reason => [(itemTask item, reason)]
    | _ => []
    end.

(** ** The dead-letter queue *)

(** Modelled from the spec: a DLQ entry, "a Task plus failureReason and
    firstFailedAt"; the DLQ manager is not in the source files. *)
Record DLQEntry : Type := {
  entryTask : Task;
  failureReason : string;
  firstFailedAt : Z
}.

(** Modelled from the spec: "Enqueue(task, reason)", the terminal failure
    path; the DLQ manager is not in the source files.  The queue is the
    list of entries in arrival order. *)
Definition Enqueue (t : Task) (reason : string) (now : Z) (dlq : list DLQEntry)
  : list DLQEntry :=
  dlq ++ [ {| entryTask := t; failureReason := reason; firstFailedAt := now |} ].

(** Modelled from the spec: Enqueue "must be effectively at-least-once
    (duplicate DLQ entries for the same task are acceptable ...)"; the
    queue processor is not in the source files.  The entry arrives once and
    [extra] more times. *)
Definition enqueueAtLeastOnce (extra : nat) (t : Task) (reason : string) (now : Z)
    (dlq : list DLQEntry) : list DLQEntry :=
  Nat.iter (S extra) (Enqueue t reason now) dlq.

(** Modelled from the spec: "the QueueProcessor routes it to the DLQ
    Manager": every failure the scheduler reports is enqueued; the queue
    processor is not in the source files. *)
Definition routeToDLQ (extra : nat) (now : Z) (evs : list SchedulerEvent)
    (dlq : list DLQEntry) : list DLQEntry :=
  foldl (λ d f, enqueueAtLeastOnce extra f.1 f.2 now d) dlq (failures evs).

(** Modelled from the spec: what names a task in the dead-letter queue; the
    DLQ manager is not in the source files.  A taskID is "monotonic per
    shard+category": it names a task within its shard and category.
    Within the entries of one category, the shard and the task ID name the
    task. *)
Definition taskKey (t : Task) : Z * Z := (shardID t, taskID t).

(** Two records are of the same task when category, shard and task ID
    agree (the attempt count of a task changes over its life). *)
Definition sameTask (t1 t2 : Task) : Prop :=
  category t1 = category t2 ∧ taskKey t1 = taskKey t2.

#[export] Instance sameTask_dec t1 t2 : Decision (sameTask t1 t2).
Proof. unfold sameTask. apply _. Defined.

(** Modelled from the spec: duplicates are "deduplicated on read by
    taskID"; the DLQ manager is not in the source files.  The entries are
    those of one category; the first entry of each task is kept, a task
    being named by its task ID within its shard. *)
Fixpoint dedupByTaskID (seen : gset (Z * Z)) (l : list DLQEntry) : list DLQEntry :=
  match l with
  | [] => []
  | e :: l =>
      if bool_decide (taskKey (entryTask e) ∈ seen) then dedupByTaskID seen l
      else e :: dedupByTaskID ({[taskKey (entryTask e)]} ∪ seen) l
  end.

(** Modelled from the spec: "Read(category, pageToken) -> []DLQEntry"; the
    DLQ manager is not in the source files.  The pages are taken together:
    the result is everything a reader gets by following the page tokens to
    the end. *)
Definition Read (c : Category) (dlq : list DLQEntry) : list DLQEntry :=
  dedupByTaskID ∅ (filter (λ e, category (entryTask e) = c) dlq).


(** An execution that always fails with a retryable error. *)
Definition alwaysRetryable (reason : string) : Task → ExecResult :=
  λ _, ExecRetryableError reason.

(** A policy, random draws and an item to run the scheduler on: three
    retries, base delay 10 capped at 20; the draws give a jitter of 3 at
    the first retry and of 4 at the others. *)
Definition samplePolicy : RetryPolicy :=
  {| maxAttempts := 3; baseDelay := 10; maxDelay := 20 |}.

Definition sampleDraws : Z → Z := λ a, if bool_decide (a = 0) then 3 else 25.

Definition sampleItem : SchedulerItem :=
  newSchedulerItem
    {| category := CategoryTransfer; shardID := 7; domainID := "domain-a";
       workflowID := "wf"; runID := "run"; taskID := 42;
       visibilityTimestamp := 0; attempt := 0; payload := "" |} 1.

(** An entry of another task with the same task ID: task 42 of shard 8. *)
Definition foreignEntry : DLQEntry :=
  {| entryTask :=
       {| category := CategoryTransfer; shardID := 8; domainID := "domain-b";
          workflowID := "wf"; runID := "run"; taskID := 42;
          visibilityTimestamp := 0; attempt := 5; payload := "" |};
     failureReason := "poison"; firstFailedAt := 900 |}.

End scheduler.

Module shard.

(** Modelled from the spec: ShardInfo of the data model, "shardID, owner
    (host identity), rangeID (fencing token, monotonically increasing on
    every acquire), per-category ackLevel/maxLevel"; the shard types are
    not in the source files. *)
Record ShardInfo : Type := {
  shardID : Z;
  owner : string;
  rangeID : Z;
  ackLevel : engine.Category → Z;
  maxLevel : engine.Category → Z
}.

(** Modelled from the spec: the outcome of the persistence collaborator's
    conditional write, which "fails on fencing mismatch"; the persistence
    layer is not in the source files. *)
Inductive WriteResult : Type :=
| Written
| RejectedStaleRangeID
| RejectedNoSuchShard.

(** Modelled from the spec: "GetShardInfo" of the persistence collaborator,
    over the stored shard records by shard ID; the persistence layer is not
    in the source files. *)
Definition GetShardInfo (sid : Z) (store : gmap Z ShardInfo) : option ShardInfo :=
  store !! sid.

(** Modelled from the spec: "UpdateShardInfo(shardInfo, expectedRangeID)
    (conditional write, fails on fencing mismatch)"; the persistence layer
    is not in the source files.  The operation is atomic ("linearizable per
    shard"). *)
Definition UpdateShardInfo (info : ShardInfo) (expectedRangeID : Z)
    (store : gmap Z ShardInfo) : gmap Z ShardInfo * WriteResult :=
  match store !! shardID info with
  | None => (store, RejectedNoSuchShard)
  | Some cur =>
      if bool_decide (rangeID cur = expectedRangeID)
      then (<[shardID info := info]> store, Written)
      else (store, RejectedStaleRangeID)
  end.

(** Modelled from the spec: the shard record an acquiring host writes back,
    "read current ShardInfo, increment rangeID"; the shard controller is
    not in the source files. *)
Definition claim (host : string) (info : ShardInfo) : ShardInfo :=
  {| shardID := shardID info; owner := host; rangeID := rangeID info + 1;
     ackLevel := ackLevel info; maxLevel := maxLevel info |}.

(** Modelled from the spec: the record an owner writes when it persists
    the levels of a category; the queue processor is not in the source
    files.  Owner and fencing token stay as they are. *)
Definition withLevels (c : engine.Category) (ack max : Z) (info : ShardInfo) : ShardInfo :=
  {| shardID := shardID info; owner := owner info; rangeID := rangeID info;
     ackLevel := λ c', if decide (c' = c) then ack else ackLevel info c';
     maxLevel := λ c', if decide (c' = c) then max else maxLevel info c' |}.

(** Modelled from the spec: the persistence store together with the shard
    controllers of all hosts; the shard controller is not in the source
    files.  [reads] holds, per host and shard, the ShardInfo a host has read
    for an acquisition it has not yet written back; [owned] holds the
    ShardInfo of each shard a host has acquired, whose rangeID is the
    fencing token the host puts on its writes. *)
Record System : Type := {
  store : gmap Z ShardInfo;
  reads : gmap (string * Z) ShardInfo;
  owned : gmap (string * Z) ShardInfo
}.

(** Modelled from the spec: the atomic steps hosts take, in any
    interleaving.  AcquireShard "performs: read current ShardInfo,
    increment rangeID, conditionally write it back": the read and the
    write-back are two steps, so that two hosts can read the same record.
    The shard controller is not in the source files. *)
Inductive Step : Type :=
| StepRead (host : string) (sid : Z)
| StepWriteBack (host : string) (sid : Z)
| StepPersistLevels (host : string) (sid : Z) (c : engine.Category) (ack max : Z)
| StepRelease (host : string) (sid : Z).

(** Modelled from the spec: what a step reports to the host that took it
    (an acquisition conflict is "expected and non-fatal"); the shard
    controller is not in the source files. *)
Inductive StepResult : Type :=
| Done                  (* the step took effect *)
| Conflict              (* the conditional write was rejected *)
| Skipped.              (* nothing to do: no such shard, nothing read, not an owner *)

(** Modelled from the spec: one atomic step.  A read copies the stored
    record to the host; a write-back claims the record read (owner, next
    rangeID) under the condition that the stored rangeID is still the one
    read, and on success the host holds the shard under the new rangeID; an
    owner persists levels under the condition that the stored rangeID is
    its own; a release drops the shard.  The shard controller and the
    persistence layer are not in the source files. *)
Definition stepSystem (sys : System) (st : Step) : System * StepResult :=
  match st with
  | StepRead host sid =>
      match GetShardInfo sid (store sys) with
      | Some info =>
          ({| store := store sys;
              reads := <[(host, sid) := info]> (reads sys);
              owned := owned sys |}, Done)
      | None => (sys, Skipped)
      end
  | StepWriteBack host sid =>
      match reads sys !! (host, sid) with
      | Some info =>
          match UpdateShardInfo (claim host info) (rangeID info) (store sys) with
          | (store', Written) =>
              ({| store := store';
                  reads := delete (host, sid) (reads sys);
                  owned := <[(host, sid) := claim host info]> (owned sys) |}, Done)
          | (_, _) =>
              ({| store := store sys;
                  reads := delete (host, sid) (reads sys);
                  owned := owned sys |}, Conflict)
          end
      | None => (sys, Skipped)
      end
  | StepPersistLevels host sid c ack max =>
      match owned sys !! (host, sid) with
      | Some info =>
          match UpdateShardInfo (withLevels c ack max info) (rangeID info) (store sys) with
          | (store', Written) =>
              ({| store := store';
                  reads := reads sys;
                  owned := <[(host, sid) := withLevels c ack max info]> (owned sys) |}, Done)
          | (_, _) => (sys, Conflict)
          end
      | None => (sys, Skipped)
      end
  | StepRelease host sid =>
      match owned sys !! (host, sid) with
      | Some _ =>
          ({| store := store sys; reads := reads sys;
              owned := delete (host, sid) (owned sys) |}, Done)
      | None => (sys, Skipped)
      end
  end.

(** Modelled from the spec: a sequence of steps of any hosts, with the
    result of each; the shard controller is not in the source files. *)
Fixpoint runSystem (sts : list Step) (sys : System) : System * list StepResult :=
  match sts with
  | [] => (sys, [])
  | st :: sts =>
      let '(sys', r) := stepSystem sys st in
      let '(sys'', rs) := runSystem sts sys' in
      (sys'', r :: rs)
  end.

(** Modelled from the spec: "AcquireShard(shardID)" of one host without
    interference, the read followed at once by the write-back; the shard
    controller is not in the source files. *)
Definition AcquireShard (host : string) (sid : Z) (sys : System) : System * StepResult :=
  match stepSystem sys (StepRead host sid) with
  | (sys', Done) => stepSystem sys' (StepWriteBack host sid)
  | (sys', r) => (sys', r)
  end.

(** Modelled from the spec: the start of the system, shards persisted and
    no host holding or acquiring any; the shard controller is not in the
    source files. *)
Definition initialSystem (st : gmap Z ShardInfo) : System :=
  {| store := st; reads := ∅; owned := ∅ |}.

(** Stored records sit under their own shard ID. *)
Definition storeKeyed (st : gmap Z ShardInfo) : Prop :=
  map_Forall (λ sid info, shardID info = sid) st.

(** A host is a live owner of a shard under a rangeID when its controller
    holds the shard with that fencing token. *)
Definition holds (sys : System) (host : string) (sid : Z) (r : Z) : Prop :=
  ∃ info, owned sys !! (host, sid) = Some info ∧ rangeID info = r.

(** No record that hosts keep (a read in flight, an acquired shard) is for
    another shard than the one it is kept under, or has a rangeID above the
    stored one. *)
Definition bounded (m : gmap (string * Z) ShardInfo) (st : gmap Z ShardInfo) : Prop :=
  ∀ host sid info, m !! (host, sid) = Some info →
    shardID info = sid ∧ ∃ cur, st !! sid = Some cur ∧ rangeID info ≤ rangeID cur.

(** No two hosts hold one shard under the same rangeID. *)
Definition uniqueTokens (m : gmap (string * Z) ShardInfo) : Prop :=
  ∀ h1 h2 sid i1 i2,
    m !! (h1, sid) = Some i1 → m !! (h2, sid) = Some i2 →
    rangeID i1 = rangeID i2 → h1 = h2.

Definition fenced (sys : System) : Prop :=
  storeKeyed (store sys) ∧ bounded (reads sys) (store sys) ∧
  bounded (owned sys) (store sys) ∧ uniqueTokens (owned sys).

(** A shard record with all levels at zero. *)
Definition sampleShard (sid : Z) (host : string) (r : Z) : ShardInfo :=
  {| shardID := sid; owner := host; rangeID := r;
     ackLevel := λ _, 0; maxLevel := λ _, 0 |}.

End shard.

(* ===================================================================== *)
(** * Properties of the scope and metric tables *)
(* ===================================================================== *)

Section MetricsFacts.
Import metrics.

(** The values [iota] gives to the sentinels, and a few lookups. *)
Example sentinel_values :
  NumCommonScopes = 289 ∧ NumAdminScopes = 317 ∧ NumFrontendScopes = 359 ∧
  NumHistoryScopes = 420 ∧ NumMatchingScopes = 300 ∧ NumWorkerScopes = 309 ∧
  NumCommonMetrics = 137 ∧ NumHistoryMetrics = 374 ∧
  NumMatchingMetrics = 167 ∧ NumWorkerMetrics = 216 ∧ NumServices = 5.
Proof. repeat split; reflexivity. Qed.

Example lookup_CreateShard :
  lookupScope Common PersistenceCreateShardScope
  = Some {| operation := "CreateShard"; tags := ∅ |}.
Proof. vm_compute. reflexivity. Qed.

Example lookup_HistoryClientStartWorkflowExecution :
  lookupScope Common HistoryClientStartWorkflowExecutionScope
  = Some {| operation := "HistoryClientStartWorkflowExecution";
            tags := {[ CadenceRoleTagName := HistoryClientRoleTagValue ]} |}.
Proof. vm_compute. reflexivity. Qed.

Example lookup_outside_service :
  lookupScope Worker HistoryRecordActivityTaskHeartbeatScope
  = Some {| operation := "DomainReplicationTask"; tags := ∅ |} ∧
  lookupScope Common NumCommonScopes = None ∧
  lookupScope NumServices PersistenceCreateShardScope = None.
Proof. repeat split; vm_compute; reflexivity. Qed.

Example lookup_PersistenceLatencyHistogram :
  lookupMetric Common PersistenceLatencyHistogram
  = Some {| metricType := Histogram; metricName := "persistence_latency_histogram";
            metricRollupName := ""; buckets := Some PersistenceLatencyBuckets |}.
Proof. vm_compute. reflexivity. Qed.

Example MetricName_methods :
  Empty "" = true ∧ Empty "restarts" = false ∧ String "restarts" = "restarts".
Proof. repeat split; reflexivity. Qed.

(** Go rejects a map literal that repeats a constant key; the key lists of
    the ten inner literals indeed repeat none, so reading a literal as
    [list_to_map] loses no entry. *)
Lemma ScopeDefs_literal_keys_NoDup :
  Forall (λ entries : list (Z * scopeDefinition), NoDup entries.*1)
    [ScopeDefs_Common; ScopeDefs_Frontend; ScopeDefs_History;
     ScopeDefs_Matching; ScopeDefs_Worker].
Proof. by_compute. Qed.

Lemma MetricDefs_literal_keys_NoDup :
  Forall (λ entries : list (Z * metricDefinition), NoDup entries.*1)
    [MetricDefs_Common; MetricDefs_History; MetricDefs_Matching; MetricDefs_Worker].
Proof. by_compute. Qed.

(** [iota] numbers the constants of a block consecutively, so the scopes
    of a service index are exactly the integers of its range. *)
Lemma serviceScopes_is_range :
  Forall (λ svc,
      serviceScopes svc =
      seqZ (serviceScopeRange svc).1
           ((serviceScopeRange svc).2 - (serviceScopeRange svc).1))
    services.
Proof. by_compute. Qed.

Lemma elem_of_serviceScopes svc scope :
  svc ∈ services →
  scope ∈ serviceScopes svc ↔
  (serviceScopeRange svc).1 ≤ scope < (serviceScopeRange svc).2.
Proof.
  intros Hsvc.
  pose proof serviceScopes_is_range as Hr.
  rewrite Forall_forall in Hr. rewrite (Hr svc Hsvc).
  rewrite elem_of_seqZ. lia.
Qed.

(** Every declared scope of every service index has an entry, and the
    entry names an operation. *)
Lemma ScopeDefs_covers_all :
  Forall (λ svc,
      Forall (λ scope,
          is_Some (lookupScope svc scope) ∧
          operation <$> lookupScope svc scope ≠ Some "")
        (serviceScopes svc))
    services.
Proof. by_compute. Qed.

(** Conversely the inner map of a service index holds nothing but the
    scopes of that index. *)
Lemma ScopeDefs_dom :
  Forall (λ svc,
      dom (default ∅ (ScopeDefs !! svc)) =@{gset Z} list_to_set (serviceScopes svc))
    services.
Proof. by_compute. Qed.

(** C7.  For every service index (Common, Frontend, History, Matching,
    Worker) and every scope constant declared in the enumeration of that
    index, [ScopeDefs] holds an inner map for the index and that map holds
    an entry for the scope, which gives its operation name (never the
    empty string) and its tags.  The table is a closed constant of the
    development: no function of the package takes or returns it, so
    nothing changes it. *)
Theorem ScopeDefs_has_every_declared_scope (svc : ServiceIdx) (scope : Z) :
  svc ∈ services →
  scope ∈ serviceScopes svc →
  ∃ (inner : gmap Z scopeDefinition) (def : scopeDefinition),
    ScopeDefs !! svc = Some inner ∧
    inner !! scope = Some def ∧
    lookupScope svc scope = Some def ∧
    operation def ≠ "".
Proof.
  intros Hsvc Hscope.
  pose proof ScopeDefs_covers_all as Hall.
  rewrite Forall_forall in Hall. specialize (Hall svc Hsvc).
  rewrite Forall_forall in Hall. destruct (Hall scope Hscope) as [[def Hdef] Hop].
  rewrite Hdef in Hop. unfold lookupScope in Hdef.
  destruct (ScopeDefs !! svc) as [inner|] eqn:Hinner; simpl in Hdef; [|done].
  exists inner, def. split; [done|]. split; [done|]. split.
  - unfold lookupScope. rewrite Hinner. done.
  - intros E. apply Hop. simpl. by rewrite E.
Qed.

Lemma ScopeDefs_has_every_declared_scope_witness :
  metrics.History ∈ services ∧
  HistoryRecordActivityTaskHeartbeatScope ∈ serviceScopes metrics.History ∧
  ∃ (inner : gmap Z scopeDefinition) (def : scopeDefinition),
    ScopeDefs !! metrics.History = Some inner ∧
    inner !! HistoryRecordActivityTaskHeartbeatScope = Some def ∧
    lookupScope metrics.History HistoryRecordActivityTaskHeartbeatScope = Some def ∧
    operation def ≠ "".
Proof.
  assert (H1 : metrics.History ∈ services)
    by (by_compute).
  assert (H2 : HistoryRecordActivityTaskHeartbeatScope ∈ serviceScopes metrics.History)
    by (by_compute).
  split; [exact H1|]. split; [exact H2|].
  exact (ScopeDefs_has_every_declared_scope _ _ H1 H2).
Defined.

(** C9.  The map from scope constant to operation name is not injective:
    the three distinct common scopes for fetching, completing and
    range-completing cross-cluster tasks all carry the operation name
    "GetCrossClusterTasks" (and no further tags), so their definitions are
    equal and metrics of the three cannot be told apart by the tag. *)
Theorem operation_name_not_injective :
  PersistenceGetCrossClusterTasksScope ≠ PersistenceCompleteCrossClusterTaskScope ∧
  PersistenceGetCrossClusterTasksScope ≠ PersistenceRangeCompleteCrossClusterTaskScope ∧
  PersistenceCompleteCrossClusterTaskScope ≠ PersistenceRangeCompleteCrossClusterTaskScope ∧
  operation <$> lookupScope Common PersistenceGetCrossClusterTasksScope
    = Some "GetCrossClusterTasks" ∧
  operation <$> lookupScope Common PersistenceCompleteCrossClusterTaskScope
    = Some "GetCrossClusterTasks" ∧
  operation <$> lookupScope Common PersistenceRangeCompleteCrossClusterTaskScope
    = Some "GetCrossClusterTasks" ∧
  lookupScope Common PersistenceCompleteCrossClusterTaskScope
    = lookupScope Common PersistenceGetCrossClusterTasksScope ∧
  lookupScope Common PersistenceRangeCompleteCrossClusterTaskScope
    = lookupScope Common PersistenceGetCrossClusterTasksScope ∧
  ¬ (∀ s1 s2 d1 d2,
       lookupScope Common s1 = Some d1 → lookupScope Common s2 = Some d2 →
       operation d1 = operation d2 → s1 = s2).
Proof.
  assert (Hne : PersistenceCompleteCrossClusterTaskScope
                ≠ PersistenceRangeCompleteCrossClusterTaskScope) by (by vm_compute).
  assert (Hc : lookupScope Common PersistenceCompleteCrossClusterTaskScope
               = Some {| operation := "GetCrossClusterTasks"; tags := ∅ |})
    by (vm_compute; reflexivity).
  assert (Hr : lookupScope Common PersistenceRangeCompleteCrossClusterTaskScope
               = Some {| operation := "GetCrossClusterTasks"; tags := ∅ |})
    by (vm_compute; reflexivity).
  assert (Hg : lookupScope Common PersistenceGetCrossClusterTasksScope
               = Some {| operation := "GetCrossClusterTasks"; tags := ∅ |})
    by (vm_compute; reflexivity).
  split; [by vm_compute|]. split; [by vm_compute|]. split; [exact Hne|].
  rewrite Hc, Hr, Hg. repeat (split; [reflexivity|]).
  intros Hinj. apply Hne. by eapply Hinj.
Qed.

(** C10.  Scope values are unique within a service index and not across
    them.  The Admin block starts at [NumCommonScopes] and the Frontend
    block continues from [NumAdminScopes]; the History, Matching and Worker
    blocks each start again at [NumCommonScopes].  Within one service index
    no value repeats; the value [NumCommonScopes] stands for a different
    scope under each of Frontend, History, Matching and Worker, and an
    index that History defines is undefined under Matching.  The metric
    blocks restart at [NumCommonMetrics] in the same way.  Hence no lookup
    by the index alone agrees with the tables: the key is the pair of
    service index and index. *)
Theorem scope_values_unique_per_service_only :
  (AdminDescribeHistoryHostScope = NumCommonScopes ∧
   FrontendRestartWorkflowExecutionScope = NumAdminScopes ∧
   HistoryStartWorkflowExecutionScope = NumCommonScopes ∧
   MatchingPollForDecisionTaskScope = NumCommonScopes ∧
   ReplicatorScope = NumCommonScopes) ∧
  Forall (λ svc, NoDup (serviceScopes svc)) services ∧
  (operation <$> lookupScope Frontend NumCommonScopes = Some "DescribeHistoryHost" ∧
   operation <$> lookupScope metrics.History NumCommonScopes = Some "StartWorkflowExecution" ∧
   operation <$> lookupScope Matching NumCommonScopes = Some "PollForDecisionTask" ∧
   operation <$> lookupScope Worker NumCommonScopes = Some "Replicator") ∧
  (is_Some (lookupScope metrics.History NumMatchingScopes) ∧
   lookupScope Matching NumMatchingScopes = None) ∧
  (TaskRequests = NumCommonMetrics ∧
   PollSuccessPerTaskListCounter = NumCommonMetrics ∧
   ReplicatorMessages = NumCommonMetrics ∧
   metricName <$> lookupMetric metrics.History NumCommonMetrics = Some "task_requests" ∧
   metricName <$> lookupMetric Matching NumCommonMetrics = Some "poll_success_per_tl" ∧
   metricName <$> lookupMetric Worker NumCommonMetrics = Some "replicator_messages") ∧
  ¬ (∃ byIndex : Z → option scopeDefinition,
       ∀ svc scope, svc ∈ services → scope ∈ serviceScopes svc →
         lookupScope svc scope = byIndex scope) ∧
  ¬ (∃ byIndex : Z → option metricDefinition,
       ∀ svc, svc ∈ [metrics.History; Matching; Worker] →
         lookupMetric svc NumCommonMetrics = byIndex NumCommonMetrics).
Proof.
  assert (Hh : lookupScope metrics.History NumCommonScopes
               = Some {| operation := "StartWorkflowExecution"; tags := ∅ |})
    by (vm_compute; reflexivity).
  assert (Hm : lookupScope Matching NumCommonScopes
               = Some {| operation := "PollForDecisionTask"; tags := ∅ |})
    by (vm_compute; reflexivity).
  assert (Hmh : metricName <$> lookupMetric metrics.History NumCommonMetrics
                = Some "task_requests") by (vm_compute; reflexivity).
  assert (Hmm : metricName <$> lookupMetric Matching NumCommonMetrics
                = Some "poll_success_per_tl") by (vm_compute; reflexivity).
  split; [repeat split; vm_compute; reflexivity|].
  split; [by_compute|].
  split; [repeat split; try (vm_compute; reflexivity); by rewrite ?Hh, ?Hm|].
  split; [split; [by_compute | vm_compute; reflexivity]|].
  split; [repeat split; try (vm_compute; reflexivity); done|].
  split.
  - intros [byIndex Hby].
    assert (Hs1 : metrics.History ∈ services)
      by (by_compute).
    assert (Hs2 : Matching ∈ services)
      by (by_compute).
    assert (Hi1 : NumCommonScopes ∈ serviceScopes metrics.History)
      by (by_compute).
    assert (Hi2 : NumCommonScopes ∈ serviceScopes Matching)
      by (by_compute).
    pose proof (Hby _ _ Hs1 Hi1) as E1. pose proof (Hby _ _ Hs2 Hi2) as E2.
    rewrite Hh in E1. rewrite Hm in E2. rewrite <- E1 in E2. discriminate E2.
  - intros [byIndex Hby].
    assert (E1 := Hby metrics.History ltac:(by_compute)).
    assert (E2 := Hby Matching ltac:(by_compute)).
    rewrite E1 in Hmh. rewrite E2 in Hmm. rewrite Hmh in Hmm. discriminate Hmm.
Qed.

End MetricsFacts.

(* ===================================================================== *)
(** * Further properties of the scope and metric tables *)
(* ===================================================================== *)

Section MetricsTableFacts.
Import metrics.

(** ** From a lookup to an entry of the literal *)

Lemma lookupMetric_entries svc metric def :
  lookupMetric svc metric = Some def → (svc, (metric, def)) ∈ metricEntries.
Proof.
  unfold lookupMetric, MetricDefs. intros Hl.
  destruct (_ !! svc) as [inner|] eqn:E; [|discriminate Hl].
  cbn in Hl. apply elem_of_list_to_map_2 in E.
  unfold metricEntries. rewrite !elem_of_app, !list_elem_of_fmap.
  rewrite !elem_of_cons, elem_of_nil in E.
  destruct E as [E|[E|[E|[E|[]]]]]; apply pair_equal_spec in E as [-> ->];
    apply elem_of_list_to_map_2 in Hl.
  - left. by exists (metric, def).
  - right; left. by exists (metric, def).
  - right; right; left. by exists (metric, def).
  - right; right; right. by exists (metric, def).
Qed.

Lemma lookupScope_entries svc scope def :
  lookupScope svc scope = Some def → (svc, (scope, def)) ∈ scopeEntries.
Proof.
  unfold lookupScope, ScopeDefs. intros Hl.
  destruct (_ !! svc) as [inner|] eqn:E; [|discriminate Hl].
  cbn in Hl. apply elem_of_list_to_map_2 in E.
  unfold scopeEntries. rewrite !elem_of_app, !list_elem_of_fmap.
  rewrite !elem_of_cons, elem_of_nil in E.
  destruct E as [E|[E|[E|[E|[E|[]]]]]]; apply pair_equal_spec in E as [-> ->];
    apply elem_of_list_to_map_2 in Hl.
  - left. by exists (scope, def).
  - right; left. by exists (scope, def).
  - right; right; left. by exists (scope, def).
  - right; right; right; left. by exists (scope, def).
  - right; right; right; right. by exists (scope, def).
Qed.

(** A decidable property of the entries of a table is checked entry by
    entry and then holds of every successful lookup. *)
Lemma metricEntries_forall (P : ServiceIdx → Z → metricDefinition → Prop)
    `{!∀ svc metric def, Decision (P svc metric def)} :
  forallb (λ e, bool_decide (P e.1 e.2.1 e.2.2)) metricEntries = true →
  ∀ svc metric def, lookupMetric svc metric = Some def → P svc metric def.
Proof.
  intros Hall svc metric def Hl. apply lookupMetric_entries in Hl.
  rewrite forallb_forall in Hall.
  apply list_elem_of_In, Hall in Hl. by apply bool_decide_eq_true_1 in Hl.
Qed.

Lemma scopeEntries_forall (P : ServiceIdx → Z → scopeDefinition → Prop)
    `{!∀ svc scope def, Decision (P svc scope def)} :
  forallb (λ e, bool_decide (P e.1 e.2.1 e.2.2)) scopeEntries = true →
  ∀ svc scope def, lookupScope svc scope = Some def → P svc scope def.
Proof.
  intros Hall svc scope def Hl. apply lookupScope_entries in Hl.
  rewrite forallb_forall in Hall.
  apply list_elem_of_In, Hall in Hl. by apply bool_decide_eq_true_1 in Hl.
Qed.

(** ** The keys of the tables *)

Lemma ScopeDefs_services_dom : dom ScopeDefs =@{gset ServiceIdx} list_to_set services.
Proof. by_compute. Qed.

Lemma MetricDefs_services_dom :
  dom MetricDefs =@{gset ServiceIdx} list_to_set metricServices.
Proof. by_compute. Qed.

Lemma MetricDefs_dom :
  Forall (λ svc,
      dom (default ∅ (MetricDefs !! svc)) =@{gset Z} list_to_set (serviceMetrics svc))
    metricServices.
Proof. by_compute. Qed.

Lemma serviceMetrics_is_range :
  Forall (λ svc,
      serviceMetrics svc =
      seqZ (serviceMetricRange svc).1
           ((serviceMetricRange svc).2 - (serviceMetricRange svc).1))
    metricServices.
Proof. by_compute. Qed.

Lemma elem_of_serviceMetrics svc metric :
  svc ∈ metricServices →
  metric ∈ serviceMetrics svc ↔
  (serviceMetricRange svc).1 ≤ metric < (serviceMetricRange svc).2.
Proof.
  intros Hsvc.
  pose proof serviceMetrics_is_range as Hr.
  rewrite Forall_forall in Hr. rewrite (Hr svc Hsvc).
  rewrite elem_of_seqZ. lia.
Qed.

Lemma MetricDefs_covers_all :
  Forall (λ svc,
      Forall (λ metric,
          is_Some (lookupMetric svc metric) ∧
          Empty <$> (metricName <$> lookupMetric svc metric) = Some false ∧
          from_option (λ def, bool_decide (metricType def ∈ metricTypes)) false
            (lookupMetric svc metric) = true)
        (serviceMetrics svc))
    metricServices.
Proof. by_compute. Qed.

Lemma lookupScope_Some_inv svc scope def :
  lookupScope svc scope = Some def → svc ∈ services ∧ scope ∈ serviceScopes svc.
Proof.
  unfold lookupScope. intros Hl.
  destruct (ScopeDefs !! svc) as [inner|] eqn:E; [|discriminate Hl]. cbn in Hl.
  assert (Hsvc : svc ∈ services).
  { apply (elem_of_dom_2 (D := gset ServiceIdx)) in E.
    rewrite ScopeDefs_services_dom in E. by apply elem_of_list_to_set in E. }
  split; [done|].
  pose proof ScopeDefs_dom as Hd. rewrite Forall_forall in Hd.
  specialize (Hd svc Hsvc). rewrite E in Hd. cbn in Hd.
  apply (elem_of_dom_2 (D := gset Z)) in Hl. rewrite Hd in Hl.
  by apply elem_of_list_to_set in Hl.
Qed.

Lemma lookupMetric_Some_inv svc metric def :
  lookupMetric svc metric = Some def →
  svc ∈ metricServices ∧ metric ∈ serviceMetrics svc.
Proof.
  unfold lookupMetric. intros Hl.
  destruct (MetricDefs !! svc) as [inner|] eqn:E; [|discriminate Hl]. cbn in Hl.
  assert (Hsvc : svc ∈ metricServices).
  { apply (elem_of_dom_2 (D := gset ServiceIdx)) in E.
    rewrite MetricDefs_services_dom in E. by apply elem_of_list_to_set in E. }
  split; [done|].
  pose proof MetricDefs_dom as Hd. rewrite Forall_forall in Hd.
  specialize (Hd svc Hsvc). rewrite E in Hd. cbn in Hd.
  apply (elem_of_dom_2 (D := gset Z)) in Hl. rewrite Hd in Hl.
  by apply elem_of_list_to_set in Hl.
Qed.

Lemma lookupScope_is_Some svc scope :
  is_Some (lookupScope svc scope) ↔
  svc ∈ services ∧
  (serviceScopeRange svc).1 ≤ scope < (serviceScopeRange svc).2.
Proof.
  split.
  - intros [def Hl]. apply lookupScope_Some_inv in Hl as [Hsvc Hin].
    split; [done|]. by apply elem_of_serviceScopes.
  - intros [Hsvc Hin]. apply elem_of_serviceScopes in Hin; [|done].
    pose proof ScopeDefs_covers_all as Hall. rewrite Forall_forall in Hall.
    specialize (Hall svc Hsvc). rewrite Forall_forall in Hall.
    by destruct (Hall scope Hin).
Qed.

Lemma lookupMetric_is_Some svc metric :
  is_Some (lookupMetric svc metric) ↔
  svc ∈ metricServices ∧
  (serviceMetricRange svc).1 ≤ metric < (serviceMetricRange svc).2.
Proof.
  split.
  - intros [def Hl]. apply lookupMetric_Some_inv in Hl as [Hsvc Hin].
    split; [done|]. by apply elem_of_serviceMetrics.
  - intros [Hsvc Hin]. apply elem_of_serviceMetrics in Hin; [|done].
    pose proof MetricDefs_covers_all as Hall. rewrite Forall_forall in Hall.
    specialize (Hall svc Hsvc). rewrite Forall_forall in Hall.
    by destruct (Hall metric Hin).
Qed.

Lemma metricEntries_forall2
    (P : ServiceIdx → Z → metricDefinition → ServiceIdx → Z → metricDefinition → Prop)
    `{!∀ s1 m1 d1 s2 m2 d2, Decision (P s1 m1 d1 s2 m2 d2)} :
  forallb (λ e1, forallb (λ e2,
      bool_decide (P e1.1 e1.2.1 e1.2.2 e2.1 e2.2.1 e2.2.2)) metricEntries)
    metricEntries = true →
  ∀ s1 m1 d1 s2 m2 d2,
    lookupMetric s1 m1 = Some d1 → lookupMetric s2 m2 = Some d2 →
    P s1 m1 d1 s2 m2 d2.
Proof.
  intros Hall s1 m1 d1 s2 m2 d2 H1 H2.
  apply lookupMetric_entries in H1, H2.
  rewrite forallb_forall in Hall.
  apply list_elem_of_In, Hall in H1. rewrite forallb_forall in H1.
  apply list_elem_of_In, H1 in H2. by apply bool_decide_eq_true_1 in H2.
Qed.

(** ** Coverage of the metric table *)

(** X1.  For each of Common, History, Matching and Worker and every metric
    constant declared in the enumeration of that index, [MetricDefs] holds
    an inner map for the index and that map holds an entry for the metric;
    the entry has a name that is not [Empty] and one of the four supported
    metric types (an entry that leaves [metricType] out is a [Counter]). *)
Theorem MetricDefs_has_every_declared_metric (svc : ServiceIdx) (metric : Z) :
  svc ∈ metricServices →
  metric ∈ serviceMetrics svc →
  ∃ (inner : gmap Z metricDefinition) (def : metricDefinition),
    MetricDefs !! svc = Some inner ∧
    inner !! metric = Some def ∧
    lookupMetric svc metric = Some def ∧
    Empty (metricName def) = false ∧
    metricType def ∈ metricTypes.
Proof.
  intros Hsvc Hmetric.
  pose proof MetricDefs_covers_all as Hall.
  rewrite Forall_forall in Hall. specialize (Hall svc Hsvc).
  rewrite Forall_forall in Hall.
  destruct (Hall metric Hmetric) as ([def Hdef] & Hname & Hty).
  rewrite Hdef in Hname, Hty. cbn in Hname, Hty.
  unfold lookupMetric in Hdef.
  destruct (MetricDefs !! svc) as [inner|] eqn:Hinner; [|discriminate Hdef].
  cbn in Hdef. exists inner, def.
  split; [done|]. split; [done|]. split.
  - unfold lookupMetric. rewrite Hinner. done.
  - split; [congruence|]. by apply bool_decide_eq_true_1 in Hty.
Qed.

Lemma MetricDefs_has_every_declared_metric_witness :
  Worker ∈ metricServices ∧
  ESProcessorProcessMsgLatency ∈ serviceMetrics Worker ∧
  ∃ (inner : gmap Z metricDefinition) (def : metricDefinition),
    MetricDefs !! Worker = Some inner ∧
    inner !! ESProcessorProcessMsgLatency = Some def ∧
    lookupMetric Worker ESProcessorProcessMsgLatency = Some def ∧
    Empty (metricName def) = false ∧
    metricType def ∈ metricTypes.
Proof.
  assert (H1 : Worker ∈ metricServices) by (by_compute).
  assert (H2 : ESProcessorProcessMsgLatency ∈ serviceMetrics Worker) by (by_compute).
  split; [exact H1|]. split; [exact H2|].
  exact (MetricDefs_has_every_declared_metric _ _ H1 H2).
Defined.

(** ** The tables define nothing else *)

(** X2.  [ScopeDefs[svc][scope]] is defined exactly when [svc] is one of
    the five service indices and [scope] lies in the index range of that
    service, from the first constant of its block to (not including) its
    [Num...Scopes] sentinel.  So no sentinel is a scope, no index below
    zero is one, and the index [NumServices] has no scopes. *)
Theorem ScopeDefs_defines_nothing_else :
  (∀ svc scope,
     is_Some (lookupScope svc scope) ↔
     svc ∈ services ∧
     (serviceScopeRange svc).1 ≤ scope < (serviceScopeRange svc).2) ∧
  (∀ svc, lookupScope svc (serviceScopeRange svc).2 = None) ∧
  (∀ svc scope, scope < 0 → lookupScope svc scope = None) ∧
  (∀ scope, lookupScope NumServices scope = None).
Proof.
  split; [apply lookupScope_is_Some|]. split; [|split].
  - intros svc. apply eq_None_not_Some. intros Hs.
    apply lookupScope_is_Some in Hs as [_ Hs]. lia.
  - intros svc scope Hneg. apply eq_None_not_Some. intros Hs.
    apply lookupScope_is_Some in Hs as [Hin Hs].
    unfold services in Hin. rewrite !elem_of_cons, elem_of_nil in Hin.
    destruct Hin as [->|[->|[->|[->|[->|[]]]]]]; eval_ranges; lia.
  - intros scope. apply eq_None_not_Some. intros Hs.
    apply lookupScope_is_Some in Hs as [Hin _].
    assert (Hn : NumServices ∉ services) by (by_compute). done.
Qed.

(** X3.  [MetricDefs[svc][metric]] is defined exactly when [svc] is
    Common, History, Matching or Worker and [metric] lies in the index
    range of that service.  The literal has no Frontend key: every lookup
    under Frontend finds nothing, also at the indices of the common
    metrics. *)
Theorem MetricDefs_defines_nothing_else :
  (∀ svc metric,
     is_Some (lookupMetric svc metric) ↔
     svc ∈ metricServices ∧
     (serviceMetricRange svc).1 ≤ metric < (serviceMetricRange svc).2) ∧
  (∀ metric, lookupMetric Frontend metric = None) ∧
  MetricDefs !! Frontend = None ∧
  is_Some (ScopeDefs !! Frontend).
Proof.
  split; [apply lookupMetric_is_Some|]. split; [|split].
  - intros metric. apply eq_None_not_Some. intros Hs.
    apply lookupMetric_is_Some in Hs as [Hsvc _].
    assert (Hn : Frontend ∉ metricServices) by (by_compute). done.
  - apply (not_elem_of_dom (D := gset ServiceIdx)).
    rewrite MetricDefs_services_dom. by_compute.
  - apply (elem_of_dom (D := gset ServiceIdx)).
    rewrite ScopeDefs_services_dom. by_compute.
Qed.

(** X4.  The service blocks are numbered from the end of the common
    block, so an index that the Common inner map defines is defined by the
    inner map of no other service: a service may use one index space for
    the common scopes (metrics) and its own. *)
Theorem common_indices_not_reused (svc : ServiceIdx) (i : Z) :
  svc ≠ Common →
  (is_Some (lookupScope Common i) → lookupScope svc i = None) ∧
  (is_Some (lookupMetric Common i) → lookupMetric svc i = None).
Proof.
  intros Hsvc. split.
  - intros Hc. apply eq_None_not_Some. intros Hs.
    apply lookupScope_is_Some in Hc as [_ Hc].
    apply lookupScope_is_Some in Hs as [Hin Hs].
    unfold services in Hin. rewrite !elem_of_cons, elem_of_nil in Hin.
    destruct Hin as [->|[->|[->|[->|[->|[]]]]]]; [done|..];
      eval_ranges; lia.
  - intros Hc. apply eq_None_not_Some. intros Hs.
    apply lookupMetric_is_Some in Hc as [_ Hc].
    apply lookupMetric_is_Some in Hs as [Hin Hs].
    unfold metricServices in Hin. rewrite !elem_of_cons, elem_of_nil in Hin.
    destruct Hin as [->|[->|[->|[->|[]]]]]; [done|..];
      eval_ranges; lia.
Qed.

Lemma common_indices_not_reused_witness :
  metrics.History ≠ Common ∧
  is_Some (lookupScope Common PersistenceGetShardScope) ∧
  lookupScope metrics.History PersistenceGetShardScope = None ∧
  is_Some (lookupMetric Common CadenceFailures) ∧
  lookupMetric metrics.History CadenceFailures = None.
Proof.
  assert (Hne : metrics.History ≠ Common) by (by vm_compute).
  assert (Hs : is_Some (lookupScope Common PersistenceGetShardScope)) by (by_compute).
  assert (Hm : is_Some (lookupMetric Common CadenceFailures)) by (by_compute).
  destruct (common_indices_not_reused metrics.History 1 Hne) as [Hscope Hmetric].
  split; [exact Hne|]. split; [exact Hs|]. split; [exact (Hscope Hs)|].
  split; [exact Hm|]. exact (Hmetric Hm).
Defined.

(** ** Names *)

(** X5.  The package's naming rule holds of the tables: every metric name
    of [MetricDefs], every roll-up name that is given, every tag name used
    by a scope of [ScopeDefs], the five tag name constants and the names of
    the service base metrics all match [[a-zA-Z_][a-zA-Z0-9_]*]. *)
Theorem names_match_the_naming_rule :
  (∀ svc metric def,
     lookupMetric svc metric = Some def →
     matchesNameRegex (metricName def) = true ∧
     (metricRollupName def = "" ∨ matchesNameRegex (metricRollupName def) = true)) ∧
  (∀ svc scope def name value,
     lookupScope svc scope = Some def →
     tags def !! name = Some value →
     matchesNameRegex name = true) ∧
  Forall (λ name, matchesNameRegex name = true) tagNames ∧
  (∀ name, is_Some (ServiceMetrics !! name) ∨ is_Some (GoRuntimeMetrics !! name) →
     matchesNameRegex name = true).
Proof.
  split; [|split; [|split]].
  - apply (metricEntries_forall (λ _ _ def,
      matchesNameRegex (metricName def) = true ∧
      (metricRollupName def = "" ∨ matchesNameRegex (metricRollupName def) = true))).
    vm_compute. reflexivity.
  - intros svc scope def name value Hl Ht.
    pose proof (scopeEntries_forall (λ _ _ def,
      map_Forall (λ name _, matchesNameRegex name = true) (tags def))) as Hall.
    refine (map_Forall_lookup_1 _ _ _ _ (Hall _ _ _ _ Hl) Ht).
    vm_compute. reflexivity.
  - by_compute.
  - assert (Hs : map_Forall (λ name _, matchesNameRegex name = true) ServiceMetrics)
      by (by_compute).
    assert (Hg : map_Forall (λ name _, matchesNameRegex name = true) GoRuntimeMetrics)
      by (by_compute).
    intros name [[t Ht]|[t Ht]].
    + exact (map_Forall_lookup_1 _ _ _ _ Hs Ht).
    + exact (map_Forall_lookup_1 _ _ _ _ Hg Ht).
Qed.

(** X6.  A metric name tells the metric, with one exception.  Two
    entries of [MetricDefs] with the same name are under the same service
    index, and are the same entry unless they are the two History metrics
    [CrossClusterFetchFailures] and [CrossClusterTaskRespondFailures],
    which are distinct constants both named "cross_cluster_fetch_errors". *)
Theorem metric_name_identifies_metric :
  (∀ svc1 metric1 def1 svc2 metric2 def2,
     lookupMetric svc1 metric1 = Some def1 →
     lookupMetric svc2 metric2 = Some def2 →
     metricName def1 = metricName def2 →
     svc1 = svc2 ∧
     (metric1 = metric2 ∨
      svc1 = metrics.History ∧
      metric1 ∈ [CrossClusterFetchFailures; CrossClusterTaskRespondFailures] ∧
      metric2 ∈ [CrossClusterFetchFailures; CrossClusterTaskRespondFailures])) ∧
  CrossClusterFetchFailures ≠ CrossClusterTaskRespondFailures ∧
  metricName <$> lookupMetric metrics.History CrossClusterFetchFailures
    = Some "cross_cluster_fetch_errors" ∧
  metricName <$> lookupMetric metrics.History CrossClusterTaskRespondFailures
    = Some "cross_cluster_fetch_errors".
Proof.
  split; [|split; [by vm_compute|split; vm_compute; reflexivity]].
  apply (metricEntries_forall2 (λ svc1 metric1 def1 svc2 metric2 def2,
     metricName def1 = metricName def2 →
     svc1 = svc2 ∧
     (metric1 = metric2 ∨
      svc1 = metrics.History ∧
      metric1 ∈ [CrossClusterFetchFailures; CrossClusterTaskRespondFailures] ∧
      metric2 ∈ [CrossClusterFetchFailures; CrossClusterTaskRespondFailures]))).
  vm_compute. reflexivity.
Qed.

(** X7.  Buckets go with histograms and with nothing else: an entry of
    [MetricDefs] has buckets exactly when its type is [Histogram], and the
    only such entry is the common [PersistenceLatencyHistogram], whose
    buckets are [PersistenceLatencyBuckets]. *)
Theorem buckets_only_on_the_histogram (svc : ServiceIdx) (metric : Z)
    (def : metricDefinition) :
  lookupMetric svc metric = Some def →
  (is_Some (buckets def) ↔ metricType def = Histogram) ∧
  (metricType def = Histogram →
   svc = Common ∧ metric = PersistenceLatencyHistogram ∧
   buckets def = Some PersistenceLatencyBuckets).
Proof.
  revert svc metric def.
  apply (metricEntries_forall (λ svc metric def,
    (is_Some (buckets def) ↔ metricType def = Histogram) ∧
    (metricType def = Histogram →
     svc = Common ∧ metric = PersistenceLatencyHistogram ∧
     buckets def = Some PersistenceLatencyBuckets))).
  vm_compute. reflexivity.
Qed.

Lemma buckets_only_on_the_histogram_witness :
  let def := {| metricType := Timer; metricName := "persistence_latency";
                metricRollupName := ""; buckets := None |} in
  lookupMetric Common PersistenceLatency = Some def ∧
  (is_Some (buckets def) ↔ metricType def = Histogram) ∧
  (metricType def = Histogram →
   Common = Common ∧ PersistenceLatency = PersistenceLatencyHistogram ∧
   buckets def = Some PersistenceLatencyBuckets).
Proof.
  intros def.
  assert (Hl : lookupMetric Common PersistenceLatency = Some def)
    by (vm_compute; reflexivity).
  split; [exact Hl|].
  exact (buckets_only_on_the_histogram _ _ _ Hl).
Defined.

(** X8.  [PersistenceLatencyBuckets] is a strictly increasing sequence
    of 55 durations from one millisecond to one minute. *)
Theorem PersistenceLatencyBuckets_increasing :
  StronglySorted Z.lt PersistenceLatencyBuckets ∧
  Forall (λ d, Millisecond ≤ d ≤ 60 * Second) PersistenceLatencyBuckets ∧
  head PersistenceLatencyBuckets = Some Millisecond ∧
  last PersistenceLatencyBuckets = Some (60 * Second) ∧
  length PersistenceLatencyBuckets = 55%nat.
Proof.
  split; [|split; [|split; [|split]]]; try reflexivity.
  - by_compute.
  - by_compute.
Qed.

(** X9.  A roll-up name is the metric name without its "_per_tl" or
    "_per_domain" suffix, in every entry of [MetricDefs] that gives one but
    two: the common [CadenceErrStickyWorkerUnavailablePerTaskListCounter]
    rolls up to its own name, and the History [TaskUnsupportedPerDomain]
    rolls up to "task_errors_discarded", the roll-up name of
    [TaskDiscardedPerDomain]. *)
Theorem rollup_name_drops_the_suffix :
  (∀ svc metric def,
     lookupMetric svc metric = Some def →
     metricRollupName def ≠ "" →
     metricName def = metricRollupName def +:+ "_per_tl" ∨
     metricName def = metricRollupName def +:+ "_per_domain" ∨
     (svc = Common ∧ metric = CadenceErrStickyWorkerUnavailablePerTaskListCounter) ∨
     (svc = metrics.History ∧ metric = TaskUnsupportedPerDomain)) ∧
  lookupMetric Common CadenceErrStickyWorkerUnavailablePerTaskListCounter
    = Some {| metricType := Counter;
              metricName := "cadence_errors_sticky_worker_unavailable_per_tl";
              metricRollupName := "cadence_errors_sticky_worker_unavailable_per_tl";
              buckets := None |} ∧
  lookupMetric metrics.History TaskUnsupportedPerDomain
    = Some {| metricType := Counter;
              metricName := "task_errors_unsupported_per_domain";
              metricRollupName := "task_errors_discarded";
              buckets := None |} ∧
  metricRollupName <$> lookupMetric metrics.History TaskDiscardedPerDomain
    = Some "task_errors_discarded".
Proof.
  split; [|split; [|split]]; try (vm_compute; reflexivity).
  apply (metricEntries_forall (λ svc metric def,
     metricRollupName def ≠ "" →
     metricName def = metricRollupName def +:+ "_per_tl" ∨
     metricName def = metricRollupName def +:+ "_per_domain" ∨
     (svc = Common ∧ metric = CadenceErrStickyWorkerUnavailablePerTaskListCounter) ∨
     (svc = metrics.History ∧ metric = TaskUnsupportedPerDomain))).
  vm_compute. reflexivity.
Qed.

(** ** Tags *)

(** X10.  A scope of [ScopeDefs] has no tag or exactly one: a common
    scope may carry the [cadence_role] tag with one of the six role values,
    a History scope the [cache_type] or the [stats_type] tag with one of
    their two values each; the scopes of Frontend, Matching and Worker
    carry none.  No scope sets the [operation] or the [cadence_service]
    tag itself. *)
Theorem scope_tags_wellformed (svc : ServiceIdx) (scope : Z) (def : scopeDefinition) :
  lookupScope svc scope = Some def →
  (tags def = ∅ ∨
   (svc = Common ∧
    ∃ role, role ∈ [HistoryClientRoleTagValue; MatchingClientRoleTagValue;
                    FrontendClientRoleTagValue; AdminClientRoleTagValue;
                    DCRedirectionRoleTagValue; BlobstoreRoleTagValue] ∧
            tags def = {[ CadenceRoleTagName := role ]}) ∨
   (svc = metrics.History ∧
    (tags def = {[ CacheTypeTagName := MutableStateCacheTypeTagValue ]} ∨
     tags def = {[ CacheTypeTagName := EventsCacheTypeTagValue ]} ∨
     tags def = {[ StatsTypeTagName := SizeStatsTypeTagValue ]} ∨
     tags def = {[ StatsTypeTagName := CountStatsTypeTagValue ]}))) ∧
  tags def !! OperationTagName = None ∧
  tags def !! CadenceServiceTagName = None.
Proof.
  intros Hl.
  pose proof (scopeEntries_forall (λ svc _ def,
    (tags def = ∅ ∨
     (svc = Common ∧
      Exists (λ role, tags def = {[ CadenceRoleTagName := role ]})
        [HistoryClientRoleTagValue; MatchingClientRoleTagValue;
         FrontendClientRoleTagValue; AdminClientRoleTagValue;
         DCRedirectionRoleTagValue; BlobstoreRoleTagValue]) ∨
     (svc = metrics.History ∧
      (tags def = {[ CacheTypeTagName := MutableStateCacheTypeTagValue ]} ∨
       tags def = {[ CacheTypeTagName := EventsCacheTypeTagValue ]} ∨
       tags def = {[ StatsTypeTagName := SizeStatsTypeTagValue ]} ∨
       tags def = {[ StatsTypeTagName := CountStatsTypeTagValue ]}))) ∧
    tags def !! OperationTagName = None ∧
    tags def !! CadenceServiceTagName = None)) as Hall.
  destruct (Hall ltac:(vm_compute; reflexivity) _ _ _ Hl) as (Hshape & Hop & Hsvc).
  split; [|done].
  destruct Hshape as [Ht|[[-> Ht]|Ht]].
  - by left.
  - right; left. split; [done|].
    apply Exists_exists in Ht as (role & Hin & Ht). eauto.
  - by right; right.
Qed.

Lemma scope_tags_wellformed_witness :
  let def := {| operation := "ExecutionStats";
                tags := {[ StatsTypeTagName := SizeStatsTypeTagValue ]} |} in
  lookupScope metrics.History ExecutionSizeStatsScope = Some def ∧
  tags def !! OperationTagName = None ∧
  tags def !! CadenceServiceTagName = None.
Proof.
  intros def.
  assert (Hl : lookupScope metrics.History ExecutionSizeStatsScope = Some def)
    by (vm_compute; reflexivity).
  split; [exact Hl|].
  exact (proj2 (scope_tags_wellformed _ _ _ Hl)).
Defined.

(** X11.  The common scopes of the clients carry their role: a common
    scope whose operation name begins with "HistoryClient",
    "MatchingClient", "FrontendClient", "AdminClient", "DCRedirection" or
    "Blobstore" has the [cadence_role] tag with the role value of that
    client and no other tag, and every other common scope has no tag. *)
Theorem client_scopes_carry_their_role (scope : Z) (def : scopeDefinition) :
  lookupScope Common scope = Some def →
  tags def =
    match roleOfOperation (operation def) with
    | Some role => {[ CadenceRoleTagName := role ]}
    | None => ∅
    end.
Proof.
  intros Hl.
  pose proof (scopeEntries_forall (λ svc _ def,
    svc = Common →
    tags def =
      match roleOfOperation (operation def) with
      | Some role => {[ CadenceRoleTagName := role ]}
      | None => ∅
      end)) as Hall.
  by apply (Hall ltac:(vm_compute; reflexivity) _ _ _ Hl).
Qed.

Lemma client_scopes_carry_their_role_witness :
  let def := {| operation := "MatchingClientPollForActivityTask";
                tags := {[ CadenceRoleTagName := MatchingClientRoleTagValue ]} |} in
  lookupScope Common MatchingClientPollForActivityTaskScope = Some def ∧
  roleOfOperation (operation def) = Some MatchingClientRoleTagValue ∧
  tags def =
    match roleOfOperation (operation def) with
    | Some role => {[ CadenceRoleTagName := role ]}
    | None => ∅
    end.
Proof.
  intros def.
  assert (Hl : lookupScope Common MatchingClientPollForActivityTaskScope = Some def)
    by (vm_compute; reflexivity).
  split; [exact Hl|]. split; [reflexivity|].
  exact (client_scopes_carry_their_role _ _ Hl).
Defined.

(** ** The service base metrics *)

(** X12.  Each of the ten service base metric names has a type in
    exactly one of [ServiceMetrics] and [GoRuntimeMetrics], the type is one
    of the supported metric types, and no entry of [MetricDefs] uses one of
    the ten names. *)
Theorem base_metrics_typed_once :
  NoDup baseMetricNames ∧
  dom ServiceMetrics ∪ dom GoRuntimeMetrics
    =@{gset MetricName} list_to_set baseMetricNames ∧
  dom ServiceMetrics ##@{gset MetricName} dom GoRuntimeMetrics ∧
  (∀ name t, ServiceMetrics !! name = Some t ∨ GoRuntimeMetrics !! name = Some t →
     t ∈ metricTypes) ∧
  (∀ svc metric def, lookupMetric svc metric = Some def →
     metricName def ∉ baseMetricNames).
Proof.
  split; [by_compute|]. split; [by_compute|]. split; [by_compute|]. split.
  - assert (Hs : map_Forall (λ _ t, t ∈ metricTypes) ServiceMetrics) by (by_compute).
    assert (Hg : map_Forall (λ _ t, t ∈ metricTypes) GoRuntimeMetrics) by (by_compute).
    intros name t [Ht|Ht].
    + exact (map_Forall_lookup_1 _ _ _ _ Hs Ht).
    + exact (map_Forall_lookup_1 _ _ _ _ Hg Ht).
  - apply (metricEntries_forall (λ _ _ def, metricName def ∉ baseMetricNames)).
    vm_compute. reflexivity.
Qed.

End MetricsTableFacts.

(* ===================================================================== *)
(** * Properties of the resource container *)
(* ===================================================================== *)

Section ResourceFacts.
Import resource.
Context `{Imports}.

(** ** The constructor *)

Lemma New_Ok_inv params name cfg h :
  New params name cfg = Ok h →
  ∃ clientBean' persistenceBean' matchingRaw,
    client_NewClientBean
      (client_NewRPCClientFactory (RPCFactory params) (MembershipResolver params)
         (MetricsClient params)
         (dynamicconfig_NewCollection (DynamicConfig params) (Logger params)
            (dynamicconfig_ClusterNameFilter
               (cluster_GetCurrentClusterName (ClusterMetadata params))))
         (NumHistoryShards (PersistenceConfig params)) (Logger params))
      (RPCFactory_GetDispatcher (RPCFactory params))
      (ClusterMetadata params) = Ok clientBean' ∧
    Bean_GetMatchingClient clientBean'
      (cache_GetDomainName
         (cache_NewDomainCache (PBean_GetDomainManager persistenceBean')
            (MetricsClient params) (Logger params))) = Ok matchingRaw ∧
    status h = common_DaemonStatusInitialized ∧
    hostInfo h = membership_HostInfo_zero ∧
    clientBean h = clientBean' ∧
    persistenceBean h = persistenceBean' ∧
    domainCache h =
      cache_NewDomainCache (PBean_GetDomainManager persistenceBean')
        (MetricsClient params) (Logger params) ∧
    frontendRawClient h = Bean_GetFrontendClient clientBean' ∧
    frontendClient h =
      frontend_NewRetryableClient (Bean_GetFrontendClient clientBean')
        common_CreateFrontendServiceRetryPolicy common_IsServiceTransientError ∧
    matchingRawClient h = matchingRaw ∧
    matchingClient h =
      matching_NewRetryableClient matchingRaw
        common_CreateMatchingServiceRetryPolicy common_IsServiceTransientError ∧
    historyRawClient h = Bean_GetHistoryClient clientBean' ∧
    historyClient h =
      history_NewRetryableClient (Bean_GetHistoryClient clientBean')
        common_CreateHistoryServiceRetryPolicy common_IsServiceTransientError.
Proof.
  unfold New. intros HNew.
  destruct (client_NewClientBean _ _ _) as [cb|] eqn:Hcb; [|discriminate].
  destruct (persistenceClient_NewBeanFromFactory _ _ _) as [pb|] eqn:Hpb; [|discriminate].
  destruct (Bean_GetMatchingClient _ _) as [mc|] eqn:Hmc; [|discriminate].
  destruct (ArchiverProvider_RegisterBootstrapContainer _ _ _ _) eqn:Hreg; [discriminate|].
  injection HNew as <-. exists cb, pb, mc. simpl. repeat split; done.
Qed.

(** ** One call *)

Lemma Start_other_status env h :
  status h ≠ common_DaemonStatusInitialized → Start env h = Returns h [].
Proof.
  intros Hst. unfold Start, CompareAndSwapInt32.
  rewrite bool_decide_eq_false_2 by done. reflexivity.
Qed.

Lemma Stop_other_status env h :
  status h ≠ common_DaemonStatusStarted → Stop env h = Returns h [].
Proof.
  intros Hst. unfold Stop, CompareAndSwapInt32.
  rewrite bool_decide_eq_false_2 by done. reflexivity.
Qed.

(** A [Start] on an initialized container: the answers of the pprof
    initializer, the dispatcher and the membership resolver decide between
    a fatal exit and a return with the host info set. *)
Lemma Start_initialized env h :
  status h = common_DaemonStatusInitialized →
  Start env h =
    match pprofInitializer_Start env with
    | Some err =>
        Exits [ CounterInc metrics.RestartCount 1; RuntimeMetricsReporterStart;
                PProfInitializerStart; LoggerFatal "fail to start PProf" err ]
    | None =>
    match dispatcher_Start env with
    | Some err =>
        Exits [ CounterInc metrics.RestartCount 1; RuntimeMetricsReporterStart;
                PProfInitializerStart; DispatcherStart;
                LoggerFatal "fail to start dispatcher" err ]
    | None =>
    match membershipResolver_WhoAmI env with
    | Err err =>
        Exits [ CounterInc metrics.RestartCount 1; RuntimeMetricsReporterStart;
                PProfInitializerStart; DispatcherStart; MembershipResolverStart;
                DomainCacheStart; DomainMetricsScopeCacheStart;
                MembershipResolverWhoAmI;
                LoggerFatal "fail to get host info from membership monitor" err ]
    | Ok hi =>
        Returns (set_hostInfo hi (set_status common_DaemonStatusStarted h))
                (startEvents env)
    end end end.
Proof.
  intros Hst. unfold Start, CompareAndSwapInt32.
  rewrite bool_decide_eq_true_2 by done. simpl.
  destruct (pprofInitializer_Start env); [reflexivity|].
  destruct (dispatcher_Start env); [reflexivity|].
  destruct (membershipResolver_WhoAmI env); reflexivity.
Qed.

Lemma Stop_started env h :
  status h = common_DaemonStatusStarted →
  Stop env h = Returns (set_status common_DaemonStatusStopped h) (stopEvents env).
Proof.
  intros Hst. unfold Stop, CompareAndSwapInt32, stopEvents.
  rewrite bool_decide_eq_true_2 by done. simpl.
  destruct (dispatcher_Stop env); reflexivity.
Qed.

Lemma Start_returns_inv env h h' ev :
  Start env h = Returns h' ev →
  (status h ≠ common_DaemonStatusInitialized ∧ h' = h ∧ ev = []) ∨
  (status h = common_DaemonStatusInitialized ∧
   pprofInitializer_Start env = None ∧ dispatcher_Start env = None ∧
   ∃ hi, membershipResolver_WhoAmI env = Ok hi ∧
         h' = set_hostInfo hi (set_status common_DaemonStatusStarted h) ∧
         ev = startEvents env).
Proof.
  intros HS.
  destruct (decide (status h = common_DaemonStatusInitialized)) as [Hst|Hst].
  - right. rewrite (Start_initialized env h Hst) in HS.
    destruct (pprofInitializer_Start env); [discriminate|].
    destruct (dispatcher_Start env); [discriminate|].
    destruct (membershipResolver_WhoAmI env) as [hi|]; [|discriminate].
    injection HS as <- <-. eauto 10.
  - left. rewrite (Start_other_status env h Hst) in HS.
    injection HS as <- <-. done.
Qed.

Lemma Stop_returns_inv env h h' ev :
  Stop env h = Returns h' ev →
  (status h ≠ common_DaemonStatusStarted ∧ h' = h ∧ ev = []) ∨
  (status h = common_DaemonStatusStarted ∧
   h' = set_status common_DaemonStatusStopped h ∧ ev = stopEvents env).
Proof.
  intros HS.
  destruct (decide (status h = common_DaemonStatusStarted)) as [Hst|Hst].
  - right. rewrite (Stop_started env h Hst) in HS. injection HS as <- <-. done.
  - left. rewrite (Stop_other_status env h Hst) in HS. injection HS as <- <-. done.
Qed.

(** No [Stop] ever exits. *)
Lemma Stop_returns env h : ∃ h' ev, Stop env h = Returns h' ev.
Proof.
  destruct (decide (status h = common_DaemonStatusStarted)) as [Hst|Hst].
  - rewrite (Stop_started env h Hst). eauto.
  - rewrite (Stop_other_status env h Hst). eauto.
Qed.

(** ** Sequences of calls *)

Lemma run_cons_inv c cs h h2 ev :
  run (c :: cs) h = Returns h2 ev →
  ∃ h1 ev1 ev2,
    call c h = Returns h1 ev1 ∧ run cs h1 = Returns h2 ev2 ∧ ev = ev1 ++ ev2.
Proof.
  simpl. unfold mbind, Outcome_mbind, Outcome_bind.
  destruct (call c h) as [h1 ev1|]; [|discriminate].
  destruct (run cs h1) as [h2' ev2|] eqn:Hr; [|discriminate].
  intros [= <- <-]. eauto 10.
Qed.

Lemma run_nil_inv h h' ev : run [] h = Returns h' ev → h' = h ∧ ev = [].
Proof. by intros [= <- <-]. Qed.

Lemma call_sameWiring c h h' ev : call c h = Returns h' ev → sameWiring h h'.
Proof.
  destruct c as [env|env]; simpl; intros HS.
  - apply Start_returns_inv in HS as [(_ & -> & _)|(_ & _ & _ & hi & _ & -> & _)];
      by repeat split.
  - apply Stop_returns_inv in HS as [(_ & -> & _)|(_ & -> & _)]; by repeat split.
Qed.

Lemma run_sameWiring cs h h' ev : run cs h = Returns h' ev → sameWiring h h'.
Proof.
  revert h ev. induction cs as [|c cs IH]; intros h ev Hrun.
  - apply run_nil_inv in Hrun as [-> _]. by repeat split.
  - apply run_cons_inv in Hrun as (h1 & ev1 & ev2 & Hc & Hr & _).
    apply call_sameWiring in Hc. apply IH in Hr.
    unfold sameWiring in *. destruct_and!. repeat split; congruence.
Qed.

(** The transitions of one call. *)
Lemma call_transition c h h' ev :
  call c h = Returns h' ev →
  (h' = h ∧ ev = []) ∨
  (isStart c = true ∧ status h = common_DaemonStatusInitialized ∧
   status h' = common_DaemonStatusStarted) ∨
  (isStart c = false ∧ status h = common_DaemonStatusStarted ∧
   status h' = common_DaemonStatusStopped).
Proof.
  destruct c as [env|env]; simpl; intros HS.
  - apply Start_returns_inv in HS as [(_ & -> & ->)|(Hst & _ & _ & hi & _ & -> & _)];
      [by left | right; left; done].
  - apply Stop_returns_inv in HS as [(_ & -> & ->)|(Hst & -> & _)];
      [by left | right; right; done].
Qed.

Lemma run_statusKnown cs h h' ev :
  statusKnown h → run cs h = Returns h' ev → statusKnown h'.
Proof.
  revert h ev. induction cs as [|c cs IH]; intros h ev Hk Hrun.
  - by apply run_nil_inv in Hrun as [-> _].
  - apply run_cons_inv in Hrun as (h1 & ev1 & ev2 & Hc & Hr & _).
    eapply IH; [|exact Hr].
    apply call_transition in Hc as [[-> _]|[(_ & _ & Hs)|(_ & _ & Hs)]];
      unfold statusKnown; auto.
Qed.

Lemma run_stopped cs h :
  statusesDistinct →
  status h = common_DaemonStatusStopped → run cs h = Returns h [].
Proof.
  intros (H12 & H23 & H13) Hst. induction cs as [|c cs IH]; [done|].
  simpl. destruct c as [env|env]; simpl.
  - rewrite Start_other_status by congruence. simpl.
    unfold mbind, Outcome_mbind, Outcome_bind. by rewrite IH.
  - rewrite Stop_other_status by congruence. simpl.
    unfold mbind, Outcome_mbind, Outcome_bind. by rewrite IH.
Qed.

(** While the status is still [Initialized] the host info is the zero
    value: only a [Start] that gets past [WhoAmI] assigns it, and that
    [Start] has moved the status on. *)
Lemma run_hostInfo_initialized cs h h' ev :
  statusesDistinct →
  (status h = common_DaemonStatusInitialized → hostInfo h = membership_HostInfo_zero) →
  run cs h = Returns h' ev →
  status h' = common_DaemonStatusInitialized → hostInfo h' = membership_HostInfo_zero.
Proof.
  intros (H12 & H23 & H13). revert h ev.
  induction cs as [|c cs IH]; intros h ev Hinv Hrun.
  - by apply run_nil_inv in Hrun as [-> _].
  - apply run_cons_inv in Hrun as (h1 & ev1 & ev2 & Hc & Hr & _).
    eapply IH; [|exact Hr].
    apply call_transition in Hc as [[-> _]|[(_ & _ & Hs)|(_ & _ & Hs)]];
      [done | intros; congruence | intros; congruence].
Qed.

(** C5.  The status of a container made by [New] only ever is Initialized,
    Started or Stopped.  A call to [Start] or [Stop] that returns either
    leaves the container as it is and does nothing, or is a [Start] taking
    Initialized to Started, or a [Stop] taking Started to Stopped.  A
    [Start] on a container that is not Initialized (started already, or
    stopped) and a [Stop] on one that is not Started (not yet started, or
    stopped already) change nothing and have no effect; so a second
    [Start] or [Stop] is a no-op, and from Stopped no sequence of calls
    leads anywhere. *)
Theorem lifecycle_one_way :
  statusesDistinct →
  (∀ params name cfg h cs h' ev,
     New params name cfg = Ok h → run cs h = Returns h' ev →
     status h' = common_DaemonStatusInitialized ∨
     status h' = common_DaemonStatusStarted ∨
     status h' = common_DaemonStatusStopped) ∧
  (∀ c h h' ev,
     call c h = Returns h' ev →
     (h' = h ∧ ev = []) ∨
     (isStart c = true ∧ status h = common_DaemonStatusInitialized ∧
      status h' = common_DaemonStatusStarted) ∨
     (isStart c = false ∧ status h = common_DaemonStatusStarted ∧
      status h' = common_DaemonStatusStopped)) ∧
  (∀ env h, status h ≠ common_DaemonStatusInitialized → Start env h = Returns h []) ∧
  (∀ env h, status h ≠ common_DaemonStatusStarted → Stop env h = Returns h []) ∧
  (∀ env env' h h' ev, Start env h = Returns h' ev → Start env' h' = Returns h' []) ∧
  (∀ env env' h h' ev, Stop env h = Returns h' ev → Stop env' h' = Returns h' []) ∧
  (∀ env env' h h' ev, Stop env h = Returns h' ev →
     status h ≠ common_DaemonStatusInitialized → Start env' h' = Returns h' []) ∧
  (∀ cs h, status h = common_DaemonStatusStopped → run cs h = Returns h []).
Proof.
  intros Hd. pose proof Hd as (H12 & H23 & H13).
  split; [|split; [|split; [|split; [|split; [|split; [|split]]]]]].
  - intros params name cfg h cs h' ev HNew Hrun.
    apply New_Ok_inv in HNew as (? & ? & ? & _ & _ & Hst & _).
    eapply run_statusKnown; [|exact Hrun]. by left.
  - apply call_transition.
  - apply Start_other_status.
  - apply Stop_other_status.
  - intros env env' h h' ev HS. apply Start_other_status.
    apply Start_returns_inv in HS as [(Hst & -> & _)|(_ & _ & _ & hi & _ & -> & _)];
      [done | simpl; congruence].
  - intros env env' h h' ev HS. apply Stop_other_status.
    apply Stop_returns_inv in HS as [(Hst & -> & _)|(_ & -> & _)];
      [done | simpl; congruence].
  - intros env env' h h' ev HS Hst. apply Start_other_status.
    apply Stop_returns_inv in HS as [(_ & -> & _)|(_ & -> & _)];
      [done | simpl; congruence].
  - intros cs h. by apply run_stopped.
Qed.

(** C6.  In a container made by [New], each of the frontend, matching and
    history getters returns the client of the corresponding Raw getter
    wrapped by the package's [NewRetryableClient] with the retry policy of
    that service and the transient-error predicate; the Raw getters return
    the clients the client bean handed out, unwrapped.  No later [Start] or
    [Stop] changes what the getters return. *)
Theorem New_wraps_raw_clients params name cfg h :
  New params name cfg = Ok h →
  (GetFrontendClient h =
     frontend_NewRetryableClient (GetFrontendRawClient h)
       common_CreateFrontendServiceRetryPolicy common_IsServiceTransientError ∧
   GetMatchingClient h =
     matching_NewRetryableClient (GetMatchingRawClient h)
       common_CreateMatchingServiceRetryPolicy common_IsServiceTransientError ∧
   GetHistoryClient h =
     history_NewRetryableClient (GetHistoryRawClient h)
       common_CreateHistoryServiceRetryPolicy common_IsServiceTransientError) ∧
  (GetFrontendRawClient h = Bean_GetFrontendClient (GetClientBean h) ∧
   Bean_GetMatchingClient (GetClientBean h) (cache_GetDomainName (domainCache h))
     = Ok (GetMatchingRawClient h) ∧
   GetHistoryRawClient h = Bean_GetHistoryClient (GetClientBean h)) ∧
  (∀ cs h' ev, run cs h = Returns h' ev →
     GetFrontendClient h' = GetFrontendClient h ∧
     GetFrontendRawClient h' = GetFrontendRawClient h ∧
     GetMatchingClient h' = GetMatchingClient h ∧
     GetMatchingRawClient h' = GetMatchingRawClient h ∧
     GetHistoryClient h' = GetHistoryClient h ∧
     GetHistoryRawClient h' = GetHistoryRawClient h).
Proof.
  intros HNew.
  apply New_Ok_inv in HNew
    as (cb & pb & mc & _ & Hmc & _ & _ & Hcb & Hpb & Hdc & Hfr & Hf & Hmr & Hm & Hhr & Hh).
  unfold GetFrontendClient, GetFrontendRawClient, GetMatchingClient,
    GetMatchingRawClient, GetHistoryClient, GetHistoryRawClient, GetClientBean.
  split; [|split].
  - rewrite Hf, Hfr, Hm, Hmr, Hh, Hhr. done.
  - rewrite Hfr, Hhr, Hcb, Hdc, Hmr. done.
  - intros cs h' ev Hrun. apply run_sameWiring in Hrun.
    unfold sameWiring in Hrun. destruct_and!. done.
Qed.

(** C8.  In a container made by [New] the host info is the zero value: the
    constructor does not set the field.  It stays the zero value for as
    long as the status is Initialized, whatever is called; in particular
    under any calls to [Stop].  A [Start] that returns with the host info
    changed has got the new value from a successful [WhoAmI], after the
    membership resolver was started; when [WhoAmI] fails, [Start] does not
    return; [Stop] never touches the field. *)
Theorem hostInfo_zero_until_Start params name cfg h :
  statusesDistinct →
  New params name cfg = Ok h →
  GetHostInfo h = membership_HostInfo_zero ∧
  (∀ cs h' ev, run cs h = Returns h' ev →
     status h' = common_DaemonStatusInitialized →
     GetHostInfo h' = membership_HostInfo_zero) ∧
  (∀ cs h' ev, run cs h = Returns h' ev →
     Forall (λ c, isStart c = false) cs →
     GetHostInfo h' = membership_HostInfo_zero) ∧
  (∀ env h1 h2 ev, Start env h1 = Returns h2 ev →
     GetHostInfo h2 = GetHostInfo h1 ∨
     (status h1 = common_DaemonStatusInitialized ∧
      membershipResolver_WhoAmI env = Ok (GetHostInfo h2) ∧
      ∃ before after,
        ev = before ++ MembershipResolverWhoAmI :: after ∧
        MembershipResolverStart ∈ before)) ∧
  (∀ env h1 err, status h1 = common_DaemonStatusInitialized →
     membershipResolver_WhoAmI env = Err err →
     returned (Start env h1) = None) ∧
  (∀ env h1 h2 ev, Stop env h1 = Returns h2 ev → GetHostInfo h2 = GetHostInfo h1).
Proof.
  intros Hd HNew. pose proof Hd as (H12 & H23 & H13).
  apply New_Ok_inv in HNew as (? & ? & ? & _ & _ & Hst & Hhi & _).
  unfold GetHostInfo.
  split; [exact Hhi|]. split; [|split; [|split; [|split]]].
  - intros cs h' ev Hrun. by eapply run_hostInfo_initialized.
  - intros cs h' ev Hrun Hstops.
    eapply run_hostInfo_initialized; [done| |exact Hrun|]; [done|].
    clear Hhi. revert h ev Hst Hrun.
    induction Hstops as [|c cs Hc _ IH]; intros h ev Hst Hrun.
    + by apply run_nil_inv in Hrun as [-> _].
    + apply run_cons_inv in Hrun as (h1 & ev1 & ev2 & Hcall & Hr & _).
      destruct c as [env|env]; [discriminate|]. simpl in Hcall.
      rewrite Stop_other_status in Hcall by congruence.
      injection Hcall as <- <-. by eapply IH.
  - intros env h1 h2 ev HS.
    apply Start_returns_inv in HS as [(_ & -> & _)|(Hs1 & _ & _ & hi & Hw & -> & ->)].
    + by left.
    + right. split; [done|]. split; [done|].
      exists [ CounterInc metrics.RestartCount 1; RuntimeMetricsReporterStart;
               PProfInitializerStart; DispatcherStart; MembershipResolverStart;
               DomainCacheStart; DomainMetricsScopeCacheStart ],
             [ LoggerInfo "service started"; RandSeed (time_Now_UnixNano env) ].
      split; [reflexivity|]. set_solver.
  - intros env h1 err Hs1 Hw. rewrite (Start_initialized env h1 Hs1), Hw.
    destruct (pprofInitializer_Start env); [done|].
    destruct (dispatcher_Start env); done.
  - intros env h1 h2 ev HS.
    apply Stop_returns_inv in HS as [(_ & -> & _)|(_ & -> & _)]; done.
Qed.

End ResourceFacts.

(** ** The properties at the concrete imports *)

Section ResourceWitnesses.
Import resource.
#[local] Existing Instance sampleImports.

(** A container is made, stopped too early, started twice, stopped and
    started again: only the first [Start] and the [Stop] after it do
    anything. *)
Example sample_lifecycle :
  (h ← match @New sampleImports sampleParams "history" tt with
       | Ok h => Some h
       | Err _ => None
       end;
   Some (match run [CallStop sampleStopEnv; CallStart sampleStartEnv;
                    CallStart sampleStartEnv; CallStop sampleStopEnv;
                    CallStart sampleStartEnv] h with
         | Returns h' ev => Some (status h', GetHostInfo h', ev)
         | Exits _ => None
         end))
  = Some (Some (2, "10.0.0.1:7934",
                startEvents sampleStartEnv ++ stopEvents sampleStopEnv)).
Proof. vm_compute. reflexivity. Qed.

(** A [Start] whose dispatcher fails to start ends the process after the
    fatal log line; the membership resolver is never started. *)
Example sample_fatal_start :
  (h ← match @New sampleImports sampleParams "history" tt with
       | Ok h => Some h
       | Err _ => None
       end;
   Some (Start (@Build_StartEnv sampleImports None (Some "port in use")
                  (Ok "10.0.0.1:7934") 0) h))
  = Some (Exits [ CounterInc "restarts" 1; RuntimeMetricsReporterStart;
                  PProfInitializerStart; DispatcherStart;
                  LoggerFatal "fail to start dispatcher" "port in use" ]).
Proof. vm_compute. reflexivity. Qed.

Lemma sample_statusesDistinct : @statusesDistinct sampleImports.
Proof. repeat split; discriminate. Qed.

Lemma lifecycle_one_way_witness :
  @statusesDistinct sampleImports ∧
  (∀ h : @Impl sampleImports,
     status h = 2 →
     run [CallStart sampleStartEnv; CallStop sampleStopEnv; CallStart sampleStartEnv] h
       = Returns h []) ∧
  (∀ h : @Impl sampleImports,
     status h ≠ 0 → Start sampleStartEnv h = Returns h []).
Proof.
  split; [exact sample_statusesDistinct|].
  destruct (@lifecycle_one_way sampleImports sample_statusesDistinct)
    as (_ & _ & Hstart & _ & _ & _ & _ & Hstopped).
  split.
  - intros h Hst. exact (Hstopped _ h Hst).
  - intros h Hst. exact (Hstart sampleStartEnv h Hst).
Defined.

Lemma New_wraps_raw_clients_witness :
  ∃ h : @Impl sampleImports,
    New sampleParams "history" tt = Ok h ∧
    GetFrontendRawClient h = "frontend" ∧
    GetFrontendClient h = "frontend+retry:frontendPolicy" ∧
    GetFrontendClient h =
      @frontend_NewRetryableClient sampleImports (GetFrontendRawClient h)
        common_CreateFrontendServiceRetryPolicy common_IsServiceTransientError.
Proof.
  destruct (@New sampleImports sampleParams "history" tt) as [h|e] eqn:E;
    [|vm_compute in E; discriminate E].
  exists h. split; [reflexivity|].
  destruct (@New_wraps_raw_clients sampleImports sampleParams "history" tt h E)
    as ((Hf & _ & _) & _ & _).
  vm_compute in E. injection E as <-.
  split; [reflexivity|]. split; [reflexivity|]. exact Hf.
Defined.

Lemma hostInfo_zero_until_Start_witness :
  @statusesDistinct sampleImports ∧
  ∃ h : @Impl sampleImports,
    New sampleParams "history" tt = Ok h ∧
    GetHostInfo h = "" ∧
    (∀ h' ev, run [CallStop sampleStopEnv; CallStop sampleStopEnv] h = Returns h' ev →
       GetHostInfo h' = "").
Proof.
  split; [exact sample_statusesDistinct|].
  destruct (@New sampleImports sampleParams "history" tt) as [h|e] eqn:E;
    [|vm_compute in E; discriminate E].
  exists h. split; [reflexivity|].
  destruct (@hostInfo_zero_until_Start sampleImports sampleParams "history" tt h
              sample_statusesDistinct E) as (Hz & _ & Hstops & _).
  split; [exact Hz|].
  intros h' ev Hrun. apply (Hstops _ h' ev Hrun).
  repeat constructor.
Defined.

End ResourceWitnesses.

(* ===================================================================== *)
(** * Further properties of the resource container *)
(* ===================================================================== *)

Section ResourceMoreFacts.
Import resource.
Context `{Imports}.

(** ** What [New] puts into the container *)

Lemma New_Ok_fields params name cfg h :
  New params name cfg = Ok h →
  ∃ persistenceBean',
    ArchiverProvider_RegisterBootstrapContainer (ArchiverProvider params) name
      (PBean_GetHistoryManager persistenceBean', Logger params, MetricsClient params,
       ClusterMetadata params,
       cache_NewDomainCache (PBean_GetDomainManager persistenceBean')
         (MetricsClient params) (Logger params))
      (Logger params, MetricsClient params, ClusterMetadata params,
       cache_NewDomainCache (PBean_GetDomainManager persistenceBean')
         (MetricsClient params) (Logger params)) = None ∧
    persistenceBean h = persistenceBean' ∧
    serviceName h = Name params ∧
    numShards h = NumHistoryShards (PersistenceConfig params) ∧
    metricsScope h = MetricScope params ∧
    clusterMetadata h = ClusterMetadata params ∧
    domainCache h =
      cache_NewDomainCache (PBean_GetDomainManager persistenceBean')
        (MetricsClient params) (Logger params) ∧
    domainMetricsScopeCache h = cache_NewDomainMetricsScopeCache ∧
    timeSource h = clock_NewRealTimeSource ∧
    payloadSerializer h = persistence_NewPayloadSerializer ∧
    metricsClient h = MetricsClient params ∧
    messagingClient h = MessagingClient params ∧
    blobstoreClient h = BlobstoreClient params ∧
    archivalMetadata h = ArchivalMetadata params ∧
    archiverProvider h = ArchiverProvider params ∧
    domainReplicationQueue h =
      domain_NewReplicationQueue
        (PBean_GetDomainReplicationQueueManager persistenceBean')
        (cluster_GetCurrentClusterName (ClusterMetadata params))
        (MetricsClient params) (Logger params) ∧
    membershipResolver h = MembershipResolver params ∧
    sdkClient h = PublicClient params ∧
    logger h = Logger params ∧
    throttledLogger h =
      loggerimpl_NewThrottledLogger (Logger params) (ThrottledLoggerMaxRPS cfg) ∧
    dispatcher h = RPCFactory_GetDispatcher (RPCFactory params) ∧
    pprofInitializer h = PProfInitializer params ∧
    runtimeMetricsReporter h =
      metrics_NewRuntimeMetricsReporter (MetricScope params) time_Minute
        (Logger params) (InstanceID params) ∧
    rpcFactory h = RPCFactory params.
Proof.
  unfold New. intros HNew.
  destruct (client_NewClientBean _ _ _) as [cb|] eqn:Hcb; [|discriminate].
  destruct (persistenceClient_NewBeanFromFactory _ _ _) as [pb|] eqn:Hpb; [|discriminate].
  destruct (Bean_GetMatchingClient _ _) as [mc|] eqn:Hmc; [|discriminate].
  destruct (ArchiverProvider_RegisterBootstrapContainer _ _ _ _) eqn:Hreg; [discriminate|].
  injection HNew as <-. exists pb. simpl. repeat split; done.
Qed.

(** ** Every error of [New] is the error of a collaborator *)

(** X13.  [New] fails only when one of its four fallible collaborators
    does -- the client bean constructor, the persistence bean constructor,
    the lookup of the matching client, the registration of the archiver
    bootstrap containers -- and then returns that collaborator's error;
    when none of them can fail, [New] returns a container.  The first
    failure wins: when the client bean constructor fails, its error is
    returned whatever the later collaborators would have answered. *)
Theorem New_fails_only_with_a_collaborator params name cfg :
  (∀ e, New params name cfg = Err e →
     (∃ factory dispatcher' clusterMetadata',
        client_NewClientBean factory dispatcher' clusterMetadata' = Err e) ∨
     (∃ factory params' cfg',
        persistenceClient_NewBeanFromFactory factory params' cfg' = Err e) ∨
     (∃ clientBean' getDomainName,
        Bean_GetMatchingClient clientBean' getDomainName = Err e) ∨
     (∃ provider name' history visibility,
        ArchiverProvider_RegisterBootstrapContainer provider name' history visibility
          = Some e)) ∧
  ((∀ factory dispatcher' clusterMetadata',
      ∃ b, client_NewClientBean factory dispatcher' clusterMetadata' = Ok b) →
   (∀ factory params' cfg',
      ∃ b, persistenceClient_NewBeanFromFactory factory params' cfg' = Ok b) →
   (∀ clientBean' getDomainName,
      ∃ c, Bean_GetMatchingClient clientBean' getDomainName = Ok c) →
   (∀ provider name' history visibility,
      ArchiverProvider_RegisterBootstrapContainer provider name' history visibility
        = None) →
   ∃ h, New params name cfg = Ok h) ∧
  (∀ e, (∀ factory dispatcher' clusterMetadata',
           client_NewClientBean factory dispatcher' clusterMetadata' = Err e) →
        New params name cfg = Err e).
Proof.
  split; [|split].
  - intros e. unfold New.
    destruct (client_NewClientBean _ _ _) as [cb|e1] eqn:Hcb.
    2:{ intros [= <-]. left. eauto. }
    destruct (persistenceClient_NewBeanFromFactory _ _ _) as [pb|e2] eqn:Hpb.
    2:{ intros [= <-]. right; left. eauto. }
    destruct (Bean_GetMatchingClient _ _) as [mc|e3] eqn:Hmc.
    2:{ intros [= <-]. right; right; left. eauto. }
    destruct (ArchiverProvider_RegisterBootstrapContainer _ _ _ _) as [e4|] eqn:Hreg.
    + intros [= <-]. right; right; right. eauto 10.
    + discriminate.
  - intros Hcb Hpb Hmc Hreg. unfold New.
    destruct (Hcb (client_NewRPCClientFactory (RPCFactory params)
                     (MembershipResolver params) (MetricsClient params)
                     (dynamicconfig_NewCollection (DynamicConfig params) (Logger params)
                        (dynamicconfig_ClusterNameFilter
                           (cluster_GetCurrentClusterName (ClusterMetadata params))))
                     (NumHistoryShards (PersistenceConfig params)) (Logger params))
                  (RPCFactory_GetDispatcher (RPCFactory params))
                  (ClusterMetadata params)) as [cb ->].
    match goal with
    | |- context [persistenceClient_NewBeanFromFactory ?f ?p ?c] =>
        destruct (Hpb f p c) as [pb ->]
    end.
    match goal with
    | |- context [Bean_GetMatchingClient ?b ?g] => destruct (Hmc b g) as [mc ->]
    end.
    rewrite Hreg. eauto.
  - intros e Hcb. unfold New. by rewrite Hcb.
Qed.

(** X14.  A container made by [New] hands the parameter block through:
    the getters return the fields of [params], the dispatcher of its RPC
    factory, a throttled logger around its logger, and fresh time source,
    payload serializer and domain metrics scope cache.  The service name is
    [params.Name]; the [serviceName] argument of [New] does not reach it. *)
Theorem New_hands_params_to_getters params name cfg h :
  New params name cfg = Ok h →
  (GetServiceName h = Name params ∧
   ∀ name' h', New params name' cfg = Ok h' → GetServiceName h' = GetServiceName h) ∧
  GetClusterMetadata h = ClusterMetadata params ∧
  GetMetricsClient h = MetricsClient params ∧
  GetMessagingClient h = MessagingClient params ∧
  GetBlobstoreClient h = BlobstoreClient params ∧
  GetArchivalMetadata h = ArchivalMetadata params ∧
  GetArchiverProvider h = ArchiverProvider params ∧
  GetMembershipResolver h = MembershipResolver params ∧
  GetSDKClient h = PublicClient params ∧
  GetLogger h = Logger params ∧
  GetThrottledLogger h =
    loggerimpl_NewThrottledLogger (Logger params) (ThrottledLoggerMaxRPS cfg) ∧
  GetDispatcher h = RPCFactory_GetDispatcher (RPCFactory params) ∧
  GetTimeSource h = clock_NewRealTimeSource ∧
  GetPayloadSerializer h = persistence_NewPayloadSerializer ∧
  GetDomainMetricsScopeCache h = cache_NewDomainMetricsScopeCache.
Proof.
  intros HNew. pose proof (New_Ok_fields _ _ _ _ HNew) as (pb & F).
  destruct_and!.
  unfold GetServiceName, GetClusterMetadata, GetMetricsClient, GetMessagingClient,
    GetBlobstoreClient, GetArchivalMetadata, GetArchiverProvider,
    GetMembershipResolver, GetSDKClient, GetLogger, GetThrottledLogger,
    GetDispatcher, GetTimeSource, GetPayloadSerializer, GetDomainMetricsScopeCache.
  split_and!; try done.
  intros name' h' HNew'. apply New_Ok_fields in HNew' as (pb' & F').
  destruct_and!. congruence.
Qed.

(** X15.  The resources of a container made by [New] are built on one
    another: the domain cache reads the domain manager of the container's
    persistence bean, the domain replication queue its queue manager, both
    with the container's metrics client and logger; and the archiver
    provider the container returns has accepted, under the [serviceName]
    argument, bootstrap containers made of the container's own history
    manager, logger, metrics client, cluster metadata and domain cache. *)
Theorem New_builds_on_its_own_resources params name cfg h :
  New params name cfg = Ok h →
  GetDomainCache h =
    cache_NewDomainCache (GetDomainManager h) (GetMetricsClient h) (GetLogger h) ∧
  GetDomainReplicationQueue h =
    domain_NewReplicationQueue
      (PBean_GetDomainReplicationQueueManager (GetPersistenceBean h))
      (cluster_GetCurrentClusterName (GetClusterMetadata h))
      (GetMetricsClient h) (GetLogger h) ∧
  Bean_GetMatchingClient (GetClientBean h) (cache_GetDomainName (GetDomainCache h))
    = Ok (GetMatchingRawClient h) ∧
  ArchiverProvider_RegisterBootstrapContainer (GetArchiverProvider h) name
    (GetHistoryManager h, GetLogger h, GetMetricsClient h, GetClusterMetadata h,
     GetDomainCache h)
    (GetLogger h, GetMetricsClient h, GetClusterMetadata h, GetDomainCache h)
    = None.
Proof.
  intros HNew. pose proof (New_Ok_fields _ _ _ _ HNew) as (pb & F).
  apply New_Ok_inv in HNew as (cb & pb' & mc & _ & Hmc & _ & _ & Hcb & Hpb & Hdc & _ & _ & Hmr & _).
  destruct_and!.
  unfold GetDomainCache, GetDomainManager, GetMetricsClient, GetLogger,
    GetDomainReplicationQueue, GetPersistenceBean, GetClusterMetadata,
    GetClientBean, GetMatchingRawClient, GetArchiverProvider, GetHistoryManager.
  assert (pb' = pb) as -> by congruence.
  split_and!; congruence.
Qed.

(** ** The container across calls *)

Lemma set_fields_eta (h : Impl) : set_hostInfo (hostInfo h) (set_status (status h) h) = h.
Proof. by destruct h. Qed.

Lemma call_frame c h h' ev :
  call c h = Returns h' ev → h' = set_hostInfo (hostInfo h') (set_status (status h') h).
Proof.
  destruct c as [env|env]; simpl; intros HS.
  - apply Start_returns_inv in HS as [(_ & -> & _)|(_ & _ & _ & hi & _ & -> & _)];
      [by rewrite set_fields_eta | reflexivity].
  - apply Stop_returns_inv in HS as [(_ & -> & _)|(_ & -> & _)];
      [by rewrite set_fields_eta | reflexivity].
Qed.

Lemma run_frame cs h h' ev :
  run cs h = Returns h' ev → h' = set_hostInfo (hostInfo h') (set_status (status h') h).
Proof.
  revert h ev. induction cs as [|c cs IH]; intros h ev Hrun.
  - apply run_nil_inv in Hrun as [-> _]. by rewrite set_fields_eta.
  - apply run_cons_inv in Hrun as (h1 & ev1 & ev2 & Hc & Hr & _).
    apply call_frame in Hc. apply IH in Hr. rewrite Hr at 1. by rewrite Hc.
Qed.

(** ** Which calls act *)

Lemma run_cons c cs h : run (c :: cs) h = (h' ← call c h; run cs h').
Proof. reflexivity. Qed.

Lemma bind_Returns_nil {A B} (a : A) (k : A → Outcome B) :
  (x ← Returns a []; k x) = k a.
Proof.
  unfold mbind, Outcome_mbind, Outcome_bind. by destruct (k a).
Qed.

Lemma run_skip_stops stops cs h :
  status h ≠ common_DaemonStatusStarted →
  Forall (λ c, isStart c = false) stops →
  run (stops ++ cs) h = run cs h.
Proof.
  intros Hst Hstops. induction Hstops as [|c stops Hc _ IH]; [done|].
  destruct c as [env|env]; [discriminate|].
  rewrite <- app_comm_cons, run_cons. simpl.
  rewrite Stop_other_status by done. by rewrite bind_Returns_nil.
Qed.

Lemma run_skip_starts starts cs h :
  status h ≠ common_DaemonStatusInitialized →
  Forall (λ c, isStart c = true) starts →
  run (starts ++ cs) h = run cs h.
Proof.
  intros Hst Hstarts. induction Hstarts as [|c starts Hc _ IH]; [done|].
  destruct c as [env|env]; [|discriminate].
  rewrite <- app_comm_cons, run_cons. simpl.
  rewrite Start_other_status by done. by rewrite bind_Returns_nil.
Qed.

Lemma run_noop cs h :
  status h ≠ common_DaemonStatusInitialized →
  status h ≠ common_DaemonStatusStarted →
  run cs h = Returns h [].
Proof.
  intros Hi Hs. induction cs as [|c cs IH]; [done|].
  rewrite run_cons. destruct c as [env|env]; simpl.
  - rewrite Start_other_status by done. by rewrite bind_Returns_nil.
  - rewrite Stop_other_status by done. by rewrite bind_Returns_nil.
Qed.

(** Every sequence of calls is a run of stops, or has a first start. *)
Lemma calls_first_start cs :
  Forall (λ c, isStart c = false) cs ∨
  ∃ stops env rest,
    cs = stops ++ CallStart env :: rest ∧ Forall (λ c, isStart c = false) stops.
Proof.
  induction cs as [|c cs [IH|(stops & env & rest & -> & Hstops)]].
  - by left.
  - destruct c as [env|env].
    + right. exists [], env, cs. by split.
    + left. by constructor.
  - right. destruct c as [env'|env'].
    + exists [], env', (stops ++ CallStart env :: rest). by split.
    + exists (CallStop env' :: stops), env, rest. split; [done|]. by constructor.
Qed.

Lemma calls_first_stop cs :
  Forall (λ c, isStart c = true) cs ∨
  ∃ starts env rest,
    cs = starts ++ CallStop env :: rest ∧ Forall (λ c, isStart c = true) starts.
Proof.
  induction cs as [|c cs [IH|(starts & env & rest & -> & Hstarts)]].
  - by left.
  - destruct c as [env|env].
    + left. by constructor.
    + right. exists [], env, cs. by split.
  - right. destruct c as [env'|env'].
    + exists (CallStart env' :: starts), env, rest. split; [done|]. by constructor.
    + exists [], env', (starts ++ CallStop env :: rest). by split.
Qed.

(** From a started container: nothing happens, or the first [Stop] acts. *)
Lemma run_from_started cs h :
  statusesDistinct →
  status h = common_DaemonStatusStarted →
  run cs h = Returns h [] ∨
  ∃ env, CallStop env ∈ cs ∧
    run cs h = Returns (set_status common_DaemonStatusStopped h) (stopEvents env).
Proof.
  intros (H12 & H23 & H13) Hst.
  destruct (calls_first_stop cs) as [Hstarts|(starts & env & rest & -> & Hstarts)].
  - left. rewrite <- (app_nil_r cs). rewrite run_skip_starts; [done|congruence|done].
  - right. exists env. split; [set_solver|].
    rewrite run_skip_starts; [|congruence|done].
    rewrite run_cons. simpl. rewrite Stop_started by done.
    unfold mbind, Outcome_mbind, Outcome_bind.
    rewrite run_noop; [by rewrite app_nil_r|simpl; congruence|simpl; congruence].
Qed.

Lemma bind_Exits {A B} (ev : list Event) (k : A → Outcome B) :
  (x ← Exits ev; k x) = Exits ev.
Proof. reflexivity. Qed.

Lemma bind_Returns_eq {A B} (a : A) (ev : list Event) (k : A → Outcome B) :
  (x ← Returns a ev; k x) =
  match k a with
  | Returns b ev' => Returns b (ev ++ ev')
  | Exits ev' => Exits (ev ++ ev')
  end.
Proof. reflexivity. Qed.

Lemma bind_Returns {A B} (a : A) (ev : list Event) (k : A → Outcome B) :
  events (x ← Returns a ev; k x) = ev ++ events (k a).
Proof. unfold mbind, Outcome_mbind, Outcome_bind. by destruct (k a). Qed.

Lemma countEvents_app p ev1 ev2 :
  countEvents p (ev1 ++ ev2) = (countEvents p ev1 + countEvents p ev2)%nat.
Proof. unfold countEvents. by rewrite List.filter_app, length_app. Qed.

(** X16.  A sequence of [Start] and [Stop] calls that returns changes
    no field of the container but [status] and [hostInfo]: the container
    afterwards is the one before with these two fields set.  So every
    getter but [GetHostInfo] returns afterwards what it returned before,
    among them the getters that go through the persistence bean. *)
Theorem calls_change_only_status_and_hostInfo cs h h' ev :
  run cs h = Returns h' ev →
  h' = set_hostInfo (GetHostInfo h') (set_status (status h') h) ∧
  GetServiceName h' = GetServiceName h ∧
  GetDomainCache h' = GetDomainCache h ∧
  GetMetricsClient h' = GetMetricsClient h ∧
  GetMembershipResolver h' = GetMembershipResolver h ∧
  GetPersistenceBean h' = GetPersistenceBean h ∧
  GetDomainManager h' = GetDomainManager h ∧
  GetHistoryManager h' = GetHistoryManager h ∧
  (∀ shardID, GetExecutionManager h' shardID = GetExecutionManager h shardID) ∧
  GetLogger h' = GetLogger h ∧
  GetDispatcher h' = GetDispatcher h.
Proof.
  intros Hrun. apply run_frame in Hrun.
  split; [exact Hrun|]. rewrite Hrun. done.
Qed.

(** X17.  In any sequence of calls on an initialized container only the
    first [Start] and the first [Stop] after it act.  Calls to [Stop]
    before the first [Start] do nothing; the sequence up to further
    [Start]s is the first [Start] alone; and a sequence that goes on to a
    [Stop] is that [Start] followed by that [Stop], whatever is called
    afterwards. *)
Theorem only_first_Start_and_next_Stop_act stops env starts env' rest h :
  statusesDistinct →
  status h = common_DaemonStatusInitialized →
  Forall (λ c, isStart c = false) stops →
  Forall (λ c, isStart c = true) starts →
  run stops h = Returns h [] ∧
  run (stops ++ CallStart env :: starts) h = Start env h ∧
  run (stops ++ CallStart env :: starts ++ CallStop env' :: rest) h
    = (h1 ← Start env h; Stop env' h1).
Proof.
  intros (H12 & H23 & H13) Hst Hstops Hstarts.
  assert (Hrest : ∀ cs, run (stops ++ CallStart env :: cs) h
                        = (h1 ← Start env h; run cs h1)).
  { intros cs. rewrite run_skip_stops; [done|congruence|done]. }
  split; [|split].
  - rewrite <- (app_nil_r stops). rewrite run_skip_stops; [done|congruence|done].
  - rewrite Hrest. rewrite (Start_initialized env h Hst).
    destruct (pprofInitializer_Start env); [done|].
    destruct (dispatcher_Start env); [done|].
    destruct (membershipResolver_WhoAmI env) as [hi|]; [|done].
    rewrite bind_Returns_eq. rewrite <- (app_nil_r starts).
    rewrite run_skip_starts; [|simpl; congruence|done].
    simpl. by rewrite ?app_nil_r.
  - rewrite Hrest. rewrite (Start_initialized env h Hst).
    destruct (pprofInitializer_Start env); [done|].
    destruct (dispatcher_Start env); [done|].
    destruct (membershipResolver_WhoAmI env) as [hi|]; [|done].
    rewrite !bind_Returns_eq.
    rewrite run_skip_starts; [|simpl; congruence|done].
    rewrite run_cons. simpl call. rewrite Stop_started by done.
    rewrite bind_Returns_eq.
    rewrite run_noop; [by rewrite app_nil_r|simpl; congruence|simpl; congruence].
Qed.

Lemma countEvents_stopEvents env :
  countEvents isCounterInc (stopEvents env) = 0%nat ∧
  countEvents isRandSeed (stopEvents env) = 0%nat ∧
  countEvents isLoggerFatal (stopEvents env) = 0%nat ∧
  countEvents isPersistenceBeanClose (stopEvents env) = 1%nat.
Proof. unfold stopEvents. by destruct (dispatcher_Stop env). Qed.

(** X18.  Over any sequence of calls from any container the restart
    counter is incremented at most once, the random generator is seeded at
    most once, the persistence bean is closed at most once, and at most one
    fatal line is logged; a fatal line is logged exactly when the sequence
    does not return.  From an initialized container the persistence bean
    is closed only after a [Start] that ran to its end. *)
Theorem effects_happen_at_most_once cs h :
  statusesDistinct →
  (countEvents isCounterInc (events (run cs h)) ≤ 1)%nat ∧
  (countEvents isRandSeed (events (run cs h)) ≤ 1)%nat ∧
  (countEvents isLoggerFatal (events (run cs h)) ≤ 1)%nat ∧
  (countEvents isPersistenceBeanClose (events (run cs h)) ≤ 1)%nat ∧
  (status h = common_DaemonStatusInitialized →
   countEvents isPersistenceBeanClose (events (run cs h))
   ≤ countEvents isRandSeed (events (run cs h)))%nat ∧
  (countEvents isLoggerFatal (events (run cs h)) = 1%nat ↔ returned (run cs h) = None).
Proof.
  intros Hd. pose proof Hd as (H12 & H23 & H13).
  destruct (decide (status h = common_DaemonStatusInitialized)) as [Hi|Hi].
  - destruct (calls_first_start cs) as [Hstops|(stops & env & rest & -> & Hstops)].
    + rewrite <- (app_nil_r cs). rewrite run_skip_stops; [|congruence|done].
      solve_counts.
    + rewrite run_skip_stops; [|congruence|done]. rewrite run_cons. simpl.
      rewrite (Start_initialized env h Hi).
      destruct (pprofInitializer_Start env); [solve_counts|].
      destruct (dispatcher_Start env); [solve_counts|].
      destruct (membershipResolver_WhoAmI env) as [hi|];
        [|solve_counts].
      set (h1 := set_hostInfo hi (set_status common_DaemonStatusStarted h)).
      destruct (run_from_started rest h1 Hd eq_refl) as [Hr|(env' & _ & Hr)];
        rewrite bind_Returns_eq, Hr; cbn [events returned].
      * solve_counts.
      * rewrite !countEvents_app.
        destruct (countEvents_stopEvents env') as (-> & -> & -> & ->).
        solve_counts.
  - destruct (decide (status h = common_DaemonStatusStarted)) as [Hs|Hs].
    + destruct (run_from_started cs h Hd Hs) as [Hr|(env' & _ & Hr)]; rewrite Hr;
        cbn [events returned].
      * solve_counts.
      * destruct (countEvents_stopEvents env') as (-> & -> & -> & ->).
        solve_counts.
    + rewrite run_noop by done. solve_counts.
Qed.

(** X19.  [Stop] always returns and never logs a fatal line.  On a
    started container it moves the status to Stopped and ends by stopping
    the runtime metrics reporter and closing the persistence bean, also
    when the dispatcher fails to stop: that error is logged, once, with the
    message "failed to stop dispatcher", and is the only error [Stop] logs.
    On any other container it does nothing. *)
Theorem Stop_always_completes env h :
  ∃ h' ev,
    Stop env h = Returns h' ev ∧
    countEvents isLoggerFatal ev = 0%nat ∧
    (status h = common_DaemonStatusStarted →
     status h' = common_DaemonStatusStopped ∧
     ∃ before, ev = before ++ [RuntimeMetricsReporterStop; PersistenceBeanClose]) ∧
    (status h ≠ common_DaemonStatusStarted → h' = h ∧ ev = []) ∧
    (∀ msg err, LoggerError msg err ∈ ev ↔
       status h = common_DaemonStatusStarted ∧ dispatcher_Stop env = Some err ∧
       msg = "failed to stop dispatcher").
Proof.
  destruct (decide (status h = common_DaemonStatusStarted)) as [Hst|Hst].
  - rewrite (Stop_started env h Hst). eexists _, _. split; [reflexivity|].
    split; [apply countEvents_stopEvents|]. split; [|split; [done|]].
    + intros _. split; [done|]. unfold stopEvents.
      exists ([DomainCacheStop; DomainMetricsScopeCacheStop; MembershipResolverStop;
               DispatcherStop] ++
              match dispatcher_Stop env with
              | Some err => [LoggerError "failed to stop dispatcher" err]
              | None => []
              end).
      by rewrite <- !app_assoc.
    + intros msg err. unfold stopEvents. split.
      * destruct (dispatcher_Stop env) as [err'|]; simpl; intros Hin.
        -- repeat (apply elem_of_cons in Hin as [Hin|Hin]; [try discriminate Hin|]);
             [|by apply elem_of_nil in Hin].
           injection Hin as -> ->. done.
        -- repeat (apply elem_of_cons in Hin as [Hin|Hin]; [discriminate Hin|]).
           by apply elem_of_nil in Hin.
      * intros (_ & -> & ->). simpl. set_solver.
  - rewrite (Stop_other_status env h Hst). eexists _, _. split; [reflexivity|].
    split; [done|]. split; [done|]. split; [done|].
    intros msg err. split; [by intros ?%elem_of_nil|]. by intros (? & _).
Qed.

(** X20.  [Start] does not return exactly when the container is
    initialized and the pprof initializer or the dispatcher fails to start
    or [WhoAmI] fails.  It then ends with the one fatal line, before
    "service started" is logged.  On an initialized container the restart
    counter is incremented first, before anything can fail; and when the
    pprof initializer or the dispatcher fails, the membership resolver and
    the two caches are never started. *)
Theorem Start_exits_exactly_when_a_collaborator_fails env h :
  (returned (Start env h) = None ↔
   status h = common_DaemonStatusInitialized ∧
   (is_Some (pprofInitializer_Start env) ∨ is_Some (dispatcher_Start env) ∨
    ∃ err, membershipResolver_WhoAmI env = Err err)) ∧
  (returned (Start env h) = None →
   ∃ before msg err,
     events (Start env h) = before ++ [LoggerFatal msg err] ∧
     countEvents isLoggerFatal before = 0%nat ∧
     LoggerInfo "service started" ∉ before) ∧
  (status h = common_DaemonStatusInitialized →
   head (events (Start env h)) = Some (CounterInc metrics.RestartCount 1)) ∧
  (status h = common_DaemonStatusInitialized →
   is_Some (pprofInitializer_Start env) ∨ is_Some (dispatcher_Start env) →
   (MembershipResolverStart ∉ events (Start env h)) ∧
   (DomainCacheStart ∉ events (Start env h)) ∧
   (DomainMetricsScopeCacheStart ∉ events (Start env h))).
Proof.
  destruct (decide (status h = common_DaemonStatusInitialized)) as [Hst|Hst].
  - rewrite (Start_initialized env h Hst).
    destruct (pprofInitializer_Start env) as [e1|].
    { split_and!; [split; [eauto 10|done]| |done|].
      - intros _. eexists [_; _; _], _, _. split; [reflexivity|].
        split; [done|not_in_events].
      - intros _ _. split_and!; not_in_events. }
    destruct (dispatcher_Start env) as [e2|].
    { split_and!; [split; [eauto 10|done]| |done|].
      - intros _. eexists [_; _; _; _], _, _. split; [reflexivity|].
        split; [done|not_in_events].
      - intros _ _. split_and!; not_in_events. }
    destruct (membershipResolver_WhoAmI env) as [hi|e3].
    + split_and!; [split; [done|]|done|done|].
      * intros (_ & [[? [=]]|[[? [=]]|[? [=]]]]).
      * intros _ [[? [=]]|[? [=]]].
    + split_and!; [split; [eauto 10|done]| |done|].
      * intros _. eexists [_; _; _; _; _; _; _; _], _, _. split; [reflexivity|].
        split; [done|not_in_events].
      * intros _ [[? [=]]|[? [=]]].
  - rewrite (Start_other_status env h Hst). split_and!; try done.
    split; [done|]. by intros (? & _).
Qed.

Lemma events_call_CounterInc c h name delta :
  CounterInc name delta ∈ events (call c h) →
  name = metrics.RestartCount ∧ delta = 1.
Proof.
  destruct c as [env|env]; simpl.
  - destruct (decide (status h = common_DaemonStatusInitialized)) as [Hst|Hst].
    + rewrite (Start_initialized env h Hst).
      destruct (pprofInitializer_Start env);
        [|destruct (dispatcher_Start env);
          [|destruct (membershipResolver_WhoAmI env)]];
        simpl; intros Hin;
        (apply elem_of_cons in Hin as [Hin|Hin]; [by injection Hin as -> ->|]);
        repeat (apply elem_of_cons in Hin as [Hin|Hin]; [discriminate Hin|]);
        by apply elem_of_nil in Hin.
    + rewrite (Start_other_status env h Hst). by intros ?%elem_of_nil.
  - destruct (Stop_returns env h) as (h' & ev & Hs). rewrite Hs. simpl. intros Hin.
    apply Stop_returns_inv in Hs as [(_ & _ & ->)|(_ & _ & ->)];
      [by apply elem_of_nil in Hin|].
    unfold stopEvents in Hin. destruct (dispatcher_Stop env); simpl in Hin;
      repeat (apply elem_of_cons in Hin as [Hin|Hin]; [discriminate Hin|]);
      by apply elem_of_nil in Hin.
Qed.

Lemma events_run_inv cs h e :
  e ∈ events (run cs h) → ∃ c h0, c ∈ cs ∧ e ∈ events (call c h0).
Proof.
  revert h. induction cs as [|c cs IH]; intros h; [by intros ?%elem_of_nil|].
  rewrite run_cons. destruct (call c h) as [h1 ev1|ev1] eqn:Hc.
  - rewrite bind_Returns. intros [Hin|Hin]%elem_of_app.
    + exists c, h. rewrite Hc. split; [set_solver|done].
    + apply IH in Hin as (c' & h0 & Hc' & Hin). exists c', h0. split; [set_solver|done].
  - rewrite bind_Exits. intros Hin. exists c, h. rewrite Hc. split; [set_solver|done].
Qed.

(** X21.  The only counter the life cycle increments is the restart
    counter: a counter increment in the trace of any sequence of calls is
    of [metrics.RestartCount], by one, and [metrics.ServiceMetrics]
    declares that name as a [Counter]. *)
Theorem only_the_declared_restart_counter_is_incremented cs h name delta :
  CounterInc name delta ∈ events (run cs h) →
  name = metrics.RestartCount ∧ delta = 1 ∧
  metrics.ServiceMetrics !! name = Some metrics.Counter.
Proof.
  intros (c & h0 & _ & Hin)%events_run_inv.
  apply events_call_CounterInc in Hin as [-> ->]. done.
Qed.

End ResourceMoreFacts.

(** ** The further properties at the concrete imports *)

Section ResourceMoreWitnesses.
Import resource.
#[local] Existing Instance sampleImports.

Lemma New_hands_params_to_getters_witness :
  ∃ h : @Impl sampleImports,
    New sampleParams "history" tt = Ok h ∧
    GetServiceName h = "cadence-history" ∧
    GetServiceName h = Name sampleParams.
Proof.
  destruct (@New sampleImports sampleParams "history" tt) as [h|e] eqn:E;
    [|vm_compute in E; discriminate E].
  exists h. split; [reflexivity|].
  destruct (@New_hands_params_to_getters sampleImports sampleParams "history" tt h E)
    as ((Hn & _) & _).
  split; [|exact Hn]. rewrite Hn. reflexivity.
Defined.

Lemma New_builds_on_its_own_resources_witness :
  ∃ h : @Impl sampleImports,
    New sampleParams "history" tt = Ok h ∧
    GetDomainCache h =
      @cache_NewDomainCache sampleImports (GetDomainManager h) (GetMetricsClient h)
        (GetLogger h) ∧
    @Bean_GetMatchingClient sampleImports (GetClientBean h)
      (cache_GetDomainName (GetDomainCache h)) = Ok (GetMatchingRawClient h).
Proof.
  destruct (@New sampleImports sampleParams "history" tt) as [h|e] eqn:E;
    [|vm_compute in E; discriminate E].
  exists h. split; [reflexivity|].
  destruct (@New_builds_on_its_own_resources sampleImports sampleParams "history" tt h E)
    as (Hdc & _ & Hmc & _).
  split; [exact Hdc | exact Hmc].
Defined.

Lemma calls_change_only_status_and_hostInfo_witness :
  ∃ h h' : @Impl sampleImports, ∃ ev,
    New sampleParams "history" tt = Ok h ∧
    run [CallStart sampleStartEnv; CallStop sampleStopEnv] h = Returns h' ev ∧
    h' = set_hostInfo (GetHostInfo h') (set_status (status h') h) ∧
    GetServiceName h' = GetServiceName h ∧
    GetPersistenceBean h' = GetPersistenceBean h.
Proof.
  destruct (@New sampleImports sampleParams "history" tt) as [h|e] eqn:E;
    [|vm_compute in E; discriminate E].
  destruct (run [CallStart sampleStartEnv; CallStop sampleStopEnv] h)
    as [h' ev|ev] eqn:R;
    [|vm_compute in E; injection E as <-; vm_compute in R; discriminate R].
  exists h, h', ev. split; [reflexivity|]. split; [exact R|].
  destruct (@calls_change_only_status_and_hostInfo sampleImports _ h h' ev R)
    as (Hframe & Hname & _ & _ & _ & Hbean & _).
  split; [exact Hframe|split; [exact Hname|exact Hbean]].
Defined.

Lemma only_first_Start_and_next_Stop_act_witness :
  @statusesDistinct sampleImports ∧
  ∃ h : @Impl sampleImports,
    New sampleParams "history" tt = Ok h ∧
    status h = 0 ∧
    run ([CallStop sampleStopEnv] ++
         CallStart sampleStartEnv ::
         [CallStart sampleStartEnv] ++
         CallStop sampleStopEnv :: [CallStart sampleStartEnv; CallStop sampleStopEnv]) h
      = (h1 ← Start sampleStartEnv h; Stop sampleStopEnv h1).
Proof.
  split; [exact sample_statusesDistinct|].
  destruct (@New sampleImports sampleParams "history" tt) as [h|e] eqn:E;
    [|vm_compute in E; discriminate E].
  exists h. split; [reflexivity|].
  assert (Hst : status h = 0) by (vm_compute in E; injection E as <-; reflexivity).
  split; [exact Hst|].
  refine (proj2 (proj2 (@only_first_Start_and_next_Stop_act sampleImports
            [CallStop sampleStopEnv] sampleStartEnv [CallStart sampleStartEnv]
            sampleStopEnv [CallStart sampleStartEnv; CallStop sampleStopEnv] h
            sample_statusesDistinct Hst _ _)));
    repeat constructor.
Defined.

Lemma effects_happen_at_most_once_witness :
  @statusesDistinct sampleImports ∧
  ∃ h : @Impl sampleImports,
    New sampleParams "history" tt = Ok h ∧
    (countEvents isRandSeed
       (events (run [CallStart sampleStartEnv; CallStart sampleStartEnv;
                     CallStop sampleStopEnv; CallStart sampleStartEnv] h)) ≤ 1)%nat ∧
    (countEvents isPersistenceBeanClose
       (events (run [CallStart sampleStartEnv; CallStart sampleStartEnv;
                     CallStop sampleStopEnv; CallStart sampleStartEnv] h)) ≤ 1)%nat.
Proof.
  split; [exact sample_statusesDistinct|].
  destruct (@New sampleImports sampleParams "history" tt) as [h|e] eqn:E;
    [|vm_compute in E; discriminate E].
  exists h. split; [reflexivity|].
  destruct (@effects_happen_at_most_once sampleImports
              [CallStart sampleStartEnv; CallStart sampleStartEnv;
               CallStop sampleStopEnv; CallStart sampleStartEnv] h
              sample_statusesDistinct) as (_ & Hseed & _ & Hclose & _).
  split; [exact Hseed | exact Hclose].
Defined.

Lemma only_the_declared_restart_counter_is_incremented_witness :
  ∃ h : @Impl sampleImports,
    New sampleParams "history" tt = Ok h ∧
    CounterInc "restarts" 1
      ∈ events (run [CallStop sampleStopEnv; CallStart sampleStartEnv] h) ∧
    "restarts" = metrics.RestartCount ∧
    metrics.ServiceMetrics !! "restarts" = Some metrics.Counter.
Proof.
  destruct (@New sampleImports sampleParams "history" tt) as [h|e] eqn:E;
    [|vm_compute in E; discriminate E].
  exists h. split; [reflexivity|].
  assert (Hin : CounterInc "restarts" 1
                ∈ events (run [CallStop sampleStopEnv; CallStart sampleStartEnv] h)).
  { vm_compute in E. injection E as <-. vm_compute. constructor. }
  split; [exact Hin|].
  destruct (@only_the_declared_restart_counter_is_incremented sampleImports _ h _ _ Hin)
    as (Hname & _ & Hdecl).
  split; [exact Hname | exact Hdecl].
Defined.

End ResourceMoreWitnesses.

(* ===================================================================== *)
(** * Properties of the processing queue *)
(* ===================================================================== *)

Section QueueFacts.
Import engine queue.

(** The timer scenario of the testable properties: tasks 100, 101 and 102
    of shard 7 are persisted; 100 and 101 are fetched and complete, and the
    ack level is 101; 102 is fetched later and stays pending until it
    completes, and then the level is 102. *)
Example timer_scenario :
  ackHistory [OpGetTasks 2; OpUpdateAckLevel 100; OpUpdateAckLevel 101;
              OpGetTasks 2; OpUpdateAckLevel 102]
    (newSystem {| lastTaskID := 102;
                  tasks := [sampleTask 100 "d"; sampleTask 101 "d"; sampleTask 102 "d"] |}
       99 200 ⊤)
  = [99; 99; 100; 101; 101; 102].
Proof. vm_compute. reflexivity. Qed.

(** Tasks outside the filter or beyond the levels are not handed out, a
    batch is cut at its size, and the next batch goes on after it. *)
Example GetTasks_filters :
  let sys :=
    newSystem {| lastTaskID := 30;
                 tasks := [sampleTask 3 "a"; sampleTask 5 "a"; sampleTask 6 "b";
                           sampleTask 7 "a"; sampleTask 8 "a"; sampleTask 30 "a"] |}
      4 20 (FinGSet {["a"]}) in
  taskID <$> (GetTasks 2 sys).1 = [5; 7] ∧
  taskID <$> (GetTasks 2 (GetTasks 2 sys).2).1 = [8].
Proof. split; vm_compute; reflexivity. Qed.

(** The shard gives out growing task IDs. *)
Example createTask_ids :
  taskID <$> tasks (createTask 3 (sampleTask 0 "b")
                      (createTask 1 (sampleTask 0 "a")
                         {| lastTaskID := 4; tasks := [] |}))
  = [5; 8].
Proof. vm_compute. reflexivity. Qed.

(** ** The highest gap-free level *)

Lemma foldr_max_base (a : Z) (l : list Z) : a ≤ foldr Z.max a l.
Proof. induction l as [|x l IH]; simpl; lia. Qed.

Lemma foldr_max_elem (a x : Z) (l : list Z) : x ∈ l → x ≤ foldr Z.max a l.
Proof.
  induction l as [|y l IH]; [by intros ?%elem_of_nil|].
  intros [->|Hx]%elem_of_cons; simpl; [lia|]. specialize (IH Hx). lia.
Qed.

Lemma foldr_max_cases (a : Z) (l : list Z) :
  foldr Z.max a l = a ∨ foldr Z.max a l ∈ l.
Proof.
  induction l as [|y l [IH|IH]]; simpl; [by left| |].
  - destruct (Z.max_spec y (foldr Z.max a l)) as [[_ ->]|[_ ->]];
      [by left | right; set_solver].
  - right. destruct (Z.max_spec y (foldr Z.max a l)) as [[_ ->]|[_ ->]]; set_solver.
Qed.

Lemma highestGapFree_ge q : ackLevel (state q) ≤ highestGapFree q.
Proof. apply foldr_max_base. Qed.

Lemma highestGapFree_cases q :
  highestGapFree q = ackLevel (state q) ∨ gapFree q (highestGapFree q).
Proof.
  unfold highestGapFree.
  destruct (foldr_max_cases (ackLevel (state q))
              (filter (gapFree q) (elements (dom (outstanding q)))))
    as [E|E]; [by left|right].
  by apply list_elem_of_filter in E as [? _].
Qed.

Lemma highestGapFree_upper q t : gapFree q t → t ≤ highestGapFree q.
Proof.
  intros Hg. apply foldr_max_elem, list_elem_of_filter. split; [done|].
  apply elem_of_elements, elem_of_dom. destruct Hg as [Ht _]. by eexists.
Qed.

(** ** The ack level never goes back *)

Lemma markCompleted_state id q : state (markCompleted id q) = state q.
Proof. unfold markCompleted. by destruct (outstanding q !! id). Qed.

Lemma step_ack_mono sys op : ackOf sys ≤ ackOf (step sys op).
Proof.
  destruct op as [gap t|n|id|level]; unfold ackOf; simpl; [done|done| |done].
  etrans; [|apply highestGapFree_ge]. by rewrite markCompleted_state.
Qed.

Lemma run_ack_mono ops sys : ackOf sys ≤ ackOf (run ops sys).
Proof.
  revert sys. induction ops as [|op ops IH]; intros sys; simpl; [done|].
  etrans; [apply (step_ack_mono sys op)|apply IH].
Qed.

Lemma run_app ops1 ops2 sys : run (ops1 ++ ops2) sys = run ops2 (run ops1 sys).
Proof. apply foldl_app. Qed.

(** ** Ordered lists of tasks *)

Lemma sorted_filter (P : Task → Prop) `{!∀ t, Decision (P t)} (l : list Task) :
  StronglySorted (λ t1 t2, taskID t1 < taskID t2) l →
  StronglySorted (λ t1 t2, taskID t1 < taskID t2) (filter P l).
Proof.
  induction 1 as [|t l Hl IH Hall]; [constructor|].
  rewrite filter_cons. case_decide; [|done].
  constructor; [done|]. rewrite Forall_forall in Hall. apply Forall_forall.
  intros t' [_ Ht']%list_elem_of_filter. by apply Hall.
Qed.

(** In a list ordered by task ID, a prefix holds every element whose ID is
    not above that of one of its own. *)
Lemma sorted_take_closed (l : list Task) (n : nat) (t t' : Task) :
  StronglySorted (λ t1 t2, taskID t1 < taskID t2) l →
  t' ∈ take n l → t ∈ l → taskID t ≤ taskID t' → t ∈ take n l.
Proof.
  intros Hs Ht' Ht Hle.
  rewrite <- (take_drop n l) in Hs. rewrite <- (take_drop n l) in Ht.
  apply elem_of_app in Ht as [Ht|Ht]; [done|].
  pose proof (StronglySorted_app_1_elem_of _ _ _ _ _ Hs Ht' Ht) as Hlt.
  simpl in Hlt. lia.
Qed.

Lemma createTask_ordered gap t s : ordered s → ordered (createTask gap t s).
Proof.
  intros [Hs Hb]. rewrite Forall_forall in Hb. split; simpl.
  - apply StronglySorted_app_2; [|done|repeat constructor].
    intros t1 t2 Ht1 ->%list_elem_of_singleton. simpl.
    specialize (Hb t1 Ht1). lia.
  - apply Forall_app. split.
    + apply Forall_forall. intros t1 Ht1. specialize (Hb t1 Ht1). lia.
    + repeat constructor. simpl. lia.
Qed.

(** ** The ack tracking *)

Lemma track_lookup (batch : list Task) (m : gmap Z bool) (id : Z) (b : bool) :
  foldr (λ (t : Task) m, <[taskID t := false]> m) m batch !! id = Some b →
  (b = false ∧ ∃ t, t ∈ batch ∧ taskID t = id) ∨ m !! id = Some b.
Proof.
  induction batch as [|t batch IH]; simpl; [by right|].
  destruct (decide (taskID t = id)) as [<-|Hne].
  - rewrite lookup_insert_eq. intros [= <-]. left. split; [done|].
    exists t. split; [left|done].
  - rewrite lookup_insert_ne by done. intros [[-> (t' & Ht' & E)]|Hm]%IH.
    + left. split; [done|]. exists t'. split; [by right|done].
    + by right.
Qed.

Lemma track_lookup_other (batch : list Task) (m : gmap Z bool) (id : Z) :
  (∀ t, t ∈ batch → taskID t ≠ id) →
  foldr (λ (t : Task) m, <[taskID t := false]> m) m batch !! id = m !! id.
Proof.
  induction batch as [|t batch IH]; intros Hne; simpl; [done|].
  rewrite lookup_insert_ne by (apply Hne; left).
  apply IH. intros t' Ht'. apply Hne. by right.
Qed.

Lemma track_is_Some (batch : list Task) (m : gmap Z bool) (id : Z) :
  is_Some (m !! id) ∨ (∃ t, t ∈ batch ∧ taskID t = id) →
  is_Some (foldr (λ (t : Task) m, <[taskID t := false]> m) m batch !! id).
Proof.
  induction batch as [|t batch IH]; simpl.
  - intros [?|(t & Ht%elem_of_nil & _)]; done.
  - intros Hor. destruct (decide (taskID t = id)) as [<-|Hne].
    + rewrite lookup_insert_eq. by eexists.
    + rewrite lookup_insert_ne by done. apply IH.
      destruct Hor as [?|(t' & [->|Ht']%elem_of_cons & E)]; [by left|done|].
      right. by exists t'.
Qed.

Lemma markCompleted_lookup id q id1 b :
  outstanding (markCompleted id q) !! id1 = Some b →
  ∃ b0, outstanding q !! id1 = Some b0 ∧ (b = b0 ∨ (id1 = id ∧ b = true)).
Proof.
  unfold markCompleted. destruct (outstanding q !! id) as [old|] eqn:E; simpl.
  - destruct (decide (id = id1)) as [<-|Hne].
    + rewrite lookup_insert_eq. intros [= <-]. exists old. split; [done|]. by right.
    + rewrite lookup_insert_ne by done. intros Hl. exists b. split; [done|]. by left.
  - intros Hl. exists b. split; [done|]. by left.
Qed.

Lemma markCompleted_is_Some id q id1 :
  is_Some (outstanding q !! id1) → is_Some (outstanding (markCompleted id q) !! id1).
Proof.
  unfold markCompleted. destruct (outstanding q !! id) as [old|] eqn:E; simpl; [|done].
  destruct (decide (id = id1)) as [<-|Hne].
  - rewrite lookup_insert_eq. by eexists.
  - by rewrite lookup_insert_ne.
Qed.

Lemma markCompleted_keeps id q id1 :
  outstanding q !! id1 = Some true → outstanding (markCompleted id q) !! id1 = Some true.
Proof.
  unfold markCompleted. destruct (outstanding q !! id) as [old|] eqn:E; simpl; [|done].
  destruct (decide (id = id1)) as [<-|Hne].
  - by rewrite lookup_insert_eq.
  - by rewrite lookup_insert_ne.
Qed.

Lemma markCompleted_marks id q :
  is_Some (outstanding q !! id) → outstanding (markCompleted id q) !! id = Some true.
Proof.
  intros [old E]. unfold markCompleted. rewrite E. simpl. by rewrite lookup_insert_eq.
Qed.

(** ** What a batch holds *)

Lemma GetTasks_batch n sys t :
  t ∈ (GetTasks n sys).1 →
  t ∈ tasks (persisted sys) ∧
  domainID t ∈ domainFilter (state (queue sys)) ∧
  ackOf sys < taskID t ≤ maxLevel (state (queue sys)) ∧
  outstanding (queue sys) !! taskID t = None.
Proof.
  simpl. intros Ht%subseteq_take.
  apply list_elem_of_filter in Ht as [Hnone Ht].
  apply list_elem_of_filter in Ht as [(Hlo & Hhi & Hd) Ht].
  unfold ackOf. done.
Qed.

(** A batch holds the lowest task IDs that can be handed out: a persisted
    task of the range and filter that has not been handed out and whose ID
    is not above that of a task of the batch is in the batch as well. *)
Lemma GetTasks_lowest_first n sys t t' :
  ordered (persisted sys) →
  t' ∈ (GetTasks n sys).1 →
  t ∈ tasks (persisted sys) →
  domainID t ∈ domainFilter (state (queue sys)) →
  ackOf sys < taskID t → taskID t ≤ taskID t' →
  outstanding (queue sys) !! taskID t = None →
  t ∈ (GetTasks n sys).1.
Proof.
  intros [Hs _] Ht' Ht Hd Hlo Hle Hnone.
  pose proof (GetTasks_batch n sys t' Ht') as (_ & _ & [_ Hhi] & _).
  simpl in *. eapply sorted_take_closed; [|exact Ht'| |exact Hle].
  - by apply sorted_filter, sorted_filter.
  - apply list_elem_of_filter. split; [done|].
    apply list_elem_of_filter. unfold ackOf in Hlo. split; [|done].
    split_and!; [done|lia|done].
Qed.

(** ** The invariant *)

Lemma newSystem_consistent s a m F : ordered s → consistent a F (newSystem s a m F).
Proof.
  intros Hs. unfold consistent, completed, ackOf. simpl.
  split_and!; [done|done|done|by left| | |].
  - intros id b. by rewrite lookup_empty.
  - intros t id' b _ _ _. by rewrite lookup_empty.
  - intros t _ _ ? ?. lia.
Qed.

Lemma create_consistent a0 F gap t sys :
  consistent a0 F sys → consistent a0 F (step sys (OpCreateTask gap t)).
Proof.
  intros (Hord & HF & Hge & Hlast & Htracked & Hskip & Hgaps).
  pose proof Hord as [_ Hb]. rewrite Forall_forall in Hb.
  assert (Hbelow : ∀ id b, outstanding (queue sys) !! id = Some b →
                           id ≤ lastTaskID (persisted sys)).
  { intros id b Hl. destruct (Htracked id b Hl) as (t1 & Ht1 & <- & _). by apply Hb. }
  unfold consistent, completed, ackOf in *. simpl.
  split_and!; [by apply createTask_ordered|done|done| | | |].
  - destruct Hlast as [?|?]; [by left|right; lia].
  - intros id b Hl. destruct (Htracked id b Hl) as (t1 & Ht1 & ?).
    exists t1. split; [|done]. apply elem_of_app. by left.
  - intros t1 id' b [Ht1| ->%list_elem_of_singleton]%elem_of_app Hd Ha Hl Hle.
    + by eapply Hskip.
    + simpl in Hle. specialize (Hbelow id' b Hl). lia.
  - intros t1 [Ht1| ->%list_elem_of_singleton]%elem_of_app Hd Ha Hle.
    + by apply Hgaps.
    + simpl in Ha, Hle. destruct Hlast as [E|?]; lia.
Qed.

Lemma GetTasks_consistent a0 F n sys :
  consistent a0 F sys → consistent a0 F (step sys (OpGetTasks n)).
Proof.
  intros (Hord & HF & Hge & Hlast & Htracked & Hskip & Hgaps).
  unfold consistent. split_and!; [done|done|done|done| | |].
  - intros id b Hl. simpl in Hl.
    apply track_lookup in Hl as [[-> (t & Ht & <-)]|Hl]; [|by apply (Htracked id b)].
    apply (GetTasks_batch n sys) in Ht as (Hin & Hd & [Hlo _] & _).
    exists t. rewrite <- HF. split_and!; [done|done|done|lia].
  - intros t id' b Ht Hd Ha Hl Hle.
    change (outstanding (queue (step sys (OpGetTasks n))))
      with (foldr (λ (t : Task) m, <[taskID t := false]> m)
              (outstanding (queue sys)) (GetTasks n sys).1) in *.
    apply track_is_Some.
    destruct (outstanding (queue sys) !! taskID t) as [b0|] eqn:Hold; [left; by eexists|].
    right. exists t. split; [|done].
    apply track_lookup in Hl as [[_ (t' & Ht' & <-)]|Hl].
    + apply (GetTasks_lowest_first n sys t t'); [done|done|done|by rewrite HF| |done|done].
      destruct (decide (taskID t ≤ ackOf sys)) as [Hack|]; [|lia].
      specialize (Hgaps t Ht Hd Ha Hack). unfold completed in Hgaps. congruence.
    + destruct (Hskip t id' b Ht Hd Ha Hl Hle) as [? ?]. congruence.
  - intros t Ht Hd Ha Hle. unfold completed.
    change (outstanding (queue (step sys (OpGetTasks n))))
      with (foldr (λ (t : Task) m, <[taskID t := false]> m)
              (outstanding (queue sys)) (GetTasks n sys).1).
    rewrite track_lookup_other; [by apply Hgaps|].
    intros t' Ht' E.
    apply (GetTasks_batch n sys) in Ht' as (_ & _ & _ & Hnone).
    specialize (Hgaps t Ht Hd Ha Hle). unfold completed in Hgaps.
    rewrite E in Hnone. congruence.
Qed.

Lemma UpdateAckLevel_consistent a0 F id sys :
  consistent a0 F sys → consistent a0 F (step sys (OpUpdateAckLevel id)).
Proof.
  intros (Hord & HF & Hge & Hlast & Htracked & Hskip & Hgaps).
  pose proof Hord as [_ Hb]. rewrite Forall_forall in Hb.
  set (qm := markCompleted id (queue sys)).
  assert (Htracked' : ∀ id1 b, outstanding qm !! id1 = Some b →
            ∃ t, t ∈ tasks (persisted sys) ∧ taskID t = id1 ∧ domainID t ∈ F ∧ a0 < id1).
  { intros id1 b (b0 & Hl & _)%markCompleted_lookup. by apply (Htracked id1 b0). }
  assert (Hskip' : ∀ t id' b,
            t ∈ tasks (persisted sys) → domainID t ∈ F → a0 < taskID t →
            outstanding qm !! id' = Some b → taskID t ≤ id' →
            is_Some (outstanding qm !! taskID t)).
  { intros t id' b Ht Hd Ha (b0 & Hl & _)%markCompleted_lookup Hle.
    apply markCompleted_is_Some. by eapply Hskip. }
  assert (Hstate : ackLevel (state qm) = ackOf sys)
    by (unfold qm; by rewrite markCompleted_state).
  unfold consistent, completed, ackOf in *. simpl. fold qm.
  split_and!; [done| |..|done|done|].
  - unfold qm. by rewrite markCompleted_state.
  - pose proof (highestGapFree_ge qm). lia.
  - destruct (highestGapFree_cases qm) as [->|[Ht _]].
    + by rewrite Hstate.
    + right. destruct (Htracked' _ _ Ht) as (t & Hin & <- & _). by apply Hb.
  - intros t Ht Hd Ha Hle.
    destruct (highestGapFree_cases qm) as [E|[Htop Hbelow]].
    + apply markCompleted_keeps, Hgaps; [done|done|done|]. rewrite E, Hstate in Hle. done.
    + destruct (Hskip' t _ _ Ht Hd Ha Htop Hle) as [b Hl].
      destruct (decide (taskID t = highestGapFree qm)) as [E|Hne].
      * by rewrite E.
      * rewrite Hl. f_equal. apply (Hbelow (taskID t) b Hl). lia.
Qed.

Lemma step_consistent a0 F sys op :
  consistent a0 F sys → consistent a0 F (step sys op).
Proof.
  destruct op as [gap t|n|id|level].
  - apply create_consistent.
  - apply GetTasks_consistent.
  - apply UpdateAckLevel_consistent.
  - done.
Qed.

Lemma run_consistent a0 F ops sys :
  consistent a0 F sys → consistent a0 F (run ops sys).
Proof.
  revert sys. induction ops as [|op ops IH]; intros sys Hsys; simpl; [done|].
  by apply IH, step_consistent.
Qed.

(** An uncompleted task of the filter holds the level below its ID,
    whether it was handed out or not. *)
Lemma consistent_pending a0 F sys t :
  consistent a0 F sys →
  t ∈ tasks (persisted sys) → domainID t ∈ F → a0 < taskID t →
  ¬ completed sys (taskID t) → ackOf sys < taskID t.
Proof.
  intros (_ & _ & _ & _ & _ & _ & Hgaps) Ht Hd Ha Hnot.
  destruct (decide (taskID t ≤ ackOf sys)) as [Hle|]; [|lia].
  destruct Hnot. by apply Hgaps.
Qed.

(** The level an update reaches is the highest gap-free one, gaps counted
    over all persisted tasks of the filter. *)
Lemma consistent_highest a0 F sys id level :
  consistent a0 F sys →
  completed (step sys (OpUpdateAckLevel id)) level →
  (∀ t, t ∈ tasks (persisted sys) → domainID t ∈ F → a0 < taskID t →
        taskID t < level → completed (step sys (OpUpdateAckLevel id)) (taskID t)) →
  level ≤ ackOf (step sys (OpUpdateAckLevel id)).
Proof.
  intros (_ & _ & _ & _ & Htracked & _ & _) Hlevel Hall.
  unfold completed, ackOf in *. simpl in *.
  apply highestGapFree_upper. split; [done|].
  intros id1 b Hl Hlt.
  pose proof Hl as (b0 & Hl0 & _)%markCompleted_lookup.
  destruct (Htracked id1 b0 Hl0) as (t & Ht & <- & Hd & Ha).
  specialize (Hall t Ht Hd Ha Hlt). congruence.
Qed.

Lemma UpdateAckLevel_target id sys :
  ackOf (step sys (OpUpdateAckLevel id)) = ackOf sys ∨
  completed (step sys (OpUpdateAckLevel id)) (ackOf (step sys (OpUpdateAckLevel id))).
Proof.
  unfold completed, ackOf. simpl.
  destruct (highestGapFree_cases (markCompleted id (queue sys))) as [E|[Ht _]].
  - left. by rewrite E, markCompleted_state.
  - by right.
Qed.

(** ** What the operations keep *)

Lemma step_tasks_grow sys op t :
  t ∈ tasks (persisted sys) → t ∈ tasks (persisted (step sys op)).
Proof.
  destruct op as [gap t'|n|id|level]; simpl; [|done..].
  intros Ht. apply elem_of_app. by left.
Qed.

Lemma run_tasks_grow ops sys t :
  t ∈ tasks (persisted sys) → t ∈ tasks (persisted (run ops sys)).
Proof.
  revert sys. induction ops as [|op ops IH]; intros sys Ht; simpl; [done|].
  by apply IH, step_tasks_grow.
Qed.

(** The tasks created during a run have IDs above the last one given out
    before it. *)
Lemma run_tasks_new ops sys t :
  t ∈ tasks (persisted (run ops sys)) →
  t ∈ tasks (persisted sys) ∨ lastTaskID (persisted sys) < taskID t.
Proof.
  revert sys. induction ops as [|op ops IH]; intros sys Ht; simpl in Ht; [by left|].
  apply IH in Ht as [Ht|Hlt].
  - destruct op as [gap t'|n|id|level]; simpl in Ht; [|by left..].
    apply elem_of_app in Ht as [Ht| ->%list_elem_of_singleton]; [by left|].
    right. simpl. lia.
  - right. destruct op as [gap t'|n|id|level]; simpl in Hlt; lia.
Qed.

(** A task completes only through the update for its ID. *)
Lemma step_completed_inv sys op id :
  completed (step sys op) id → completed sys id ∨ op = OpUpdateAckLevel id.
Proof.
  unfold completed. destruct op as [gap t|n|id'|level]; simpl; [by left| | |by left].
  - intros [[[=] _]|Hl]%track_lookup. by left.
  - intros (b0 & Hl & [<-|[-> _]])%markCompleted_lookup; [by left|by right].
Qed.

Lemma run_completed_inv ops sys id :
  Forall (λ op, op ≠ OpUpdateAckLevel id) ops →
  completed (run ops sys) id → completed sys id.
Proof.
  intros Hops. revert sys.
  induction Hops as [|op ops Hop _ IH]; intros sys Hc; simpl in Hc; [done|].
  apply IH in Hc. by apply step_completed_inv in Hc as [?|?].
Qed.

(** ** The scenario: tasks 5 and 6 of one ordering key *)

Lemma GetTasks_two (a m l : Z) (F : coGset string) (n : nat) (t1 t2 : Task) :
  a < taskID t1 → taskID t1 < taskID t2 → taskID t2 ≤ m →
  domainID t1 ∈ F → domainID t2 ∈ F → (2 ≤ n)%nat →
  queue (GetTasks n (newSystem {| lastTaskID := l; tasks := [t1; t2] |} a m F)).2 =
    {| state := {| ackLevel := a; maxLevel := m; domainFilter := F |};
       outstanding := <[taskID t1 := false]> (<[taskID t2 := false]> ∅) |}.
Proof.
  intros H1 H12 H2 Hd1 Hd2 Hn. unfold GetTasks, persistence_GetTasks. simpl.
  rewrite (filter_cons_True _ t1) by (split_and!; (done || lia)).
  rewrite (filter_cons_True _ t2) by (split_and!; (done || lia)).
  rewrite filter_nil.
  rewrite (filter_cons_True _ t1) by apply lookup_empty.
  rewrite (filter_cons_True _ t2) by apply lookup_empty.
  rewrite filter_nil.
  destruct n as [|[|n]]; [lia|lia|]. simpl. rewrite take_nil. reflexivity.
Qed.

(** The queue holding tasks 5 and 6, with 6 completed first and then 5. *)
Lemma scenario_levels (a m : Z) (F : coGset string) :
  a ≤ 4 →
  let q1 := {| state := {| ackLevel := a; maxLevel := m; domainFilter := F |};
               outstanding := <[5 := false]> (<[6 := false]> ∅) |} in
  ackLevel (state (UpdateAckLevel 6 q1)) = a ∧
  ackLevel (state (UpdateAckLevel 5 (UpdateAckLevel 6 q1))) = 6.
Proof.
  intros Ha q1.
  assert (Hout6 : outstanding (UpdateAckLevel 6 q1)
                  = <[6 := true]> (<[5 := false]> (<[6 := false]> ∅))) by done.
  assert (Htarget : ∀ id q,
            ackLevel (state (UpdateAckLevel id q)) = ackLevel (state q) ∨
            gapFree (markCompleted id q) (ackLevel (state (UpdateAckLevel id q)))).
  { intros id q. simpl. rewrite <- (markCompleted_state id q).
    apply highestGapFree_cases. }
  assert (Hack6 : ackLevel (state (UpdateAckLevel 6 q1)) = a).
  { destruct (Htarget 6 q1) as [E|[Ht Hbelow]]; [done|].
    exfalso. change (outstanding (markCompleted 6 q1))
      with (<[6 := true]> (<[5 := false]> (<[6 := false]> (∅ : gmap Z bool))))
      in Ht, Hbelow.
    set (t := ackLevel (state (UpdateAckLevel 6 q1))) in *.
    assert (t = 6) as Et.
    { destruct (decide (t = 6)) as [|Hne]; [done|].
      rewrite lookup_insert_ne in Ht by done.
      destruct (decide (t = 5)) as [->|Hne'].
      - by rewrite lookup_insert_eq in Ht.
      - rewrite lookup_insert_ne in Ht by done.
        rewrite lookup_insert_ne in Ht by done. by rewrite lookup_empty in Ht. }
    assert (false = true); [|done].
    apply (Hbelow 5); [|lia].
    rewrite lookup_insert_ne by done. by rewrite lookup_insert_eq. }
  split; [done|].
  set (qa := UpdateAckLevel 6 q1) in *.
  assert (Hm5 : outstanding (markCompleted 5 qa)
                = <[5 := true]> (<[6 := true]> (<[5 := false]> (<[6 := false]> ∅)))).
  { unfold markCompleted. rewrite Hout6.
    rewrite lookup_insert_ne by done. by rewrite lookup_insert_eq. }
  apply Z.le_antisymm.
  - destruct (Htarget 5 qa) as [E|[Ht _]]; [lia|].
    rewrite Hm5 in Ht.
    set (t := ackLevel (state (UpdateAckLevel 5 qa))) in *.
    destruct (decide (t = 5)) as [->|H5]; [lia|].
    destruct (decide (t = 6)) as [->|H6]; [lia|].
    exfalso. do 4 (rewrite lookup_insert_ne in Ht by done).
    by rewrite lookup_empty in Ht.
  - apply highestGapFree_upper. split.
    + rewrite Hm5. rewrite lookup_insert_ne by done. by rewrite lookup_insert_eq.
    + rewrite Hm5. intros id b Hl _.
      destruct (decide (id = 5)) as [->|H5];
        [rewrite lookup_insert_eq in Hl; congruence|].
      rewrite lookup_insert_ne in Hl by done.
      destruct (decide (id = 6)) as [->|H6];
        [rewrite lookup_insert_eq in Hl; congruence|].
      do 3 (rewrite lookup_insert_ne in Hl by done).
      by rewrite lookup_empty in Hl.
Qed.

(** A persisted task that was not handed out holds the level as well:
    with batches of one, task 5 is handed out before task 6, the completion
    of a task not handed out yet counts for nothing, and task 6 completing
    first leaves the level at 4. *)
Example unread_task_holds_level :
  let sys := newSystem {| lastTaskID := 6;
                          tasks := [sampleTask 5 "a"; sampleTask 6 "a"] |} 4 100 ⊤ in
  ackHistory [OpGetTasks 1; OpUpdateAckLevel 6] sys = [4; 4; 4] ∧
  ackHistory [OpGetTasks 1; OpGetTasks 1; OpUpdateAckLevel 6] sys = [4; 4; 4; 4] ∧
  ackHistory [OpGetTasks 1; OpGetTasks 1; OpUpdateAckLevel 6; OpUpdateAckLevel 5] sys
    = [4; 4; 4; 4; 6].
Proof. repeat split; vm_compute; reflexivity. Qed.

(** C1.  The ack level of a processing queue (of any shard and category)
    never decreases over time.  In every state reached from a new queue
    over an ordered store of persisted tasks -- tasks being created, handed
    out and completed in any order -- every persisted task of the queue's
    domain filter above the level the queue started from that has not
    completed, handed out or not, has an ID above the ack level: the level
    passes no uncompleted task of the filter.  The tasks handed out are
    persisted tasks of the filter between the levels.  An update leaves
    the level or moves it to the ID of a completed task, and to the highest
    one below which every persisted task of the filter has completed.  In
    particular, for persisted tasks 5 and 6 of one ordering key and a queue
    whose ack level is at most 4: whatever happens, as long as task 5 has
    not completed the ack level stays at or below 4, also when task 6
    completes; and when task 5 completes after task 6 has, the ack level
    is at least 6 (and exactly 6 when the two are handed out, 6 completes
    and then 5). *)
Theorem ack_level_monotone_without_gaps
    (a m l : Z) (F : coGset string) (n : nat) (t5 t6 : Task) (prio : Z) :
  a ≤ 4 → 6 ≤ m → 6 ≤ l → (2 ≤ n)%nat →
  taskID t5 = 5 → taskID t6 = 6 →
  orderingKey (newSchedulerItem t5 prio) = orderingKey (newSchedulerItem t6 prio) →
  domainID t5 ∈ F →
  (∀ sys ops1 ops2, ackOf (run ops1 sys) ≤ ackOf (run (ops1 ++ ops2) sys)) ∧
  (∀ s ack max filter ops t,
     ordered s →
     t ∈ tasks (persisted (run ops (newSystem s ack max filter))) →
     domainID t ∈ filter → ack < taskID t →
     ¬ completed (run ops (newSystem s ack max filter)) (taskID t) →
     ackOf (run ops (newSystem s ack max filter)) < taskID t) ∧
  (∀ k sys t,
     t ∈ (GetTasks k sys).1 →
     t ∈ tasks (persisted sys) ∧
     domainID t ∈ domainFilter (state (queue sys)) ∧
     ackOf sys < taskID t ≤ maxLevel (state (queue sys))) ∧
  (∀ s ack max filter ops id,
     ordered s →
     (ackOf (step (run ops (newSystem s ack max filter)) (OpUpdateAckLevel id))
        = ackOf (run ops (newSystem s ack max filter)) ∨
      completed (step (run ops (newSystem s ack max filter)) (OpUpdateAckLevel id))
        (ackOf (step (run ops (newSystem s ack max filter)) (OpUpdateAckLevel id)))) ∧
     (∀ level,
        completed (step (run ops (newSystem s ack max filter)) (OpUpdateAckLevel id))
          level →
        (∀ t, t ∈ tasks (persisted (run ops (newSystem s ack max filter))) →
              domainID t ∈ filter → ack < taskID t → taskID t < level →
              completed (step (run ops (newSystem s ack max filter))
                           (OpUpdateAckLevel id)) (taskID t)) →
        level ≤ ackOf (step (run ops (newSystem s ack max filter))
                         (OpUpdateAckLevel id)))) ∧
  (∀ ops,
     Forall (λ op, op ≠ OpUpdateAckLevel 5) ops →
     ackOf (run ops (newSystem {| lastTaskID := l; tasks := [t5; t6] |} a m F)) ≤ 4) ∧
  (∀ ops,
     completed (run ops (newSystem {| lastTaskID := l; tasks := [t5; t6] |} a m F)) 6 →
     is_Some (outstanding
                (queue (run ops (newSystem {| lastTaskID := l; tasks := [t5; t6] |} a m F)))
              !! 5) →
     6 ≤ ackOf (step (run ops (newSystem {| lastTaskID := l; tasks := [t5; t6] |} a m F))
                  (OpUpdateAckLevel 5))) ∧
  ackHistory [OpGetTasks n; OpUpdateAckLevel 6; OpUpdateAckLevel 5]
    (newSystem {| lastTaskID := l; tasks := [t5; t6] |} a m F) = [a; a; a; 6].
Proof.
  intros Ha Hm Hl Hn E5 E6 Hkey HF. simpl in Hkey.
  set (s56 := {| lastTaskID := l; tasks := [t5; t6] |}).
  assert (Hord : ordered s56).
  { split; simpl.
    - repeat constructor. simpl. lia.
    - repeat constructor; simpl; lia. }
  split_and!.
  - intros sys ops1 ops2. rewrite run_app. apply run_ack_mono.
  - intros s ack max filter ops t Hs Ht Hd Hlo Hnot.
    eapply consistent_pending; [|exact Ht|exact Hd|exact Hlo|exact Hnot].
    by apply run_consistent, newSystem_consistent.
  - intros k sys t Ht. by apply GetTasks_batch in Ht as (? & ? & ? & _).
  - intros s ack max filter ops id Hs. split; [apply UpdateAckLevel_target|].
    intros level Hlevel Hall. eapply consistent_highest; [|exact Hlevel|exact Hall].
    by apply run_consistent, newSystem_consistent.
  - intros ops Hops.
    assert (ackOf (run ops (newSystem s56 a m F)) < taskID t5) as Hlt; [|lia].
    eapply consistent_pending.
    + by apply run_consistent, newSystem_consistent.
    + apply run_tasks_grow. simpl. left.
    + done.
    + lia.
    + rewrite E5. intros Hc. apply run_completed_inv in Hc; [|done].
      unfold completed in Hc. simpl in Hc. by rewrite lookup_empty in Hc.
  - intros ops H6 H5.
    eapply consistent_highest.
    + by apply run_consistent, newSystem_consistent.
    + unfold completed. simpl. by apply markCompleted_keeps.
    + intros t Ht Hd Hlo Hlt. unfold completed. simpl.
      apply run_tasks_new in Ht as [Ht|Hnew]; simpl in *; [|lia].
      apply elem_of_cons in Ht as [->|Ht].
      * rewrite E5. by apply markCompleted_marks.
      * apply list_elem_of_singleton in Ht as ->. lia.
  - set (sys1 := (GetTasks n (newSystem s56 a m F)).2).
    assert (Hq1 : queue sys1 =
                  {| state := {| ackLevel := a; maxLevel := m; domainFilter := F |};
                     outstanding := <[5 := false]> (<[6 := false]> ∅) |}).
    { unfold sys1, s56. rewrite GetTasks_two;
        [by rewrite E5, E6|lia|lia|lia|done|by rewrite <- Hkey|done]. }
    destruct (scenario_levels a m F Ha) as [H6 H5].
    change (ackHistory [OpGetTasks n; OpUpdateAckLevel 6; OpUpdateAckLevel 5]
              (newSystem s56 a m F))
      with [a; ackLevel (state (queue sys1));
            ackLevel (state (UpdateAckLevel 6 (queue sys1)));
            ackLevel (state (UpdateAckLevel 5 (UpdateAckLevel 6 (queue sys1))))].
    rewrite Hq1, H6, H5. reflexivity.
Qed.

Lemma ack_level_monotone_without_gaps_witness :
  ackHistory [OpGetTasks 10; OpUpdateAckLevel 6; OpUpdateAckLevel 5]
    (newSystem {| lastTaskID := 6;
                  tasks := [sampleTask 5 "domain-a"; sampleTask 6 "domain-a"] |}
       4 100 (FinGSet {["domain-a"]})) = [4; 4; 4; 6] ∧
  ackOf (run [OpGetTasks 1; OpUpdateAckLevel 6; OpCreateTask 1 (sampleTask 0 "domain-a");
              OpGetTasks 5; OpUpdateAckLevel 6; OpUpdateAckLevel 7]
           (newSystem {| lastTaskID := 6;
                         tasks := [sampleTask 5 "domain-a"; sampleTask 6 "domain-a"] |}
              4 100 (FinGSet {["domain-a"]}))) ≤ 4.
Proof.
  destruct (ack_level_monotone_without_gaps 4 100 6 (FinGSet {["domain-a"]}) 10
              (sampleTask 5 "domain-a") (sampleTask 6 "domain-a") 0)
    as (_ & _ & _ & _ & Hstay & _ & Hhist).
  - lia.
  - lia.
  - lia.
  - lia.
  - reflexivity.
  - reflexivity.
  - reflexivity.
  - by vm_compute.
  - split; [exact Hhist|]. apply Hstay.
    repeat constructor; discriminate.
Defined.

End QueueFacts.

(* ===================================================================== *)
(** * Properties of queue splitting and merging *)
(* ===================================================================== *)

Section SplitFacts.
Import queue.

Implicit Types F G D W : coGset string.
Implicit Types Fs Gs : list (coGset string).

(** The universal queue is split by the domain sets {a, b} and {b, c}: the
    sub-queues get {a, b}, {c} and everything but a, b, c. *)
Example sample_split :
  splitFilter ⊤ [FinGSet {["a"; "b"]}; FinGSet {["b"; "c"]}]
  = [FinGSet {["a"; "b"]}; FinGSet {["c"]}; CoFinGset {["a"; "b"; "c"]}].
Proof. by_compute. Qed.

(** ** Pairwise disjoint lists of filters *)

Lemma pairwiseDisjoint_nil : pairwiseDisjoint [].
Proof. intros i j F G _ Hi. by rewrite lookup_nil in Hi. Qed.

Lemma pairwiseDisjoint_cons F Fs :
  pairwiseDisjoint (F :: Fs) ↔ (∀ G, G ∈ Fs → F ## G) ∧ pairwiseDisjoint Fs.
Proof.
  split.
  - intros Hpd. split.
    + intros G [j Hj]%list_elem_of_lookup_1.
      by apply (Hpd 0%nat (S j) F G).
    + intros i j G1 G2 Hij Hi Hj.
      apply (Hpd (S i) (S j) G1 G2); [lia|done|done].
  - intros [Hhead Htail] i j G1 G2 Hij Hi Hj.
    destruct i as [|i], j as [|j]; simpl in Hi, Hj; simplify_eq.
    + apply Hhead. by eapply list_elem_of_lookup_2.
    + symmetry. apply Hhead. by eapply list_elem_of_lookup_2.
    + apply (Htail i j); [lia|done|done].
Qed.

Lemma pairwiseDisjoint_app Fs Gs :
  pairwiseDisjoint (Fs ++ Gs) ↔
  pairwiseDisjoint Fs ∧ pairwiseDisjoint Gs ∧ (∀ F G, F ∈ Fs → G ∈ Gs → F ## G).
Proof.
  induction Fs as [|F Fs IH]; simpl.
  - split; [|by intros (_ & ? & _)].
    intros Hpd. split; [apply pairwiseDisjoint_nil|]. split; [done|].
    by intros F G ?%elem_of_nil.
  - rewrite !pairwiseDisjoint_cons, IH. split.
    + intros (Hhead & HFs & HGs & Hcross). split_and!; [|done|done|].
      * intros G HG. apply Hhead, elem_of_app. by left.
      * intros F' G [->|HF']%elem_of_cons HG; [|by apply Hcross].
        apply Hhead, elem_of_app. by right.
    + intros ((Hhead & HFs) & HGs & Hcross). split_and!; [|done|done|].
      * intros G [HG|HG]%elem_of_app; [by apply Hhead|].
        apply Hcross; [left|done].
      * intros F' G HF' HG. apply Hcross; [by right|done].
Qed.

(** Replacing one filter of a partition by a partition of that filter. *)
Lemma partitions_replace Fs F Gs parts W :
  partitions (Fs ++ F :: Gs) W → partitions parts F →
  partitions (Fs ++ parts ++ Gs) W.
Proof.
  intros [HU Hpd] [HUp Hpdp].
  assert (Hsub : ∀ G, G ∈ parts → G ⊆ F).
  { intros G HG x Hx. rewrite <- HUp. apply elem_of_union_list. eauto. }
  split.
  - rewrite <- HU. rewrite !union_list_app_L, union_list_cons, HUp. done.
  - apply pairwiseDisjoint_app in Hpd as (HFs & HFGs & Hcross).
    apply pairwiseDisjoint_cons in HFGs as [Hhead HGs].
    apply pairwiseDisjoint_app. split_and!; [done| |].
    + apply pairwiseDisjoint_app. split_and!; [done|done|].
      intros G1 G2 H1 H2. specialize (Hsub G1 H1). specialize (Hhead G2 H2).
      set_solver + Hsub Hhead.
    + intros G1 G2 H1 [H2|H2]%elem_of_app.
      * specialize (Hsub G2 H2).
        assert (Hd : G1 ## F) by (apply Hcross; [done|left]). set_solver + Hsub Hd.
      * apply Hcross; [done|by right].
Qed.

(** Every position but [j] of a list survives the replacement at [i] and
    the removal of [j]. *)
Lemma lookup_merged {A} (l : list A) (i j : nat) (x : A) (k : nat) :
  i ≠ j → (i < length l)%nat → k ≠ j →
  ∃ k', delete j (<[i := x]> l) !! k' = if decide (k = i) then Some x else l !! k.
Proof.
  intros Hij Hlen Hkj.
  exists (if decide (k < j)%nat then k else pred k).
  rewrite list_lookup_delete.
  replace (if decide ((if decide (k < j)%nat then k else pred k) < j)%nat
           then if decide (k < j)%nat then k else pred k
           else S (if decide (k < j)%nat then k else pred k)) with k
    by (repeat case_decide; lia).
  destruct (decide (k = i)) as [->|Hki].
  - by rewrite list_lookup_insert_eq.
  - by rewrite list_lookup_insert_ne.
Qed.

(** Merging two filters of a partition: the union takes the place of the
    first, the second goes. *)
Lemma partitions_merge Fs (i j : nat) Fi Fj W :
  i ≠ j → Fs !! i = Some Fi → Fs !! j = Some Fj →
  partitions Fs W → partitions (delete j (<[i := Fi ∪ Fj]> Fs)) W.
Proof.
  intros Hij Hi Hj [HU Hpd].
  assert (Hlen : (i < length Fs)%nat) by (by eapply lookup_lt_Some).
  assert (Hnew : ∀ k G,
    delete j (<[i := Fi ∪ Fj]> Fs) !! k = Some G →
    ∃ k', k' ≠ j ∧ k' = (if decide (k < j)%nat then k else S k) ∧
          ((k' = i ∧ G = Fi ∪ Fj) ∨ (k' ≠ i ∧ Fs !! k' = Some G))).
  { intros k G Hk. rewrite list_lookup_delete in Hk.
    eexists. split; [|split; [reflexivity|]].
    - case_decide; lia.
    - rewrite list_lookup_insert in Hk. case_decide as Hd.
      + left. destruct Hd as [<- _]. by simplify_eq.
      + right. split; [|done]. intros <-. apply Hd. done. }
  split.
  - rewrite <- HU. apply set_eq. intros x. rewrite !elem_of_union_list. split.
    + intros (G & [k Hk]%list_elem_of_lookup_1 & Hx).
      apply Hnew in Hk as (k' & _ & _ & [[_ ->]|[_ Hk']]).
      * apply elem_of_union in Hx as [Hx|Hx].
        -- exists Fi. split; [by eapply list_elem_of_lookup_2|done].
        -- exists Fj. split; [by eapply list_elem_of_lookup_2|done].
      * exists G. split; [by eapply list_elem_of_lookup_2|done].
    + intros (G & [k Hk]%list_elem_of_lookup_1 & Hx).
      destruct (decide (k = j)) as [->|Hkj].
      * destruct (lookup_merged Fs i j (Fi ∪ Fj) i) as [k' Hk']; [done..|].
        rewrite decide_True in Hk' by done.
        exists (Fi ∪ Fj). split; [by eapply list_elem_of_lookup_2|].
        simplify_eq. set_solver + Hx.
      * destruct (lookup_merged Fs i j (Fi ∪ Fj) k) as [k' Hk']; [done..|].
        destruct (decide (k = i)) as [->|Hki].
        -- exists (Fi ∪ Fj). split; [by eapply list_elem_of_lookup_2|].
           simplify_eq. set_solver + Hx.
        -- exists G. split; [|done].
           eapply list_elem_of_lookup_2. by rewrite Hk'.
  - intros k l G H Hkl Hk Hl.
    apply Hnew in Hk as (k' & Hk'j & Ek & Hk).
    apply Hnew in Hl as (l' & Hl'j & El & Hl).
    assert (k' ≠ l') by (subst k' l'; repeat case_decide; lia).
    destruct Hk as [[-> ->]|[Hki Hk]], Hl as [[-> ->]|[Hli Hl]]; [done| | |].
    + assert (Hd1 : Fi ## H) by (by apply (Hpd i l')).
      assert (Hd2 : Fj ## H) by (by apply (Hpd j l')). by apply disjoint_union_l.
    + assert (Hd1 : G ## Fi) by (by apply (Hpd k' i)).
      assert (Hd2 : G ## Fj) by (by apply (Hpd k' j)). by apply disjoint_union_r.
    + by apply (Hpd k' l').
Qed.

(** ** A split partitions the filter of the queue *)

Lemma splitFilter_union F isolate : ⋃ (splitFilter F isolate) = F.
Proof.
  revert F. induction isolate as [|D isolate IH]; intros F; simpl.
  - apply (right_id_L ∅ (∪)).
  - rewrite IH. apply set_eq. intros x.
    rewrite elem_of_union, elem_of_intersection, elem_of_difference.
    destruct (decide (x ∈ D)); tauto.
Qed.

Lemma splitFilter_disjoint F isolate : pairwiseDisjoint (splitFilter F isolate).
Proof.
  revert F. induction isolate as [|D isolate IH]; intros F; simpl.
  - apply pairwiseDisjoint_cons. split; [by intros G ?%elem_of_nil|].
    apply pairwiseDisjoint_nil.
  - apply pairwiseDisjoint_cons. split; [|apply IH].
    intros G HG.
    assert (Hsub : G ⊆ F ∖ D).
    { intros x Hx. rewrite <- (splitFilter_union (F ∖ D) isolate).
      apply elem_of_union_list. eauto. }
    apply elem_of_disjoint. intros x [_ HxD]%elem_of_intersection HxG.
    apply Hsub in HxG. by apply elem_of_difference in HxG as [_ HnD].
Qed.

Lemma splitFilter_length F isolate :
  length (splitFilter F isolate) = S (length isolate).
Proof. revert F. induction isolate as [|D isolate IH]; intros F; simpl; [done|]. by rewrite IH. Qed.

Lemma split_filters q isolate :
  domainFilter <$> split q isolate = splitFilter (domainFilter q) isolate.
Proof.
  unfold split. generalize (splitFilter (domainFilter q) isolate). intros Fs.
  induction Fs as [|F Fs IH]; [done|]. rewrite !fmap_cons. simpl. by f_equal.
Qed.

Lemma split_levels q isolate q' :
  q' ∈ split q isolate → ackLevel q' = ackLevel q ∧ maxLevel q' = maxLevel q.
Proof.
  unfold split. intros (F & -> & _)%list_elem_of_fmap. done.
Qed.

Lemma split_partitions q isolate :
  partitions (domainFilter <$> split q isolate) (domainFilter q).
Proof.
  rewrite split_filters. split; [apply splitFilter_union|apply splitFilter_disjoint].
Qed.

(** ** Merging undoes a split *)

Lemma merge_is_Some q1 q2 : is_Some (merge q1 q2) ↔ ackLevel q1 = ackLevel q2.
Proof.
  unfold merge. case_bool_decide; split; try done.
Qed.

Lemma merge_halves (a m : Z) F D :
  merge {| ackLevel := a; maxLevel := m; domainFilter := F ∩ D |}
        {| ackLevel := a; maxLevel := m; domainFilter := F ∖ D |}
  = Some {| ackLevel := a; maxLevel := m; domainFilter := F |}.
Proof.
  unfold merge. simpl. rewrite bool_decide_eq_true_2 by done.
  rewrite Z.max_id. do 2 f_equal. apply set_eq. intros x.
  rewrite elem_of_union, elem_of_intersection, elem_of_difference.
  destruct (decide (x ∈ D)); tauto.
Qed.

Lemma split_cons q D isolate :
  split q (D :: isolate) =
  {| ackLevel := ackLevel q; maxLevel := maxLevel q;
     domainFilter := domainFilter q ∩ D |} ::
  split {| ackLevel := ackLevel q; maxLevel := maxLevel q;
           domainFilter := domainFilter q ∖ D |} isolate.
Proof. reflexivity. Qed.

Lemma mergeAll_cons_cons q1 q2 qs :
  mergeAll (q1 :: q2 :: qs) = mergeAll (q2 :: qs) ≫= merge q1.
Proof. reflexivity. Qed.

Lemma mergeAll_split q isolate : mergeAll (split q isolate) = Some q.
Proof.
  revert q. induction isolate as [|D isolate IH]; intros q.
  - by destruct q.
  - rewrite split_cons.
    set (rest := {| ackLevel := ackLevel q; maxLevel := maxLevel q;
                    domainFilter := domainFilter q ∖ D |}).
    specialize (IH rest).
    destruct (split rest isolate) as [|q2 qs] eqn:E.
    { apply (f_equal length) in E. unfold split in E.
      rewrite length_fmap, splitFilter_length in E. done. }
    rewrite mergeAll_cons_cons, IH. simpl. destruct q. apply merge_halves.
Qed.

Lemma split_merge q1 q2 qm :
  merge q1 q2 = Some qm → domainFilter q1 ## domainFilter q2 →
  domainFilter <$> split qm [domainFilter q1] = [domainFilter q1; domainFilter q2] ∧
  Forall (λ q, ackLevel q = ackLevel q1 ∧ ackLevel q = ackLevel q2)
         (split qm [domainFilter q1]).
Proof.
  unfold merge. case_bool_decide as Hack; [|done]. intros [= <-] Hdisj.
  split.
  - unfold split. simpl. f_equal; [|f_equal].
    + apply set_eq. intros x. rewrite elem_of_intersection, elem_of_union. tauto.
    + apply set_eq. intros x. rewrite elem_of_difference, elem_of_union.
      rewrite elem_of_disjoint in Hdisj. specialize (Hdisj x). tauto.
  - unfold split. simpl. repeat constructor; simpl; congruence.
Qed.

(** ** The live queues keep partitioning the universal set *)

Lemma stepQueues_partitions qs op W :
  partitions (domainFilter <$> qs) W →
  partitions (domainFilter <$> stepQueues qs op) W.
Proof.
  intros Hp. destruct op as [i isolate|i j|i level]; simpl.
  - destruct (qs !! i) as [q|] eqn:Hi; [|done].
    rewrite !fmap_app, fmap_take, fmap_drop.
    apply partitions_replace with (F := domainFilter q).
    + rewrite take_drop_middle; [done|]. by rewrite list_lookup_fmap, Hi.
    + apply split_partitions.
  - destruct (qs !! i) as [q1|] eqn:Hi; [|done].
    destruct (qs !! j) as [q2|] eqn:Hj; [|done].
    case_bool_decide as Hij; [done|].
    destruct (merge q1 q2) as [q|] eqn:Hm; [|done].
    rewrite list_fmap_delete, list_fmap_insert.
    unfold merge in Hm. case_bool_decide; [|done]. injection Hm as <-. simpl.
    apply partitions_merge; [done| | |done].
    + by rewrite list_lookup_fmap, Hi.
    + by rewrite list_lookup_fmap, Hj.
  - destruct (qs !! i) as [q|] eqn:Hi; [|done].
    rewrite list_fmap_insert. simpl.
    rewrite list_insert_id; [done|]. by rewrite list_lookup_fmap, Hi.
Qed.

Lemma runQueues_partitions ops qs W :
  partitions (domainFilter <$> qs) W →
  partitions (domainFilter <$> runQueues ops qs) W.
Proof.
  revert qs. induction ops as [|op ops IH]; intros qs Hp; simpl; [done|].
  by apply IH, stepQueues_partitions.
Qed.

Lemma initialQueues_partitions ack max :
  partitions (domainFilter <$> initialQueues ack max) ⊤.
Proof.
  split; simpl.
  - apply (right_id_L ∅ (∪)).
  - apply pairwiseDisjoint_cons. split; [by intros G ?%elem_of_nil|].
    apply pairwiseDisjoint_nil.
Qed.

Lemma stepQueues_merge qs (i j : nat) q1 q2 :
  i ≠ j → qs !! i = Some q1 → qs !! j = Some q2 →
  (ackLevel q1 = ackLevel q2 ∧
   ∃ q, merge q1 q2 = Some q ∧
        stepQueues qs (OpMerge i j) = delete j (<[i := q]> qs) ∧
        length (stepQueues qs (OpMerge i j)) = pred (length qs)) ∨
  (ackLevel q1 ≠ ackLevel q2 ∧ stepQueues qs (OpMerge i j) = qs).
Proof.
  intros Hij Hi Hj. simpl. rewrite Hi, Hj.
  rewrite bool_decide_eq_false_2 by done.
  unfold merge. case_bool_decide as Hack; [left|right; done].
  split; [done|]. eexists. split; [reflexivity|]. split; [reflexivity|].
  rewrite length_delete; [rewrite length_insert; lia|].
  rewrite list_lookup_insert_ne by done. by eexists.
Qed.

(** C3.  Splitting a queue with filter F yields queues (two or more when at
    least one domain set is isolated) whose filters are pairwise disjoint
    and have union F.  The live queues of a shard, category and role,
    starting from the one queue with the universal filter, partition the
    universal domain set after any sequence of splits, merges and ack
    level advances.  Merging the queues of a split gives back the queue
    that was split, and splitting a merged queue along the first filter
    gives back the two filters; two queues merge exactly when their ack
    levels are equal, and a merge step of the live queues then replaces the
    two by the merged queue and otherwise changes nothing. *)
Theorem split_partitions_merge_inverts
    (q : ProcessingQueueState) (isolate : list (coGset string)) :
  (⋃ (domainFilter <$> split q isolate) = domainFilter q ∧
   pairwiseDisjoint (domainFilter <$> split q isolate) ∧
   length (split q isolate) = S (length isolate)) ∧
  (∀ ack max ops,
     ⋃ (domainFilter <$> runQueues ops (initialQueues ack max)) = ⊤ ∧
     pairwiseDisjoint (domainFilter <$> runQueues ops (initialQueues ack max))) ∧
  (mergeAll (split q isolate) = Some q ∧
   (∀ D, ∃ q1 q2, split q [D] = [q1; q2] ∧ merge q1 q2 = Some q) ∧
   (∀ q1 q2 qm,
      merge q1 q2 = Some qm → domainFilter q1 ## domainFilter q2 →
      domainFilter <$> split qm [domainFilter q1] = [domainFilter q1; domainFilter q2])) ∧
  (∀ q1 q2, is_Some (merge q1 q2) ↔ ackLevel q1 = ackLevel q2) ∧
  (∀ qs (i j : nat) q1 q2,
     i ≠ j → qs !! i = Some q1 → qs !! j = Some q2 →
     (ackLevel q1 = ackLevel q2 ∧
      ∃ qm, merge q1 q2 = Some qm ∧
            stepQueues qs (OpMerge i j) = delete j (<[i := qm]> qs) ∧
            length (stepQueues qs (OpMerge i j)) = pred (length qs)) ∨
     (ackLevel q1 ≠ ackLevel q2 ∧ stepQueues qs (OpMerge i j) = qs)).
Proof.
  split_and!.
  - apply split_partitions.
  - apply split_partitions.
  - unfold split. by rewrite length_fmap, splitFilter_length.
  - intros ack max ops.
    apply (runQueues_partitions ops _ ⊤), initialQueues_partitions.
  - apply mergeAll_split.
  - intros D. destruct q as [a m F]. eexists _, _. split; [reflexivity|].
    apply merge_halves.
  - intros q1 q2 qm Hm Hd. by apply (split_merge q1 q2 qm).
  - apply merge_is_Some.
  - apply stepQueues_merge.
Qed.

End SplitFacts.

(* ===================================================================== *)
(** * Properties of the scheduler's retries and of the dead-letter queue *)
(* ===================================================================== *)

Section SchedulerFacts.
Import engine scheduler.

(** Three retries without jitter: the delays are 10, 20 and the cap 20;
    with too little fuel there is no result. *)
Example sample_retries :
  retries <$> process 4 samplePolicy (alwaysRetryable "busy") (λ _, 0) sampleItem
    = Some [(1, 10); (2, 20); (3, 20)] ∧
  process 3 samplePolicy (alwaysRetryable "busy") (λ _, 0) sampleItem = None.
Proof. split; vm_compute; reflexivity. Qed.

(** With jitter the first retry waits 13; the others are cut at the cap. *)
Example sample_jittered_retries :
  retries <$> process 4 samplePolicy (alwaysRetryable "busy") sampleDraws sampleItem
    = Some [(1, 13); (2, 20); (3, 20)] ∧
  jitter samplePolicy 25 1 = 4 ∧ jitter samplePolicy (-1) 0 = 10.
Proof. repeat split; vm_compute; reflexivity. Qed.

(** A task that succeeds at its second execution is retried once and not
    reported failed. *)
Example sample_recovers :
  process 4 samplePolicy
    (λ t, if bool_decide (attempt t = 0) then ExecPanic "nil map" else ExecSuccess)
    (λ _, 0) sampleItem
  = Some [ Executed sampleItem; Resubmitted (nextAttempt sampleItem) 10;
           Executed (nextAttempt sampleItem);
           ReportedCompleted (nextAttempt sampleItem) ].
Proof. vm_compute. reflexivity. Qed.

(** ** Backoff *)








(** ** The retry loop on an execution that always fails retryably *)

Lemma nextAttempt_attempt item :
  attempt (itemTask (nextAttempt item)) = attempt (itemTask item) + 1.
Proof. done. Qed.



(** Enough fuel always gives a result: the loop ends after at most
    [maxAttempts + 1] executions, whatever the execution does. *)
Lemma process_terminates p exec draw (n : nat) :
  ∀ (fuel : nat) item,
    maxAttempts p - Z.of_nat n ≤ attempt (itemTask item) →
    (n < fuel)%nat →
    is_Some (process fuel p exec draw item).
Proof.
  induction n as [|n IH]; intros fuel item Hatt Hfuel.
  - destruct fuel as [|fuel]; [lia|]. simpl. unfold failed.
    destruct (exec (itemTask item)); try done;
      rewrite bool_decide_eq_true_2 by lia; done.
  - destruct fuel as [|fuel]; [lia|]. simpl. unfold failed.
    assert (Hnext : is_Some (process fuel p exec draw (nextAttempt item))).
    { apply IH; [rewrite nextAttempt_attempt; lia|lia]. }
    destruct Hnext as [evs Hevs].
    destruct (exec (itemTask item)); try done;
      case_bool_decide; try done; rewrite Hevs; done.
Qed.

(** ** The dead-letter queue *)












(** An entry of task 42 of another shard neither hides the failed task 42
    of shard 7 nor stands for it: a reader sees both, each once. *)
Example foreign_entry_does_not_hide :
  (e ← process 4 samplePolicy (alwaysRetryable "busy") sampleDraws sampleItem;
   Some ((λ e, (shardID (entryTask e), taskID (entryTask e), attempt (entryTask e),
                failureReason e))
           <$> Read CategoryTransfer (routeToDLQ 2 1000 e [foreignEntry])))
  = Some [(8, 42, 5, "poison"); (7, 42, 3, "busy")].
Proof. vm_compute. reflexivity. Qed.



End SchedulerFacts.
(* ===================================================================== *)
(** * Properties of shard fencing *)
(* ===================================================================== *)

Section ShardFacts.
Import shard.

Implicit Types st : gmap Z ShardInfo.
Implicit Types m : gmap (string * Z) ShardInfo.

(** Hosts A and B race for shard 7, stored with rangeID 10: A wins with
    rangeID 11 and B's write-back is rejected; A persists levels; B reads
    again and acquires with rangeID 12; the next write of A is rejected. *)
Example sample_interleaving :
  (let '(sys, results) :=
     runSystem [StepRead "A" 7; StepRead "B" 7; StepWriteBack "A" 7; StepWriteBack "B" 7;
                StepPersistLevels "A" 7 engine.CategoryTimer 5 9;
                StepRead "B" 7; StepWriteBack "B" 7;
                StepPersistLevels "A" 7 engine.CategoryTimer 6 9]
       (initialSystem {[ 7 := sampleShard 7 "old" 10 ]}) in
   (results, (λ info, (owner info, rangeID info)) <$> store sys !! 7))
  = ([Done; Done; Done; Conflict; Done; Done; Done; Conflict], Some ("B", 12)).
Proof. vm_compute. reflexivity. Qed.

(** ** The conditional write *)

Lemma UpdateShardInfo_written info expected st cur :
  st !! shardID info = Some cur → rangeID cur = expected →
  UpdateShardInfo info expected st = (<[shardID info := info]> st, Written).
Proof.
  intros Hcur Hr. unfold UpdateShardInfo. rewrite Hcur.
  by rewrite bool_decide_eq_true_2.
Qed.

Lemma UpdateShardInfo_stale info expected st cur :
  st !! shardID info = Some cur → rangeID cur ≠ expected →
  UpdateShardInfo info expected st = (st, RejectedStaleRangeID).
Proof.
  intros Hcur Hr. unfold UpdateShardInfo. rewrite Hcur.
  by rewrite bool_decide_eq_false_2.
Qed.

Lemma UpdateShardInfo_inv info expected st st' :
  UpdateShardInfo info expected st = (st', Written) →
  ∃ cur, st !! shardID info = Some cur ∧ rangeID cur = expected ∧
         st' = <[shardID info := info]> st.
Proof.
  unfold UpdateShardInfo. destruct (st !! shardID info) as [cur|]; [|done].
  case_bool_decide; [|done]. intros [= <-]. eauto.
Qed.

(** ** What the steps preserve *)

Lemma storeKeyed_insert st info :
  storeKeyed st → storeKeyed (<[shardID info := info]> st).
Proof. intros Hk. by apply map_Forall_insert_2. Qed.

Lemma bounded_store m st sid cur new :
  bounded m st → st !! sid = Some cur → rangeID cur ≤ rangeID new →
  bounded m (<[sid := new]> st).
Proof.
  intros Hb Hcur Hle host sid' info Hl.
  destruct (Hb host sid' info Hl) as (Hid & cur' & Hcur' & Hle').
  split; [done|]. destruct (decide (sid = sid')) as [<-|Hne].
  - exists new. rewrite lookup_insert_eq. split; [done|]. simplify_eq. lia.
  - exists cur'. by rewrite lookup_insert_ne.
Qed.

Lemma bounded_insert m st host sid info cur :
  bounded m st → shardID info = sid → st !! sid = Some cur →
  rangeID info ≤ rangeID cur → bounded (<[(host, sid) := info]> m) st.
Proof.
  intros Hb Hid Hcur Hle host' sid' info' Hl.
  destruct (decide ((host, sid) = (host', sid'))) as [[= <- <-]|Hne].
  - rewrite lookup_insert_eq in Hl. simplify_eq. eauto.
  - rewrite lookup_insert_ne in Hl by done. by apply (Hb host').
Qed.

Lemma bounded_delete m st k : bounded m st → bounded (delete k m) st.
Proof.
  intros Hb host sid info Hl. apply lookup_delete_Some in Hl as [_ Hl].
  by apply (Hb host).
Qed.

Lemma uniqueTokens_delete m k : uniqueTokens m → uniqueTokens (delete k m).
Proof.
  intros Hu h1 h2 sid i1 i2 H1 H2.
  apply lookup_delete_Some in H1 as [_ H1].
  apply lookup_delete_Some in H2 as [_ H2]. by apply (Hu h1 h2 sid).
Qed.

(** A record with a rangeID no other holder of the shard has may be
    entered. *)
Lemma uniqueTokens_insert m host sid info :
  uniqueTokens m →
  (∀ host' info', host' ≠ host → m !! (host', sid) = Some info' →
     rangeID info' ≠ rangeID info) →
  uniqueTokens (<[(host, sid) := info]> m).
Proof.
  intros Hu Hfresh h1 h2 sid' i1 i2 H1 H2 Hr.
  destruct (decide (h1 = h2)) as [|Hne]; [done|]. exfalso.
  destruct (decide ((host, sid) = (h1, sid'))) as [[= <- <-]|Hne1].
  - rewrite lookup_insert_eq in H1. rewrite lookup_insert_ne in H2 by congruence.
    simplify_eq. by apply (Hfresh h2 i2).
  - rewrite lookup_insert_ne in H1 by done.
    destruct (decide ((host, sid) = (h2, sid'))) as [[= <- <-]|Hne2].
    + rewrite lookup_insert_eq in H2. simplify_eq. by apply (Hfresh h1 i1).
    + rewrite lookup_insert_ne in H2 by done. apply Hne. by apply (Hu h1 h2 sid' i1 i2).
Qed.

Lemma initialSystem_fenced st : storeKeyed st → fenced (initialSystem st).
Proof.
  intros Hk. split_and!; [done| | |].
  - intros host sid info Hl. simpl in Hl. by rewrite lookup_empty in Hl.
  - intros host sid info Hl. simpl in Hl. by rewrite lookup_empty in Hl.
  - intros h1 h2 sid i1 i2 Hl. simpl in Hl. by rewrite lookup_empty in Hl.
Qed.

Lemma stepSystem_fenced sys step :
  fenced sys → fenced (stepSystem sys step).1.
Proof.
  intros (Hk & Hr & Ho & Hu).
  destruct step as [host sid|host sid|host sid c ack max|host sid]; simpl.
  - (* read *)
    unfold GetShardInfo. destruct (store sys !! sid) as [info|] eqn:Hs; simpl;
      [|by split_and!].
    split_and!; [done| |done|done].
    apply (bounded_insert _ _ _ _ _ info); [done| |done|lia].
    by apply (Hk sid info).
  - (* write-back of an acquisition *)
    destruct (reads sys !! (host, sid)) as [info|] eqn:Hread; simpl; [|by split_and!].
    destruct (Hr host sid info Hread) as (Hid & cur & Hcur & Hle).
    destruct (UpdateShardInfo (claim host info) (rangeID info) (store sys))
      as [store' res] eqn:Hw.
    destruct res; simpl;
      [|split_and!; [done|by apply bounded_delete|done|done]..].
    apply UpdateShardInfo_inv in Hw as (cur' & Hcur' & Heq & ->).
    simpl in Hcur'. rewrite Hid, Hcur in Hcur'. injection Hcur' as <-.
    simpl. rewrite Hid.
    split_and!.
    + rewrite <- Hid at 1. by apply (storeKeyed_insert _ (claim host info)).
    + apply bounded_delete.
      apply (bounded_store _ _ _ cur); [done|done|simpl; lia].
    + apply (bounded_insert _ _ _ _ _ (claim host info)).
      * apply (bounded_store _ _ _ cur); [done|done|simpl; lia].
      * done.
      * simpl. by rewrite lookup_insert_eq.
      * lia.
    + apply uniqueTokens_insert; [done|].
      intros host' info' _ Hl. simpl.
      destruct (Ho host' sid info' Hl) as (_ & cur'' & Hcur'' & Hle'').
      rewrite Hcur in Hcur''. injection Hcur'' as <-. lia.
  - (* an owner persists levels *)
    destruct (owned sys !! (host, sid)) as [info|] eqn:Hown; simpl; [|by split_and!].
    destruct (Ho host sid info Hown) as (Hid & cur & Hcur & Hle).
    destruct (UpdateShardInfo (withLevels c ack max info) (rangeID info) (store sys))
      as [store' res] eqn:Hw.
    destruct res; simpl; [|by split_and!..].
    apply UpdateShardInfo_inv in Hw as (cur' & Hcur' & Heq & ->).
    simpl in Hcur'. rewrite Hid, Hcur in Hcur'. injection Hcur' as <-.
    simpl. rewrite Hid.
    split_and!.
    + rewrite <- Hid at 1. by apply (storeKeyed_insert _ (withLevels c ack max info)).
    + apply (bounded_store _ _ _ cur); [done|done|simpl; lia].
    + apply (bounded_insert _ _ _ _ _ (withLevels c ack max info)).
      * apply (bounded_store _ _ _ cur); [done|done|simpl; lia].
      * done.
      * simpl. by rewrite lookup_insert_eq.
      * lia.
    + apply uniqueTokens_insert; [done|].
      intros host' info' Hne Hl Hr'. simpl in Hr'. apply Hne.
      by apply (Hu host' host sid info' info).
  - (* release *)
    destruct (owned sys !! (host, sid)) as [info|] eqn:Hown; simpl; [|by split_and!].
    split_and!; [done|done|by apply bounded_delete|by apply uniqueTokens_delete].
Qed.

Lemma runSystem_cons step steps sys :
  (runSystem (step :: steps) sys).1 = (runSystem steps (stepSystem sys step).1).1 ∧
  (runSystem (step :: steps) sys).2 =
    (stepSystem sys step).2 :: (runSystem steps (stepSystem sys step).1).2.
Proof.
  simpl. destruct (stepSystem sys step) as [sys' r]. simpl.
  by destruct (runSystem steps sys') as [sys'' rs].
Qed.

Lemma runSystem_fenced steps sys : fenced sys → fenced (runSystem steps sys).1.
Proof.
  revert sys. induction steps as [|step steps IH]; intros sys Hf; [done|].
  destruct (runSystem_cons step steps sys) as [-> _].
  by apply IH, stepSystem_fenced.
Qed.

(** ** Fencing *)

(** The write-back of an acquisition whose read is stale is rejected, and
    neither the store nor any ownership changes. *)
Lemma writeBack_stale sys host sid info cur :
  reads sys !! (host, sid) = Some info → shardID info = sid →
  store sys !! sid = Some cur → rangeID info ≠ rangeID cur →
  (stepSystem sys (StepWriteBack host sid)).2 = Conflict ∧
  store (stepSystem sys (StepWriteBack host sid)).1 = store sys ∧
  owned (stepSystem sys (StepWriteBack host sid)).1 = owned sys.
Proof.
  intros Hread Hid Hcur Hne. simpl. rewrite Hread.
  rewrite (UpdateShardInfo_stale _ _ _ cur); [done| |congruence].
  simpl. by rewrite Hid.
Qed.

(** A write-back that succeeds had read the stored rangeID and stores the
    next one, with the host as owner. *)
Lemma writeBack_done sys host sid sys' :
  fenced sys →
  stepSystem sys (StepWriteBack host sid) = (sys', Done) →
  ∃ info cur,
    reads sys !! (host, sid) = Some info ∧ store sys !! sid = Some cur ∧
    rangeID info = rangeID cur ∧
    store sys' = <[sid := claim host info]> (store sys) ∧
    owned sys' = <[(host, sid) := claim host info]> (owned sys) ∧
    reads sys' = delete (host, sid) (reads sys).
Proof.
  intros (Hk & Hr & Ho & Hu). simpl.
  destruct (reads sys !! (host, sid)) as [info|] eqn:Hread; [|done].
  destruct (Hr host sid info Hread) as (Hid & cur & Hcur & Hle).
  destruct (UpdateShardInfo (claim host info) (rangeID info) (store sys))
    as [store' res] eqn:Hw.
  destruct res; [|done..]. intros [= <-].
  apply UpdateShardInfo_inv in Hw as (cur' & Hcur' & Heq & ->).
  simpl in Hcur', Heq. rewrite Hid, Hcur in Hcur'. injection Hcur' as <-.
  simpl. rewrite Hid. exists info, cur. by split_and!.
Qed.

(** Once a host has acquired a shard, no other host gets a write through
    with what it holds or has read: its token is an older one. *)
Lemma fenced_off sys host sid sys' host' :
  fenced sys →
  stepSystem sys (StepWriteBack host sid) = (sys', Done) →
  host' ≠ host →
  (∀ c ack max, (stepSystem sys' (StepPersistLevels host' sid c ack max)).2 ≠ Done) ∧
  (stepSystem sys' (StepWriteBack host' sid)).2 ≠ Done.
Proof.
  intros Hf Hstep Hne. pose proof Hf as (Hk & Hr & Ho & Hu).
  destruct (writeBack_done sys host sid sys' Hf Hstep)
    as (info & cur & Hread & Hcur & Heq & Hst & Hown & Hrd).
  destruct (Hr host sid info Hread) as (Hid & _).
  split.
  - intros c ack max. simpl. rewrite Hown, Hst.
    rewrite lookup_insert_ne by congruence.
    destruct (owned sys !! (host', sid)) as [info'|] eqn:Hown'; [|done].
    destruct (Ho host' sid info' Hown') as (Hid' & cur' & Hcur' & Hle').
    rewrite (UpdateShardInfo_stale _ _ _ (claim host info)); [done| |].
    + simpl. rewrite Hid'. by rewrite lookup_insert_eq.
    + simpl. rewrite Hcur in Hcur'. injection Hcur' as <-. lia.
  - simpl. rewrite Hrd, Hst. rewrite lookup_delete_ne by congruence.
    destruct (reads sys !! (host', sid)) as [info'|] eqn:Hread'; [|done].
    destruct (Hr host' sid info' Hread') as (Hid' & cur' & Hcur' & Hle').
    rewrite (UpdateShardInfo_stale _ _ _ (claim host info)); [done| |].
    + simpl. rewrite Hid'. by rewrite lookup_insert_eq.
    + simpl. rewrite Hcur in Hcur'. injection Hcur' as <-. lia.
Qed.

Lemma runSystem_step step steps sys sys' r sys'' rs :
  stepSystem sys step = (sys', r) → runSystem steps sys' = (sys'', rs) →
  runSystem (step :: steps) sys = (sys'', r :: rs).
Proof. intros H1 H2. simpl. by rewrite H1, H2. Qed.

Lemma read_stored sys host sid info :
  store sys !! sid = Some info →
  stepSystem sys (StepRead host sid) =
    ({| store := store sys; reads := <[(host, sid) := info]> (reads sys);
        owned := owned sys |}, Done).
Proof. intros Hs. simpl. unfold GetShardInfo. by rewrite Hs. Qed.

Lemma writeBack_latest sys host sid info cur :
  reads sys !! (host, sid) = Some info → shardID info = sid →
  store sys !! sid = Some cur → rangeID info = rangeID cur →
  stepSystem sys (StepWriteBack host sid) =
    ({| store := <[sid := claim host info]> (store sys);
        reads := delete (host, sid) (reads sys);
        owned := <[(host, sid) := claim host info]> (owned sys) |}, Done).
Proof.
  intros Hread Hid Hcur Heq. simpl. rewrite Hread.
  rewrite (UpdateShardInfo_written _ _ _ cur); [|by simpl; rewrite Hid|done].
  simpl. by rewrite Hid.
Qed.

Lemma writeBack_conflict sys host sid info cur :
  reads sys !! (host, sid) = Some info → shardID info = sid →
  store sys !! sid = Some cur → rangeID info ≠ rangeID cur →
  stepSystem sys (StepWriteBack host sid) =
    ({| store := store sys; reads := delete (host, sid) (reads sys);
        owned := owned sys |}, Conflict).
Proof.
  intros Hread Hid Hcur Hne. simpl. rewrite Hread.
  rewrite (UpdateShardInfo_stale _ _ _ cur); [done| |congruence].
  simpl. by rewrite Hid.
Qed.

(** Two hosts read the same record and both try to write back. *)
Lemma race st sid info0 (A B : string) :
  storeKeyed st → st !! sid = Some info0 → A ≠ B →
  runSystem [StepRead A sid; StepRead B sid; StepWriteBack A sid; StepWriteBack B sid]
    (initialSystem st)
  = ({| store := <[sid := claim A info0]> st;
        reads := delete (B, sid) (delete (A, sid)
                   (<[(B, sid) := info0]> (<[(A, sid) := info0]> ∅)));
        owned := <[(A, sid) := claim A info0]> ∅ |},
     [Done; Done; Done; Conflict]).
Proof.
  intros Hk Hs Hne.
  assert (Hid : shardID info0 = sid) by (by apply (Hk sid info0)).
  eassert (Hrun : runSystem [StepRead A sid; StepRead B sid; StepWriteBack A sid;
                             StepWriteBack B sid] (initialSystem st) = _).
  { eapply runSystem_step; [by apply read_stored|].
    eapply runSystem_step; [by apply read_stored|].
    eapply runSystem_step.
    { eapply (writeBack_latest _ A sid info0 info0); simpl; [|done|done|done].
      rewrite lookup_insert_ne by congruence. by rewrite lookup_insert_eq. }
    eapply runSystem_step; [|reflexivity].
    eapply (writeBack_conflict _ B sid info0 (claim A info0)); simpl; [|done| |lia].
    - rewrite lookup_delete_ne by congruence. by rewrite lookup_insert_eq.
    - by rewrite lookup_insert_eq. }
  rewrite Hrun. reflexivity.
Qed.

(** [AcquireShard] of one host on a stored shard succeeds. *)
Lemma AcquireShard_alone st sid info0 (A : string) :
  storeKeyed st → st !! sid = Some info0 →
  AcquireShard A sid (initialSystem st) =
    ({| store := <[sid := claim A info0]> st;
        reads := delete (A, sid) (<[(A, sid) := info0]> ∅);
        owned := <[(A, sid) := claim A info0]> ∅ |}, Done).
Proof.
  intros Hk Hs.
  assert (Hid : shardID info0 = sid) by (by apply (Hk sid info0)).
  unfold AcquireShard. rewrite (read_stored _ _ _ info0) by done.
  rewrite (writeBack_latest _ _ _ info0 info0); simpl; [done| |done|done|done].
  by rewrite lookup_insert_eq.
Qed.

(** C4.  However the steps of any number of hosts interleave, no two hosts
    hold a shard under the same rangeID, and no host holds one under a
    rangeID above the stored one.  The write-back of an acquisition that
    read a stale rangeID is rejected and changes neither the store nor any
    ownership.  When two hosts read the same shard record and both try to
    acquire, the first write-back succeeds and the second is rejected.
    After an acquisition with the latest rangeID the stored rangeID is one
    higher, and every conditional write that carries another rangeID, the
    old one in particular, is rejected; in any reachable state, once a host
    has acquired a shard no other host gets a write for it through with
    what it holds or had read. *)
Theorem fencing_one_owner_per_rangeID
    (st : gmap Z ShardInfo) (sid : Z) (info0 : ShardInfo) (A B : string) :
  storeKeyed st → st !! sid = Some info0 → A ≠ B →
  (∀ steps h1 h2 s r,
     holds (runSystem steps (initialSystem st)).1 h1 s r →
     holds (runSystem steps (initialSystem st)).1 h2 s r → h1 = h2) ∧
  (∀ steps h s r,
     holds (runSystem steps (initialSystem st)).1 h s r →
     ∃ cur, store (runSystem steps (initialSystem st)).1 !! s = Some cur ∧
            r ≤ rangeID cur) ∧
  (∀ sys h info cur,
     reads sys !! (h, sid) = Some info → shardID info = sid →
     store sys !! sid = Some cur → rangeID info ≠ rangeID cur →
     (stepSystem sys (StepWriteBack h sid)).2 = Conflict ∧
     store (stepSystem sys (StepWriteBack h sid)).1 = store sys ∧
     owned (stepSystem sys (StepWriteBack h sid)).1 = owned sys) ∧
  ((runSystem [StepRead A sid; StepRead B sid; StepWriteBack A sid; StepWriteBack B sid]
      (initialSystem st)).2 = [Done; Done; Done; Conflict] ∧
   store (runSystem [StepRead A sid; StepRead B sid; StepWriteBack A sid;
                     StepWriteBack B sid] (initialSystem st)).1 !! sid
     = Some (claim A info0) ∧
   (∀ h, holds (runSystem [StepRead A sid; StepRead B sid; StepWriteBack A sid;
                           StepWriteBack B sid] (initialSystem st)).1 h sid
           (rangeID info0 + 1) ↔ h = A)) ∧
  ((AcquireShard A sid (initialSystem st)).2 = Done ∧
   store (AcquireShard A sid (initialSystem st)).1 !! sid = Some (claim A info0) ∧
   rangeID (claim A info0) = rangeID info0 + 1 ∧
   (∀ info' expected,
      shardID info' = sid → expected ≠ rangeID info0 + 1 →
      UpdateShardInfo info' expected (store (AcquireShard A sid (initialSystem st)).1)
        = (store (AcquireShard A sid (initialSystem st)).1, RejectedStaleRangeID))) ∧
  (∀ steps h s sys' h',
     stepSystem (runSystem steps (initialSystem st)).1 (StepWriteBack h s) = (sys', Done) →
     h' ≠ h →
     (∀ c ack max, (stepSystem sys' (StepPersistLevels h' s c ack max)).2 ≠ Done) ∧
     (stepSystem sys' (StepWriteBack h' s)).2 ≠ Done).
Proof.
  intros Hk Hs Hne.
  assert (Hreach : ∀ steps, fenced (runSystem steps (initialSystem st)).1).
  { intros steps. by apply runSystem_fenced, initialSystem_fenced. }
  split_and!.
  - intros steps h1 h2 s r (i1 & H1 & E1) (i2 & H2 & E2).
    destruct (Hreach steps) as (_ & _ & _ & Hu).
    apply (Hu h1 h2 s i1 i2 H1 H2). congruence.
  - intros steps h s r (i & Hi & <-).
    destruct (Hreach steps) as (_ & _ & Ho & _).
    destruct (Ho h s i Hi) as (_ & cur & Hcur & Hle). eauto.
  - intros sys h info cur. apply writeBack_stale.
  - by rewrite (race st sid info0 A B).
  - rewrite (race st sid info0 A B) by done. simpl. by rewrite lookup_insert_eq.
  - intros h. rewrite (race st sid info0 A B) by done. unfold holds. simpl. split.
    + intros (i & Hi & _).
      destruct (decide (h = A)) as [|Hh]; [done|].
      rewrite lookup_insert_ne in Hi by congruence. by rewrite lookup_empty in Hi.
    + intros ->. exists (claim A info0). by rewrite lookup_insert_eq.
  - by rewrite (AcquireShard_alone st sid info0 A).
  - rewrite (AcquireShard_alone st sid info0 A) by done. simpl.
    by rewrite lookup_insert_eq.
  - done.
  - intros info' expected Hid Hexp.
    rewrite (AcquireShard_alone st sid info0 A) by done. simpl.
    apply (UpdateShardInfo_stale _ _ _ (claim A info0)).
    + rewrite Hid. by rewrite lookup_insert_eq.
    + simpl. congruence.
  - intros steps h s sys' h' Hstep Hh.
    by apply (fenced_off _ h s sys' h' (Hreach steps)).
Qed.

Lemma fencing_one_owner_per_rangeID_witness :
  (runSystem [StepRead "host-a" 7; StepRead "host-b" 7; StepWriteBack "host-a" 7;
              StepWriteBack "host-b" 7]
     (initialSystem {[ 7 := sampleShard 7 "host-0" 10 ]})).2
    = [Done; Done; Done; Conflict] ∧
  ∀ info',
    shardID info' = 7 →
    UpdateShardInfo info' 10
      (store (AcquireShard "host-a" 7
                (initialSystem {[ 7 := sampleShard 7 "host-0" 10 ]})).1)
    = (store (AcquireShard "host-a" 7
                (initialSystem {[ 7 := sampleShard 7 "host-0" 10 ]})).1,
       RejectedStaleRangeID).
Proof.
  destruct (fencing_one_owner_per_rangeID {[ 7 := sampleShard 7 "host-0" 10 ]} 7
              (sampleShard 7 "host-0" 10) "host-a" "host-b")
    as (_ & _ & _ & (Hrace & _ & _) & (_ & _ & _ & Hold) & _).
  - intros s info [<- <-]%lookup_singleton_Some. reflexivity.
  - apply lookup_singleton_eq.
  - discriminate.
  - split; [exact Hrace|].
    intros info' Hid. apply (Hold info' 10 Hid). simpl. lia.
Defined.

End ShardFacts.

